(* ===== verification/_CoqProject ===== *)
-Q . S2P
Prelude.v
Js.v
Store.v
Http.v
Vendas.v
Orcamentos.v
Cadastros.v
Estoque.v
OrcamentoForm.v
ClientesPage.v
MaterialPage.v
EstoquePage.v
ClientesPagina.v
OrcamentosPagina.v
LocalPages.v
Navigation.v
Componentes.v
Telas.v
