(* ===== verification/Prelude.v ===== *)
(** * MóveisPlus: a verification development of the route handlers and
      the pages that call them

    ** The program

    MóveisPlus ([src/src]) is a Next.js application.  Its server side is a
    set of route handlers under [src/src/app/api/**/route.ts]; each reads
    a JSON request body, calls the Prisma client on a relational store and
    answers with [NextResponse.json].  Its client side is a set of React
    pages under [src/src/app/*/page.tsx] whose forms call those routes
    with [fetch].  The parts and how they interact:

    - Entity store (Prisma and its schema, not in the repository): tables
      Cliente, Material, Produto, Vendedor, Venda (with VendaItem) and
      Orcamento (with OrcamentoItem and OrcamentoMaterial).  Each Prisma
      call is atomic on its own; a handler that issues several is not.
    - Resource handlers: GET/POST on [/api/<entity>], GET/PUT/DELETE on
      [/api/<entity>/[id]], each body wrapped in a try/catch answering 500.
    - Sale reconciliation ([api/vendas]): POST computes the total with
      [reduce], creates the sale with its items, then decrements each
      product's stock with [Promise.all]; PUT sets the status; DELETE
      increments the stock back, then deletes the sale.
    - Quote reconciliation ([api/orcamentos]): POST creates a quote with
      its nested items and material lines; PUT deletes the quote's rows
      with two [deleteMany] calls, then updates it with the new ones.
    - Presentation layer: the stock page (status, cards, filter, bulk
      delete through the table's selection), the quote form (line
      handlers, validation, submit), the quotes page (cards, filter) and
      the clients page (zod form, listing, search, cards, submit), the
      material form with the stock page's submit, the product and seller
      pages (rows in local React state only), the navigation
      components [Sidebar] and [Header] (which no file mounts), the
      dashboard (literal figures) and the shared [Card], [Table] and
      [Form] components the pages render through.

    ** The library, file by file

    - [Prelude] (this file): the state-and-exception monad [st] in which
      every handler is written (effects survive an exception, as awaited
      Prisma calls do), [try]/[catch], [Promise.all] as [st_all], JS
      [map] as [st_mapM], the sum monad for pure validation, sums [sumZ],
      a filter lemma on lists, the rules of [st_keeps] (an invariant kept
      by a computation whether it answers or throws, with a postcondition
      on its answers),
      the [moveis] hint databases and the tactics [st_inv] and
      [st_pure_subst].
    - [Js]: JavaScript values ([json]), numbers with [NaN] ([num], with
      the setoid [≡] of rationals), [parseInt], [parseFloat], [Number],
      [||] on numbers, [Math.max], comparisons, truthiness, [toLowerCase]
      (on ASCII) and [includes].
    - [Store]: the rows as records (one Module per model), the store [DB]
      (one [gmap] per table, one autoincrement counter [seq] shared by
      the [Int]-keyed tables where PostgreSQL has one sequence per
      table, the [cuid] supply and the clock), a [table] record of getter and setter with
      its laws, Prisma's column checks ([int_of_num] keeps [Int] columns
      at 32 bits) and the atomic [update_row] and [delete_row].
    - [Http]: responses ([status] and body), [request.json()], [handle]
      for the try/catch, [where_int_id] for [parseInt(params.id)].
    - [Vendas]: [api/vendas/route.ts] and [api/vendas/[id]/route.ts]
      (Module [Vendas]: functions [GET], [POST], [GET_id], [PUT],
      [DELETE]) and the lemmas that run them; the schema's choices
      (default status, cascade of items) are a [policy] section
      parameter.  After the module, the file holds the abstract contract
      of a sale ([stock_moved], [sale_recorded], [sale_removed]) that
      POST and DELETE refine; the answered requests as a step relation
      [venda_step] and every request, whatever it answers, as
      [venda_req], with their invariants proved by rule induction; and
      the [Int] columns the handlers write, as the predicate [db_typed],
      kept by every handler through the Hoare-style rules [st_keeps].
    - [Orcamentos]: [api/orcamentos/route.ts] and [[id]/route.ts]; the
      argument JavaScript builds ([orcamento_in]), Prisma's nested
      [create] and [update], the [deleteMany] calls.  [Date.parse] and
      the status default are the [qpolicy] parameter.
    - [Cadastros]: the client, material, product and seller routes, one
      Module each.
    - [Estoque]: [app/estoque/page.tsx] and the selection of
      [components/Table.tsx] (Module [Table], a step function on events).
    - [OrcamentoForm]: [OrcamentoForm.tsx] (Module [Form]),
      [OrcamentoModal.tsx] and [app/orcamentos/page.tsx] (Module [Page]).
    - [ClientesPage]: [ClienteForm.tsx] (Module [Form]: the inputs'
      values and [clienteSchema]) and [app/clientes/page.tsx] (Module
      [Page]: [fetchClientes], [filteredClientes], the cards,
      [handleSubmit], [handleDelete]), with [String(v)] and [join].
    - [MaterialPage]: [MaterialForm.tsx] (Module [Form]: texts,
      [valueAsNumber] numbers and [materialSchema]) and the stock page's
      [handleSubmit] and [handleDelete] (Module [Page]).
    - [EstoquePage]: [app/estoque/page.tsx] as a whole: its hooks, the
      mount fetch and every control's handler, composed from [Estoque]
      and [MaterialPage], as a step relation [passo] on the page and the
      store together.
    - [ClientesPagina]: [app/clientes/page.tsx] as a whole with
      [ClienteModal.tsx]: the hooks, the mount fetch, every control and the
      modal's title; [executar] runs a list of events on the page and the
      store.
    - [OrcamentosPagina]: [app/orcamentos/page.tsx] as a whole with
      [OrcamentoModal.tsx]: the hooks, the mount fetch, the column
      renderers, every control and the render, with the step relation
      [passo] of the events after which the page still renders.
    - [LocalPages]: [app/produtos/page.tsx] and [app/vendedores/page.tsx]
      as one component over the class [Linha] (a row with an [id]): the
      hooks, the handlers, the buttons the render offers ([dispatch]) and
      the reload the modal's native submit causes; the step relation
      [passo] and its reachable states.
    - [Navigation]: [components/Sidebar.tsx] (Module [Sidebar]) and
      [components/Header.tsx] (Module [Header]: the search and its
      handlers), with the step relation [nav_step] on the route and the
      header's state.
    - [Componentes]: the rendered markup.  Module [Dom] is the tree a
      render produces (elements with [className], checkboxes, text), its
      [textContent] and class tokens, and React's rendering of a value in
      JSX ([child]: an object throws); Module [Card] is
      [components/Card.tsx]; Module [TableView] is the render of
      [components/Table.tsx] (header row, one row per element of [data],
      checkboxes, cells with the columns' renderers); Module [Paginas]
      holds the stock page's and the clients page's columns, tables and
      cards; Module [FormTsx] is [components/Form.tsx]
      ([Object.fromEntries] over [FormData]); Module [Dashboard] is
      [app/page.tsx].
    - [Telas]: the markup with its handlers.  Module [V] is a tree that
      keeps each element's [onClick], each button's [disabled], each
      control's [name], value and [onChange], and the elements of the
      components absent from the repository with their props and
      react-hook-form registrations; [clicks], [changes], [names] and
      [registers] read them off.  Module [Navegacao] renders Sidebar and
      Header with the events of [Navigation]; Module [FormOrcamento]
      renders [OrcamentoForm.tsx] whole, its handlers being the line
      edits of [OrcamentoForm.edit], the submit and [onCancel]; Module
      [Cadastro] renders [ClienteForm.tsx] and [MaterialForm.tsx];
      Module [Modais] the three modals; Module [Paginas] the modals as the
      clients, stock and quotes pages pass them their state.

    Each file keeps the definitions that model code in a Module named
    after the file ([Vendas.POST], [ClientesPage.Page.cards]), exported
    at its end; the theorems follow it.

    ** What is proved

    - Sales (C1-C7, C25): POST refines [sale_recorded] (C1) and DELETE
      refines [sale_removed]; the total is the sum of the stored lines for
      integer quantities below [10^21] (C2); create-then-delete is the
      identity (C3); stock plus units sold is conserved along any
      sequence of answered requests (C4, rule induction on
      [venda_step]); the foreign keys of the sales hold after any
      sequence of requests, whatever they answer, exceptions thrown
      half-way included (C5, rule induction on [venda_req]); PUT changes
      only the status (C6); the error answers of the [id] routes (C7:
      404 for a missing sale, 500 for a non-numeric id).  A quantity of
      1e21 or more is stored as one digit (C25).  Outside the claims the
      file shows that every request keeps the [Int] columns within 32
      bits ([vendas_requests_typed]), that GET lists every sale once,
      most recent first, that the fuelled loop of [parseInt] finds its
      digit and keeps it with more fuel, and, as examples, the
      behaviours that break the spec's contract (stock goes negative, a
      fractional quantity makes the total disagree with the lines, a
      restricted DELETE inflates the stock).
    - Quotes (C8-C11): POST stores, in order, exactly the items and
      material lines of the request JSON, touches no stock, and GET by
      id then gives the created quote (C8); PUT leaves exactly the new
      items with fresh ids (C9); a PUT without [itens] answers 500 after
      deleting all items (C10); DELETE's answers (C11).
    - Registers (C12, C13): the client routes by id always fail; partial
      product and seller updates fail or store [NaN].
    - Stock page and table (C14-C17): the table's selection has no
      duplicates and only ids shown (C14); whenever as many hidden
      materials are selected as rows are shown, the header box is
      checked with no row checked, and a click on it clears the whole
      selection (C15); bulk delete reports success and removes exactly
      the unreferenced selected materials, in any order (C16); the whole
      page, composed with the store, always shows what the store holds
      and selects only existing materials (C17, by rule induction on
      [EstoquePage.passo] with the [st_keeps] rules).  Outside the
      claims, [Componentes] shows the table's render agrees with the
      selection model box by box.
    - Quote form and page (C18-C24): every quote the form submits is
      refused by the API (C18); the quotes page is read-only, since
      opening its modal renders a form that throws (C19, by rule
      induction on [OrcamentosPagina.passo]); the form's markup refines
      the abstract render C19 uses, offers exactly the in-range line
      edits, a submit only with lines and nothing submitting, and names
      only three controls (C20); the form shows the total of its lines
      and its buttons' labels (C21); the line handlers keep quantity,
      price and stock bounds (C22); [handleRemoveItem] is list deletion
      (C23, an equivalence with stdpp's [delete]); and [Card]'s render
      for every props (C24): its class tokens pick [error] before
      [loading] while its body picks [loading] before [error].
    - Clients page (C26-C31): editing and deleting show success while the
      store is unchanged (C26); after the mount fetch the table lists
      every client by name with an empty "Última Compra" column and the
      cards read n, 0, n (C27, composing the mount, [Table] and [Card]);
      after an edit, "Novo Cliente" edits the same client again (C28, a
      run of [ClientesPagina.executar]); the schema accepts CPF or CNPJ
      or both (C29); the edit form refuses rows with a [null] column
      (C30); creating from the form stores exactly the form's texts under
      the next id (C31, a refinement from the form through POST to the
      new listing).
    - Material form and route (C32, C33): every body the form sends keeps
      the spec's invariant of a material (type in the enum, quantity,
      price and minimum stock [>= 0]); the route stores, for every store
      and every body of a type of the enum, whatever integer quantity
      and minimum stock and whatever price it is given, negative ones
      included.  [MaterialPage] shows, outside the claims, that a
      fractional quantity passes the form while the route answers 500
      and the page reports success.
    - Product and seller pages (C34): the reachable states show exactly
      the sublists of the hard-coded rows; nothing can be added or
      edited.
    - Outside the claims: [Navigation] and [Telas] show that the events
      [nav_dispatch] accepts are exactly those the rendered Sidebar and
      Header offer, that the menu and the search never lead to
      [/estoque] or [/orcamentos], that at most one menu entry is
      highlighted, and what the search finds; [Componentes] that
      [Form.tsx] hands [onSubmit] an object with each name once and the
      last value of each, and that the dashboard's low-stock figure is a
      literal; [Telas] that [ClienteForm] registers exactly the client
      schema's keys and [MaterialForm] the material schema's, with
      [valueAsNumber] exactly on [MaterialPage.Form.num_keys], and that
      the quotes page's modal markup throws exactly when the page's
      render does.

    ** Bounds and fuel

    Every handler is total ([handle_total]) and every recursion is
    structural but one: [Js.lead_digit_aux], the first significant digit
    of a number [parseInt] reads in exponent notation, runs on fuel: the
    bit sizes of numerator and denominator plus one, enough since each
    step moves the ratio by a factor 10 towards [1, 10) ([lead_digit_fuel];
    [Js.lead_digit_aux_more]: more fuel gives the same digit).  [Int] columns are 32-bit
    ([int_min], [int_max]); quantities in requests stay below [10^21], the
    bound under which [parseInt] of a number is the number itself
    ([num_parse_int_Z]).

    ** Not modelled

    The schema and [src/lib/prisma] (absent from the repository) are
    modelled from the handlers' use and the spec; styling beyond the
    [className] strings, [key] props, icons, [console.error], toasts
    other than the ones named, zod's
    e-mail regex and [Number.prototype.toString] of non-integers (section
    variables of [ClientesPage] and [Componentes]), [toFixed(2)] (a
    parameter), the table cells' [toLocaleString] on the product and
    seller pages, the quotes page's date column
    ([toLocaleDateString]) and the type declarations of
    [types/index.d.ts], which have no runtime behaviour.
    [components/Button], [Modal] and [Input], which the pages import,
    are not in the repository: a button is taken to call its [onClick]
    and a modal to render its children while it is open.  Handlers run
    one at a time, so the [isLoading] flags, [true] only while a handler
    awaits, are not kept: between two events they are [false], and the
    pages' modals are rendered with [isLoading = false].  The pages' own
    markup around their cards, tables and modals (titles, buttons, search
    boxes) is modelled by the events it offers, not as a tree; the
    [value] attributes of [<option>]s are left out.  Concurrent requests are modelled as sequences
    of atomic Prisma calls; numbers are exact rationals, without the
    rounding of doubles; [toLowerCase] is modelled on ASCII letters; a
    listing's [orderBy] on strings is byte order; react-hook-form is
    modelled by the values it records (its [defaultValues] as given,
    [null] included, then the typed text or the [valueAsNumber] number),
    and zod's [object] by its output in schema order. *)

From stdpp Require Export base list gmap strings sorting.
From Stdlib Require Export ZArith QArith Lia.

Declare Scope moveis_scope.
Delimit Scope moveis_scope with mv.

Create HintDb moveis discriminated.
Create Rewrite HintDb moveis_rw.

(** ** The state-and-exception monad

    [st S E A] is a computation over a state [S] that either fails with an
    exception [E] or returns an [A]; in both cases the state it reached is
    kept.  This is how an async TypeScript handler behaves: an awaited
    Prisma call that has committed is not undone when a later statement
    throws. *)

Definition st (S E A : Type) : Type := S → (E + A) * S.

Section st_monad.
Context {S E : Type}.

#[export] Instance st_ret : MRet (st S E) := λ A a s, (inr a, s).

#[export] Instance st_bind : MBind (st S E) := λ A B k m s,
  match m s with
  | (inl e, s') => (inl e, s')
  | (inr a, s') => k a s'
  end.

#[export] Instance st_throw : MThrow E (st S E) := λ A e s, (inl e, s).

(** [try { m } catch (e) { h e }] *)
Definition st_catch {A} (m : st S E A) (h : E → st S E A) : st S E A :=
  λ s, match m s with
       | (inl e, s') => h e s'
       | r => r
       end.

Definition st_gets {A} (f : S → A) : st S E A := λ s, (inr (f s), s).

Definition st_modify (f : S → S) : st S E unit := λ s, (inr tt, f s).

Definition st_lift {A} (r : E + A) : st S E A := λ s, (r, s).

(** [Promise.all(ms)]: every promise of the list was started before the
    first one settles, so the effects of all of them happen; the result
    is the first rejection, or the list of the results. *)
Fixpoint st_all {A} (ms : list (st S E A)) : st S E (list A) :=
  match ms with
  | [] => mret []
  | m :: ms' => λ s,
      match m s with
      | (inl e, s1) => (inl e, snd (st_all ms' s1))
      | (inr a, s1) =>
          match st_all ms' s1 with
          | (inr r, s2) => (inr (a :: r), s2)
          | (inl e, s2) => (inl e, s2)
          end
      end
  end.

(** [l.map(f)] where [f] may throw: the first exception stops the map. *)
Fixpoint st_mapM {A B} (f : A → st S E B) (l : list A) : st S E (list B) :=
  match l with
  | [] => mret []
  | x :: l' => y ← f x; ys ← st_mapM f l'; mret (y :: ys)
  end.

(** *** Running a computation *)

Lemma st_ret_run {A} (a : A) s : (mret a : st S E A) s = (inr a, s).
Proof. reflexivity. Qed.

Lemma st_throw_run {A} (e : E) s : (mthrow e : st S E A) s = (inl e, s).
Proof. reflexivity. Qed.

Lemma st_bind_inr {A B} (m : st S E A) (k : A → st S E B) s a s' :
  m s = (inr a, s') → (m ≫= k) s = k a s'.
Proof. intros H. unfold mbind, st_bind. by rewrite H. Qed.

Lemma st_bind_inl {A B} (m : st S E A) (k : A → st S E B) s e s' :
  m s = (inl e, s') → (m ≫= k) s = (inl e, s').
Proof. intros H. unfold mbind, st_bind. by rewrite H. Qed.

Lemma st_lift_run {A} (r : E + A) s : st_lift r s = (r, s).
Proof. reflexivity. Qed.

Lemma st_catch_inr {A} (m : st S E A) h s a s' :
  m s = (inr a, s') → st_catch m h s = (inr a, s').
Proof. intros H. unfold st_catch. by rewrite H. Qed.

Lemma st_catch_inl {A} (m : st S E A) h s e s' :
  m s = (inl e, s') → st_catch m h s = h e s'.
Proof. intros H. unfold st_catch. by rewrite H. Qed.

(** The final state of [Promise.all] does not depend on which promises
    rejected: it is the effect of all of them in order. *)
Definition st_exec {A} (m : st S E A) (s : S) : S := snd (m s).

Lemma st_all_state {A} (ms : list (st S E A)) s :
  snd (st_all ms s) = foldl (λ s' m, snd (m s')) s ms.
Proof.
  revert s. induction ms as [|m ms IH]; intros s; [done|]. simpl.
  destruct (m s) as [[e|a] s1]; simpl; [done|].
  rewrite <-IH. by destruct (st_all ms s1) as [[e|r] s2].
Qed.

Lemma st_all_cons_inr {A} (m : st S E A) ms s rs s' :
  st_all (m :: ms) s = (inr rs, s') →
  ∃ a s1 r, m s = (inr a, s1) ∧ st_all ms s1 = (inr r, s') ∧ rs = a :: r.
Proof.
  simpl. destruct (m s) as [[e|a] s1]; [intros H; discriminate H|].
  destruct (st_all ms s1) as [[e|r] s2] eqn:Hall; [intros H; discriminate H|].
  intros [= <- <-]. by exists a, s1, r.
Qed.

(** When every promise fulfils, so does [Promise.all]. *)
Lemma st_all_inr {A} (ms : list (st S E A)) s :
  (∀ m s', m ∈ ms → ∃ a, fst (m s') = inr a) →
  ∃ r, fst (st_all ms s) = inr r.
Proof.
  revert s. induction ms as [|m ms IH]; intros s Hall; [by eexists|]. simpl.
  destruct (Hall m s) as [a Ha]; [set_solver|].
  destruct (m s) as [[e|a'] s1]; simplify_eq/=.
  destruct (IH s1) as [r Hr]; [intros; apply Hall; set_solver|].
  destruct (st_all ms s1) as [[e|r'] s2]; simplify_eq/=. by eexists.
Qed.
End st_monad.

 (** ** Computations that do not change the state *)

Definition st_pure {S E A} (m : st S E A) : Prop := ∀ s, snd (m s) = s.

Section st_pure.
Context {S E : Type}.

Lemma st_pure_ret {A} (a : A) : st_pure (mret a : st S E A).
Proof. done. Qed.

Lemma st_pure_throw {A} (e : E) : st_pure (mthrow e : st S E A).
Proof. done. Qed.

Lemma st_pure_lift {A} (r : E + A) : st_pure (st_lift r : st S E A).
Proof. done. Qed.

Lemma st_pure_gets {A} (f : S → A) : st_pure (st_gets f : st S E A).
Proof. done. Qed.

Lemma st_pure_bind {A B} (m : st S E A) (k : A → st S E B) :
  st_pure m → (∀ a, st_pure (k a)) → st_pure (m ≫= k).
Proof.
  intros Hm Hk s. unfold mbind, st_bind. specialize (Hm s).
  destruct (m s) as [[e|a] s']; simpl in *; subst; [done|]. apply Hk.
Qed.

Lemma st_pure_mapM {A B} (f : A → st S E B) l :
  (∀ x, st_pure (f x)) → st_pure (st_mapM f l).
Proof.
  intros Hf. induction l as [|x l IH]; simpl; [apply st_pure_ret|].
  apply st_pure_bind; [done|]. intros b. apply st_pure_bind; [done|]. intros. apply st_pure_ret.
Qed.

Lemma st_pure_run {A} (m : st S E A) s r s' : st_pure m → m s = (r, s') → s' = s.
Proof. intros Hm Hr. specialize (Hm s). by rewrite Hr in Hm. Qed.

End st_pure.

#[export] Hint Resolve st_pure_ret st_pure_throw st_pure_lift st_pure_gets
  st_pure_bind st_pure_mapM : moveis.

(** Invert [(m ≫= k) s = r] one bind at a time: the failing branch is
    discarded when [r] is a success. *)
Ltac st_inv H :=
  repeat match type of H with
  | mbind ?k ?m ?s = _ =>
      let E := fresh "E" in
      let e := fresh "e" in let a := fresh "a" in let s' := fresh "s" in
      destruct (m s) as [[e|a] s'] eqn:E;
      [rewrite (st_bind_inl m k s e s' E) in H; try discriminate H
      |rewrite (st_bind_inr m k s a s' E) in H]
  end.

 (** Replace the final state of every pure step by its initial state. *)
Ltac st_pure_subst :=
  repeat match goal with
  | E : ?m ?s = (_, ?s') |- _ =>
      is_var s'; assert_fails (constr_eq s s');
      let Hp := fresh "Hp" in
      assert (Hp : st_pure m) by (auto 20 with moveis);
      pose proof (st_pure_run m s _ _ Hp E); clear Hp; subst s'
  end.

(** ** Invariants of the store with postconditions

    [st_keeps I m Q]: run from a store satisfying [I], [m] ends in a store
    satisfying [I] whether it returns or throws, and what it returns
    satisfies [Q].  An exception keeps the effects done before it, so [I]
    must hold after every step, not only after a success. *)
Section st_keeps.
Context {S E : Type} (I : S → Prop).

Definition st_keeps {A} (m : st S E A) (Q : A → Prop) : Prop :=
  ∀ s, I s → I (snd (m s)) ∧ ∀ a s', m s = (inr a, s') → Q a.

Lemma st_keeps_ret {A} (a : A) (Q : A → Prop) : Q a → st_keeps (mret a) Q.
Proof. intros Ha s Hs. split; [done|]. by intros ?? [= <- _]. Qed.

Lemma st_keeps_throw {A} (e : E) (Q : A → Prop) : st_keeps (mthrow e) Q.
Proof. intros s Hs. split; [done|]. by intros ?? [=]. Qed.

Lemma st_keeps_pure {A} (m : st S E A) : st_pure m → st_keeps m (λ _, True).
Proof. intros Hm s Hs. by rewrite Hm. Qed.

Lemma st_keeps_weaken {A} (m : st S E A) (Q R : A → Prop) :
  st_keeps m Q → (∀ a, Q a → R a) → st_keeps m R.
Proof. intros Hm HQR s Hs. destruct (Hm s Hs) as [HI HQ]. split; [done|]. eauto. Qed.

Lemma st_keeps_bind {A B} (m : st S E A) (k : A → st S E B) (Q : A → Prop) (R : B → Prop) :
  st_keeps m Q → (∀ a, Q a → st_keeps (k a) R) → st_keeps (m ≫= k) R.
Proof.
  intros Hm Hk s Hs. destruct (Hm s Hs) as [HI HQ]. unfold mbind, st_bind.
  destruct (m s) as [[e|a] s'] eqn:Em; simpl in *; [split; [done|by intros ??]|].
  exact (Hk a (HQ a s' eq_refl) s' HI).
Qed.

Lemma st_keeps_catch {A} (m : st S E A) (h : E → st S E A) (Q : A → Prop) :
  st_keeps m Q → (∀ e, st_keeps (h e) Q) → st_keeps (st_catch m h) Q.
Proof.
  intros Hm Hh s Hs. destruct (Hm s Hs) as [HI HQ]. unfold st_catch.
  destruct (m s) as [[e|a] s'] eqn:Em; simpl in *; [exact (Hh e s' HI)|]. split; [done|].
  intros ?? [= <- _]. eauto.
Qed.

Lemma st_keeps_all {A} (ms : list (st S E A)) (Q : A → Prop) :
  Forall (λ m, st_keeps m Q) ms → st_keeps (st_all ms) (Forall Q).
Proof.
  induction 1 as [|m ms Hm Hms IH]; [by apply st_keeps_ret|]. intros s Hs. simpl.
  destruct (Hm s Hs) as [HI HQ]. destruct (m s) as [[e|a] s1] eqn:Em; simpl in *.
  - split; [|by intros ??]. exact (proj1 (IH s1 HI)).
  - destruct (IH s1 HI) as [HI' HQ']. destruct (st_all ms s1) as [[e|r] s2] eqn:Em'; simpl in *.
    + split; [done|by intros ??].
    + split; [done|]. intros ?? [= <- _]. constructor; eauto.
Qed.

Lemma st_keeps_mapM {A B} (f : A → st S E B) (Q : B → Prop) l :
  (∀ x, st_keeps (f x) Q) → st_keeps (st_mapM f l) (Forall Q).
Proof.
  intros Hf. induction l as [|x l IH]; simpl; [by apply st_keeps_ret|].
  apply (st_keeps_bind _ _ Q); [done|]. intros b Hb.
  apply (st_keeps_bind _ _ (Forall Q)); [done|]. intros bs Hbs. apply st_keeps_ret. by constructor.
Qed.
End st_keeps.

(** One bind of a handler: a pure step, or a Prisma call with its lemma. *)
Ltac keeps_step :=
  first
  [ apply st_keeps_catch; [|intros ?; apply st_keeps_ret; done]
  | eapply st_keeps_bind; [apply st_keeps_pure; solve [auto 20 with moveis]|intros ? _]
  | eapply st_keeps_bind; [solve [eauto with moveis]|intros ? ?]
  | apply st_keeps_ret; done ].

Notation "'try' m 'catch' h" := (st_catch m h)
  (at level 10, m at level 100, h at level 200) : moveis_scope.

#[export] Hint Rewrite @st_ret_run @st_throw_run @st_lift_run : moveis_rw.

(** Unfold one layer of the monad in the goal and in the hypotheses. *)
Ltac st_unfold :=
  unfold mbind, mret, mthrow, st_bind, st_ret, st_throw, st_catch,
    st_gets, st_modify, st_lift, st_exec in *.

(** ** The error monad on [E + A]

    The arguments of one Prisma call are all checked before the call is
    sent; the checks are computations in [E + A]. *)

#[export] Instance sum_ret {E} : MRet (sum E) := λ A a, inr a.
#[export] Instance sum_bind {E} : MBind (sum E) := λ A B k r,
  match r with inl e => inl e | inr a => k a end.

Lemma sum_bind_inr {E A B} (r : E + A) (k : A → E + B) b :
  (r ≫= k) = inr b ↔ ∃ a, r = inr a ∧ k a = inr b.
Proof. destruct r as [e|a]; simpl; [split; [done|]; by intros (?&?&?)|]. naive_solver. Qed.

Lemma sum_mapM_inr {E A B} (f : A → E + B) l k :
  mapM f l = inr k ↔ Forall2 (λ x y, f x = inr y) l k.
Proof.
  revert k. induction l as [|x l IH]; intros k; simpl.
  - split; [by intros [= <-]|]. by intros ->%Forall2_nil_inv_l.
  - rewrite sum_bind_inr. setoid_rewrite sum_bind_inr. split.
    + intros (y & Hy & ys & Hys%IH & [= <-]). by constructor.
    + intros (y & ys & Hy & Hys & ->)%Forall2_cons_inv_l. naive_solver.
Qed.

(** A map whose callback answers without changing the state on every
    element answers. *)
Lemma st_mapM_total {S E A B} (f : A → st S E B) l (s : S) :
  (∀ x, x ∈ l → ∃ b, f x s = (inr b, s)) → ∃ bs, st_mapM f l s = (inr bs, s).
Proof.
  induction l as [|x l IH]; intros Hf; [by eexists|]. simpl.
  destruct (Hf x) as [b Hb]; [set_solver|].
  destruct IH as [bs Hbs]; [intros; apply Hf; set_solver|].
  exists (b :: bs). rewrite (st_bind_inr _ _ _ b s Hb). by rewrite (st_bind_inr _ _ _ bs s Hbs).
Qed.

(** [st_mapM] of checks that do not touch the state is [mapM] on sums. *)
Lemma st_mapM_lift {S E A B} (g : A → E + B) l (s : S) :
  st_mapM (λ x, st_lift (g x)) l s = (mapM g l, s).
Proof.
  revert s. induction l as [|x l IH]; intros s; [done|]. simpl.
  unfold mbind at 1 3, st_bind, st_lift. destruct (g x); [done|].
  unfold mbind at 1, st_bind. rewrite IH. by destruct (mapM g l).
Qed.

(** ** Integer sums over lists

    [reduce((acc, x) => acc + f x, 0)] on integers, and the per-product
    stock movements, are [sumZ]. *)

Definition sumZ {A} (f : A → Z) (l : list A) : Z :=
  foldr (λ x acc, f x + acc)%Z 0%Z l.

Section sumZ.
Context {A : Type}.
Implicit Types (f g : A → Z) (l : list A).

Lemma sumZ_nil f : sumZ f [] = 0%Z.
Proof. done. Qed.

Lemma sumZ_cons f x l : sumZ f (x :: l) = (f x + sumZ f l)%Z.
Proof. done. Qed.

Lemma sumZ_app f l1 l2 : sumZ f (l1 ++ l2) = (sumZ f l1 + sumZ f l2)%Z.
Proof.
  induction l1 as [|x l1 IH]; [done|].
  rewrite <-app_comm_cons, !sumZ_cons, IH. lia.
Qed.

Lemma sumZ_ext f g l : (∀ x, x ∈ l → f x = g x) → sumZ f l = sumZ g l.
Proof.
  induction l as [|x l IH]; intros H; [done|]. rewrite !sumZ_cons.
  rewrite (H x), IH; [done| |]; set_solver.
Qed.

Lemma sumZ_zero f l : (∀ x, x ∈ l → f x = 0%Z) → sumZ f l = 0%Z.
Proof.
  induction l as [|x l IH]; intros H; [done|].
  rewrite sumZ_cons, H, IH; [lia| |]; set_solver.
Qed.

Lemma sumZ_add f g l : sumZ (λ x, f x + g x)%Z l = (sumZ f l + sumZ g l)%Z.
Proof. induction l as [|x l IH]; [done|]. rewrite !sumZ_cons, IH. lia. Qed.

Lemma sumZ_opp f l : sumZ (λ x, - f x)%Z l = (- sumZ f l)%Z.
Proof. induction l as [|x l IH]; [done|]. rewrite !sumZ_cons, IH. lia. Qed.

(** The accumulator form of [reduce] is the sum. *)
Lemma foldl_sumZ f l a :
  foldl (λ acc x, acc + f x)%Z a l = (a + sumZ f l)%Z.
Proof. revert a. induction l as [|x l IH]; intros a; simpl; [lia|]. rewrite IH. lia. Qed.

#[global] Instance sumZ_perm f : Proper ((≡ₚ) ==> (=)) (sumZ f).
Proof. intros l1 l2 Hp. induction Hp; rewrite ?sumZ_cons; lia. Qed.
End sumZ.

#[export] Hint Rewrite @sumZ_nil @sumZ_cons @sumZ_app @foldl_sumZ : moveis_rw.

(** ** Options and sums *)

Lemma inr_inj {E A} (a b : A) : (inr a : E + A) = inr b → a = b.
Proof. by intros [= ->]. Qed.

Lemma pair_eq_inv {A B} (a a' : A) (b b' : B) : (a, b) = (a', b') → a = a' ∧ b = b'.
Proof. by intros [= -> ->]. Qed.

#[export] Hint Resolve inr_inj pair_eq_inv : moveis.

(** ** Lists *)

(** A filter whose test holds on every element keeps the list. *)
Lemma filter_Forall_id {A} (P : A → Prop) `{∀ x, Decision (P x)} l : Forall P l → filter P l = l.
Proof. induction 1; [done|]. rewrite filter_cons_True by done. by f_equal. Qed.

Lemma lookup_cons_succ {A} (x : A) l i : (x :: l) !! S i = l !! i.
Proof. done. Qed.

(** [List.map] and stdpp's lookup. *)
Lemma list_map_lookup {A B} (f : A → B) (l : list A) i : List.map f l !! i = f <$> l !! i.
Proof. revert i. induction l as [|x l IH]; intros [|i]; simpl; auto. Qed.

Lemma concat_map_singleton {A B} (f : A → B) l : List.concat (List.map (λ x, [f x]) l) = List.map f l.
Proof. induction l as [|x l IH]; simpl; [done|]. by rewrite IH. Qed.

Lemma list_map_fmap {A B C} (f : B → C) (g : A → B) l : List.map f (g <$> l) = List.map (λ x, f (g x)) l.
Proof. induction l as [|x l IH]; [done|]. cbn. by f_equal. Qed.

Lemma list_map_is_fmap {A B} (f : A → B) l : List.map f l = f <$> l.
Proof. induction l as [|x l IH]; [done|]. cbn. by f_equal. Qed.

(** ** Strings *)

Lemma string_app_nil_r (s : string) : s +:+ "" = s.
Proof. induction s as [|c s IH]; [done|]. exact (f_equal (String c) IH). Qed.

Lemma string_app_assoc (a b c : string) : (a +:+ b) +:+ c = a +:+ b +:+ c.
Proof. induction a as [|x a IH]; [done|]. exact (f_equal (String x) IH). Qed.

(** [String.concat ""] is the right fold of [+:+]. *)
Lemma concat_empty (l : list string) : String.concat "" l = foldr String.append "" l.
Proof.
  induction l as [|x [|y l] IH]; [done|symmetry; apply string_app_nil_r|].
  cbn [String.concat foldr] in IH |- *. by rewrite IH.
Qed.

Lemma concat_empty_app (l1 l2 : list string) :
  String.concat "" (l1 ++ l2) = String.concat "" l1 +:+ String.concat "" l2.
Proof.
  rewrite !concat_empty, foldr_app. induction l1 as [|x l1 IH]; [done|].
  cbn [foldr]. by rewrite IH, string_app_assoc.
Qed.

#[export] Hint Rewrite string_app_nil_r string_app_assoc concat_empty_app : moveis_rw.
