(* ===== verification/Js.v ===== *)
(** * JavaScript values as the route handlers see them

    A request body is parsed by [request.json()] into a [json] value; the
    handlers read its fields with property access and convert them with
    [parseInt], [parseFloat] and the implicit [ToNumber] of [*].  This file
    models those values and conversions.

    - A JS number is [num]: [NaN] or a finite value [Fin q] with [q : Q].
      Doubles are modelled exactly (no rounding); -0 and the infinities are
      not modelled ("Infinity" parses to [NaN] here).  A sum of prices is
      therefore the exact rational where the browser rounds to the
      nearest double: the theorems on totals (sales, quote form) hold of
      exact arithmetic, and say nothing about rounding.
    - Strings are UTF-8 byte strings; [s.length] counts UTF-16 code units
      ([utf16_length]); only the ASCII white space characters
      (TAB, LF, VT, FF, CR, SP) are white space for [trim].
    - [num] has the equivalence [≡] of rational equality, with [Proper]
      instances for [+] and [*], so that totals are compared up to [Qeq]. *)

From S2P Require Import Prelude.
From Stdlib Require Import Ascii Qabs.

#[local] Set Warnings "-register-all".

Inductive num := NaN | Fin (q : Q).

Definition num_add (a b : num) : num :=
  match a, b with Fin x, Fin y => Fin (x + y) | _, _ => NaN end.

Definition num_mul (a b : num) : num :=
  match a, b with Fin x, Fin y => Fin (x * y) | _, _ => NaN end.

Definition num_of_Z (z : Z) : num := Fin (inject_Z z).

Infix "+ₙ" := num_add (at level 50, left associativity) : moveis_scope.
Infix "*ₙ" := num_mul (at level 40, left associativity) : moveis_scope.
Local Open Scope moveis_scope.

#[export] Instance num_equiv : Equiv num := λ a b,
  match a, b with
  | NaN, NaN => True
  | Fin x, Fin y => (x == y)%Q
  | _, _ => False
  end.

#[export] Instance num_equivalence : Equivalence (≡@{num}).
Proof.
  split.
  - intros [|x]; done.
  - intros [|x] [|y]; unfold equiv, num_equiv; intros; try done; by symmetry.
  - intros [|x] [|y] [|z]; unfold equiv, num_equiv; try done. intros H1 H2. by eapply Qeq_trans.
Qed.

#[export] Instance num_add_proper : Proper ((≡) ==> (≡) ==> (≡)) num_add.
Proof.
  intros [|x] [|x'] Hx [|y] [|y'] Hy; unfold equiv, num_equiv in *; simpl; try done.
  by apply Qplus_comp.
Qed.

#[export] Instance num_mul_proper : Proper ((≡) ==> (≡) ==> (≡)) num_mul.
Proof.
  intros [|x] [|x'] Hx [|y] [|y'] Hy; unfold equiv, num_equiv in *; simpl; try done.
  by apply Qmult_comp.
Qed.

(** ** JSON values, plus [undefined] *)

Inductive json :=
  | JUndef
  | JNull
  | JBool (b : bool)
  | JNum (n : num)
  | JStr (s : string)
  | JArr (l : list json)
  | JObj (fs : list (string * json)).

(** The errors raised by JavaScript itself. *)
Inductive js_error := TypeError | SyntaxError.

(** [JSON.parse] keeps the last of duplicated keys. *)
Fixpoint field (k : string) (fs : list (string * json)) : option json :=
  match fs with
  | [] => None
  | (k', v) :: fs' =>
      match field k fs' with
      | Some v' => Some v'
      | None => if String.eqb k k' then Some v else None
      end
  end.

(** [v.k] for a key [k] that is neither an array index, nor ["length"],
    nor a member of a prototype: a TypeError on [undefined] and [null],
    [undefined] on any other value without such an own property. *)
Definition prop (v : json) (k : string) : js_error + json :=
  match v with
  | JUndef | JNull => inl TypeError
  | JObj fs => inr (default JUndef (field k fs))
  | _ => inr JUndef
  end.

(** [v.map(...)], [v.reduce(...)]: only arrays have these methods. *)
Definition as_array (v : json) : js_error + list json :=
  match v with
  | JArr l => inr l
  | _ => inl TypeError
  end.

(** ** Reading numbers from strings *)

Definition is_ws (c : ascii) : bool :=
  match nat_of_ascii c with
  | 9 | 10 | 11 | 12 | 13 | 32 => true
  | _ => false
  end%nat.

Fixpoint trim_left (s : string) : string :=
  match s with
  | EmptyString => EmptyString
  | String c s' => if is_ws c then trim_left s' else s
  end.

Fixpoint drop_ws (l : list ascii) : list ascii :=
  match l with [] => [] | c :: l' => if is_ws c then drop_ws l' else l end.

Definition trim (s : string) : string :=
  String.string_of_list_ascii (rev (drop_ws (rev (String.list_ascii_of_string (trim_left s))))).

(** The value of a digit or letter in radix 36. *)
Definition digit_val (c : ascii) : option Z :=
  (let n := Z.of_nat (nat_of_ascii c) in
  if (48 <=? n) && (n <=? 57) then Some (n - 48)
  else if (97 <=? n) && (n <=? 122) then Some (n - 87)
  else if (65 <=? n) && (n <=? 90) then Some (n - 55)
  else None)%Z.

(** The longest prefix of digits of radix [r], and the rest. *)
Fixpoint take_digits (r : Z) (s : string) : list Z * string :=
  match s with
  | String c s' =>
      match digit_val c with
      | Some d => if d <? r then let '(ds, rest) := take_digits r s' in (d :: ds, rest)
                  else ([], s)
      | None => ([], s)
      end
  | EmptyString => ([], s)
  end%Z.

Definition digits_value (r : Z) (ds : list Z) : Z :=
  foldl (λ acc d, acc * r + d)%Z 0%Z ds.

Definition take_sign (s : string) : Z * string :=
  match s with
  | String "-" r => (-1, r)
  | String "+" r => (1, r)
  | _ => (1, s)
  end%char%Z.

(** A "0x"/"0X" prefix and its radix. *)
Definition take_radix_prefix (s : string) : option (Z * string) :=
  match s with
  | String "0" (String c r) =>
      if (c =? "x")%char || (c =? "X")%char then Some (16%Z, r)
      else if (c =? "o")%char || (c =? "O")%char then Some (8%Z, r)
      else if (c =? "b")%char || (c =? "B")%char then Some (2%Z, r)
      else None
  | _ => None
  end.

(** [parseInt(s)] with no radix argument. *)
Definition parse_int_str (s : string) : num :=
  let '(sg, s2) := take_sign (trim_left s) in
  let '(r, s3) :=
    match take_radix_prefix s2 with
    | Some (16%Z, s3) => (16%Z, s3)
    | _ => (10%Z, s2)
    end in
  match take_digits r s3 with
  | ([], _) => NaN
  | (ds, _) => num_of_Z (sg * digits_value r ds)
  end.

(** The longest prefix of [s] that is a StrDecimalLiteral without sign:
    digits, an optional fraction, an optional exponent; at least one
    digit before the exponent. *)
Definition take_exponent (s : string) : Z * string :=
  match s with
  | String c r =>
      if (c =? "e")%char || (c =? "E")%char then
        let '(sg, r') := take_sign r in
        match take_digits 10 r' with
        | ([], _) => (0%Z, s)
        | (ds, rest) => ((sg * digits_value 10 ds)%Z, rest)
        end
      else (0%Z, s)
  | EmptyString => (0%Z, s)
  end.

Definition Qpow10 (e : Z) : Q :=
  if (0 <=? e)%Z then inject_Z (10 ^ e) else (1 # Z.to_pos (10 ^ (- e)))%Q.

Definition take_decimal (s : string) : option (Q * string) :=
  let '(ids, r1) := take_digits 10 s in
  let '(fds, r2) :=
    match r1 with
    | String "." r => take_digits 10 r
    | _ => ([], r1)
    end%char in
  match ids, fds with
  | [], [] => None
  | _, _ =>
      let '(e, r3) := take_exponent r2 in
      let m := (digits_value 10 (ids ++ fds))%Z in
      Some ((inject_Z m * Qpow10 (e - Z.of_nat (length fds)))%Q, r3)
  end.

(** [parseFloat(s)]. *)
Definition parse_float_str (s : string) : num :=
  let '(sg, s2) := take_sign (trim_left s) in
  match take_decimal s2 with
  | Some (q, _) => Fin (inject_Z sg * q)%Q
  | None => NaN
  end.

(** [Number(s)], the [ToNumber] of a string. *)
Definition string_to_number (s : string) : num :=
  let t := trim s in
  match t with
  | EmptyString => Fin 0
  | _ =>
      match take_radix_prefix t with
      | Some (r, t') =>
          match take_digits r t' with
          | ((_ :: _) as ds, EmptyString) => num_of_Z (digits_value r ds)
          | _ => NaN
          end
      | None =>
          let '(sg, t2) := take_sign t in
          match take_decimal t2 with
          | Some (q, EmptyString) => Fin (inject_Z sg * q)%Q
          | _ => NaN
          end
      end
  end.

(** ** Conversions of values *)

(** [parseInt] of a number goes through [ToString]: the integer part for
    1e-6 <= |x| < 1e21 (decimal notation), the first significant digit
    otherwise (exponent notation, "1.5e-7" or "1e+21"). *)
Fixpoint lead_digit_aux (fuel : nat) (p d : Z) : Z :=
  match fuel with
  | O => 0
  | S f =>
      if p <? d then lead_digit_aux f (10 * p) d
      else if 10 * d <=? p then lead_digit_aux f p (10 * d)
      else p / d
  end%Z.

(** The fuel: one step per bit of the numerator and of the denominator,
    and one for the division. *)
Definition lead_digit_fuel (q : Q) : nat :=
  S (Pos.to_nat (Pos.size (Z.to_pos (Qnum q)) + Pos.size (Qden q))).

Definition lead_digit (q : Q) : Z :=
  lead_digit_aux (lead_digit_fuel q) (Qnum q) (Zpos (Qden q)).

Definition Qtrunc (q : Q) : Z := Z.quot (Qnum q) (Zpos (Qden q)).

Definition num_parse_int (n : num) : num :=
  match n with
  | NaN => NaN
  | Fin q =>
      if Qeq_bool q 0 then num_of_Z 0
      else if Qle_bool (1 # 1000000) (Qabs q) && negb (Qle_bool (inject_Z (10 ^ 21)) (Qabs q))
      then num_of_Z (Qtrunc q)
      else num_of_Z (Z.sgn (Qnum q) * lead_digit (Qabs q))
  end.

(** [parseInt(v)] = [parseInt(String(v))].  The string of an array is its
    elements joined by ","; the digits of the first element end at the
    comma, so the first element decides. *)
Fixpoint parse_int (v : json) : num :=
  match v with
  | JStr s => parse_int_str s
  | JNum n => num_parse_int n
  | JArr (x :: _) =>
      match x with JUndef | JNull => NaN | _ => parse_int x end
  | _ => NaN
  end.

(** [parseFloat(v)] = [parseFloat(String(v))]; [String(x)] of a finite
    number reads back as the same number. *)
Fixpoint parse_float (v : json) : num :=
  match v with
  | JStr s => parse_float_str s
  | JNum n => n
  | JArr (x :: _) =>
      match x with JUndef | JNull => NaN | _ => parse_float x end
  | _ => NaN
  end.

(** [ToNumber(v)], used by [*]. *)
Fixpoint to_number (v : json) : num :=
  match v with
  | JUndef => NaN
  | JNull => Fin 0
  | JBool b => Fin (if b then 1 else 0)
  | JNum n => n
  | JStr s => string_to_number s
  | JObj _ => NaN
  | JArr [] => Fin 0
  | JArr [x] =>
      match x with JUndef | JNull => Fin 0 | JBool _ => NaN | _ => to_number x end
  | JArr _ => NaN
  end.

(** [a * b] on two JSON values. *)
Definition js_mul (a b : json) : num := to_number a *ₙ to_number b.

(** ** Sums of numbers *)

Definition sum_num {A} (f : A → num) (l : list A) : num :=
  foldr (λ x acc, f x +ₙ acc) (Fin 0) l.

Lemma num_add_assoc a b c : (a +ₙ b) +ₙ c ≡ a +ₙ (b +ₙ c).
Proof.
  destruct a, b, c; unfold equiv, num_equiv; cbn [num_add]; try done.
  symmetry. apply Qplus_assoc.
Qed.

Lemma num_add_comm a b : a +ₙ b ≡ b +ₙ a.
Proof. destruct a, b; unfold equiv, num_equiv; cbn [num_add]; try done. apply Qplus_comm. Qed.

Lemma num_add_0_l a : Fin 0 +ₙ a ≡ a.
Proof. destruct a; unfold equiv, num_equiv; cbn [num_add]; try done. apply Qplus_0_l. Qed.

(** The accumulator of [reduce((acc, x) => acc + f(x), a)]. *)
Lemma foldl_sum_num {A} (f : A → num) l a :
  foldl (λ acc x, acc +ₙ f x) a l ≡ a +ₙ sum_num f l.
Proof.
  revert a. induction l as [|x l IH]; intros a; simpl.
  - symmetry. rewrite num_add_comm. apply num_add_0_l.
  - rewrite IH. apply num_add_assoc.
Qed.

Lemma sum_num_ext {A B} (f : A → num) (g : B → num) l k :
  Forall2 (λ x y, f x ≡ g y) l k → sum_num f l ≡ sum_num g k.
Proof. induction 1 as [|x y l k Hxy _ IH]; simpl; [done|]. by rewrite Hxy, IH. Qed.

(** ** [parseInt] on integers *)

Lemma num_parse_int_Z (z : Z) : (Z.abs z < 10 ^ 21)%Z → num_parse_int (num_of_Z z) = num_of_Z z.
Proof.
  intros Hz. unfold num_parse_int, num_of_Z, Qeq_bool, Qle_bool, Qtrunc. simpl.
  destruct (Z.eqb_spec (z * 1) (0 * 1)) as [H0|H0].
  { assert (z = 0%Z) as -> by lia. done. }
  destruct (Z.leb_spec (1 * 1) (Z.abs z * 1000000)) as [H1|H1]; [|lia].
  destruct (Z.leb_spec (10 ^ 21 * 1) (Z.abs z * 1)) as [H2|H2]; [lia|].
  simpl. by rewrite Z.quot_1_r.
Qed.

Lemma to_number_num n : to_number (JNum n) = n.
Proof. done. Qed.

Lemma parse_float_num n : parse_float (JNum n) = n.
Proof. done. Qed.

(** ** Comparisons: [<], [<=] are false as soon as one side is [NaN] *)

Definition num_le (a b : num) : bool :=
  match a, b with Fin x, Fin y => Qle_bool x y | _, _ => false end.
Definition num_lt (a b : num) : bool :=
  match a, b with Fin x, Fin y => negb (Qle_bool y x) | _, _ => false end.

(** [a === b] on numbers *)
Definition num_eqb (a b : num) : bool :=
  match a, b with Fin x, Fin y => Qeq_bool x y | _, _ => false end.

(** [x || d] on a number: [0] and [NaN] are falsy. *)
Definition num_or (x d : num) : num :=
  match x with Fin q => if Qeq_bool q 0 then d else x | NaN => d end.

(** [Math.max(a, b)] *)
Definition num_max (a b : num) : num :=
  match a, b with
  | Fin x, Fin y => if Qle_bool x y then b else a
  | _, _ => NaN
  end.

(** [!!v]: [undefined], [null], [false], [0], [NaN] and [''] are falsy. *)
Definition truthy (v : json) : bool :=
  match v with
  | JUndef | JNull => false
  | JBool b => b
  | JNum (Fin q) => negb (Qeq_bool q 0)
  | JNum NaN => false
  | JStr s => negb (String.eqb s "")
  | JArr _ | JObj _ => true
  end.

(** ** Strings *)

(** [s.toLowerCase()] on the ASCII letters; other bytes are kept. *)
Definition lower_ascii (a : ascii) : ascii :=
  let n := nat_of_ascii a in if (65 <=? n)%nat && (n <=? 90)%nat then ascii_of_nat (n + 32) else a.

Fixpoint to_lower (s : string) : string :=
  match s with EmptyString => EmptyString | String a s => String (lower_ascii a) (to_lower s) end.

(** [s.length]: the UTF-16 code units of the UTF-8 string [s].  A byte
    below 0x80 is a character of one unit, a continuation byte (0x80 to
    0xBF) adds none, the first byte of a two- or three-byte sequence one
    unit, and the first byte of a four-byte sequence two (a surrogate
    pair). *)
Fixpoint utf16_length (s : string) : nat :=
  match s with
  | EmptyString => 0
  | String c s' =>
      let n := nat_of_ascii c in
      (if n <? 128 then 1 else if n <? 192 then 0 else if n <? 240 then 1 else 2) + utf16_length s'
  end%nat.

(** [s.includes(t)] *)
Fixpoint includes (s t : string) : bool :=
  String.prefix t s || match s with EmptyString => false | String _ s' => includes s' t end.

Lemma includes_empty s : includes s "" = true.
Proof. by destruct s. Qed.

(** A field of an object whose values are all [f a] is an [f a]. *)
Lemma field_fmap_inv {A} (f : A → json) k (l : list (string * A)) v :
  field k ((λ '(k', a), (k', f a)) <$> l) = Some v → ∃ a, v = f a.
Proof.
  induction l as [|[k' a] l IH]; simpl; [done|].
  destruct (field k _) eqn:E; [intros [= <-]; by apply IH|].
  destruct (String.eqb k k'); [intros [= <-]; eauto|done].
Qed.

(** ** The fuel of [lead_digit] is enough *)

Lemma lead_digit_final f p d :
  (0 < d)%Z → (d <= p < 10 * d)%Z → (1 <= lead_digit_aux (S f) p d <= 9)%Z.
Proof.
  intros Hd [H1 H2]. simpl.
  rewrite (proj2 (Z.ltb_ge p d)), (proj2 (Z.leb_gt (10 * d) p)) by lia. split.
  - apply Z.div_le_lower_bound; lia.
  - apply Z.lt_succ_r, Z.div_lt_upper_bound; lia.
Qed.

Lemma lead_digit_up n f p d :
  (0 < p)%Z → (p < d)%Z → (d <= p * 10 ^ Z.of_nat n)%Z → (n < f)%nat →
  (1 <= lead_digit_aux f p d <= 9)%Z.
Proof.
  revert f p. induction n as [|n IH]; intros f p Hp Hpd Hn Hf; [simpl in Hn; lia|].
  destruct f as [|f]; [lia|]. simpl. rewrite (proj2 (Z.ltb_lt p d)) by done.
  rewrite Nat2Z.inj_succ, Z.pow_succ_r in Hn by lia.
  destruct (Z.lt_ge_cases (10 * p) d) as [Hlt|Hge].
  - apply IH; lia.
  - destruct f as [|f]; [lia|]. apply lead_digit_final; lia.
Qed.

Lemma lead_digit_down n f p d :
  (0 < d)%Z → (10 * d <= p)%Z → (p < d * 10 ^ Z.of_nat (S n))%Z → (n < f)%nat →
  (1 <= lead_digit_aux f p d <= 9)%Z.
Proof.
  revert f d. induction n as [|n IH]; intros f d Hd Hdp Hn Hf; [simpl in Hn; lia|].
  destruct f as [|f]; [lia|]. simpl.
  rewrite (proj2 (Z.ltb_ge p d)), (proj2 (Z.leb_le (10 * d) p)) by lia.
  rewrite Nat2Z.inj_succ, Z.pow_succ_r in Hn by lia.
  destruct (Z.le_gt_cases (10 * (10 * d)) p) as [Hle|Hgt].
  - apply IH; [lia|lia|lia|lia].
  - destruct f as [|f]; [lia|]. apply lead_digit_final; lia.
Qed.

Lemma pos_lt_10_size (x : positive) : (Zpos x < 10 ^ Zpos (Pos.size x))%Z.
Proof.
  pose proof (Pos.size_gt x) as H0.
  assert (H : (Zpos x < Zpos (2 ^ Pos.size x))%Z) by lia. rewrite Pos2Z.inj_pow in H.
  eapply Z.lt_le_trans; [exact H|]. apply Z.pow_le_mono_l. lia.
Qed.

(** For a positive number the digit is between 1 and 9: the fuel never
    runs out. *)
Lemma lead_digit_bounds q : (0 < Qnum q)%Z → (1 <= lead_digit q <= 9)%Z.
Proof.
  intros Hq. unfold lead_digit, lead_digit_fuel. destruct q as [p D]; cbn [Qnum Qden] in *.
  destruct p as [|P|P]; try lia. change (Z.to_pos (Zpos P)) with P.
  pose proof (pos_lt_10_size P) as HP. pose proof (pos_lt_10_size D) as HD.
  destruct (Z.lt_ge_cases (Zpos P) (Zpos D)) as [Hlt|Hge].
  - apply (lead_digit_up (Pos.to_nat (Pos.size D))); [lia|lia| |lia].
    rewrite positive_nat_Z. nia.
  - destruct (Z.lt_ge_cases (Zpos P) (10 * Zpos D)) as [Hlt'|Hge'].
    + apply lead_digit_final; lia.
    + apply (lead_digit_down (Pos.to_nat (Pos.size P) - 1)); [lia|lia| |lia].
      rewrite Nat.sub_1_r, Nat.succ_pred_pos by lia. rewrite positive_nat_Z. nia.
Qed.

(** Out of fuel the loop answers 0; a digit it answers is final: more fuel
    gives the same digit. *)
Lemma lead_digit_aux_more f k p d :
  (0 < p)%Z → (0 < d)%Z → lead_digit_aux f p d ≠ 0%Z → lead_digit_aux (f + k) p d = lead_digit_aux f p d.
Proof.
  revert p d. induction f as [|f IH]; intros p d Hp Hd Hf; [done|]. cbn -[Z.mul] in *.
  destruct (p <? d)%Z; [apply IH; lia|]. destruct (10 * d <=? p)%Z; [apply IH; lia|done].
Qed.

(** The loop that finds the first significant digit terminates within
    the fuel [lead_digit] gives it: its answer is a digit from 1 to 9, and
    no larger fuel changes it. *)
Theorem lead_digit_terminates q k :
  (0 < Qnum q)%Z →
  lead_digit_aux (lead_digit_fuel q + k) (Qnum q) (Zpos (Qden q)) = lead_digit q ∧
  (1 <= lead_digit q <= 9)%Z.
Proof.
  intros Hq. pose proof (lead_digit_bounds q Hq) as Hb. split; [|done].
  apply lead_digit_aux_more; [done|lia|]. unfold lead_digit in Hb. lia.
Qed.
