(* ===== verification/Store.v ===== *)
(** * The entity store: the Prisma client over the relational tables

    The schema file is not part of the repository; the column types below
    are those the route handlers and pages assume (marked spec_modelled in
    the manifest):
    - [Produto], [Vendedor], [Venda] and [Cliente] have autoincrement [Int]
      ids (the sale handlers [parseInt] the client and seller ids of a
      sale, the pages type client ids as numbers);
    - [Material] and [Orcamento] have string ids (the stock page keeps the
      selected material ids as strings);
    - quantities and stock are [Int] (a 32-bit column), prices and totals
      are [Float] (a [num], NaN included, as the spec says the handlers
      store it silently);
    - sale items and quote items are stored inside their parent row: the
      handlers never address them by id.

    Each Prisma call below is atomic: it validates all its arguments, then
    commits, or fails without changing the store.  A handler is a sequence
    of such calls in the [st] monad, and nothing undoes the calls that
    committed before a failing one. *)

From S2P Require Import Prelude Js.
From Stdlib Require Import Qcanon.

Module Store.

(** ** Errors *)

Inductive prisma_error :=
  | Validation        (** an argument of the wrong type, a missing field *)
  | NotFound          (** P2025: no row to update or delete *)
  | ForeignKey        (** P2003: a referenced row is missing or still referenced *)
  | UniqueViolation   (** P2002: the id is taken *)
  | OutOfRange.       (** the column cannot hold the integer *)

Inductive exn :=
  | JsErr (e : js_error)
  | PrismaErr (e : prisma_error).

(** ** Rows *)

Module Cliente.
Record t := mk {
  id : Z; nome : string; email : option string; telefone : string;
  cpf : option string; cnpj : option string; endereco : option string;
  cidade : option string; estado : option string; cep : option string }.
End Cliente.

Module Material.
Record t := mk {
  id : string; name : string; type : string; description : option string;
  quantity : Z; unit : string; price : num; minStock : Z }.
End Material.

Module Produto.
Record t := mk {
  id : Z; nome : string; categoria : string; preco : num; estoque : Z;
  fornecedor : string }.
Definition set_estoque (e : Z) (p : t) : t :=
  mk (id p) (nome p) (categoria p) (preco p) e (fornecedor p).
End Produto.

Module Vendedor.
Record t := mk {
  id : Z; nome : string; email : string; telefone : string;
  comissao : num; metaMensal : num; status : string }.
End Vendedor.

Module VendaItem.
Record t := mk { id : Z; produtoId : Z; quantidade : Z; precoUnit : num }.
End VendaItem.

Module Venda.
Record t := mk {
  id : Z; clienteId : Z; vendedorId : Z; total : num; status : string;
  data : Z; items : list VendaItem.t }.
Definition set_status (s : string) (v : t) : t :=
  mk (id v) (clienteId v) (vendedorId v) (total v) s (data v) (items v).
End Venda.

Module OrcamentoMaterial.
Record t := mk { id : Z; quantidade : Z; materialId : string }.
End OrcamentoMaterial.

Module OrcamentoItem.
Record t := mk {
  id : Z; descricao : string; quantidade : Z; valorUnitario : num;
  materiais : list OrcamentoMaterial.t }.
End OrcamentoItem.

Module Orcamento.
Record t := mk {
  id : string; numero : Z; data : Z; status : string;
  observacoes : option string; clienteId : Z; itens : list OrcamentoItem.t }.
End Orcamento.

(** ** The store

    One map per table, one counter [seq] from which every autoincrement
    [Int] id is drawn, a supply of fresh string ids and the clock read by
    [@default(now())].  PostgreSQL keeps one sequence per table; the one
    shared counter gives ids that are fresh in their own table (every
    handler checks or relies on exactly that) but not the values
    1, 2, 3, ... of each table's own sequence, so no theorem states an
    id's value beyond [seq db] at the moment of the insert. *)
Record DB := mkDB {
  clientes : gmap Z Cliente.t;
  materials : gmap string Material.t;
  produtos : gmap Z Produto.t;
  vendedores : gmap Z Vendedor.t;
  vendas : gmap Z Venda.t;
  orcamentos : gmap string Orcamento.t;
  seq : Z;
  cuid : nat;
  clock : Z }.

(** A computation of a handler. *)
Abbreviation M := (st DB exn).

Definition set_clientes m db := mkDB m db.(materials) db.(produtos) db.(vendedores) db.(vendas) db.(orcamentos) db.(seq) db.(cuid) db.(clock).
Definition set_materials m db := mkDB db.(clientes) m db.(produtos) db.(vendedores) db.(vendas) db.(orcamentos) db.(seq) db.(cuid) db.(clock).
Definition set_produtos m db := mkDB db.(clientes) db.(materials) m db.(vendedores) db.(vendas) db.(orcamentos) db.(seq) db.(cuid) db.(clock).
Definition set_vendedores m db := mkDB db.(clientes) db.(materials) db.(produtos) m db.(vendas) db.(orcamentos) db.(seq) db.(cuid) db.(clock).
Definition set_vendas m db := mkDB db.(clientes) db.(materials) db.(produtos) db.(vendedores) m db.(orcamentos) db.(seq) db.(cuid) db.(clock).
Definition set_orcamentos m db := mkDB db.(clientes) db.(materials) db.(produtos) db.(vendedores) db.(vendas) m db.(seq) db.(cuid) db.(clock).

Lemma produtos_set m db : produtos (set_produtos m db) = m.
Proof. done. Qed.

Lemma set_produtos_twice m1 m2 db : set_produtos m2 (set_produtos m1 db) = set_produtos m2 db.
Proof. done. Qed.

Lemma set_produtos_id db : set_produtos (produtos db) db = db.
Proof. by destruct db. Qed.

Lemma vendas_set m db : vendas (set_vendas m db) = m.
Proof. done. Qed.

#[export] Hint Rewrite produtos_set set_produtos_twice set_produtos_id vendas_set : moveis_rw.

(** ** Tables: a record of the two operations on one map of the store and
    their laws *)
Record table (K V : Type) `{Countable K} := Table {
  tget : DB → gmap K V;
  tset : gmap K V → DB → DB;
  tget_tset m db : tget (tset m db) = m;
  tset_tget db : tset (tget db) db = db }.
Arguments Table {_ _ _ _}.
Arguments tget {_ _ _ _}.
Arguments tset {_ _ _ _}.

Definition T_clientes : table Z Cliente.t := Table clientes set_clientes (λ _ _, eq_refl) (λ '(mkDB _ _ _ _ _ _ _ _ _), eq_refl).
Definition T_materials : table string Material.t := Table materials set_materials (λ _ _, eq_refl) (λ '(mkDB _ _ _ _ _ _ _ _ _), eq_refl).
Definition T_produtos : table Z Produto.t := Table produtos set_produtos (λ _ _, eq_refl) (λ '(mkDB _ _ _ _ _ _ _ _ _), eq_refl).
Definition T_vendedores : table Z Vendedor.t := Table vendedores set_vendedores (λ _ _, eq_refl) (λ '(mkDB _ _ _ _ _ _ _ _ _), eq_refl).
Definition T_vendas : table Z Venda.t := Table vendas set_vendas (λ _ _, eq_refl) (λ '(mkDB _ _ _ _ _ _ _ _ _), eq_refl).
Definition T_orcamentos : table string Orcamento.t := Table orcamentos set_orcamentos (λ _ _, eq_refl) (λ '(mkDB _ _ _ _ _ _ _ _ _), eq_refl).

(** ** Column types *)

Definition int_min : Z := (- 2 ^ 31)%Z.
Definition int_max : Z := (2 ^ 31 - 1)%Z.

(** A number given for an [Int] column. *)
Definition int_of_num (n : num) : exn + Z :=
  match n with
  | Fin q =>
      if Z.eqb (Zpos (Qden (Qred q))) 1 then
        let z := Qnum (Qred q) in
        if (int_min <=? z)%Z && (z <=? int_max)%Z then inr z else inl (PrismaErr OutOfRange)
      else inl (PrismaErr Validation)
  | NaN => inl (PrismaErr Validation)
  end.

Lemma int_of_num_Z z z' : int_of_num (num_of_Z z) = inr z' → z' = z.
Proof.
  unfold int_of_num, num_of_Z. rewrite Qred_identity by (simpl; apply Z.gcd_1_r).
  simpl. destruct (_ && _); by intros [= <-].
Qed.

Lemma int_of_num_range z : (int_min ≤ z ≤ int_max)%Z → int_of_num (num_of_Z z) = inr z.
Proof.
  intros Hz. unfold int_of_num, num_of_Z. rewrite Qred_identity by (simpl; apply Z.gcd_1_r).
  simpl. destruct (Z.leb_spec int_min z), (Z.leb_spec z int_max); simpl; done || lia.
Qed.

(** A JSON value given for an [Int], [Float] or [String] column. *)
Definition int_arg (v : json) : exn + Z :=
  match v with JNum n => int_of_num n | _ => inl (PrismaErr Validation) end.

Definition float_arg (v : json) : exn + num :=
  match v with JNum n => inr n | _ => inl (PrismaErr Validation) end.

Definition string_arg (v : json) : exn + string :=
  match v with JStr s => inr s | _ => inl (PrismaErr Validation) end.

(** A column of an [enum] of the schema: one of its values [vs]. *)
Definition enum_arg (vs : list string) (v : json) : exn + string :=
  match v with
  | JStr s => if bool_decide (s ∈ vs) then inr s else inl (PrismaErr Validation)
  | _ => inl (PrismaErr Validation)
  end.

(** An optional [String?] column: absent, [undefined] or [null] leave it
    empty. *)
Definition opt_string_arg (v : json) : exn + option string :=
  match v with
  | JUndef | JNull => inr None
  | JStr s => inr (Some s)
  | _ => inl (PrismaErr Validation)
  end.

(** A field of an [update]: [undefined] leaves the column as it is. *)
Definition upd {A} (f : json → exn + A) (v : json) : exn + option A :=
  match v with JUndef => inr None | _ => x ← f v; mret (Some x) end.

(** An [Int] column bounded by the database: the result of an
    increment or decrement. *)
Definition int_range (z : Z) : exn + Z :=
  if (int_min <=? z)%Z && (z <=? int_max)%Z then inr z else inl (PrismaErr OutOfRange).

(** The values an [Int] column holds. *)
Definition int_ok (z : Z) : Prop := (int_min ≤ z ≤ int_max)%Z.

Lemma int_of_num_ok n z : int_of_num n = inr z → int_ok z.
Proof.
  unfold int_of_num, int_ok. destruct n as [|q]; [done|].
  destruct (Z.eqb _ _); [|done]. destruct (Z.leb_spec int_min (Qnum (Qred q))), (Z.leb_spec (Qnum (Qred q)) int_max);
    simpl; intros [=]; subst; lia.
Qed.

Lemma int_range_ok z z' : int_range z = inr z' → z' = z ∧ int_ok z.
Proof.
  unfold int_range, int_ok. destruct (Z.leb_spec int_min z), (Z.leb_spec z int_max); simpl; intros [=]; subst; lia.
Qed.

(** ** Generic operations on a table *)

Section table_ops.
Context {K V : Type} `{Countable K} (T : table K V).

(** [findUnique({ where: { id: k } })] *)
Definition find_unique (k : K) : M (option V) := st_gets (λ db, tget T db !! k).

(** [update({ where: { id: k }, data })]: [f] computes the new row and may
    reject the data; nothing changes when it does. *)
Definition update_row (k : K) (f : V → exn + V) : M V := λ db,
  match tget T db !! k with
  | None => (inl (PrismaErr NotFound), db)
  | Some v =>
      match f v with
      | inl e => (inl e, db)
      | inr v' => (inr v', tset T (<[k:=v']> (tget T db)) db)
      end
  end.

(** [delete({ where: { id: k } })], refused while another row still
    references this one. *)
Definition delete_row (referenced : DB → K → bool) (k : K) : M V := λ db,
  match tget T db !! k with
  | None => (inl (PrismaErr NotFound), db)
  | Some v =>
      if referenced db k then (inl (PrismaErr ForeignKey), db)
      else (inr v, tset T (delete k (tget T db)) db)
  end.

Lemma update_row_ok k f v v' db :
  tget T db !! k = Some v → f v = inr v' →
  update_row k f db = (inr v', tset T (<[k:=v']> (tget T db)) db).
Proof. intros Hk Hf. unfold update_row. by rewrite Hk, Hf. Qed.

Lemma update_row_missing k f db :
  tget T db !! k = None → update_row k f db = (inl (PrismaErr NotFound), db).
Proof. intros Hk. unfold update_row. by rewrite Hk. Qed.

Lemma delete_row_missing r k db :
  tget T db !! k = None → delete_row r k db = (inl (PrismaErr NotFound), db).
Proof. intros Hk. unfold delete_row. by rewrite Hk. Qed.

(** An update whose data is refused for every row fails, whatever the store. *)
Lemma update_row_fails k f db :
  (∀ v, ∃ e, f v = inl e) → ∃ e, update_row k f db = (inl e, db).
Proof.
  intros Hf. unfold update_row. destruct (tget T db !! k) as [v|]; [|by eexists].
  destruct (Hf v) as [e ->]. by eexists.
Qed.

(** A failing Prisma call leaves the store as it was. *)
Lemma update_row_atomic k f db e db' :
  update_row k f db = (inl e, db') → db' = db.
Proof.
  unfold update_row. destruct (_ !! k) as [v|]; [|by intros [= _ <-]].
  destruct (f v); by intros [= _ <-].
Qed.

Lemma delete_row_atomic r k db e db' :
  delete_row r k db = (inl e, db') → db' = db.
Proof.
  unfold delete_row. destruct (_ !! k) as [v|]; [|by intros [= _ <-]].
  destruct (r db k); by intros [= _ <-].
Qed.
End table_ops.

#[export] Hint Resolve update_row_atomic delete_row_atomic : moveis.

End Store.
Export Store.
