(* ===== verification/Http.v ===== *)
(** * The HTTP layer of the route handlers (Next.js)

    [NextResponse.json(a)] answers 200 with [a]; [NextResponse.json({ error:
    msg }, { status })] answers an error; [new NextResponse(null, { status:
    204 })] answers no content.  [request.json()] rejects a body that is not
    JSON; a request body is [Some v] for the parsed value [v], [None] for a
    body that does not parse.  Route parameters are strings. *)

From S2P Require Import Prelude Js Store.

Module Http.

Inductive body (A : Type) :=
  | BJson (a : A)
  | BError (msg : string)
  | BSuccess
  | BEmpty.
Arguments BJson {_}.
Arguments BError {_}.
Arguments BSuccess {_}.
Arguments BEmpty {_}.

Record response (A : Type) := Resp { status : Z; rbody : body A }.
Arguments Resp {_}.
Arguments status {_}.
Arguments rbody {_}.

(** [NextResponse.json(a)] *)
Definition json_ok {A} (a : A) : response A := Resp 200 (BJson a).
(** [NextResponse.json({ error: msg }, { status: code })] *)
Definition json_error {A} (msg : string) (code : Z) : response A := Resp code (BError msg).
(** [NextResponse.json({ success: true })] *)
Definition json_success {A} : response A := Resp 200 BSuccess.
(** [new NextResponse(null, { status: 204 })] *)
Definition no_content {A} : response A := Resp 204 BEmpty.

(** [await request.json()] *)
Definition request_json (req : option json) : M json :=
  match req with Some v => mret v | None => mthrow (JsErr SyntaxError) end.

(** A JavaScript operation that may throw. *)
Definition js {A} (r : js_error + A) : M A :=
  match r with inl e => mthrow (JsErr e) | inr a => mret a end.

(** A value checked by Prisma before the call is sent. *)
Definition check {A} (r : exn + A) : M A := st_lift r.

(** [v.k] *)
Definition getp (v : json) (k : string) : M json := js (prop v k).

(** [parseInt(params.id)] given as the [where] of an [Int] id. *)
Definition where_int_id (id : string) : M Z := check (int_of_num (parse_int_str id)).

(** The handler body inside [try { ... } catch (error) { ...; return
    NextResponse.json({ error: msg }, { status: 500 }) }]. *)
Definition handle {A} (msg : string) (m : M (response A)) : M (response A) :=
  st_catch m (λ _, mret (json_error msg 500)).

Lemma handle_ok {A} msg (m : M (response A)) db r db' :
  m db = (inr r, db') → handle msg m db = (inr r, db').
Proof. apply st_catch_inr. Qed.

Lemma handle_err {A} msg (m : M (response A)) db e db' :
  m db = (inl e, db') → handle msg m db = (inr (json_error msg 500), db').
Proof. intros H. unfold handle, st_catch. by rewrite H. Qed.

(** A handler never lets an exception escape. *)
Lemma handle_total {A} msg (m : M (response A)) db :
  ∃ r, fst (handle msg m db) = inr r.
Proof. unfold handle, st_catch. destruct (m db) as [[e|r] db']; by eexists. Qed.

(** An answer other than the catch-all 500 comes from the handler body. *)
Lemma handle_not_500 {A} msg (m : M (response A)) db r db' :
  handle msg m db = (inr r, db') → status r ≠ 500%Z → m db = (inr r, db').
Proof.
  unfold handle, st_catch. destruct (m db) as [[e|r'] db''].
  - intros [= <- _]. done.
  - done.
Qed.

Lemma js_pure {A} (r : js_error + A) : st_pure (js r).
Proof. by destruct r. Qed.

Lemma check_pure {A} (r : exn + A) : st_pure (check r).
Proof. done. Qed.

Lemma getp_pure v k : st_pure (getp v k).
Proof. apply js_pure. Qed.

Lemma request_json_pure req : st_pure (request_json req).
Proof. by destruct req. Qed.

Lemma where_int_id_pure id : st_pure (where_int_id id).
Proof. apply check_pure. Qed.

#[export] Hint Resolve js_pure check_pure getp_pure request_json_pure where_int_id_pure : moveis.

Lemma js_run {A} (r : js_error + A) s a s' : js r s = (inr a, s') → r = inr a ∧ s' = s.
Proof. destruct r; simpl; by intros [= -> ->]. Qed.

Lemma check_run {A} (r : exn + A) s a s' : check r s = (inr a, s') → r = inr a ∧ s' = s.
Proof. by intros [= -> ->]. Qed.

Lemma request_json_run req s v s' : request_json req s = (inr v, s') → req = Some v ∧ s' = s.
Proof. destruct req; simpl; by intros [= -> ->]. Qed.

(** Turn the steps of a handler that read the request into equations on
    the request. *)
Ltac st_facts :=
  repeat match goal with
  | E : request_json _ _ = (inr _, _) |- _ => apply request_json_run in E as [E _]
  | E : getp _ _ _ = (inr _, _) |- _ => apply js_run in E as [E _]
  | E : js _ _ = (inr _, _) |- _ => apply js_run in E as [E _]
  | E : check _ _ = (inr _, _) |- _ => apply check_run in E as [E _]
  | E : where_int_id _ _ = (inr _, _) |- _ => apply check_run in E as [E _]
  end.

(** The status a handler run answered with (0 when an exception escaped,
    which [handle] rules out). *)
Definition answer_status {A} (r : exn + response A) : Z :=
  match r with inr x => status x | inl _ => 0%Z end.

Lemma handle_pure {A} msg (m : M (response A)) : st_pure m → st_pure (handle msg m).
Proof.
  intros Hm s. unfold handle, st_catch. specialize (Hm s).
  destruct (m s) as [[e|r] s']; simpl in *; by subst.
Qed.

#[export] Hint Resolve handle_pure : moveis.

(** A handler's answer comes from its body, or from the catch clause with
    the state the body failed in. *)
Lemma handle_inv {A} msg (m : M (response A)) db r db' :
  handle msg m db = (inr r, db') →
  m db = (inr r, db') ∨ ∃ e, m db = (inl e, db') ∧ r = json_error msg 500.
Proof.
  unfold handle, st_catch. destruct (m db) as [[e|r'] db''].
  - intros [= <- <-]. right. by eexists.
  - intros [= <- <-]. by left.
Qed.

(** An id that [parseInt] reads as [NaN] is refused by the [Int] column. *)
Lemma where_int_id_nan id db :
  parse_int_str id = NaN → where_int_id id db = (inl (PrismaErr Validation), db).
Proof. intros H. unfold where_int_id, check, st_lift. by rewrite H. Qed.

(** Run a handler on a concrete store and keep its answer. *)
Ltac st_run m r s E :=
  let e := fresh "e" in
  destruct m as [[e|r] s] eqn:E; [vm_compute in E; discriminate E|].

End Http.
Export Http.
