(* ===== verification/Vendas.v ===== *)
(** * Sales: the handlers of [src/src/app/api/vendas]

    [route.ts] has [GET] (every sale with its client, seller and items,
    newest first) and [POST] (compute the total, create the sale with its
    items, decrement the stock of each product); [[id]/route.ts] has [GET],
    [PUT] (the status only) and [DELETE] (increment the stock back, then
    delete the sale).

    Two parts of the schema decide what the handlers do and are not in the
    repository; they are the [policy] the section is parameterised by: the
    default of [Venda.status], and whether deleting a sale deletes its
    items ([onDelete: Cascade]) or is refused while it has items (Prisma's
    default for a required relation).  After the [Vendas] module the file
    holds, in order, the contract these handlers refine, their step
    relation with its invariants, and the column types they keep. *)

From Stdlib Require Import Qabs.
From S2P Require Import Prelude Js Store Http.
Local Open Scope moveis_scope.

Module Vendas.

Record policy := Policy {
  venda_status_default : option string;
  venda_items_cascade : bool }.

(** ** Views returned by the handlers *)

(** [include: { cliente: true, vendedor: true, items: { include: { produto:
    true } } }] *)
Record VendaFull := {
  vf_venda : Venda.t;
  vf_cliente : Cliente.t;
  vf_vendedor : Vendedor.t;
  vf_items : list (VendaItem.t * Produto.t) }.

(** [include: { cliente: { select: { nome, email } }, vendedor: { select:
    { nome, email } }, items: { include: { produto: { select: { nome, preco
    } } } } }] *)
Record VendaRow := {
  vr_venda : Venda.t;
  vr_cliente : string * option string;
  vr_vendedor : string * string;
  vr_items : list (VendaItem.t * (string * num)) }.

Definition include_full (db : DB) (v : Venda.t) : option VendaFull :=
  c ← clientes db !! Venda.clienteId v;
  s ← vendedores db !! Venda.vendedorId v;
  its ← mapM (λ it, p ← produtos db !! VendaItem.produtoId it; Some (it, p)) (Venda.items v);
  Some {| vf_venda := v; vf_cliente := c; vf_vendedor := s; vf_items := its |}.

Definition include_row (db : DB) (v : Venda.t) : option VendaRow :=
  c ← clientes db !! Venda.clienteId v;
  s ← vendedores db !! Venda.vendedorId v;
  its ← mapM (λ it, p ← produtos db !! VendaItem.produtoId it;
                    Some (it, (Produto.nome p, Produto.preco p))) (Venda.items v);
  Some {| vr_venda := v; vr_cliente := (Cliente.nome c, Cliente.email c);
          vr_vendedor := (Vendedor.nome s, Vendedor.email s); vr_items := its |}.

(** Prisma answers an [include] from the rows it has just read; a missing
    related row cannot happen while the foreign keys hold, and would be an
    error of the client. *)
Definition include {A} (inc : DB → Venda.t → option A) (v : Venda.t) : M A := λ db,
  match inc db v with
  | Some a => (inr a, db)
  | None => (inl (PrismaErr NotFound), db)
  end.

(** [orderBy: { data: 'desc' }].  The order the database gives to sales
    of the same date is unspecified; the model keeps the order in which
    [map_to_list] lists them (the sort is stable). *)
Definition data_desc (a b : Venda.t) : Prop := (Venda.data b ≤ Venda.data a)%Z.

#[export] Instance data_desc_dec : RelDecision data_desc.
Proof. intros a b. unfold data_desc. apply _. Defined.

(** ** Prisma calls on sales and stock *)

Section vendas.
Context (pol : policy).

(** The value given for [status]: absent means the column default. *)
Definition status_arg (v : json) : exn + string :=
  match v with
  | JStr s => inr s
  | JUndef => match venda_status_default pol with
              | Some s => inr s
              | None => inl (PrismaErr Validation)
              end
  | _ => inl (PrismaErr Validation)
  end.

(** One element of [items: { create: [...] }]: [(produtoId, quantidade,
    precoUnit)]. *)
Definition item_arg (a : num * num * num) : exn + (Z * Z * num) :=
  let '(pid, q, pu) := a in
  p ← int_of_num pid; q' ← int_of_num q; mret (p, q', pu).

(** The foreign keys of a new sale. *)
Definition venda_refs_ok (db : DB) (cid vid : Z) (its : list (Z * Z * num)) : bool :=
  bool_decide (is_Some (clientes db !! cid)) &&
  bool_decide (is_Some (vendedores db !! vid)) &&
  forallb (λ '(p, _, _), bool_decide (is_Some (produtos db !! p))) its.

Definition mk_items (first : Z) (its : list (Z * Z * num)) : list VendaItem.t :=
  imap (λ i '(p, q, pu), VendaItem.mk (first + Z.of_nat i) p q pu) its.

(** [prisma.venda.create({ data: { clienteId, vendedorId, total, status,
    items: { create } }, include })]: one atomic nested write. *)
Definition venda_create (cid vid : num) (total : num) (status : json)
    (items : list (num * num * num)) : M VendaFull := λ db,
  match (c ← int_of_num cid; s ← int_of_num vid; st ← status_arg status;
         its ← mapM item_arg items; mret (c, s, st, its)) with
  | inl e => (inl e, db)
  | inr (c, s, st, its) =>
      if venda_refs_ok db c s its then
        let id := seq db in
        let v := Venda.mk id c s total st (clock db) (mk_items (id + 1) its) in
        let db' := mkDB (clientes db) (materials db) (produtos db) (vendedores db)
                     (<[id := v]> (vendas db)) (orcamentos db)
                     (id + 1 + Z.of_nat (length its)) (cuid db) (clock db) in
        match vendas db !! id with
        | Some _ => (inl (PrismaErr UniqueViolation), db)
        | None => include include_full v db'
        end
      else (inl (PrismaErr ForeignKey), db)
  end.

(** [prisma.produto.update({ where: { id }, data: { estoque: { decrement
    } } })] *)
Definition estoque_decrement (pid q : num) : M Produto.t :=
  p ← check (int_of_num pid);
  d ← check (int_of_num q);
  update_row T_produtos p (λ r, e ← int_range (Produto.estoque r - d); mret (Produto.set_estoque e r)).

(** [prisma.produto.update({ where: { id }, data: { estoque: { increment
    } } })] *)
Definition estoque_increment (pid q : Z) : M Produto.t :=
  update_row T_produtos pid (λ r, e ← int_range (Produto.estoque r + q); mret (Produto.set_estoque e r)).

(** Deleting a sale is refused while it has items, unless they cascade. *)
Definition venda_referenced (db : DB) (k : Z) : bool :=
  negb (venda_items_cascade pol) &&
  match vendas db !! k with Some v => bool_decide (Venda.items v ≠ []) | None => false end.

(** ** The handlers *)

(** [data.items.reduce((acc, item) => acc + item.quantidade *
    item.precoUnit, 0)] *)
Fixpoint reduce_total (acc : num) (items : list json) : M num :=
  match items with
  | [] => mret acc
  | item :: rest =>
      q ← getp item "quantidade"; pu ← getp item "precoUnit";
      reduce_total (acc +ₙ js_mul q pu) rest
  end.

(** [data.items.map((item) => ({ produtoId: parseInt(item.produtoId),
    quantidade: parseInt(item.quantidade), precoUnit:
    parseFloat(item.precoUnit) }))] *)
Definition item_fields (item : json) : M (num * num * num) :=
  pid ← getp item "produtoId"; q ← getp item "quantidade"; pu ← getp item "precoUnit";
  mret (parse_int pid, parse_int q, parse_float pu).

(** [data.items.map((item) => prisma.produto.update(...decrement...))] *)
Definition item_decrement (item : json) : M (M Produto.t) :=
  pid ← getp item "produtoId"; q ← getp item "quantidade";
  mret (estoque_decrement (parse_int pid) (parse_int q)).

(** [POST /api/vendas] *)
Definition POST (req : option json) : M (response VendaFull) :=
  handle "Error creating venda" (
    data ← request_json req;
    items ← getp data "items" ≫= λ v, js (as_array v);
    total ← reduce_total (Fin 0) items;
    cid ← getp data "clienteId";
    vid ← getp data "vendedorId";
    status ← getp data "status";
    args ← st_mapM item_fields items;
    venda ← venda_create (parse_int cid) (parse_int vid) total status args;
    ups ← st_mapM item_decrement items;
    _ ← st_all ups;
    mret (json_ok venda)).

(** [GET /api/vendas]: [orderBy: { data: 'desc' }]. *)
Definition GET : M (response (list VendaRow)) :=
  handle "Error fetching vendas" (
    db ← st_gets id;
    rows ← st_mapM (include include_row) (merge_sort data_desc (map snd (map_to_list (vendas db))));
    mret (json_ok rows)).

(** [GET /api/vendas/[id]] *)
Definition GET_id (id : string) : M (response VendaFull) :=
  handle "Error fetching venda" (
    k ← where_int_id id;
    v ← find_unique T_vendas k;
    match v with
    | None => mret (json_error "Venda not found" 404)
    | Some v => full ← include include_full v; mret (json_ok full)
    end).

(** The value given for [status] in an update: absent leaves it. *)
Definition status_update_arg (v : json) : exn + option string :=
  match v with
  | JStr s => inr (Some s)
  | JUndef => inr None
  | _ => inl (PrismaErr Validation)
  end.

(** [PUT /api/vendas/[id]]: [data: { status: data.status }] only. *)
Definition PUT (id : string) (req : option json) : M (response Venda.t) :=
  handle "Error updating venda" (
    data ← request_json req;
    k ← where_int_id id;
    s ← getp data "status" ≫= λ v, check (status_update_arg v);
    v ← update_row T_vendas k (λ v, mret (match s with Some s => Venda.set_status s v | None => v end));
    mret (json_ok v)).

(** [DELETE /api/vendas/[id]] *)
Definition DELETE (id : string) : M (response unit) :=
  handle "Error deleting venda" (
    k ← where_int_id id;
    v ← find_unique T_vendas k;
    match v with
    | None => mret (json_error "Venda not found" 404)
    | Some v =>
        _ ← st_all (map (λ it, estoque_increment (VendaItem.produtoId it) (VendaItem.quantidade it))
                       (Venda.items v));
        _ ← delete_row T_vendas venda_referenced k;
        mret json_success
    end).
End vendas.

(** ** Proofs *)

(** [v.k] once it is known not to throw. *)
Definition propv (v : json) (k : string) : json :=
  match prop v k with inr x => x | inl _ => JUndef end.

(** A change of the stock of a product by [d] units. *)
Definition stock_move (d : Z) (r : Produto.t) : Produto.t :=
  Produto.set_estoque (Produto.estoque r + d) r.

(** The units of product [p] in a list of sale items. *)
Definition moved_qty (its : list VendaItem.t) (p : Z) : Z :=
  sumZ (λ it, if decide (VendaItem.produtoId it = p) then VendaItem.quantidade it else 0%Z) its.

Lemma stock_move_0 r : stock_move 0 r = r.
Proof. destruct r. unfold stock_move, Produto.set_estoque. simpl. by rewrite Z.add_0_r. Qed.

Lemma stock_move_twice a b r : stock_move a (stock_move b r) = stock_move (b + a) r.
Proof. destruct r. unfold stock_move, Produto.set_estoque. simpl. by rewrite Z.add_assoc. Qed.

(** A sequence of stock changes adds up per product. *)
Lemma foldl_stock_lookup (l : list (Z * Z)) (m : gmap Z Produto.t) p :
  foldl (λ m '(k, d), alter (stock_move d) k m) m l !! p =
  stock_move (sumZ (λ '(k, d), if decide (k = p) then d else 0%Z) l) <$> m !! p.
Proof.
  revert m. induction l as [|[k d] l IH]; intros m; cbn [foldl].
  - rewrite sumZ_nil. destruct (m !! p); simpl; by rewrite ?stock_move_0.
  - rewrite IH, sumZ_cons. cbv beta iota. rewrite lookup_alter. case_decide as Hkp; subst.
    + destruct (m !! p); simpl; [|done]. by rewrite stock_move_twice.
    + by rewrite Z.add_0_l.
Qed.

Lemma insert_alter_stock (m : gmap Z Produto.t) k r e :
  m !! k = Some r →
  <[k := Produto.set_estoque e r]> m = alter (stock_move (e - Produto.estoque r)) k m.
Proof.
  intros Hk. apply map_eq. intros j. rewrite lookup_insert, lookup_alter.
  case_decide; subst; [|done]. rewrite Hk. simpl. f_equal. destruct r.
  unfold stock_move, Produto.set_estoque. simpl. f_equal. lia.
Qed.

(** The arguments [item_fields] reads from a request item. *)
Definition item_fields_of (it : json) : num * num * num :=
  (parse_int (propv it "produtoId"), parse_int (propv it "quantidade"),
   parse_float (propv it "precoUnit")).

(** The line total of a stored sale item. *)
Definition line_total (it : VendaItem.t) : num :=
  num_of_Z (VendaItem.quantidade it) *ₙ VendaItem.precoUnit it.

(** A request item whose quantity is an integer JSON number (of fewer than
    22 digits) and whose unit price is a JSON number. *)
Definition item_numeric (it : json) : Prop :=
  ∃ q pu, propv it "quantidade" = JNum (num_of_Z q) ∧ (Z.abs q < 10 ^ 21)%Z ∧
          propv it "precoUnit" = JNum pu.

Lemma mk_items_cons n p q pu its :
  mk_items n ((p, q, pu) :: its) = VendaItem.mk n p q pu :: mk_items (n + 1) its.
Proof.
  unfold mk_items. rewrite imap_cons. simpl. rewrite Z.add_0_r. f_equal.
  apply imap_ext. intros i [[??]?] _. simpl. f_equal. lia.
Qed.

(** Replace the reads [v.k] that did not throw by [propv v k]. *)
Ltac propv_rw :=
  unfold propv; repeat match goal with E : prop _ _ = inr _ |- _ => rewrite E; clear E end.

Section vendas_proofs.
Context (pol : policy).

Lemma reduce_total_pure acc items : st_pure (reduce_total acc items).
Proof. revert acc; induction items; intros; simpl; auto with moveis. Qed.

Lemma item_fields_pure item : st_pure (item_fields item).
Proof. unfold item_fields. auto 10 with moveis. Qed.

Lemma item_decrement_pure item : st_pure (item_decrement item).
Proof. unfold item_decrement. auto 10 with moveis. Qed.

#[local] Hint Resolve reduce_total_pure item_fields_pure item_decrement_pure : moveis.

(** The steps of a POST that answered 200. *)
Lemma POST_ok req db r db' :
  POST pol req db = (inr r, db') → status r = 200%Z →
  ∃ data items total cid vid stat args full db1 ups rs,
    req = Some data ∧ prop data "items" = inr (JArr items) ∧
    reduce_total (Fin 0) items db = (inr total, db) ∧
    prop data "clienteId" = inr cid ∧ prop data "vendedorId" = inr vid ∧
    prop data "status" = inr stat ∧
    st_mapM item_fields items db = (inr args, db) ∧
    venda_create pol (parse_int cid) (parse_int vid) total stat args db = (inr full, db1) ∧
    st_mapM item_decrement items db1 = (inr ups, db1) ∧
    st_all ups db1 = (inr rs, db') ∧ r = json_ok full.
Proof.
  intros H Hs. unfold POST in H. apply handle_not_500 in H; [|by rewrite Hs].
  st_inv H. injection H as <- <-. st_inv E0. st_pure_subst. st_facts.
  destruct a9; simplify_eq/=.
  eexists _, _, _, _, _, _, _, _, _, _, _. naive_solver.
Qed.

Lemma reduce_total_run acc items db t db' :
  reduce_total acc items db = (inr t, db') →
  t = foldl (λ acc it, acc +ₙ js_mul (propv it "quantidade") (propv it "precoUnit")) acc items.
Proof.
  revert acc db db'. induction items as [|it items IH]; intros acc db db' H; simpl in *.
  - by injection H as <-.
  - st_inv H. st_pure_subst. st_facts. propv_rw. by eapply IH.
Qed.

Lemma item_fields_run items db args db' :
  st_mapM item_fields items db = (inr args, db') →
  args = map item_fields_of items.
Proof.
  revert db args db'. induction items as [|it items IH]; intros db args db' H; simpl in *.
  - by injection H as <-.
  - st_inv H. injection H as <- _. unfold item_fields in E. st_inv E.
    injection E as <- _. st_pure_subst. st_facts. unfold item_fields_of. propv_rw.
    f_equal. eapply IH; eassumption.
Qed.

Lemma item_decrement_run items db ups db' :
  st_mapM item_decrement items db = (inr ups, db') →
  ups = map (λ it, estoque_decrement (parse_int (propv it "produtoId"))
                     (parse_int (propv it "quantidade"))) items.
Proof.
  revert db ups db'. induction items as [|it items IH]; intros db ups db' H; simpl in *.
  - by injection H as <-.
  - st_inv H. injection H as <- _. unfold item_decrement in E. st_inv E.
    injection E as <- _. st_pure_subst. st_facts. propv_rw. f_equal. eapply IH; eassumption.
Qed.
End vendas_proofs.

Lemma include_full_venda db v f : include_full db v = Some f → vf_venda f = v.
Proof.
  unfold include_full. intros H.
  destruct (clientes db !! _), (vendedores db !! _); simplify_eq/=.
  destruct (mapM _ _); by simplify_eq/=.
Qed.

(** Each sale item of [mk_items] is the item of the request at its place. *)
Lemma moved_qty_mk_items n its p :
  moved_qty (mk_items n its) p =
  sumZ (λ '(k, q, _), if decide (k = p) then q else 0%Z) its.
Proof.
  revert n. induction its as [|[[k q] pu] its IH]; intros n; [done|].
  unfold moved_qty in *. rewrite mk_items_cons, !sumZ_cons, IH. done.
Qed.

Lemma stock_sum_decrements (its : list (Z * Z * num)) p :
  sumZ (λ '(k, d), if decide (k = p) then d else 0%Z) (map (λ '(k, q, _), (k, - q)%Z) its) =
  (- sumZ (λ '(k, q, _), if decide (k = p) then q else 0%Z) its)%Z.
Proof.
  induction its as [|[[k q] pu] its IH]; [done|]. simpl map. rewrite !sumZ_cons, IH.
  cbv beta iota. case_decide; lia.
Qed.

(** The foreign keys of a stored sale. *)
Definition venda_refs (db : DB) (v : Venda.t) : Prop :=
  is_Some (clientes db !! Venda.clienteId v) ∧ is_Some (vendedores db !! Venda.vendedorId v) ∧
  Forall (λ it, is_Some (produtos db !! VendaItem.produtoId it)) (Venda.items v).

Definition refs_ok (db : DB) : Prop := map_Forall (λ _ v, venda_refs db v) (vendas db).

Lemma venda_refs_ok_spec db c s its id t st d :
  venda_refs_ok db c s its = true →
  venda_refs db (Venda.mk id c s t st d (mk_items (id + 1) its)).
Proof.
  unfold venda_refs_ok, venda_refs. simpl. intros Hok.
  apply andb_prop in Hok as [Hok Hits]. apply andb_prop in Hok as [Hc Hs].
  apply bool_decide_eq_true in Hc, Hs. split_and!; [done|done|].
  generalize (id + 1)%Z. induction its as [|[[p q] pu] its IH]; intros n; [constructor|].
  rewrite mk_items_cons. simpl in Hits. apply andb_prop in Hits as [Hp Hits].
  constructor; [by apply bool_decide_eq_true in Hp|]. by apply IH.
Qed.

Section vendas_create_proofs.
Context (pol : policy).

Lemma venda_create_run cid vid total stat args db full db1 :
  venda_create pol cid vid total stat args db = (inr full, db1) →
  ∃ c s st its,
    int_of_num cid = inr c ∧ int_of_num vid = inr s ∧ status_arg pol stat = inr st ∧
    mapM item_arg args = inr its ∧ venda_refs_ok db c s its = true ∧
    vendas db !! seq db = None ∧
    vf_venda full = Venda.mk (seq db) c s total st (clock db) (mk_items (seq db + 1) its) ∧
    db1 = mkDB (clientes db) (materials db) (produtos db) (vendedores db)
            (<[seq db := Venda.mk (seq db) c s total st (clock db) (mk_items (seq db + 1) its)]>
               (vendas db))
            (orcamentos db) (seq db + 1 + Z.of_nat (length its)) (cuid db) (clock db).
Proof.
  unfold venda_create. intros H.
  destruct (c ← int_of_num cid; _) as [e|[[[c s] st] its]] eqn:Hargs; [done|].
  repeat (apply sum_bind_inr in Hargs as (? & ? & Hargs)).
  unfold mret, sum_ret in Hargs. simplify_eq.
  destruct (venda_refs_ok db _ _ _) eqn:Hrefs; [|done].
  destruct (vendas db !! seq db) eqn:Hid; [done|].
  unfold include in H. destruct (include_full _ _) eqn:Hinc; [|done].
  injection H as <- <-. apply include_full_venda in Hinc.
  eexists _, _, _, _. naive_solver.
Qed.

Lemma estoque_decrement_run pid q p d db r db' :
  int_of_num pid = inr p → int_of_num q = inr d →
  estoque_decrement pid q db = (inr r, db') →
  is_Some (produtos db !! p) ∧
  db' = set_produtos (alter (stock_move (- d)) p (produtos db)) db.
Proof.
  intros Hp Hq H. unfold estoque_decrement in H. st_inv H. st_pure_subst. st_facts.
  rewrite Hp in E. injection E as <-. rewrite Hq in E0. injection E0 as <-.
  unfold update_row in H. simpl in H.
  destruct (produtos db !! p) as [r0|] eqn:Hr0; simplify_eq/=.
  destruct (int_range (Produto.estoque r0 - d)) as [|e] eqn:He; simplify_eq/=.
  unfold int_range in He.
  destruct (_ && _); simplify_eq. split; [by eexists|].
  unfold set_produtos. f_equal. rewrite (insert_alter_stock _ _ r0); [|done].
  destruct r0; simpl. f_equal. f_equal. lia.
Qed.

(** The [Promise.all] of the decrements of a POST that answered. *)
Lemma decrements_run (l : list (num * num * num)) its db rs db' :
  mapM item_arg l = inr its →
  st_all (map (λ '(pid, q, _), estoque_decrement pid q) l) db = (inr rs, db') →
  db' = set_produtos (foldl (λ m '(k, d), alter (stock_move d) k m) (produtos db)
                        (map (λ '(k, q, _), (k, - q)%Z) its)) db.
Proof.
  revert its db rs. induction l as [|[[pid q] pu] l IH]; intros its db rs Hits H.
  - injection Hits as <-. injection H as _ <-. by destruct db.
  - simpl in Hits. apply sum_bind_inr in Hits as ([[p' q'] pu'] & Hit & Hits).
    apply sum_bind_inr in Hits as (its' & Hits & [= <-]).
    unfold item_arg in Hit. apply sum_bind_inr in Hit as (p & Hp & Hit).
    apply sum_bind_inr in Hit as (d & Hd & [= <- <- <-]).
    apply st_all_cons_inr in H as (a & s1 & r & H1 & H2 & _).
    apply (estoque_decrement_run _ _ p d) in H1 as [_ ->]; [|done|done].
    rewrite (IH its' _ r Hits H2). simpl. by rewrite ?produtos_set, ?set_produtos_twice.
Qed.
End vendas_create_proofs.

(** The request items of a sale agree with its stored items. *)
Lemma numeric_items_total items its n :
  Forall item_numeric items →
  mapM item_arg (map item_fields_of items) = inr its →
  sum_num (λ it, js_mul (propv it "quantidade") (propv it "precoUnit")) items ≡
  sum_num line_total (mk_items n its).
Proof.
  intros Hnum. revert its n.
  induction Hnum as [|it items (q & pu & Hq & Hqb & Hpu) _ IH]; intros its n Hits; simpl in Hits.
  - by injection Hits as <-.
  - apply sum_bind_inr in Hits as ([[p' q'] pu'] & Hit & Hits).
    apply sum_bind_inr in Hits as (its' & Hits & [= <-]).
    unfold item_arg, item_fields_of in Hit. rewrite Hq, Hpu in Hit.
    cbv beta iota in Hit. cbn [parse_int parse_float] in Hit.
    rewrite num_parse_int_Z in Hit by done.
    apply sum_bind_inr in Hit as (p & _ & Hit). apply sum_bind_inr in Hit as (d & Hd & [= <- <- <-]).
    apply int_of_num_Z in Hd as ->.
    rewrite mk_items_cons. simpl. rewrite Hq, Hpu. f_equiv. by apply IH.
Qed.

Section vendas_post.
Context (pol : policy).

(** What a POST that answered 200 did: the sale it created, and the
    store after the creation and the decrements. *)
Lemma POST_spec req db r db' :
  POST pol req db = (inr r, db') → status r = 200%Z →
  ∃ data items its full,
    req = Some data ∧ prop data "items" = inr (JArr items) ∧
    mapM item_arg (map item_fields_of items) = inr its ∧ r = json_ok full ∧
    Venda.total (vf_venda full) =
      foldl (λ acc it, acc +ₙ js_mul (propv it "quantidade") (propv it "precoUnit")) (Fin 0) items ∧
    Venda.id (vf_venda full) = seq db ∧
    Venda.items (vf_venda full) = mk_items (seq db + 1) its ∧
    vendas db !! seq db = None ∧ venda_refs db (vf_venda full) ∧
    db' = set_produtos (foldl (λ m '(k, d), alter (stock_move d) k m) (produtos db)
                          (map (λ '(k, q, _), (k, - q)%Z) its))
            (mkDB (clientes db) (materials db) (produtos db) (vendedores db)
               (<[seq db := vf_venda full]> (vendas db)) (orcamentos db)
               (seq db + 1 + Z.of_nat (length its)) (cuid db) (clock db)).
Proof.
  intros H Hs.
  destruct (POST_ok pol req db r db' H Hs) as (data & items & total & cid & vid & stat & args &
    full & db1 & ups & rs & Hreq & Hitems & Htot & _ & _ & _ & Hargs & Hcreate & Hups & Hall & ->).
  apply reduce_total_run in Htot as ->. apply item_fields_run in Hargs as ->.
  apply item_decrement_run in Hups as ->.
  apply venda_create_run in Hcreate as (c & s & st & its & _ & _ & _ & Hits & Hrefs & Hid & Hv & ->).
  rewrite (map_ext_in _ (λ it, (λ '(pid, q, _), estoque_decrement pid q) (item_fields_of it)))
    in Hall by done.
  rewrite <-(map_map item_fields_of (λ '(pid, q, _), estoque_decrement pid q)) in Hall.
  apply (decrements_run _ its) in Hall; [|done].
  exists data, items, its, full. rewrite Hv. simpl. split_and!; try done; first [by apply venda_refs_ok_spec|by rewrite Hall, Hv].
Qed.
End vendas_post.

End Vendas.
Export Vendas.

(** * The contract of the handlers and its refinement

    [sale_recorded] and [sale_removed] state on the tables alone what
    creating and deleting a sale promise; [POST] and [DELETE] of [Vendas]
    refine them, the total agrees with the lines for integer quantities,
    and the examples on a small store show where the code breaks the
    spec's contract. *)
(** ** The contract of the sale handlers

    What creating and deleting a sale promise to the rest of the store,
    stated on the tables alone.  [POST] refines [sale_recorded], [DELETE]
    refines [sale_removed] when items cascade, and the two compose to the
    identity on stock and sales. *)

(** The stock of every product moved by [d p] units, nothing else of the
    products changed, no product added or removed. *)
Definition stock_moved (d : Z → Z) (m m' : gmap Z Produto.t) : Prop :=
  ∀ p, m' !! p = stock_move (d p) <$> m !! p.

Definition others_unchanged (db db' : DB) : Prop :=
  clientes db' = clientes db ∧ vendedores db' = vendedores db ∧
  materials db' = materials db ∧ orcamentos db' = orcamentos db.

Definition sale_recorded (db db' : DB) (k : Z) (v : Venda.t) : Prop :=
  vendas db !! k = None ∧
  vendas db' = <[k := v]> (vendas db) ∧
  stock_moved (λ p, - moved_qty (Venda.items v) p)%Z (produtos db) (produtos db') ∧
  others_unchanged db db'.

Definition sale_removed (db db' : DB) (k : Z) (v : Venda.t) : Prop :=
  vendas db !! k = Some v ∧
  vendas db' = delete k (vendas db) ∧
  stock_moved (λ p, moved_qty (Venda.items v) p) (produtos db) (produtos db') ∧
  others_unchanged db db'.

Lemma stock_moved_compose d1 d2 m1 m2 m3 :
  stock_moved d1 m1 m2 → stock_moved d2 m2 m3 → stock_moved (λ p, d1 p + d2 p)%Z m1 m3.
Proof.
  intros H1 H2 p. rewrite H2, H1. destruct (m1 !! p); simpl; [|done].
  by rewrite stock_move_twice.
Qed.

Lemma stock_moved_zero d m m' : stock_moved d m m' → (∀ p, d p = 0%Z) → m' = m.
Proof.
  intros H Hd. apply map_eq. intros p. rewrite H, Hd.
  destruct (m !! p); simpl; by rewrite ?stock_move_0.
Qed.

(** Recording a sale and then removing it gives back the stock and the
    sales. *)
Lemma sale_recorded_removed db db1 db2 k v :
  sale_recorded db db1 k v → sale_removed db1 db2 k v →
  produtos db2 = produtos db ∧ vendas db2 = vendas db ∧ others_unchanged db db2.
Proof.
  intros (Hnone & Hv1 & Hs1 & Ho1) (_ & Hv2 & Hs2 & Ho2). split_and!.
  - eapply stock_moved_zero; [by eapply stock_moved_compose|]. simpl. lia.
  - rewrite Hv2, Hv1. by apply delete_insert_id.
  - destruct Ho1 as (?&?&?&?), Ho2 as (?&?&?&?). unfold others_unchanged. split_and!; congruence.
Qed.

Lemma stock_sum_items (its : list VendaItem.t) p :
  sumZ (λ '(k, d), if decide (k = p) then d else 0%Z)
    (map (λ it, (VendaItem.produtoId it, VendaItem.quantidade it)) its) = moved_qty its p.
Proof. induction its as [|it its IH]; [done|]. simpl map. by rewrite !sumZ_cons, IH. Qed.

(** [POST] refines [sale_recorded]: the sale goes under the next value of
    the sequence, and its foreign keys held when it was created. *)
Lemma POST_sale_recorded pol req db r db' :
  POST pol req db = (inr r, db') → status r = 200%Z →
  ∃ full, r = json_ok full ∧ Venda.id (vf_venda full) = seq db ∧
    venda_refs db (vf_venda full) ∧ sale_recorded db db' (seq db) (vf_venda full).
Proof.
  intros H Hs.
  destruct (POST_spec pol req db r db' H Hs)
    as (data & items & its & full & _ & _ & Hits & -> & _ & Hid & Hitems & Hnone & Hrefs & ->).
  exists full. unfold sale_recorded. split_and!; try done.
  intros p. simpl. by rewrite foldl_stock_lookup, stock_sum_decrements, Hitems, moved_qty_mk_items.
Qed.

Section vendas_delete_proofs.
Context (pol : policy).

Lemma estoque_increment_run p d db r db' :
  estoque_increment p d db = (inr r, db') →
  db' = set_produtos (alter (stock_move d) p (produtos db)) db.
Proof.
  unfold estoque_increment, update_row. simpl.
  destruct (produtos db !! p) as [r0|] eqn:Hr0; [|done].
  destruct (int_range (Produto.estoque r0 + d)) as [|e] eqn:He; simpl; [done|].
  intros [= _ <-]. unfold int_range in He. destruct (_ && _); simplify_eq.
  unfold set_produtos. f_equal. rewrite (insert_alter_stock _ _ r0); [|done].
  destruct r0; simpl. f_equal. f_equal. lia.
Qed.

Lemma increments_run (its : list VendaItem.t) db rs db' :
  st_all (map (λ it, estoque_increment (VendaItem.produtoId it) (VendaItem.quantidade it)) its) db
    = (inr rs, db') →
  db' = set_produtos (foldl (λ m '(k, d), alter (stock_move d) k m) (produtos db)
          (map (λ it, (VendaItem.produtoId it, VendaItem.quantidade it)) its)) db.
Proof.
  revert db rs. induction its as [|it its IH]; intros db rs H.
  - simpl in H. injection H as _ <-. by destruct db.
  - apply st_all_cons_inr in H as (a & s1 & r & H1 & H2 & _).
    apply estoque_increment_run in H1 as ->. rewrite (IH _ r H2). simpl.
    by rewrite ?produtos_set, ?set_produtos_twice.
Qed.

(** The steps of a DELETE that answered 200. *)
Lemma DELETE_ok id db r db' :
  DELETE pol id db = (inr r, db') → status r = 200%Z →
  ∃ k v db1 rs w,
    int_of_num (parse_int_str id) = inr k ∧ vendas db !! k = Some v ∧
    st_all (map (λ it, estoque_increment (VendaItem.produtoId it) (VendaItem.quantidade it))
              (Venda.items v)) db = (inr rs, db1) ∧
    delete_row T_vendas (venda_referenced pol) k db1 = (inr w, db') ∧ r = json_success.
Proof.
  intros H Hs. unfold DELETE in H. apply handle_not_500 in H; [|by rewrite Hs].
  st_inv H. st_pure_subst. st_facts. unfold find_unique, st_gets in E0. simpl in E0.
  injection E0 as <- <-. destruct (vendas db !! a) as [v|] eqn:Hv; [|by injection H as <-].
  st_inv H. injection H as <- <-. eexists _, _, _, _, _. naive_solver.
Qed.

(** [DELETE] refines [sale_removed] whatever the schema does with the
    items: under [Restrict] it only answers 200 for a sale without items. *)
Lemma DELETE_removed id db r db' :
  DELETE pol id db = (inr r, db') → status r = 200%Z →
  ∃ k v, int_of_num (parse_int_str id) = inr k ∧ sale_removed db db' k v.
Proof.
  intros H Hs. destruct (DELETE_ok id db r db' H Hs) as (k & v & db1 & rs & w & Hk & Hv & Hinc & Hdel & _).
  apply increments_run in Hinc as ->. unfold delete_row in Hdel. simpl in Hdel.
  rewrite Hv in Hdel. destruct (venda_referenced pol _ k); [done|].
  injection Hdel as _ <-. exists k, v. split; [done|]. split_and!; try done.
  intros p. simpl. by rewrite foldl_stock_lookup, stock_sum_items.
Qed.
End vendas_delete_proofs.

(** ** A store to run the handlers on

    Client 1, seller 2 and product 3 (five units at 100), sale ids from 10;
    a sale request of one line of product 3 at 10.5 a unit. *)
Definition cliente_ex : Cliente.t :=
  Cliente.mk 1 "Ana" None "11" (Some "123") None None None None None.
Definition vendedor_ex : Vendedor.t :=
  Vendedor.mk 2 "Carlos" "carlos@moveisplus.com" "22" (Fin 5) (Fin 50000) "Ativo".
Definition produto_ex : Produto.t := Produto.mk 3 "Mesa" "Sala" (Fin 100) 5 "Silva".
Definition db_ex : DB :=
  mkDB {[1%Z := cliente_ex]} ∅ {[3%Z := produto_ex]} {[2%Z := vendedor_ex]} ∅ ∅ 10 0 1000.
Definition pol_ex : policy := Policy (Some "Concluida") true.
Definition pol_restrict : policy := Policy (Some "Concluida") false.
Definition item_ex (q : json) : json :=
  JObj [("produtoId", JNum (num_of_Z 3)); ("quantidade", q); ("precoUnit", JNum (Fin (21 # 2)))].
Definition req_ex (q : json) : option json :=
  Some (JObj [("clienteId", JStr "1"); ("vendedorId", JNum (num_of_Z 2)); ("items", JArr [item_ex q])]).

Section vendas_claims.
Context (pol : policy).

(** C1. When [POST /api/vendas] answers 200 it has recorded the sale under
    a fresh id, decremented the stock of every product by the units of the
    sale's lines for that product, and changed no other table: the handler
    refines [sale_recorded]. *)
Theorem POST_venda_recorded req db r db' :
  POST pol req db = (inr r, db') → status r = 200%Z →
  ∃ full, r = json_ok full ∧ Venda.id (vf_venda full) = seq db ∧
    sale_recorded db db' (Venda.id (vf_venda full)) (vf_venda full).
Proof.
  intros H Hs. destruct (POST_sale_recorded pol req db r db' H Hs) as (full & -> & Hid & _ & Hrec).
  exists full. by rewrite Hid.
Qed.

(** C2. When every line of the request gives its quantity as an integer
    number of absolute value below [10^21] (the numbers [parseInt] reads
    back unchanged; larger ones are stored as one digit,
    [item_fields_huge_quantity]) and its
    unit price as a number, the total the handler computes with [reduce]
    equals the sum of quantity times unit price over the stored items of
    the sale. *)
Theorem POST_venda_total req db r db' data items :
  POST pol req db = (inr r, db') → status r = 200%Z →
  req = Some data → prop data "items" = inr (JArr items) → Forall item_numeric items →
  ∃ full, r = json_ok full ∧ vendas db' !! Venda.id (vf_venda full) = Some (vf_venda full) ∧
    Venda.total (vf_venda full) ≡ sum_num line_total (Venda.items (vf_venda full)).
Proof.
  intros H Hs Hreq Hitems Hnum.
  destruct (POST_spec pol req db r db' H Hs)
    as (data' & items' & its & full & Hreq' & Hitems' & Hits & -> & Htot & Hid & Hitems2 & _ & _ & ->).
  rewrite Hreq in Hreq'. injection Hreq' as <-. rewrite Hitems in Hitems'. injection Hitems' as <-.
  exists full. split_and!; [done| |].
  - simpl. rewrite Hid. apply lookup_insert_eq.
  - rewrite Htot, foldl_sum_num, num_add_0_l, Hitems2. by apply numeric_items_total.
Qed.

(** C3. Creating a sale and then deleting it through its id gives back the
    stock of every product and the sales table exactly, and leaves the
    other tables as they were, whatever the schema does with the items. *)
Theorem POST_DELETE_roundtrip req id db r db1 r2 db2 full :
  POST pol req db = (inr r, db1) → status r = 200%Z → r = json_ok full →
  parse_int_str id = num_of_Z (Venda.id (vf_venda full)) →
  DELETE pol id db1 = (inr r2, db2) → status r2 = 200%Z →
  produtos db2 = produtos db ∧ vendas db2 = vendas db ∧ others_unchanged db db2.
Proof.
  intros H1 Hs1 -> Hid H2 Hs2.
  destruct (POST_sale_recorded pol _ _ _ _ H1 Hs1) as (full' & [= <-] & Hid' & _ & Hrec).
  rewrite <-Hid' in Hrec.
  destruct (DELETE_removed pol id db1 r2 db2 H2 Hs2) as (k & v & Hk & Hrem).
  rewrite Hid in Hk. apply int_of_num_Z in Hk as ->.
  assert (v = vf_venda full) as ->.
  { destruct Hrec as (_ & Hv1 & _), Hrem as (Hv & _). rewrite Hv1, lookup_insert_eq in Hv. congruence. }
  by eapply sale_recorded_removed.
Qed.
End vendas_claims.

(** Witness of C1: a sale of three units of product 3. *)
Lemma POST_venda_recorded_witness :
  ∃ r db', POST pol_ex (req_ex (JNum (num_of_Z 3))) db_ex = (inr r, db') ∧ status r = 200%Z ∧
    ∃ full, r = json_ok full ∧ Venda.id (vf_venda full) = seq db_ex ∧
      sale_recorded db_ex db' (Venda.id (vf_venda full)) (vf_venda full).
Proof.
  destruct (POST pol_ex (req_ex (JNum (num_of_Z 3))) db_ex) as [[e|r] db'] eqn:E;
    [vm_compute in E; discriminate E|].
  assert (Hs : status r = 200%Z) by (vm_compute in E; injection E as <- _; reflexivity).
  exists r, db'. split_and!; [done|done|]. exact (POST_venda_recorded pol_ex _ _ _ _ E Hs).
Defined.

(** Witness of C2: the same sale, with an integer quantity and a numeric
    unit price. *)
Lemma POST_venda_total_witness :
  ∃ r db', POST pol_ex (req_ex (JNum (num_of_Z 3))) db_ex = (inr r, db') ∧ status r = 200%Z ∧
    ∃ full, r = json_ok full ∧ vendas db' !! Venda.id (vf_venda full) = Some (vf_venda full) ∧
      Venda.total (vf_venda full) ≡ sum_num line_total (Venda.items (vf_venda full)).
Proof.
  destruct (POST pol_ex (req_ex (JNum (num_of_Z 3))) db_ex) as [[e|r] db'] eqn:E;
    [vm_compute in E; discriminate E|].
  assert (Hs : status r = 200%Z) by (vm_compute in E; injection E as <- _; reflexivity).
  exists r, db'. split_and!; [done|done|].
  refine (POST_venda_total pol_ex _ _ _ _ _ [item_ex (JNum (num_of_Z 3))] E Hs eq_refl eq_refl _).
  constructor; [|constructor]. exists 3%Z, (Fin (21 # 2)). split_and!; reflexivity.
Defined.

(** Witness of C3: the sale of three units is created as sale 10, and
    [DELETE /api/vendas/10] removes it. *)
Lemma POST_DELETE_roundtrip_witness :
  ∃ r db1 r2 db2 full,
    POST pol_ex (req_ex (JNum (num_of_Z 3))) db_ex = (inr r, db1) ∧ status r = 200%Z ∧
    r = json_ok full ∧ parse_int_str "10" = num_of_Z (Venda.id (vf_venda full)) ∧
    DELETE pol_ex "10" db1 = (inr r2, db2) ∧ status r2 = 200%Z ∧
    produtos db2 = produtos db_ex ∧ vendas db2 = vendas db_ex ∧ others_unchanged db_ex db2.
Proof.
  destruct (POST pol_ex (req_ex (JNum (num_of_Z 3))) db_ex) as [[e|r] db1] eqn:E1;
    [vm_compute in E1; discriminate E1|].
  pose proof E1 as E1'. vm_compute in E1'. injection E1' as Hr Hdb1.
  destruct (DELETE pol_ex "10" db1) as [[e|r2] db2] eqn:E2;
    [subst db1; vm_compute in E2; discriminate E2|].
  pose proof E2 as E2'. subst db1. vm_compute in E2'. injection E2' as Hr2 Hdb2.
  subst r r2.
  pose proof (POST_DELETE_roundtrip pol_ex _ "10" _ _ _ _ _ _ E1 eq_refl eq_refl eq_refl E2 eq_refl)
    as (Hp & Hv & Ho).
  eexists _, _, _, db2, _. split_and!; [exact E1|reflexivity|reflexivity|reflexivity
    |exact E2|reflexivity|exact Hp|exact Hv|exact Ho].
Defined.

(** The handler never checks the stock it decrements: from five units
    of product 3, two sales of three units each are both accepted, and the
    stock of the product becomes -1.  The spec requires the second sale to
    fail with InsufficientStock. *)
Example POST_venda_overdraw :
  let s1 := POST pol_ex (req_ex (JNum (num_of_Z 3))) db_ex in
  let s2 := POST pol_ex (req_ex (JNum (num_of_Z 3))) (snd s1) in
  answer_status (fst s1) = 200%Z ∧ answer_status (fst s2) = 200%Z ∧
  Produto.estoque <$> produtos (snd s2) !! 3%Z = Some (-1)%Z.
Proof. vm_compute. split_and!; reflexivity. Qed.

(** The total is computed from the raw request values while the items
    are stored with [parseInt] quantities: a quantity of 2.5 is accepted,
    the item is stored with quantity 2, and the sale's total (26.25) is not
    the sum of its lines (21). *)
Example POST_venda_total_fractional :
  ∃ full, fst (POST pol_ex (req_ex (JNum (Fin (5 # 2)))) db_ex) = inr (json_ok full) ∧
    ¬ (Venda.total (vf_venda full) ≡ sum_num line_total (Venda.items (vf_venda full))).
Proof.
  eexists. split; [vm_compute; reflexivity|]. vm_compute. discriminate.
Qed.

(** When deleting a sale is refused while it has items (no cascade),
    [DELETE] answers 500 after it has already put the units back: the sale
    is still recorded and the stock counts its units twice. *)
Example DELETE_venda_restrict_inflates :
  let db1 := snd (POST pol_restrict (req_ex (JNum (num_of_Z 3))) db_ex) in
  let s := DELETE pol_restrict "10" db1 in
  Produto.estoque <$> produtos db1 !! 3%Z = Some 2%Z ∧
  answer_status (fst s) = 500%Z ∧
  Produto.estoque <$> produtos (snd s) !! 3%Z = Some 5%Z ∧
  is_Some (vendas (snd s) !! 10%Z).
Proof. vm_compute. split_and!; try reflexivity. by eexists. Qed.

(** * Reads, updates and sequences of requests

    [GET], [GET_id] and [PUT] of [Vendas] (the reads never change the
    store; [PUT] changes the status only), the step relation [venda_step]
    of answered requests with the stock ledger it keeps, proved by rule
    induction, the error answers of the [[id]]
    routes, and the bound on [parseInt] of huge quantities. *)
(** ** Reading, updating, and the invariants of the sales table *)

Lemma include_pure {A} (inc : DB → Venda.t → option A) v : st_pure (include inc v).
Proof. intros s. unfold include. by destruct (inc s v). Qed.

Lemma find_unique_pure {K V} `{Countable K} (T : table K V) k : st_pure (find_unique T k).
Proof. done. Qed.

#[export] Hint Resolve include_pure find_unique_pure : moveis.

(** The reads never change the store. *)
Lemma GET_pure : st_pure GET.
Proof. unfold GET. auto 20 with moveis. Qed.

Lemma GET_id_pure id : st_pure (GET_id id).
Proof.
  unfold GET_id. apply handle_pure. apply st_pure_bind; [auto with moveis|]. intros k.
  apply st_pure_bind; [auto with moveis|]. intros [v|]; auto 10 with moveis.
Qed.

Lemma include_row_venda db v row : include_row db v = Some row → vr_venda row = v.
Proof.
  unfold include_row. intros H.
  destruct (clientes db !! _), (vendedores db !! _); simplify_eq/=.
  destruct (mapM _ _); by simplify_eq/=.
Qed.

Lemma include_rows_run (l : list Venda.t) db rows db' :
  st_mapM (include include_row) l db = (inr rows, db') → map vr_venda rows = l.
Proof.
  revert db rows db'. induction l as [|v l IH]; intros db rows db' H; simpl in H.
  - by injection H as <-.
  - st_inv H. injection H as <- _. unfold include in E.
    destruct (include_row db v) eqn:Hr; [|done]. injection E as <- <-.
    simpl. f_equal; [by eapply include_row_venda|]. by eapply IH.
Qed.

#[export] Instance data_desc_total : Total data_desc.
Proof. intros a b. unfold data_desc. lia. Qed.


(** The units of product [p] held by the recorded sales. *)
Definition sold (db : DB) (p : Z) : Z :=
  sumZ (λ kv, moved_qty (Venda.items kv.2) p) (map_to_list (vendas db)).

(** Stock plus units sold: what sale handlers must conserve. *)
Definition ledger (db : DB) (p : Z) : option Z :=
  (λ r, Produto.estoque r + sold db p)%Z <$> produtos db !! p.

Lemma sold_insert db db' k v p :
  vendas db !! k = None → vendas db' = <[k := v]> (vendas db) →
  sold db' p = (moved_qty (Venda.items v) p + sold db p)%Z.
Proof.
  intros Hk Hv. unfold sold. rewrite Hv, map_to_list_insert by done. by rewrite sumZ_cons.
Qed.

Lemma sold_delete db db' k v p :
  vendas db !! k = Some v → vendas db' = delete k (vendas db) →
  sold db p = (moved_qty (Venda.items v) p + sold db' p)%Z.
Proof.
  intros Hk Hv. unfold sold. rewrite <-(insert_delete_id (vendas db) k v) at 1 by done.
  rewrite map_to_list_insert by apply lookup_delete_eq. by rewrite sumZ_cons, Hv.
Qed.

Lemma ledger_recorded db db' k v p :
  sale_recorded db db' k v → ledger db' p = ledger db p.
Proof.
  intros (Hk & Hv & Hs & _). unfold ledger. rewrite Hs, (sold_insert db db' k v) by done.
  destruct (produtos db !! p); simpl; [|done]. f_equal. unfold stock_move. destruct t; simpl. lia.
Qed.

Lemma ledger_removed db db' k v p :
  sale_removed db db' k v → ledger db' p = ledger db p.
Proof.
  intros (Hk & Hv & Hs & _). unfold ledger. rewrite Hs, (sold_delete db db' k v) by done.
  destruct (produtos db !! p); simpl; [|done]. f_equal. unfold stock_move. destruct t; simpl. lia.
Qed.

Section vendas_more_proofs.
Context (pol : policy).

(** A PUT that did not fail set the status of one existing sale, to the
    string the request gives or to the one it had. *)
Lemma PUT_success id req db r db' :
  PUT id req db = (inr r, db') → status r ≠ 500%Z →
  ∃ data k v s, req = Some data ∧ int_of_num (parse_int_str id) = inr k ∧
    vendas db !! k = Some v ∧
    (prop data "status" = inr (JStr s) ∨ prop data "status" = inr JUndef ∧ s = Venda.status v) ∧
    r = json_ok (Venda.set_status s v) ∧
    db' = set_vendas (<[k := Venda.set_status s v]> (vendas db)) db.
Proof.
  intros H H5. unfold PUT in H. apply handle_not_500 in H; [|done].
  st_inv H. injection H as <- <-. st_inv E1. st_pure_subst. st_facts.
  unfold update_row in E2. simpl in E2. destruct (vendas db !! a0) as [v|] eqn:Hv; [|done].
  injection E2 as <- <-. exists a, a0, v, (default (Venda.status v) a1).
  destruct a3; simpl in E1; try discriminate E1; injection E1 as <-; simpl;
    split_and!; try naive_solver; by destruct v.
Qed.

(** A PUT changes at most the status of one sale. *)
Lemma PUT_effect id req db r db' :
  PUT id req db = (inr r, db') →
  db' = db ∨ ∃ k v s, vendas db !! k = Some v ∧
    db' = set_vendas (<[k := Venda.set_status s v]> (vendas db)) db.
Proof.
  intros H. destruct (decide (status r = 500%Z)) as [H5|H5].
  - left. unfold PUT in H. apply handle_inv in H as [H|(e & H & _)].
    + st_inv H. injection H as <- _. discriminate H5.
    + st_inv H; try discriminate H; try (injection H as _ <-); st_pure_subst; try done.
      by eapply update_row_atomic.
  - right. apply PUT_success in H as (_ & k & v & s & _ & _ & Hv & _ & _ & ->); [|done]. eauto.
Qed.

End vendas_more_proofs.


(** Foreign keys survive when no client, seller or product disappears. *)
Lemma venda_refs_mono db db' v :
  (∀ c, is_Some (clientes db !! c) → is_Some (clientes db' !! c)) →
  (∀ c, is_Some (vendedores db !! c) → is_Some (vendedores db' !! c)) →
  (∀ c, is_Some (produtos db !! c) → is_Some (produtos db' !! c)) →
  venda_refs db v → venda_refs db' v.
Proof.
  intros Hc Hs Hp (H1 & H2 & H3). split_and!; auto. eapply Forall_impl; [done|]. auto.
Qed.

Lemma stock_moved_dom d m m' p : stock_moved d m m' → is_Some (m !! p) → is_Some (m' !! p).
Proof. intros H [r Hr]. rewrite H, Hr. by eexists. Qed.

Lemma include_row_some db v : venda_refs db v → ∃ row, include_row db v = Some row.
Proof.
  intros ([c Hc] & [s Hs] & Hits). unfold include_row. rewrite Hc, Hs. simpl.
  destruct (mapM _ (Venda.items v)) eqn:Hm; [by eexists|].
  apply mapM_None in Hm. apply Exists_exists in Hm as (it & Hin & Hit).
  destruct (proj1 (Forall_forall _ _) Hits it Hin) as [r Hr]. by rewrite Hr in Hit.
Qed.

(** ** Sequences of requests

    The sale routes as a transition system on the store: a POST or a
    DELETE that answered 200, and any PUT, GET or GET by id.  A POST or a
    DELETE that failed is left out: it may have committed some of its
    Prisma calls (see [POST_venda_partial]). *)
Inductive venda_step (pol : policy) : DB → DB → Prop :=
  | step_POST req db r db' :
      POST pol req db = (inr r, db') → status r = 200%Z → venda_step pol db db'
  | step_DELETE id db r db' :
      DELETE pol id db = (inr r, db') → status r = 200%Z → venda_step pol db db'
  | step_PUT id req db r db' : PUT id req db = (inr r, db') → venda_step pol db db'
  | step_GET db r db' : GET db = (inr r, db') → venda_step pol db db'
  | step_GET_id id db r db' : GET_id id db = (inr r, db') → venda_step pol db db'.

Lemma sold_set_status db db' k v s p :
  vendas db !! k = Some v → vendas db' = <[k := Venda.set_status s v]> (vendas db) →
  sold db' p = sold db p.
Proof.
  intros Hk Hv. unfold sold. rewrite Hv, <-insert_delete_eq.
  rewrite <-(insert_delete_id (vendas db) k v) at 2 by done.
  rewrite !map_to_list_insert by apply lookup_delete_eq. by rewrite !sumZ_cons.
Qed.

(** A transition is a store that did not change, a sale that was recorded
    or removed, or the status of a sale that was set. *)
Lemma venda_step_cases pol db db' :
  venda_step pol db db' →
  db' = db ∨ (∃ k v, sale_recorded db db' k v ∧ venda_refs db v) ∨ (∃ k v, sale_removed db db' k v) ∨
  ∃ k v s, vendas db !! k = Some v ∧ db' = set_vendas (<[k := Venda.set_status s v]> (vendas db)) db.
Proof.
  destruct 1 as [req db r db' H Hs|id db r db' H Hs|id req db r db' H|db r db' H|id db r db' H].
  - apply POST_sale_recorded in H as (full & _ & _ & Hrefs & Hrec); [|done]. eauto 10.
  - apply DELETE_removed in H as (k & v & _ & Hrem); [|done]. eauto 10.
  - apply PUT_effect in H as [->|?]; eauto 10.
  - left. exact (st_pure_run _ _ _ _ GET_pure H).
  - left. exact (st_pure_run _ _ _ _ (GET_id_pure id) H).
Qed.

Lemma venda_step_ledger pol db db' p : venda_step pol db db' → ledger db' p = ledger db p.
Proof.
  intros Hst.
  destruct (venda_step_cases pol db db' Hst) as [->|[(k & v & Hrec & _)|[(k & v & Hrem)|(k & v & s & Hv & ->)]]].
  - done.
  - by eapply ledger_recorded.
  - by eapply ledger_removed.
  - unfold ledger. by rewrite (sold_set_status db _ k v s).
Qed.

#[export] Instance venda_refs_dec db v : Decision (venda_refs db v).
Proof. unfold venda_refs. apply _. Defined.

#[export] Instance refs_ok_dec db : Decision (refs_ok db).
Proof. unfold refs_ok. apply _. Defined.

(** Every sale of a store whose foreign keys hold is shown by the list. *)
Lemma GET_rows db :
  refs_ok db →
  ∃ rows, GET db = (inr (json_ok rows), db) ∧
    map vr_venda rows = merge_sort data_desc (map snd (map_to_list (vendas db))).
Proof.
  intros Hok. unfold GET, handle, st_catch.
  rewrite (st_bind_inr _ _ db db db) by done.
  destruct (st_mapM_total (include include_row) (merge_sort data_desc (map snd (map_to_list (vendas db)))) db)
    as [rows Hrows].
  { intros v Hin. rewrite merge_sort_Permutation in Hin.
    apply list_elem_of_In, in_map_iff in Hin as ([k v'] & <- & Hin).
    apply list_elem_of_In, elem_of_map_to_list in Hin.
    destruct (include_row_some db v') as [row Hrow]; [exact (Hok k v' Hin)|].
    exists row. unfold include. simpl. by rewrite Hrow. }
  exists rows. rewrite (st_bind_inr _ _ db rows db Hrows). split; [done|].
  by eapply include_rows_run.
Qed.

(** The example store after the sale of three tables: sale 10 recorded,
    two tables left. *)
Definition db_ex1 : DB := Eval vm_compute in snd (POST pol_ex (req_ex (JNum (num_of_Z 3))) db_ex).

Section vendas_store_claims.
Context (pol : policy).

(** C4. Along any sequence of sale requests that answered (POSTs and
    DELETEs with 200, any PUT or GET), the stock of every product plus the
    units of it held by the recorded sales stays the same: sales move
    units between the stock and the sales, never create or lose them. *)
Theorem venda_ledger_conserved db db' p :
  rtc (venda_step pol) db db' → ledger db' p = ledger db p.
Proof.
  induction 1 as [|db1 db2 db3 Hst _ IH]; [done|].
  rewrite IH. by eapply venda_step_ledger.
Qed.

(** While the foreign keys hold, [GET /api/vendas] answers 200 with
    every recorded sale exactly once, most recent first, and changes
    nothing. *)
Theorem GET_vendas_sorted db :
  refs_ok db →
  ∃ rows, GET db = (inr (json_ok rows), db) ∧
    Sorted data_desc (map vr_venda rows) ∧ map vr_venda rows ≡ₚ map snd (map_to_list (vendas db)).
Proof.
  intros Hok. destruct (GET_rows db Hok) as (rows & Hget & Hmap).
  exists rows. rewrite Hmap. split_and!; [done|apply (Sorted_merge_sort _)|apply merge_sort_Permutation].
Qed.

(** C6. A [PUT /api/vendas/[id]] that answered 200 set the status of the
    sale with that id to the request's [status] (kept when the request has
    none) and changed nothing else: not the total, not the items, not the
    stock. *)
Theorem PUT_venda_status_only id req db r db' :
  PUT id req db = (inr r, db') → status r = 200%Z →
  ∃ data k v s, req = Some data ∧ int_of_num (parse_int_str id) = inr k ∧ vendas db !! k = Some v ∧
    (prop data "status" = inr (JStr s) ∨ prop data "status" = inr JUndef ∧ s = Venda.status v) ∧
    r = json_ok (Venda.set_status s v) ∧
    vendas db' = <[k := Venda.set_status s v]> (vendas db) ∧
    produtos db' = produtos db ∧ others_unchanged db db'.
Proof.
  intros H Hs. apply PUT_success in H as (data & k & v & s & ? & ? & ? & ? & ? & ->); [|by rewrite Hs].
  exists data, k, v, s. by split_and!.
Qed.

(** [DELETE /api/vendas/[id]] of an id that no sale has answers 404 and
    changes nothing. *)
Theorem DELETE_venda_missing id db k :
  int_of_num (parse_int_str id) = inr k → vendas db !! k = None →
  DELETE pol id db = (inr (json_error "Venda not found" 404), db).
Proof.
  intros Hk Hv. unfold DELETE, handle, st_catch.
  rewrite (st_bind_inr _ _ db k db) by (unfold where_int_id, check, st_lift; by rewrite Hk).
  rewrite (st_bind_inr _ _ db None db) by (unfold find_unique, st_gets; simpl; by rewrite Hv).
  done.
Qed.

(** An id that is not a number ([parseInt] gives [NaN]) makes the
    GET, PUT and DELETE of [/api/vendas/[id]] answer 500 with nothing
    changed, where the contract asks for 404 (or a validation error). *)
Theorem venda_id_not_numeric id req db :
  parse_int_str id = NaN →
  GET_id id db = (inr (json_error "Error fetching venda" 500), db) ∧
  PUT id req db = (inr (json_error "Error updating venda" 500), db) ∧
  DELETE pol id db = (inr (json_error "Error deleting venda" 500), db).
Proof.
  intros Hn. pose proof (where_int_id_nan id db Hn) as Hw.
  unfold GET_id, PUT, DELETE, handle, st_catch. split_and!.
  - by rewrite (st_bind_inl _ _ db _ db Hw).
  - destruct req as [data|]; [|done]. rewrite (st_bind_inr _ _ db data db) by done.
    by rewrite (st_bind_inl _ _ db _ db Hw).
  - by rewrite (st_bind_inl _ _ db _ db Hw).
Qed.

(** C7. The error paths of [/api/vendas/[id]]: DELETE of an id no
    sale has answers 404 and changes nothing; an id that is not a number
    ([parseInt] gives [NaN]) makes GET, PUT and DELETE answer 500 with
    nothing changed, where the contract asks for 404 (or a validation
    error). *)
Theorem venda_id_errors id req db :
  (∀ k, int_of_num (parse_int_str id) = inr k → vendas db !! k = None →
     DELETE pol id db = (inr (json_error "Venda not found" 404), db)) ∧
  (parse_int_str id = NaN →
     GET_id id db = (inr (json_error "Error fetching venda" 500), db) ∧
     PUT id req db = (inr (json_error "Error updating venda" 500), db) ∧
     DELETE pol id db = (inr (json_error "Error deleting venda" 500), db)).
Proof. split; [intros k; apply DELETE_venda_missing|apply venda_id_not_numeric]. Qed.
End vendas_store_claims.

Definition req_status (s : string) : option json := Some (JObj [("status", JStr s)]).

Ltac refs_ok_decide := apply (bool_decide_unpack _); vm_compute; exact I.

(** The sale of three tables and then its status set: the ledger of
    product 3 stays 5 while its stock went to 2. *)
Lemma venda_ledger_conserved_witness :
  ∃ db', rtc (venda_step pol_ex) db_ex db' ∧ ledger db' 3 = ledger db_ex 3 ∧
    (Produto.estoque <$> produtos db' !! 3%Z) = Some 2%Z.
Proof.
  st_run (POST pol_ex (req_ex (JNum (num_of_Z 3))) db_ex) r1 db1 E1.
  assert (Hs : status r1 = 200%Z) by (vm_compute in E1; injection E1 as <- _; reflexivity).
  pose proof E1 as E1'. vm_compute in E1'. injection E1' as _ Hdb1. subst db1.
  st_run (PUT "10" (req_status "Cancelada") db_ex1) r2 db2 E2.
  assert (Hst : rtc (venda_step pol_ex) db_ex db2).
  { eapply rtc_l; [eapply step_POST; [exact E1|exact Hs]|].
    eapply rtc_l; [eapply step_PUT; exact E2|apply rtc_refl]. }
  exists db2. split_and!; [exact Hst|exact (venda_ledger_conserved pol_ex _ _ 3 Hst)|].
  vm_compute in E2. injection E2 as _ <-. reflexivity.
Defined.

Lemma GET_vendas_sorted_witness :
  refs_ok db_ex1 ∧ ∃ rows, GET db_ex1 = (inr (json_ok rows), db_ex1) ∧
    Sorted data_desc (map vr_venda rows) ∧ map vr_venda rows ≡ₚ map snd (map_to_list (vendas db_ex1)).
Proof.
  assert (Hok : refs_ok db_ex1) by refs_ok_decide.
  split; [exact Hok|exact (GET_vendas_sorted db_ex1 Hok)].
Defined.

Lemma PUT_venda_status_only_witness :
  ∃ r db', PUT "10" (req_status "Cancelada") db_ex1 = (inr r, db') ∧ status r = 200%Z ∧
    ∃ data k v s, req_status "Cancelada" = Some data ∧ int_of_num (parse_int_str "10") = inr k ∧
      vendas db_ex1 !! k = Some v ∧
      (prop data "status" = inr (JStr s) ∨ prop data "status" = inr JUndef ∧ s = Venda.status v) ∧
      r = json_ok (Venda.set_status s v) ∧
      vendas db' = <[k := Venda.set_status s v]> (vendas db_ex1) ∧
      produtos db' = produtos db_ex1 ∧ others_unchanged db_ex1 db'.
Proof.
  st_run (PUT "10" (req_status "Cancelada") db_ex1) r db' E.
  assert (Hs : status r = 200%Z) by (vm_compute in E; injection E as <- _; reflexivity).
  exists r, db'. split_and!; [reflexivity|exact Hs|exact (PUT_venda_status_only _ _ _ _ _ E Hs)].
Defined.

(** Sale 7 does not exist; "abc" is not a number. *)
Lemma venda_id_errors_witness :
  (int_of_num (parse_int_str "7") = inr 7%Z ∧ vendas db_ex1 !! 7%Z = None ∧
   DELETE pol_ex "7" db_ex1 = (inr (json_error "Venda not found" 404), db_ex1)) ∧
  (parse_int_str "abc" = NaN ∧
   GET_id "abc" db_ex1 = (inr (json_error "Error fetching venda" 500), db_ex1) ∧
   PUT "abc" (req_status "Cancelada") db_ex1 = (inr (json_error "Error updating venda" 500), db_ex1) ∧
   DELETE pol_ex "abc" db_ex1 = (inr (json_error "Error deleting venda" 500), db_ex1)).
Proof.
  assert (Hk : int_of_num (parse_int_str "7") = inr 7%Z) by (vm_compute; reflexivity).
  assert (Hv : vendas db_ex1 !! 7%Z = None) by (vm_compute; reflexivity).
  assert (Hn : parse_int_str "abc" = NaN) by (vm_compute; reflexivity).
  split; [split_and!; [exact Hk|exact Hv|exact (proj1 (venda_id_errors pol_ex "7" None db_ex1) 7%Z Hk Hv)]|].
  split; [exact Hn|exact (proj2 (venda_id_errors pol_ex "abc" (req_status "Cancelada") db_ex1) Hn)].
Defined.

Lemma parse_int_huge q :
  (inject_Z (10 ^ 21) <= q)%Q →
  (0 < Qnum (Qabs q))%Z ∧ parse_int (JNum (Fin q)) = num_of_Z (lead_digit (Qabs q)).
Proof.
  intros Hq. assert (Hpos : (0 < Qnum q)%Z).
  { unfold Qle in Hq. simpl in Hq. nia. }
  split; [destruct q as [n d]; simpl in *; lia|].
  simpl. unfold num_parse_int.
  destruct (Qeq_bool q 0) eqn:H0.
  { apply Qeq_bool_iff in H0. unfold Qeq in H0. simpl in H0. lia. }
  assert (Hle : Qle_bool (inject_Z (10 ^ 21)) (Qabs q) = true).
  { apply Qle_bool_iff. eapply Qle_trans; [exact Hq|apply Qle_Qabs]. }
  rewrite Hle, andb_false_r, Z.sgn_pos by done. by rewrite Z.mul_1_l.
Qed.

(** The quantity [item_fields] reads from a line whose quantity is a
    number of at least 10^21. *)
Lemma item_fields_huge item db pid qn pu db' q :
  item_fields item db = (inr (pid, qn, pu), db') →
  prop item "quantidade" = inr (JNum (Fin q)) → (inject_Z (10 ^ 21) <= q)%Q →
  (0 < Qnum (Qabs q))%Z ∧ qn = num_of_Z (lead_digit (Qabs q)).
Proof.
  intros H Hq Hbig. unfold item_fields in H. st_inv H. injection H as <- <- <- _.
  st_pure_subst. st_facts. rewrite Hq in E0. injection E0 as <-. by apply parse_int_huge.
Qed.

(** C25. A sale line whose quantity is a number of at least 10^21 is
    stored with the quantity [parseInt] makes of it, one digit from 1 to
    9 (the first of its exponent notation "1e+21"): the [Int] column
    accepts it, while the total multiplies the full number. *)
Theorem item_fields_huge_quantity item db pid qn pu db' q :
  item_fields item db = (inr (pid, qn, pu), db') →
  prop item "quantidade" = inr (JNum (Fin q)) → (inject_Z (10 ^ 21) <= q)%Q →
  ∃ k, qn = num_of_Z k ∧ (1 <= k <= 9)%Z ∧ int_of_num qn = inr k.
Proof.
  intros H Hq Hbig. destruct (item_fields_huge _ _ _ _ _ _ _ H Hq Hbig) as [Hn ->].
  pose proof (lead_digit_bounds _ Hn) as Hb. exists (lead_digit (Qabs q)). split_and!; [done|lia|lia|].
  apply int_of_num_range. unfold int_min, int_max. lia.
Qed.

(** [parseInt] of a sale line's quantity of at least 10^21 reads
    the first significant digit of its exponent notation with a loop that
    terminates within the fuel [lead_digit_fuel] gives it: the quantity
    [item_fields] reads is what the loop answers with that fuel or any
    larger one, a digit from 1 to 9. *)
Theorem item_quantity_parse_terminates item db pid qn pu db' q k :
  item_fields item db = (inr (pid, qn, pu), db') →
  prop item "quantidade" = inr (JNum (Fin q)) → (inject_Z (10 ^ 21) <= q)%Q →
  qn = num_of_Z (lead_digit_aux (lead_digit_fuel (Qabs q) + k) (Qnum (Qabs q)) (Zpos (Qden (Qabs q)))) ∧
  (1 <= lead_digit_aux (lead_digit_fuel (Qabs q) + k) (Qnum (Qabs q)) (Zpos (Qden (Qabs q))) <= 9)%Z.
Proof.
  intros H Hq Hbig. destruct (item_fields_huge _ _ _ _ _ _ _ H Hq Hbig) as [Hn ->].
  destruct (lead_digit_terminates (Qabs q) k Hn) as [-> Hb]. by split.
Qed.

Lemma item_fields_huge_quantity_witness :
  ∃ pid qn pu db',
    item_fields (item_ex (JNum (Fin (inject_Z (10 ^ 21))))) db_ex = (inr (pid, qn, pu), db') ∧
    prop (item_ex (JNum (Fin (inject_Z (10 ^ 21))))) "quantidade" = inr (JNum (Fin (inject_Z (10 ^ 21)))) ∧
    (inject_Z (10 ^ 21) <= inject_Z (10 ^ 21))%Q ∧
    qn = num_of_Z 1 ∧
    ∃ k, qn = num_of_Z k ∧ (1 <= k <= 9)%Z ∧ int_of_num qn = inr k.
Proof.
  destruct (item_fields (item_ex (JNum (Fin (inject_Z (10 ^ 21))))) db_ex) as [[e|[[pid qn] pu]] db'] eqn:E;
    [vm_compute in E; discriminate E|].
  assert (Hp : prop (item_ex (JNum (Fin (inject_Z (10 ^ 21))))) "quantidade" = inr (JNum (Fin (inject_Z (10 ^ 21)))))
    by reflexivity.
  assert (Hle : (inject_Z (10 ^ 21) <= inject_Z (10 ^ 21))%Q) by apply Qle_refl.
  exists pid, qn, pu, db'. split_and!; [reflexivity|exact Hp|exact Hle| |].
  - vm_compute in E. injection E as _ <- _ _. reflexivity.
  - exact (item_fields_huge_quantity _ _ _ _ _ _ _ E Hp Hle).
Defined.

(** The quantity 2.5e21 with five units of fuel beyond [lead_digit_fuel]. *)
Lemma item_quantity_parse_terminates_witness :
  ∃ pid qn pu db',
    item_fields (item_ex (JNum (Fin (inject_Z (25 * 10 ^ 20))))) db_ex = (inr (pid, qn, pu), db') ∧
    prop (item_ex (JNum (Fin (inject_Z (25 * 10 ^ 20))))) "quantidade" = inr (JNum (Fin (inject_Z (25 * 10 ^ 20)))) ∧
    (inject_Z (10 ^ 21) <= inject_Z (25 * 10 ^ 20))%Q ∧
    qn = num_of_Z 2 ∧
    qn = num_of_Z (lead_digit_aux (lead_digit_fuel (Qabs (inject_Z (25 * 10 ^ 20))) + 5)
                     (Qnum (Qabs (inject_Z (25 * 10 ^ 20)))) (Zpos (Qden (Qabs (inject_Z (25 * 10 ^ 20)))))) ∧
    (1 <= lead_digit_aux (lead_digit_fuel (Qabs (inject_Z (25 * 10 ^ 20))) + 5)
            (Qnum (Qabs (inject_Z (25 * 10 ^ 20)))) (Zpos (Qden (Qabs (inject_Z (25 * 10 ^ 20))))) <= 9)%Z.
Proof.
  destruct (item_fields (item_ex (JNum (Fin (inject_Z (25 * 10 ^ 20))))) db_ex) as [[e|[[pid qn] pu]] db'] eqn:E;
    [vm_compute in E; discriminate E|].
  assert (Hp : prop (item_ex (JNum (Fin (inject_Z (25 * 10 ^ 20))))) "quantidade"
    = inr (JNum (Fin (inject_Z (25 * 10 ^ 20))))) by reflexivity.
  assert (Hle : (inject_Z (10 ^ 21) <= inject_Z (25 * 10 ^ 20))%Q) by (vm_compute; discriminate).
  exists pid, qn, pu, db'. do 3 (split; [first [reflexivity|exact Hp|exact Hle]|]).
  split; [pose proof E as E'; vm_compute in E'; injection E' as _ <- _ _; reflexivity|].
  exact (item_quantity_parse_terminates _ _ _ _ _ _ _ 5 E Hp Hle).
Defined.

(** * The column types of the store

    The [Int] columns the sale handlers write (a product's [estoque], a
    sale's [clienteId] and [vendedorId], a line's [produtoId] and
    [quantidade]) hold 32-bit values in the database; [db_typed] says the
    store's maps agree.  Every handler of [Vendas] keeps [db_typed],
    whether it answers or fails half-way: [int_of_num] checks the values
    taken from the request, [int_range] the results of increments and
    decrements.  The same rules show that the foreign keys of the sales
    ([refs_ok]) survive every request, whatever it answers, and so any
    sequence of requests ([venda_req]).  The proofs use [st_keeps] of the
    prelude, one lemma per Prisma call. *)

Definition item_typed (it : VendaItem.t) : Prop :=
  int_ok (VendaItem.produtoId it) ∧ int_ok (VendaItem.quantidade it).

Definition venda_typed (v : Venda.t) : Prop :=
  int_ok (Venda.clienteId v) ∧ int_ok (Venda.vendedorId v) ∧ Forall item_typed (Venda.items v).

Definition db_typed (db : DB) : Prop :=
  map_Forall (λ _ p, int_ok (Produto.estoque p)) (produtos db) ∧
  map_Forall (λ _ v, venda_typed v) (vendas db).

(** ** The Prisma calls *)

Lemma update_produtos_keeps k f :
  (∀ r r', f r = inr r' → int_ok (Produto.estoque r')) →
  st_keeps db_typed (update_row T_produtos k f) (λ _, True).
Proof.
  intros Hf db [Hp Hv]. unfold update_row. cbn [tget tset T_produtos].
  destruct (produtos db !! k) as [r|]; [|done]. destruct (f r) as [e|r'] eqn:E; [done|].
  split; [|done]. split; [|done]. apply map_Forall_insert_2; [by eapply Hf|done].
Qed.

Lemma update_vendas_keeps k f :
  (∀ v v', venda_typed v → f v = inr v' → venda_typed v') →
  st_keeps db_typed (update_row T_vendas k f) (λ _, True).
Proof.
  intros Hf db [Hp Hv]. unfold update_row. cbn [tget tset T_vendas].
  destruct (vendas db !! k) as [v|] eqn:Ek; [|done]. destruct (f v) as [e|v'] eqn:E; [done|].
  split; [|done]. split; [done|]. apply map_Forall_insert_2; [|done]. eapply Hf; [|done]. by apply Hv in Ek.
Qed.

Lemma delete_vendas_keeps r k : st_keeps db_typed (delete_row T_vendas r k) (λ _, True).
Proof.
  intros db [Hp Hv]. unfold delete_row. cbn [tget tset T_vendas].
  destruct (vendas db !! k); [|done]. destruct (r db k); [done|].
  split; [|done]. split; [done|]. by apply map_Forall_delete.
Qed.

Lemma mapM_item_arg_ok args its :
  mapM item_arg args = inr its → Forall (λ '(p, q, _), int_ok p ∧ int_ok q) its.
Proof.
  revert its. induction args as [|[[pid q] pu] args IH]; intros its H; simpl in H; [by injection H as <-|].
  destruct (int_of_num pid) as [|p] eqn:Hp; [done|]. destruct (int_of_num q) as [|q'] eqn:Hq; [done|].
  simpl in H. destruct (mapM item_arg args) as [|its'] eqn:Hr; [done|]. injection H as <-.
  constructor; [split; by eapply int_of_num_ok|by apply IH].
Qed.

Lemma mk_items_typed n its :
  Forall (λ '(p, q, _), int_ok p ∧ int_ok q) its → Forall item_typed (mk_items n its).
Proof.
  intros Hf. revert n. induction Hf as [|[[p q] pu] its [Hp Hq] _ IH]; intros m; [done|].
  rewrite mk_items_cons. constructor; [done|apply IH].
Qed.

Section vendas_types.
Context (pol : policy).

Lemma estoque_decrement_keeps pid q : st_keeps db_typed (estoque_decrement pid q) (λ _, True).
Proof.
  unfold estoque_decrement. eapply st_keeps_bind; [apply st_keeps_pure; auto with moveis|]. intros p _.
  eapply st_keeps_bind; [apply st_keeps_pure; auto with moveis|]. intros d _.
  apply update_produtos_keeps. intros r r'. unfold mbind, sum_bind.
  destruct (int_range _) as [|e] eqn:E; [done|]. intros [= <-]. by apply int_range_ok in E as [-> ?].
Qed.

Lemma estoque_increment_keeps pid q : st_keeps db_typed (estoque_increment pid q) (λ _, True).
Proof.
  apply update_produtos_keeps. intros r r'. unfold mbind, sum_bind.
  destruct (int_range _) as [|e] eqn:E; [done|]. intros [= <-]. by apply int_range_ok in E as [-> ?].
Qed.

Lemma venda_create_keeps cid vid total stat args :
  st_keeps db_typed (venda_create pol cid vid total stat args) (λ _, True).
Proof.
  intros db Hdb. unfold venda_create.
  destruct (c ← int_of_num cid; _) as [e|[[[c s] st] its]] eqn:E; [done|].
  destruct (venda_refs_ok db c s its); [|done].
  assert (Hdb' : db_typed (mkDB (clientes db) (materials db) (produtos db) (vendedores db)
      (<[seq db := Venda.mk (seq db) c s total st (clock db) (mk_items (seq db + 1) its)]> (vendas db))
      (orcamentos db) (seq db + 1 + Z.of_nat (length its)) (cuid db) (clock db))).
  { destruct Hdb as [Hp Hv]. split; [done|]. apply map_Forall_insert_2; [|done].
    unfold mbind, sum_bind in E.
    destruct (int_of_num cid) as [|c'] eqn:Hc; [done|]. destruct (int_of_num vid) as [|s'] eqn:Hs; [done|].
    destruct (status_arg pol stat); [done|]. destruct (mapM item_arg args) as [|its'] eqn:Hi; [done|].
    injection E as <- <- <- <-. split_and!; [by eapply int_of_num_ok|by eapply int_of_num_ok|].
    by apply mk_items_typed, (mapM_item_arg_ok args). }
  destruct (vendas db !! seq db); [done|]. unfold include.
  by destruct (include_full _ _).
Qed.

Lemma item_decrement_keeps item :
  st_keeps db_typed (item_decrement item) (λ u, st_keeps db_typed u (λ _, True)).
Proof.
  unfold item_decrement. eapply st_keeps_bind; [apply st_keeps_pure; auto with moveis|]. intros pid _.
  eapply st_keeps_bind; [apply st_keeps_pure; auto with moveis|]. intros q _.
  apply st_keeps_ret, estoque_decrement_keeps.
Qed.
End vendas_types.

#[export] Hint Resolve estoque_decrement_keeps estoque_increment_keeps venda_create_keeps
  item_decrement_keeps delete_vendas_keeps : moveis.

#[local] Hint Resolve reduce_total_pure item_fields_pure : moveis.

Section vendas_handlers_types.
Context (pol : policy).

Lemma POST_keeps req : st_keeps db_typed (POST pol req) (λ _, True).
Proof.
  unfold POST. do 9 keeps_step.
  eapply st_keeps_bind; [apply st_keeps_mapM, item_decrement_keeps|intros ups Hups].
  eapply st_keeps_bind; [by apply st_keeps_all|intros ? _]. by apply st_keeps_ret.
Qed.

Lemma PUT_keeps id req : st_keeps db_typed (PUT id req) (λ _, True).
Proof.
  unfold PUT. do 4 keeps_step.
  eapply st_keeps_bind; [apply update_vendas_keeps|intros ? _; by apply st_keeps_ret].
  intros v v' Hv [= <-]. destruct (_ : option string); [|done]. by destruct v.
Qed.

Lemma DELETE_keeps id : st_keeps db_typed (DELETE pol id) (λ _, True).
Proof.
  unfold DELETE. do 3 keeps_step.
  match goal with |- st_keeps _ (match ?o with _ => _ end) _ => destruct o as [v|] end;
    [|by apply st_keeps_ret].
  eapply st_keeps_bind; [apply st_keeps_all, Forall_forall|intros ? _].
  - intros m Hm. apply list_elem_of_In, in_map_iff in Hm as [it [<- _]]. apply estoque_increment_keeps.
  - eapply st_keeps_bind; [apply delete_vendas_keeps|intros ? _]. by apply st_keeps_ret.
Qed.
End vendas_handlers_types.

#[export] Instance db_typed_dec db : Decision (db_typed db).
Proof. unfold db_typed, venda_typed, item_typed, int_ok. apply _. Defined.

(** Every request of the sale routes keeps the [Int] columns of
    products and sales within 32 bits, whether it answers 200, an error,
    or throws after some of its Prisma calls: the request's values pass
    [int_of_num] and every increment or decrement passes [int_range]
    before it is written. *)
Theorem vendas_requests_typed pol req id db :
  db_typed db →
  db_typed (snd (POST pol req db)) ∧ db_typed (snd (PUT id req db)) ∧
  db_typed (snd (DELETE pol id db)).
Proof.
  intros H. split_and!; [exact (proj1 (POST_keeps pol req db H))
    |exact (proj1 (PUT_keeps id req db H))|exact (proj1 (DELETE_keeps pol id db H))].
Qed.

Lemma vendas_requests_typed_witness :
  db_typed db_ex ∧
  db_typed (snd (POST pol_ex (req_ex (JNum (num_of_Z 3))) db_ex)) ∧
  db_typed (snd (PUT "10" (req_ex (JNum (num_of_Z 3))) db_ex)) ∧
  db_typed (snd (DELETE pol_ex "10" db_ex)).
Proof.
  assert (H : db_typed db_ex) by (apply (bool_decide_unpack _); vm_compute; exact I).
  split; [exact H|]. exact (vendas_requests_typed pol_ex _ "10" db_ex H).
Defined.

(** ** The foreign keys of the sales

    The same rules for [refs_ok]: the client, the seller and the products
    of every recorded sale exist.  [venda_create] writes a sale only when
    [venda_refs_ok] holds; [update_row] on a product keeps the products'
    ids, a PUT changes only a status and a DELETE removes a sale. *)

Lemma update_produtos_refs k f : st_keeps refs_ok (update_row T_produtos k f) (λ _, True).
Proof.
  intros db Hdb. unfold update_row. cbn [tget tset T_produtos].
  destruct (produtos db !! k) as [r|] eqn:Ek; [|done]. destruct (f r) as [e|r']; [done|].
  split; [|done]. eapply map_Forall_impl; [exact Hdb|]. intros i v. apply venda_refs_mono; [done|done|].
  intros p [x Hx]. simpl. destruct (decide (p = k)) as [->|Hne]; [rewrite lookup_insert_eq; by eexists|].
  rewrite lookup_insert_ne by done. by eexists.
Qed.

Lemma update_vendas_refs k f :
  (∀ db v v', venda_refs db v → f v = inr v' → venda_refs db v') →
  st_keeps refs_ok (update_row T_vendas k f) (λ _, True).
Proof.
  intros Hf db Hdb. unfold update_row. cbn [tget tset T_vendas].
  destruct (vendas db !! k) as [v|] eqn:Ek; [|done]. destruct (f v) as [e|v'] eqn:E; [done|].
  split; [|done]. unfold refs_ok. simpl. apply map_Forall_insert_2; [|done].
  eapply Hf; [|done]. exact (Hdb k v Ek).
Qed.

Lemma delete_vendas_refs r k : st_keeps refs_ok (delete_row T_vendas r k) (λ _, True).
Proof.
  intros db Hdb. unfold delete_row. cbn [tget tset T_vendas].
  destruct (vendas db !! k); [|done]. destruct (r db k); [done|].
  split; [|done]. by apply map_Forall_delete.
Qed.

Section vendas_refs.
Context (pol : policy).

Lemma venda_create_refs cid vid total stat args :
  st_keeps refs_ok (venda_create pol cid vid total stat args) (λ _, True).
Proof.
  intros db Hdb. unfold venda_create.
  destruct (c ← int_of_num cid; _) as [e|[[[c s] st] its]]; [done|].
  destruct (venda_refs_ok db c s its) eqn:Hok; [|done].
  destruct (vendas db !! seq db); [done|]. unfold include.
  assert (Hdb' : refs_ok (mkDB (clientes db) (materials db) (produtos db) (vendedores db)
      (<[seq db := Venda.mk (seq db) c s total st (clock db) (mk_items (seq db + 1) its)]> (vendas db))
      (orcamentos db) (seq db + 1 + Z.of_nat (length its)) (cuid db) (clock db))).
  { unfold refs_ok. simpl. apply map_Forall_insert_2; [by apply venda_refs_ok_spec|].
    eapply map_Forall_impl; [exact Hdb|]. intros ??. by apply venda_refs_mono. }
  by destruct (include_full _ _).
Qed.

Lemma item_decrement_refs item :
  st_keeps refs_ok (item_decrement item) (λ u, st_keeps refs_ok u (λ _, True)).
Proof.
  unfold item_decrement. eapply st_keeps_bind; [apply st_keeps_pure; auto with moveis|]. intros pid _.
  eapply st_keeps_bind; [apply st_keeps_pure; auto with moveis|]. intros q _.
  apply st_keeps_ret. unfold estoque_decrement.
  eapply st_keeps_bind; [apply st_keeps_pure; auto with moveis|]. intros p _.
  eapply st_keeps_bind; [apply st_keeps_pure; auto with moveis|]. intros d _.
  apply update_produtos_refs.
Qed.

Lemma POST_refs req : st_keeps refs_ok (POST pol req) (λ _, True).
Proof.
  unfold POST. do 8 keeps_step.
  eapply st_keeps_bind; [apply venda_create_refs|intros ? _].
  eapply st_keeps_bind; [apply st_keeps_mapM, item_decrement_refs|intros ups Hups].
  eapply st_keeps_bind; [by apply st_keeps_all|intros ? _]. by apply st_keeps_ret.
Qed.

Lemma PUT_refs id req : st_keeps refs_ok (PUT id req) (λ _, True).
Proof.
  unfold PUT. do 4 keeps_step.
  eapply st_keeps_bind; [apply update_vendas_refs|intros ? _; by apply st_keeps_ret].
  intros db v v' Hv [= <-]. destruct (_ : option string); [|done]. by destruct v.
Qed.

Lemma DELETE_refs id : st_keeps refs_ok (DELETE pol id) (λ _, True).
Proof.
  unfold DELETE. do 3 keeps_step.
  match goal with |- st_keeps _ (match ?o with _ => _ end) _ => destruct o as [v|] end;
    [|by apply st_keeps_ret].
  eapply st_keeps_bind; [apply st_keeps_all, Forall_forall|intros ? _].
  - intros m Hm. apply list_elem_of_In, in_map_iff in Hm as [it [<- _]]. apply update_produtos_refs.
  - eapply st_keeps_bind; [apply delete_vendas_refs|intros ? _]. by apply st_keeps_ret.
Qed.
End vendas_refs.

(** Any request of the sale routes, whatever it answers: a POST or a
    DELETE that failed keeps the Prisma calls it committed. *)
Inductive venda_req (pol : policy) : DB → DB → Prop :=
  | req_POST req db : venda_req pol db (snd (POST pol req db))
  | req_PUT id req db : venda_req pol db (snd (PUT id req db))
  | req_DELETE id db : venda_req pol db (snd (DELETE pol id db))
  | req_GET db : venda_req pol db (snd (GET db))
  | req_GET_id id db : venda_req pol db (snd (GET_id id db)).

(** C5. The foreign keys of the sales (their client, their seller and
    the product of each line exist) hold after any sequence of sale
    requests when they held before, whatever the requests answered: a
    POST writes a sale only after checking its keys, and the requests
    that fail half-way have by then only moved stock or changed
    nothing. *)
Theorem venda_refs_invariant pol db db' :
  refs_ok db → rtc (venda_req pol) db db' → refs_ok db'.
Proof.
  intros Hok Hr. induction Hr as [|db1 db2 db3 Hst _ IH]; [done|]. apply IH.
  destruct Hst as [req db|id req db|id db|db|id db].
  - exact (proj1 (POST_refs pol req db Hok)).
  - exact (proj1 (PUT_refs id req db Hok)).
  - exact (proj1 (DELETE_refs pol id db Hok)).
  - by rewrite (st_pure_run _ _ _ _ GET_pure (surjective_pairing (GET db))).
  - by rewrite (st_pure_run _ _ _ _ (GET_id_pure id) (surjective_pairing (GET_id id db))).
Qed.

(** A sale naming a client the example store does not have. *)
Definition req_cliente_ausente : option json :=
  Some (JObj [("clienteId", JNum (num_of_Z 5)); ("vendedorId", JNum (num_of_Z 2));
              ("items", JArr [item_ex (JNum (num_of_Z 3))])]).

Lemma venda_refs_invariant_witness :
  refs_ok db_ex ∧ rtc (venda_req pol_ex) db_ex (snd (POST pol_ex req_cliente_ausente db_ex)) ∧
  refs_ok (snd (POST pol_ex req_cliente_ausente db_ex)).
Proof.
  assert (Hok : refs_ok db_ex) by refs_ok_decide.
  assert (Hst : rtc (venda_req pol_ex) db_ex (snd (POST pol_ex req_cliente_ausente db_ex)))
    by (eapply rtc_l; [apply req_POST|apply rtc_refl]).
  split_and!; [exact Hok|exact Hst|exact (venda_refs_invariant pol_ex _ _ Hok Hst)].
Defined.
