(* ===== verification/Orcamentos.v ===== *)
(** * Quotes: the routes of [src/app/api/orcamentos]

    A quote ([Orcamento]) owns its items ([OrcamentoItem]) and each item
    its material lines ([OrcamentoMaterial], each naming a [Material]).
    The handlers build the nested [create] argument in JavaScript first
    ([data.itens.map(...)], [item.materiais.map(...)], [new Date(...)]),
    then Prisma validates it and commits it in one call.  [PUT] first runs
    two [deleteMany] calls (the material lines, then the items of the
    quote) and only then builds and sends the [update]: what it deleted
    stays deleted when the update fails.

    The schema is not in the repository: the quote's [numero] is an [Int]
    defaulting to the autoincrement sequence, [data] a [DateTime], [status]
    a [String] whose default is the parameter [orc_status_default],
    [observacoes] a [String?], [clienteId] an [Int] referencing a client;
    an item has a [String] description, an [Int] quantity and a [Float]
    unit value; a material line an [Int] quantity and the [String] id of a
    material.  Quote ids are fresh strings ([cuid()]). *)

From Stdlib Require Import Qabs.
From stdpp Require Import pretty.
From S2P Require Import Prelude Js Store Http.

Module Orcamentos.

(** The parameters of the schema and of the JavaScript runtime. *)
Record qpolicy := QPolicy {
  orc_status_default : option string;
  (** [Date.parse] of the string form of a string, array or object: the
      time in milliseconds, or [None] for an invalid date. *)
  date_parse : json → option Z }.

(** ** What the handler builds before calling Prisma *)

Record MaterialIn := MaterialIn' { mi_quantidade : json; mi_id : json }.
Record ItemIn := ItemIn' {
  ii_descricao : json; ii_quantidade : json; ii_valorUnitario : json; ii_materiais : list MaterialIn }.
Record OrcamentoIn := OrcamentoIn' {
  oi_numero : json; oi_data : option Z; oi_status : json; oi_observacoes : json;
  oi_clienteId : json; oi_itens : list ItemIn }.

(** The validated arguments of one item: description, quantity, unit value
    and its material lines (quantity, material id). *)
Abbreviation item_args := (string * Z * num * list (Z * string))%type.

(** A quote with [include: { cliente: true, itens: { include: { materiais:
    { include: { material: true } } } } }]. *)
Record OrcamentoFull := {
  of_orcamento : Orcamento.t;
  of_cliente : Cliente.t;
  of_itens : list (OrcamentoItem.t * list (OrcamentoMaterial.t * Material.t)) }.

(** The largest time a [Date] holds, in milliseconds. *)
Definition time_clip_max : Q := 8640000000000000.

Section quotes.
Context (qp : qpolicy).

(** [new Date(v)]: a number is a time (cut by TimeClip), [null] is 0, a
    boolean 0 or 1, [undefined] an invalid date, anything else goes
    through [Date.parse]. *)
Definition new_date (v : json) : option Z :=
  match v with
  | JUndef | JNum NaN => None
  | JNull => Some 0%Z
  | JBool b => Some (if b then 1%Z else 0%Z)
  | JNum (Fin q) => if Qle_bool (Qabs q) time_clip_max then Some (Qtrunc q) else None
  | _ => date_parse qp v
  end.

(** Evaluating the argument is plain JavaScript: it reads properties and
    maps arrays, and throws a [TypeError] on [undefined.map] or [null.k].

    [{ quantidade: material.quantidade, materialId: material.id }] *)
Definition material_in (m : json) : js_error + MaterialIn :=
  q ← prop m "quantidade"; i ← prop m "id"; mret (MaterialIn' q i).

(** [{ descricao: item.descricao, ..., materiais: { create: item.materiais.map(...) } }] *)
Definition item_in (it : json) : js_error + ItemIn :=
  d ← prop it "descricao"; q ← prop it "quantidade"; v ← prop it "valorUnitario";
  ms ← prop it "materiais" ≫= as_array;
  mis ← mapM material_in ms;
  mret (ItemIn' d q v mis).

(** The [data] argument of [create] and [update], in the order JavaScript
    evaluates its properties. *)
Definition orcamento_in (data : json) : js_error + OrcamentoIn :=
  n ← prop data "numero"; d ← prop data "data"; s ← prop data "status";
  o ← prop data "observacoes"; c ← prop data "clienteId";
  its ← prop data "itens" ≫= as_array;
  iis ← mapM item_in its;
  mret (OrcamentoIn' n (new_date d) s o c iis).

(** Prisma's validation of the argument. *)
Definition material_arg (m : MaterialIn) : exn + (Z * string) :=
  q ← int_arg (mi_quantidade m); i ← string_arg (mi_id m); mret (q, i).

Definition item_arg (it : ItemIn) : exn + item_args :=
  d ← string_arg (ii_descricao it); q ← int_arg (ii_quantidade it);
  v ← float_arg (ii_valorUnitario it); ms ← mapM material_arg (ii_materiais it);
  mret (d, q, v, ms).

Definition date_arg (d : option Z) : exn + Z :=
  match d with Some t => inr t | None => inl (PrismaErr Validation) end.

Definition orc_status_arg (v : json) : exn + string :=
  match v, orc_status_default qp with
  | JUndef, Some s => inr s
  | _, _ => string_arg v
  end.

(** The fields of the quote row itself: number (the sequence's value when
    absent), date, status, notes, client. *)
Definition header_arg (db : DB) (a : OrcamentoIn) : exn + (Z * Z * string * option string * Z) :=
  n ← (match oi_numero a with JUndef => inr (seq db) | v => int_arg v end);
  d ← date_arg (oi_data a); s ← orc_status_arg (oi_status a);
  o ← opt_string_arg (oi_observacoes a); c ← int_arg (oi_clienteId a);
  mret (n, d, s, o, c).

(** The rows of the items, numbered from [n]: an item, then its material
    lines. *)
Fixpoint mk_materiais (n : Z) (ms : list (Z * string)) : list OrcamentoMaterial.t :=
  match ms with
  | [] => []
  | (q, m) :: ms => OrcamentoMaterial.mk n q m :: mk_materiais (n + 1) ms
  end.

Fixpoint mk_itens (n : Z) (its : list item_args) : list OrcamentoItem.t :=
  match its with
  | [] => []
  | (d, q, v, ms) :: its =>
      OrcamentoItem.mk n d q v (mk_materiais (n + 1) ms) :: mk_itens (n + 1 + Z.of_nat (length ms)) its
  end.

Definition itens_size (its : list item_args) : Z :=
  sumZ (λ '(_, _, _, ms), 1 + Z.of_nat (length ms))%Z its.

(** The foreign keys of the nested rows. *)
Definition orc_refs_ok (db : DB) (c : Z) (its : list item_args) : bool :=
  bool_decide (is_Some (clientes db !! c)) &&
  forallb (λ '(_, _, _, ms), forallb (λ '(_, m), bool_decide (is_Some (materials db !! m))) ms) its.

Definition include_orc (db : DB) (o : Orcamento.t) : option OrcamentoFull :=
  c ← clientes db !! Orcamento.clienteId o;
  its ← mapM (λ it, ms ← mapM (λ m, r ← materials db !! OrcamentoMaterial.materialId m; Some (m, r))
                              (OrcamentoItem.materiais it);
                    Some (it, ms)) (Orcamento.itens o);
  Some {| of_orcamento := o; of_cliente := c; of_itens := its |}.

Definition include_q (o : Orcamento.t) : M OrcamentoFull := λ db,
  match include_orc db o with
  | Some f => (inr f, db)
  | None => (inl (PrismaErr NotFound), db)
  end.

(** [cuid()]: the next fresh string id. *)
Definition fresh_orc_id (db : DB) : string := "c" +:+ pretty (cuid db).

(** [prisma.orcamento.create({ data, include })]: validate, check the
    foreign keys and the id, commit the quote with its nested rows. *)
Definition orcamento_create (a : OrcamentoIn) : M OrcamentoFull := λ db,
  match (h ← header_arg db a; its ← mapM item_arg (oi_itens a); mret (h, its)) with
  | inl e => (inl e, db)
  | inr ((n, d, s, o, c), its) =>
      let k := fresh_orc_id db in
      let first := (if oi_numero a is JUndef then seq db + 1 else seq db)%Z in
      if negb (orc_refs_ok db c its) then (inl (PrismaErr ForeignKey), db)
      else if bool_decide (is_Some (orcamentos db !! k)) then (inl (PrismaErr UniqueViolation), db)
      else
        let q := Orcamento.mk k n d s o c (mk_itens first its) in
        include_q q (mkDB (clientes db) (materials db) (produtos db) (vendedores db) (vendas db)
                       (<[k := q]> (orcamentos db)) (first + itens_size its) (S (cuid db)) (clock db))
  end.
End quotes.

(** ** The nested rows of a quote *)

Definition orc_set_itens (its : list OrcamentoItem.t) (o : Orcamento.t) : Orcamento.t :=
  Orcamento.mk (Orcamento.id o) (Orcamento.numero o) (Orcamento.data o) (Orcamento.status o)
    (Orcamento.observacoes o) (Orcamento.clienteId o) its.

Definition item_clear_materiais (it : OrcamentoItem.t) : OrcamentoItem.t :=
  OrcamentoItem.mk (OrcamentoItem.id it) (OrcamentoItem.descricao it) (OrcamentoItem.quantidade it)
    (OrcamentoItem.valorUnitario it) [].

(** [prisma.orcamentoMaterial.deleteMany({ where: { item: { orcamentoId: id } } })]:
    no row matches an id without a quote, and nothing fails. *)
Definition delete_materiais (k : string) : M unit :=
  st_modify (λ db, set_orcamentos
    (alter (λ o, orc_set_itens (map item_clear_materiais (Orcamento.itens o)) o) k (orcamentos db)) db).

(** [prisma.orcamentoItem.deleteMany({ where: { orcamentoId: id } })] *)
Definition delete_itens (k : string) : M unit :=
  st_modify (λ db, set_orcamentos (alter (orc_set_itens []) k (orcamentos db)) db).

Definition header_upd (a : OrcamentoIn) :
    exn + (option Z * Z * option string * option (option string) * option Z) :=
  n ← upd int_arg (oi_numero a); d ← date_arg (oi_data a); s ← upd string_arg (oi_status a);
  o ← upd opt_string_arg (oi_observacoes a); c ← upd int_arg (oi_clienteId a);
  mret (n, d, s, o, c).

(** [prisma.orcamento.update({ where: { id }, data, include })]: validate,
    find the row, check the foreign keys, set the given columns and create
    the new items after the ones the quote still has. *)
Definition orcamento_update (k : string) (a : OrcamentoIn) : M OrcamentoFull := λ db,
  match (h ← header_upd a; its ← mapM item_arg (oi_itens a); mret (h, its)) with
  | inl e => (inl e, db)
  | inr ((n, d, s, o, c), its) =>
      match orcamentos db !! k with
      | None => (inl (PrismaErr NotFound), db)
      | Some q =>
          let c' := default (Orcamento.clienteId q) c in
          if negb (orc_refs_ok db c' its) then (inl (PrismaErr ForeignKey), db)
          else
            let q' := Orcamento.mk k (default (Orcamento.numero q) n) d
                        (default (Orcamento.status q) s) (default (Orcamento.observacoes q) o) c'
                        (Orcamento.itens q ++ mk_itens (seq db) its) in
            include_q q' (mkDB (clientes db) (materials db) (produtos db) (vendedores db) (vendas db)
                            (<[k := q']> (orcamentos db)) (seq db + itens_size its) (cuid db) (clock db))
      end
  end.

(** [orderBy: { data: 'desc' }] *)
Definition orc_data_desc (a b : Orcamento.t) : Prop := (Orcamento.data b ≤ Orcamento.data a)%Z.
#[export] Instance orc_data_desc_dec : RelDecision orc_data_desc.
Proof. intros a b. unfold orc_data_desc. apply _. Defined.

(** ** The handlers *)

Section quote_routes.
Context (qp : qpolicy).

(** [GET /api/orcamentos] *)
Definition GET : M (response (list OrcamentoFull)) :=
  handle "Internal Server Error" (
    db ← st_gets id;
    rows ← st_mapM include_q (merge_sort orc_data_desc (map snd (map_to_list (orcamentos db))));
    mret (json_ok rows)).

(** [POST /api/orcamentos] *)
Definition POST (req : option json) : M (response OrcamentoFull) :=
  handle "Internal Server Error" (
    data ← request_json req;
    a ← js (orcamento_in qp data);
    o ← orcamento_create qp a;
    mret (json_ok o)).

(** [GET /api/orcamentos/[id]] *)
Definition GET_id (id : string) : M (response OrcamentoFull) :=
  handle "Internal Server Error" (
    o ← find_unique T_orcamentos id;
    match o with
    | None => mret (json_error "Orçamento não encontrado" 404)
    | Some o => f ← include_q o; mret (json_ok f)
    end).

(** [PUT /api/orcamentos/[id]] *)
Definition PUT (id : string) (req : option json) : M (response OrcamentoFull) :=
  handle "Internal Server Error" (
    data ← request_json req;
    _ ← delete_materiais id;
    _ ← delete_itens id;
    a ← js (orcamento_in qp data);
    o ← orcamento_update id a;
    mret (json_ok o)).

(** [DELETE /api/orcamentos/[id]] *)
Definition DELETE (id : string) : M (response unit) :=
  handle "Internal Server Error" (
    _ ← delete_materiais id;
    _ ← delete_itens id;
    _ ← delete_row T_orcamentos (λ _ _, false) id;
    mret no_content).
End quote_routes.

End Orcamentos.
Export Orcamentos.

(** ** Proofs *)

(** A quote after the two [deleteMany] calls: its row is kept, without
    items. *)
Definition clear_quote (k : string) (db : DB) : DB :=
  set_orcamentos (alter (orc_set_itens []) k (orcamentos db)) db.

(** The validated arguments an item row was created from. *)
Definition strip_item (it : OrcamentoItem.t) : item_args :=
  (OrcamentoItem.descricao it, OrcamentoItem.quantidade it, OrcamentoItem.valorUnitario it,
   map (λ m, (OrcamentoMaterial.quantidade m, OrcamentoMaterial.materialId m)) (OrcamentoItem.materiais it)).

(** The ids of the rows nested in a list of items. *)
Definition item_ids (its : list OrcamentoItem.t) : list Z :=
  its ≫= λ it, OrcamentoItem.id it :: map OrcamentoMaterial.id (OrcamentoItem.materiais it).

Lemma deletes_run {A} k (m : M A) db :
  (_ ← delete_materiais k; _ ← delete_itens k; m) db = m (clear_quote k db).
Proof.
  unfold delete_materiais, delete_itens, st_modify, mbind, st_bind. simpl.
  unfold clear_quote, set_orcamentos. simpl. rewrite alter_alter_eq.
  erewrite (alter_ext _ (orc_set_itens [])); [done|]. intros o _. by destruct o.
Qed.

Lemma clear_quote_missing k db : orcamentos db !! k = None → clear_quote k db = db.
Proof. intros H. unfold clear_quote. rewrite alter_id' by done. by destruct db. Qed.

Lemma strip_mk_materiais n ms :
  map (λ m, (OrcamentoMaterial.quantidade m, OrcamentoMaterial.materialId m)) (mk_materiais n ms) = ms.
Proof. revert n. induction ms as [|[q m] ms IH]; intros n; [done|]. simpl. by rewrite IH. Qed.

Lemma strip_mk_itens n its : map strip_item (mk_itens n its) = its.
Proof.
  revert n. induction its as [|[[[d q] v] ms] its IH]; intros n; [done|].
  simpl. unfold strip_item at 1. simpl. by rewrite strip_mk_materiais, IH.
Qed.

Lemma seqZ_succ n k : (0 ≤ k)%Z → seqZ n (1 + k) = n :: seqZ (n + 1) k.
Proof. intros Hk. rewrite seqZ_cons by lia. do 2 f_equal; lia. Qed.

Lemma mk_materiais_ids n ms : map OrcamentoMaterial.id (mk_materiais n ms) = seqZ n (Z.of_nat (length ms)).
Proof.
  revert n. induction ms as [|[q m] ms IH]; intros n; [done|].
  rewrite length_cons, Nat2Z.inj_succ, <-Z.add_1_l, seqZ_succ by lia. simpl. by rewrite IH.
Qed.

Lemma itens_size_nonneg its : (0 ≤ itens_size its)%Z.
Proof. unfold itens_size. induction its as [|[[[??]?]?] its IH]; [done|]. rewrite sumZ_cons. lia. Qed.

(** The rows created for the items take the ids [n], [n + 1], ... *)
Lemma mk_itens_ids n its : item_ids (mk_itens n its) = seqZ n (itens_size its).
Proof.
  revert n. induction its as [|[[[d q] v] ms] its IH]; intros n; [done|].
  pose proof (itens_size_nonneg its).
  unfold itens_size in *. rewrite sumZ_cons. simpl. fold (item_ids (mk_itens (n + 1 + Z.of_nat (length ms)) its)).
  rewrite IH, mk_materiais_ids, <-Z.add_assoc, seqZ_app, seqZ_succ by lia.
  done.
Qed.

Lemma include_q_run o db f db' : include_q o db = (inr f, db') → include_orc db o = Some f ∧ db' = db.
Proof. unfold include_q. destruct (include_orc db o); by intros [= -> ->]. Qed.

Lemma include_q_pure o : st_pure (include_q o).
Proof. intros db. unfold include_q. by destruct (include_orc db o). Qed.
#[export] Hint Resolve include_q_pure : moveis.

Lemma include_orc_orcamento db o f : include_orc db o = Some f → of_orcamento f = o.
Proof.
  unfold include_orc. intros H.
  destruct (clientes db !! _); simpl in H; [|done]. destruct (mapM _ _); simpl in H; by simplify_eq.
Qed.

Section quote_proofs.
Context (qp : qpolicy).

(** What a [create] that answered did. *)
Lemma orcamento_create_run a db full db' :
  orcamento_create qp a db = (inr full, db') →
  ∃ n d s o c its first,
    header_arg qp db a = inr (n, d, s, o, c) ∧ mapM item_arg (oi_itens a) = inr its ∧
    (seq db ≤ first)%Z ∧ orc_refs_ok db c its = true ∧ orcamentos db !! fresh_orc_id db = None ∧
    of_orcamento full = Orcamento.mk (fresh_orc_id db) n d s o c (mk_itens first its) ∧
    db' = mkDB (clientes db) (materials db) (produtos db) (vendedores db) (vendas db)
            (<[fresh_orc_id db := of_orcamento full]> (orcamentos db)) (first + itens_size its)
            (S (cuid db)) (clock db) ∧
    include_orc db' (of_orcamento full) = Some full.
Proof.
  unfold orcamento_create. intros H.
  destruct (h ← header_arg qp db a; _) as [e|[[[[[n d] s] o] c] its]] eqn:Hargs; [done|].
  apply sum_bind_inr in Hargs as (h & Hh & Hargs).
  apply sum_bind_inr in Hargs as (its' & Hits & Hargs). unfold mret, sum_ret in Hargs. simplify_eq.
  destruct (orc_refs_ok db c its) eqn:Hrefs; [|done]. simpl in H.
  case_bool_decide as Hk; [done|]. apply eq_None_not_Some in Hk.
  apply include_q_run in H as [Hinc ->]. pose proof (include_orc_orcamento _ _ _ Hinc) as Ho.
  exists n, d, s, o, c, its, (if oi_numero a is JUndef then seq db + 1 else seq db)%Z.
  rewrite Ho. split_and!; try done. by destruct (oi_numero a); simpl; lia.
Qed.

(** What an [update] that answered did. *)
Lemma orcamento_update_run k a db full db' :
  orcamento_update k a db = (inr full, db') →
  ∃ n d s o c its q,
    header_upd a = inr (n, d, s, o, c) ∧ mapM item_arg (oi_itens a) = inr its ∧
    orcamentos db !! k = Some q ∧ orc_refs_ok db (default (Orcamento.clienteId q) c) its = true ∧
    of_orcamento full =
      Orcamento.mk k (default (Orcamento.numero q) n) d (default (Orcamento.status q) s)
        (default (Orcamento.observacoes q) o) (default (Orcamento.clienteId q) c)
        (Orcamento.itens q ++ mk_itens (seq db) its) ∧
    db' = mkDB (clientes db) (materials db) (produtos db) (vendedores db) (vendas db)
            (<[k := of_orcamento full]> (orcamentos db)) (seq db + itens_size its) (cuid db) (clock db) ∧
    include_orc db' (of_orcamento full) = Some full.
Proof.
  unfold orcamento_update. intros H.
  destruct (h ← header_upd a; _) as [e|[[[[[n d] s] o] c] its]] eqn:Hargs; [done|].
  apply sum_bind_inr in Hargs as (h & Hh & Hargs).
  apply sum_bind_inr in Hargs as (its' & Hits & Hargs). unfold mret, sum_ret in Hargs. simplify_eq.
  destruct (orcamentos db !! k) as [q|] eqn:Hq; [|done].
  destruct (orc_refs_ok db _ its) eqn:Hrefs; [|done]. simpl in H.
  apply include_q_run in H as [Hinc ->]. pose proof (include_orc_orcamento _ _ _ Hinc) as Ho.
  exists n, d, s, o, c, its, q. rewrite Ho. split_and!; try done.
Qed.

(** The steps of a POST that answered 200. *)
Lemma orc_POST_ok req db r db' :
  POST qp req db = (inr r, db') → status r = 200%Z →
  ∃ data a full, req = Some data ∧ orcamento_in qp data = inr a ∧ r = json_ok full ∧
    orcamento_create qp a db = (inr full, db').
Proof.
  intros H Hs. unfold POST in H. apply handle_not_500 in H; [|by rewrite Hs].
  st_inv H. injection H as <- <-. st_pure_subst. st_facts. eauto 10.
Qed.

(** The steps of a PUT that answered 200: the update ran on the store the
    two [deleteMany] calls left. *)
Lemma orc_PUT_ok id req db r db' :
  PUT qp id req db = (inr r, db') → status r = 200%Z →
  ∃ data a full, req = Some data ∧ orcamento_in qp data = inr a ∧ r = json_ok full ∧
    orcamento_update id a (clear_quote id db) = (inr full, db').
Proof.
  intros H Hs. unfold PUT in H. apply handle_not_500 in H; [|by rewrite Hs].
  destruct req as [data|]; [|discriminate H].
  rewrite (st_bind_inr _ _ db data db), deletes_run in H by done.
  st_inv H. injection H as <- <-. st_pure_subst. st_facts. eauto 10.
Qed.
End quote_proofs.

Lemma clear_quote_lookup k db : orcamentos (clear_quote k db) !! k = orc_set_itens [] <$> orcamentos db !! k.
Proof. apply lookup_alter_eq. Qed.

Lemma mk_itens_fresh n its : Forall (λ i, n ≤ i)%Z (item_ids (mk_itens n its)).
Proof.
  rewrite mk_itens_ids. apply Forall_forall. intros i Hi. apply elem_of_seqZ in Hi. lia.
Qed.

Lemma orcamento_in_no_itens qp fs : field "itens" fs = None → orcamento_in qp (JObj fs) = inl TypeError.
Proof. intros H. unfold orcamento_in. simpl. by rewrite H. Qed.

(** A body without [itens]: the POST throws before any Prisma call, the
    PUT after its two [deleteMany] calls. *)
Lemma POST_no_itens qp fs db :
  field "itens" fs = None →
  POST qp (Some (JObj fs)) db = (inr (json_error "Internal Server Error" 500), db).
Proof.
  intros Hf. unfold POST, handle, st_catch. rewrite (st_bind_inr _ _ db (JObj fs) db) by done.
  by rewrite (st_bind_inl _ _ _ (JsErr TypeError) _) by (by rewrite orcamento_in_no_itens).
Qed.

Lemma PUT_no_itens qp id fs db :
  field "itens" fs = None →
  PUT qp id (Some (JObj fs)) db = (inr (json_error "Internal Server Error" 500), clear_quote id db).
Proof.
  intros Hf. unfold PUT, handle, st_catch. rewrite (st_bind_inr _ _ db (JObj fs) db), deletes_run by done.
  by rewrite (st_bind_inl _ _ _ (JsErr TypeError) _) by (by rewrite orcamento_in_no_itens).
Qed.

Section quote_claims.
Context (qp : qpolicy).

(** When [POST /api/orcamentos] answers 200 it has stored one new
    quote under a fresh id, whose items are the request's [itens] with
    their material lines in order, and changed no other table: quotes do
    not touch the stock of materials or products. *)
Theorem POST_orcamento_recorded req db r db' :
  POST qp req db = (inr r, db') → status r = 200%Z →
  ∃ data a its full, req = Some data ∧ orcamento_in qp data = inr a ∧
    mapM item_arg (oi_itens a) = inr its ∧ r = json_ok full ∧
    orcamentos db !! Orcamento.id (of_orcamento full) = None ∧
    orcamentos db' = <[Orcamento.id (of_orcamento full) := of_orcamento full]> (orcamentos db) ∧
    map strip_item (Orcamento.itens (of_orcamento full)) = its ∧
    materials db' = materials db ∧ produtos db' = produtos db ∧
    clientes db' = clientes db ∧ vendedores db' = vendedores db ∧ vendas db' = vendas db.
Proof.
  intros H Hs. destruct (orc_POST_ok qp req db r db' H Hs) as (data & a & full & -> & Ha & -> & Hc).
  apply orcamento_create_run in Hc
    as (n & d & s & o & c & its & first & _ & Hits & _ & _ & Hnone & Ho & -> & _).
  exists data, a, its, full. rewrite Ho. simpl. split_and!; try done. apply strip_mk_itens.
Qed.

(** C9. When [PUT /api/orcamentos/[id]] answers 200 the quote existed and
    now holds exactly the items of the request (none of the previous
    version is left), each of its item and material rows has a new id, no
    other quote changed, and no stock changed. *)
Theorem PUT_orcamento_replaces id req db r db' :
  PUT qp id req db = (inr r, db') → status r = 200%Z →
  ∃ data a its full, req = Some data ∧ orcamento_in qp data = inr a ∧
    mapM item_arg (oi_itens a) = inr its ∧ r = json_ok full ∧
    is_Some (orcamentos db !! id) ∧
    orcamentos db' = <[id := of_orcamento full]> (orcamentos db) ∧
    map strip_item (Orcamento.itens (of_orcamento full)) = its ∧
    Forall (λ i, seq db ≤ i)%Z (item_ids (Orcamento.itens (of_orcamento full))) ∧
    materials db' = materials db ∧ produtos db' = produtos db.
Proof.
  intros H Hs. destruct (orc_PUT_ok qp id req db r db' H Hs) as (data & a & full & -> & Ha & -> & Hu).
  apply orcamento_update_run in Hu as (n & d & s & o & c & its & q & _ & Hits & Hq & _ & Ho & -> & _).
  rewrite clear_quote_lookup in Hq. destruct (orcamentos db !! id) as [q0|] eqn:Hq0; [|done].
  injection Hq as <-. exists data, a, its, full. rewrite Ho. simpl.
  split_and!; try done; [by rewrite insert_alter_eq|apply strip_mk_itens|apply mk_itens_fresh].
Qed.

(** C10. A PUT whose body has no [itens] array (the edit form sends its
    lines as [items]) answers 500, and the quote has lost all its items
    and material lines: the two [deleteMany] calls committed before the
    argument of the update threw, where the contract asks for the whole
    replacement to be atomic. *)
Theorem PUT_orcamento_without_itens id fs db q :
  field "itens" fs = None → orcamentos db !! id = Some q →
  PUT qp id (Some (JObj fs)) db = (inr (json_error "Internal Server Error" 500), clear_quote id db) ∧
  orcamentos (clear_quote id db) !! id = Some (orc_set_itens [] q).
Proof.
  intros Hf Hq. split; [by apply PUT_no_itens|by rewrite clear_quote_lookup, Hq].
Qed.
End quote_claims.

(** C11. [DELETE /api/orcamentos/[id]] removes an existing quote with its
    items and answers 204; for an id no quote has it answers 500 (the
    [delete] fails), not the 404 of the contract, and changes nothing. *)
Theorem DELETE_orcamento_spec id db :
  DELETE id db =
    match orcamentos db !! id with
    | None => (inr (json_error "Internal Server Error" 500), db)
    | Some _ => (inr no_content, set_orcamentos (delete id (orcamentos db)) db)
    end.
Proof.
  unfold DELETE, handle, st_catch. rewrite deletes_run.
  destruct (orcamentos db !! id) as [q|] eqn:Hq.
  - assert (Hd : delete_row T_orcamentos (λ _ _, false) id (clear_quote id db) =
      (inr (orc_set_itens [] q), set_orcamentos (delete id (orcamentos db)) db)).
    { unfold delete_row. simpl. rewrite lookup_alter_eq, Hq. simpl. by rewrite delete_alter_eq. }
    by rewrite (st_bind_inr _ _ _ _ _ Hd).
  - rewrite clear_quote_missing by done. by rewrite (st_bind_inl _ _ _ _ _ (delete_row_missing T_orcamentos _ _ db Hq)).
Qed.

(** A quote that [POST /api/orcamentos] created is what
    [GET /api/orcamentos/[id]] then answers for its id, with the same
    client, items, material lines and materials. *)
Theorem POST_GET_id_orcamento qp req db r db' full :
  POST qp req db = (inr r, db') → r = json_ok full →
  GET_id (Orcamento.id (of_orcamento full)) db' = (inr (json_ok full), db').
Proof.
  intros H ->. destruct (orc_POST_ok qp req db _ db' H eq_refl) as (data & a & full' & _ & _ & [= <-] & Hc).
  apply orcamento_create_run in Hc as (n & d & s & o & c & its & first & _ & _ & _ & _ & _ & Ho & Hdb & Hinc).
  unfold GET_id, handle, st_catch.
  rewrite (st_bind_inr _ _ db' (Some (of_orcamento full)) db').
  - cbv beta iota. rewrite (st_bind_inr _ _ db' full db'); [done|]. unfold include_q. by rewrite Hinc.
  - unfold find_unique, st_gets. simpl. rewrite Hdb. simpl. rewrite Ho. simpl. by rewrite lookup_insert_eq.
Qed.

(** ** What a quote request says of its items

    [int_at v k z]: the property [k] of [v] is a number that Prisma reads
    as the [Int] [z]. *)
Definition int_at (v : json) (k : string) (z : Z) : Prop :=
  ∃ n, prop v k = inr (JNum n) ∧ int_of_num n = inr z.

(** An item as the request's JSON gives it: [descricao], [quantidade],
    [valorUnitario] and the [quantidade] and [id] of each element of
    [materiais], read straight from the body. *)
Definition item_of_request (it : json) (x : item_args) : Prop :=
  let '(d, q, v, ms) := x in
  prop it "descricao" = inr (JStr d) ∧ int_at it "quantidade" q ∧ prop it "valorUnitario" = inr (JNum v) ∧
  ∃ mjs, prop it "materiais" = inr (JArr mjs) ∧
    Forall2 (λ mj m, int_at mj "quantidade" m.1 ∧ prop mj "id" = inr (JStr m.2)) mjs ms.

Lemma material_in_arg mj mi m :
  material_in mj = inr mi → material_arg mi = inr m → int_at mj "quantidade" m.1 ∧ prop mj "id" = inr (JStr m.2).
Proof.
  unfold material_in, material_arg. intros H1 H2.
  apply sum_bind_inr in H1 as (q & Hq & H1). apply sum_bind_inr in H1 as (i & Hi & H1). injection H1 as <-.
  apply sum_bind_inr in H2 as (z & Hz & H2). apply sum_bind_inr in H2 as (s & Hs & H2). injection H2 as <-.
  simpl in *. destruct q; try done. destruct i; try done. simplify_eq/=. split; [by eexists|done].
Qed.

Lemma mapM_compose_Forall2 {E1 E2 A B C} (f : A → E1 + B) (g : B → E2 + C) (P : A → C → Prop) l bs cs :
  (∀ a b c, f a = inr b → g b = inr c → P a c) →
  mapM f l = inr bs → mapM g bs = inr cs → Forall2 P l cs.
Proof.
  intros Hfg Hf%sum_mapM_inr Hg%sum_mapM_inr. revert cs Hg.
  induction Hf as [|a b l bs Hab _ IH]; intros cs Hg; inversion Hg; subst; constructor; eauto.
Qed.

Lemma item_in_arg it ii x : item_in it = inr ii → item_arg ii = inr x → item_of_request it x.
Proof.
  unfold item_in, item_arg. intros H1 H2.
  apply sum_bind_inr in H1 as (d & Hd & H1). apply sum_bind_inr in H1 as (q & Hq & H1).
  apply sum_bind_inr in H1 as (v & Hv & H1). apply sum_bind_inr in H1 as (ms & Hms & H1).
  apply sum_bind_inr in H1 as (mis & Hmis & H1). injection H1 as <-. simpl in H2.
  apply sum_bind_inr in H2 as (d' & Hd' & H2). apply sum_bind_inr in H2 as (q' & Hq' & H2).
  apply sum_bind_inr in H2 as (v' & Hv' & H2). apply sum_bind_inr in H2 as (ms' & Hms' & H2). injection H2 as <-.
  apply sum_bind_inr in Hms as (mj & Hmj & Hms).
  destruct d; try done. destruct q; try done. destruct v; try done. destruct mj as [| | | | |mjs|]; try done. simplify_eq/=.
  split_and!; [done|by eexists|done|]. eexists. split; [done|].
  eapply mapM_compose_Forall2; [|exact Hmis|exact Hms']. intros ???. apply material_in_arg.
Qed.

Lemma orcamento_in_itens qp data a :
  orcamento_in qp data = inr a → ∃ its, prop data "itens" = inr (JArr its) ∧ mapM item_in its = inr (oi_itens a).
Proof.
  unfold orcamento_in. intros H.
  do 5 (apply sum_bind_inr in H as (? & _ & H)).
  apply sum_bind_inr in H as (its & Hits & H). apply sum_bind_inr in H as (iis & Hiis & H). injection H as <-.
  apply sum_bind_inr in Hits as (v & Hv & Ha). destruct v; try done. simplify_eq/=. by eexists.
Qed.

(** C8. When [POST /api/orcamentos] answers 200 it has stored one new
    quote under a fresh id, whose items are, in order, the elements of
    the request's [itens]: each stored item has the [descricao],
    [quantidade] and [valorUnitario] of its element of the body and, in
    order, one material line per element of its [materiais] with that
    element's [quantidade] and [id]; it changed no other table (quotes do
    not touch the stock of materials or products); and [GET
    /api/orcamentos/[id]] then answers that quote for its id, with the
    same client, items, material lines and materials. *)
Theorem POST_orcamento_roundtrip qp req db r db' :
  POST qp req db = (inr r, db') → status r = 200%Z →
  ∃ data itens full,
    (req = Some data ∧ prop data "itens" = inr (JArr itens) ∧ r = json_ok full ∧
     orcamentos db !! Orcamento.id (of_orcamento full) = None ∧
     orcamentos db' = <[Orcamento.id (of_orcamento full) := of_orcamento full]> (orcamentos db) ∧
     Forall2 item_of_request itens (map strip_item (Orcamento.itens (of_orcamento full))) ∧
     materials db' = materials db ∧ produtos db' = produtos db ∧
     clientes db' = clientes db ∧ vendedores db' = vendedores db ∧ vendas db' = vendas db) ∧
    GET_id (Orcamento.id (of_orcamento full)) db' = (inr (json_ok full), db').
Proof.
  intros H Hs. destruct (POST_orcamento_recorded qp req db r db' H Hs)
    as (data & a & its & full & Hreq & Ha & Hits & Hr & Hfresh & Ho & Hstrip & ? & ? & ? & ? & ?).
  destruct (orcamento_in_itens qp data a Ha) as (itens & Hitens & Hin).
  exists data, itens, full. split; [|subst r; exact (POST_GET_id_orcamento qp req db _ db' full H eq_refl)].
  split_and!; try done. rewrite Hstrip.
  eapply mapM_compose_Forall2; [|exact Hin|exact Hits]. intros ???. apply item_in_arg.
Qed.

(** ** A store to run the quote routes on

    Client 1, material ["m1"]; a quote request of one item with one
    material line, dated by a number of milliseconds. *)
Definition qp_ex : qpolicy := QPolicy (Some "Pendente") (λ _, None).
Definition cliente_q : Cliente.t := Cliente.mk 1 "Ana" None "11" (Some "123") None None None None None.
Definition mat_ex : Material.t := Material.mk "m1" "MDF" "Chapa" None 10 "un" (Fin 50) 5.
Definition dbq : DB := mkDB {[1%Z := cliente_q]} {["m1" := mat_ex]} ∅ ∅ ∅ ∅ 1 0 0.
Definition item_q : json :=
  JObj [("descricao", JStr "Armario"); ("quantidade", JNum (num_of_Z 2)); ("valorUnitario", JNum (Fin 150));
        ("materiais", JArr [JObj [("id", JStr "m1"); ("quantidade", JNum (num_of_Z 3))]])].
Definition req_q : option json :=
  Some (JObj [("clienteId", JNum (num_of_Z 1)); ("data", JNum (num_of_Z 1700000000000)); ("itens", JArr [item_q])]).
Definition dbq1 : DB := Eval vm_compute in snd (POST qp_ex req_q dbq).

Lemma PUT_orcamento_replaces_witness :
  ∃ r db', PUT qp_ex "c0" req_q dbq1 = (inr r, db') ∧ status r = 200%Z ∧
  ∃ data a its full, req_q = Some data ∧ orcamento_in qp_ex data = inr a ∧
    mapM item_arg (oi_itens a) = inr its ∧ r = json_ok full ∧
    is_Some (orcamentos dbq1 !! "c0") ∧
    orcamentos db' = <["c0" := of_orcamento full]> (orcamentos dbq1) ∧
    map strip_item (Orcamento.itens (of_orcamento full)) = its ∧
    Forall (λ i, seq dbq1 ≤ i)%Z (item_ids (Orcamento.itens (of_orcamento full))) ∧
    materials db' = materials dbq1 ∧ produtos db' = produtos dbq1.
Proof.
  st_run (PUT qp_ex "c0" req_q dbq1) r db' E.
  assert (Hs : status r = 200%Z) by (vm_compute in E; injection E as <- _; reflexivity).
  exists r, db'. split_and!; [reflexivity|exact Hs|exact (PUT_orcamento_replaces qp_ex _ _ _ _ _ E Hs)].
Defined.

(** The edit form's body: its lines under [items]. *)
Definition form_fields_ex : list (string * json) :=
  [("clienteId", JNum (num_of_Z 1)); ("status", JStr "Pendente"); ("observacoes", JStr "");
   ("items", JArr [JObj [("produtoId", JNum (num_of_Z 3)); ("quantidade", JNum (num_of_Z 1));
                         ("precoUnit", JNum (Fin 100))]])].

Lemma PUT_orcamento_without_itens_witness :
  ∃ q, field "itens" form_fields_ex = None ∧ orcamentos dbq1 !! "c0" = Some q ∧
  PUT qp_ex "c0" (Some (JObj form_fields_ex)) dbq1 =
    (inr (json_error "Internal Server Error" 500), clear_quote "c0" dbq1) ∧
  orcamentos (clear_quote "c0" dbq1) !! "c0" = Some (orc_set_itens [] q) ∧ Orcamento.itens q ≠ [].
Proof.
  destruct (orcamentos dbq1 !! "c0") as [q|] eqn:Hq; [|vm_compute in Hq; discriminate Hq].
  assert (Hf : field "itens" form_fields_ex = None) by reflexivity.
  exists q. pose proof (PUT_orcamento_without_itens qp_ex "c0" _ dbq1 q Hf Hq) as [H1 H2].
  split_and!; [exact Hf|reflexivity|exact H1|exact H2|].
  vm_compute in Hq. injection Hq as <-. discriminate.
Defined.

Lemma POST_orcamento_roundtrip_witness :
  ∃ r db', POST qp_ex req_q dbq = (inr r, db') ∧ status r = 200%Z ∧
  ∃ data itens full,
    (req_q = Some data ∧ prop data "itens" = inr (JArr itens) ∧ r = json_ok full ∧
     orcamentos dbq !! Orcamento.id (of_orcamento full) = None ∧
     orcamentos db' = <[Orcamento.id (of_orcamento full) := of_orcamento full]> (orcamentos dbq) ∧
     Forall2 item_of_request itens (map strip_item (Orcamento.itens (of_orcamento full))) ∧
     materials db' = materials dbq ∧ produtos db' = produtos dbq ∧
     clientes db' = clientes dbq ∧ vendedores db' = vendedores dbq ∧ vendas db' = vendas dbq) ∧
    GET_id (Orcamento.id (of_orcamento full)) db' = (inr (json_ok full), db').
Proof.
  st_run (POST qp_ex req_q dbq) r db' E.
  assert (Hs : status r = 200%Z) by (vm_compute in E; injection E as <- _; reflexivity).
  exists r, db'. split_and!; [reflexivity|exact Hs|exact (POST_orcamento_roundtrip qp_ex _ _ _ _ E Hs)].
Defined.
