(* ===== verification/Cadastros.v ===== *)
(** * The registers: the routes of [src/app/api/clientes], [materials],
      [produtos] and [vendedores]

    Four CRUD route pairs.  The client and material routes hand the request
    body to Prisma as it is ([data]); Prisma refuses a body that is not an
    object, a key that is not a column, a missing required column and a
    value of the wrong type.  The product and seller routes build the
    argument themselves, with [parseFloat] and [parseInt] on the numeric
    fields.  The routes by id read [params.id]: the client routes pass it
    as it is to an [Int] column (Prisma refuses a string there), the
    material routes to a [String] id, the product and seller routes
    [parseInt] it.

    Listings are [orderBy: { nome: 'asc' }] (or [name]), modelled as the
    byte order of the strings.  A row still referenced by a sale or a quote
    cannot be deleted (Prisma's default [onDelete: Restrict] for a required
    relation).  An update whose data sets [id] to another value would move
    the row and its references; it is refused here as a validation
    error. *)

From stdpp Require Import pretty.
From S2P Require Import Prelude Js Store Http.

Module Cadastros.

(** ** Prisma's checks of a raw [data] object *)

Definition obj_fields (v : json) : exn + list (string * json) :=
  match v with JObj fs => inr fs | _ => inl (PrismaErr Validation) end.

(** [data.k]: absent and [undefined] are the same to Prisma. *)
Definition fld (fs : list (string * json)) (k : string) : json := default JUndef (field k fs).

Definition fld_given (data : json) (k : string) : bool :=
  match data with JObj fs => if fld fs k is JUndef then false else true | _ => false end.

Definition known_keys (ks : list string) (fs : list (string * json)) : exn + unit :=
  if forallb (λ kv, bool_decide (kv.1 ∈ ks)) fs then inr () else inl (PrismaErr Validation).

(** An [id] in the data of an update: absent or the same value. *)
Definition same_id {K} `{EqDecision K} (arg : json → exn + K) (k : K) (v : json) : exn + unit :=
  i ← upd arg v;
  match i with Some k' => if decide (k' = k) then inr () else inl (PrismaErr Validation) | None => inr () end.

(** [orderBy: { nome: 'asc' }] on strings. *)
Definition str_asc {A} (key : A → string) (a b : A) : Prop := String.leb (key a) (key b) = true.
#[export] Instance str_asc_dec {A} (key : A → string) : RelDecision (str_asc key).
Proof. intros a b. unfold str_asc. apply _. Defined.
#[export] Instance str_asc_total {A} (key : A → string) : Total (str_asc key).
Proof. intros a b. apply String.leb_total. Qed.

(** [findMany({ orderBy })] *)
Definition list_sorted {K V} `{Countable K} (T : table K V) (R : relation V) `{!RelDecision R} :
    M (response (list V)) := λ db, (inr (json_ok (merge_sort R (map snd (map_to_list (tget T db))))), db).

(** [@default(cuid())]: the next fresh string id. *)
Definition fresh_cuid (db : DB) : string := "c" +:+ pretty (cuid db).

(** ** Clients: [api/clientes/route.ts], [api/clientes/[id]/route.ts] *)
Module Clientes.

Definition keys : list string :=
  ["id"; "nome"; "email"; "telefone"; "cpf"; "cnpj"; "endereco"; "cidade"; "estado"; "cep"].

(** The row [prisma.cliente.create({ data })] builds under id [k]. *)
Definition of_fields (k : Z) (fs : list (string * json)) : exn + Cliente.t :=
  _ ← known_keys keys fs;
  nome ← string_arg (fld fs "nome"); email ← opt_string_arg (fld fs "email");
  telefone ← string_arg (fld fs "telefone"); cpf ← opt_string_arg (fld fs "cpf");
  cnpj ← opt_string_arg (fld fs "cnpj"); endereco ← opt_string_arg (fld fs "endereco");
  cidade ← opt_string_arg (fld fs "cidade"); estado ← opt_string_arg (fld fs "estado");
  cep ← opt_string_arg (fld fs "cep");
  mret (Cliente.mk k nome email telefone cpf cnpj endereco cidade estado cep).

(** The row [prisma.cliente.update({ data })] makes of [c]. *)
Definition upd_fields (fs : list (string * json)) (c : Cliente.t) : exn + Cliente.t :=
  _ ← known_keys keys fs; _ ← same_id int_arg (Cliente.id c) (fld fs "id");
  nome ← upd string_arg (fld fs "nome"); email ← upd opt_string_arg (fld fs "email");
  telefone ← upd string_arg (fld fs "telefone"); cpf ← upd opt_string_arg (fld fs "cpf");
  cnpj ← upd opt_string_arg (fld fs "cnpj"); endereco ← upd opt_string_arg (fld fs "endereco");
  cidade ← upd opt_string_arg (fld fs "cidade"); estado ← upd opt_string_arg (fld fs "estado");
  cep ← upd opt_string_arg (fld fs "cep");
  mret (Cliente.mk (Cliente.id c) (default (Cliente.nome c) nome) (default (Cliente.email c) email)
          (default (Cliente.telefone c) telefone) (default (Cliente.cpf c) cpf)
          (default (Cliente.cnpj c) cnpj) (default (Cliente.endereco c) endereco)
          (default (Cliente.cidade c) cidade) (default (Cliente.estado c) estado)
          (default (Cliente.cep c) cep)).

(** [prisma.cliente.create({ data })]: the id is the sequence's next value
    unless the data gives one (which does not advance the sequence). *)
Definition create (data : json) : M Cliente.t := λ db,
  match (fs ← obj_fields data;
         k ← (match fld fs "id" with JUndef => inr (seq db) | v => int_arg v end);
         of_fields k fs) with
  | inl e => (inl e, db)
  | inr c =>
      if bool_decide (is_Some (clientes db !! Cliente.id c)) then (inl (PrismaErr UniqueViolation), db)
      else (inr c, mkDB (<[Cliente.id c := c]> (clientes db)) (materials db) (produtos db)
                     (vendedores db) (vendas db) (orcamentos db)
                     (if fld_given data "id" then seq db else seq db + 1) (cuid db) (clock db))
  end.

(** A client still named by a sale or a quote. *)
Definition referenced (db : DB) (k : Z) : bool :=
  bool_decide (map_Exists (λ _ v, Venda.clienteId v = k) (vendas db)) ||
  bool_decide (map_Exists (λ _ o, Orcamento.clienteId o = k) (orcamentos db)).

(** [where: { id: params.id }] on the [Int] id: a string. *)
Definition where_id (id : string) : M Z := check (int_arg (JStr id)).

Definition GET : M (response (list Cliente.t)) :=
  handle "Internal Server Error" (list_sorted T_clientes (str_asc Cliente.nome)).

Definition POST (req : option json) : M (response Cliente.t) :=
  handle "Internal Server Error" (data ← request_json req; c ← create data; mret (json_ok c)).

Definition GET_id (id : string) : M (response Cliente.t) :=
  handle "Internal Server Error" (
    k ← where_id id; c ← find_unique T_clientes k;
    match c with
    | None => mret (json_error "Cliente não encontrado" 404)
    | Some c => mret (json_ok c)
    end).

Definition PUT (id : string) (req : option json) : M (response Cliente.t) :=
  handle "Internal Server Error" (
    data ← request_json req; k ← where_id id; fs ← check (obj_fields data);
    c ← update_row T_clientes k (upd_fields fs); mret (json_ok c)).

Definition DELETE (id : string) : M (response unit) :=
  handle "Internal Server Error" (
    k ← where_id id; _ ← delete_row T_clientes referenced k; mret no_content).
End Clientes.

(** ** Materials: [api/materials/route.ts], [api/materials/[id]/route.ts] *)
Module Materials.

Definition keys : list string :=
  ["id"; "name"; "type"; "description"; "quantity"; "unit"; "price"; "minStock"].

(** The values of the [type] enum, as the spec's data model gives them. *)
Definition types : list string := ["Chapa"; "Ferragem"; "Acabamento"].

Definition of_fields (k : string) (fs : list (string * json)) : exn + Material.t :=
  _ ← known_keys keys fs;
  name ← string_arg (fld fs "name"); type ← enum_arg types (fld fs "type");
  description ← opt_string_arg (fld fs "description"); quantity ← int_arg (fld fs "quantity");
  unit ← string_arg (fld fs "unit"); price ← float_arg (fld fs "price");
  minStock ← int_arg (fld fs "minStock");
  mret (Material.mk k name type description quantity unit price minStock).

Definition upd_fields (fs : list (string * json)) (m : Material.t) : exn + Material.t :=
  _ ← known_keys keys fs; _ ← same_id string_arg (Material.id m) (fld fs "id");
  name ← upd string_arg (fld fs "name"); type ← upd (enum_arg types) (fld fs "type");
  description ← upd opt_string_arg (fld fs "description"); quantity ← upd int_arg (fld fs "quantity");
  unit ← upd string_arg (fld fs "unit"); price ← upd float_arg (fld fs "price");
  minStock ← upd int_arg (fld fs "minStock");
  mret (Material.mk (Material.id m) (default (Material.name m) name) (default (Material.type m) type)
          (default (Material.description m) description) (default (Material.quantity m) quantity)
          (default (Material.unit m) unit) (default (Material.price m) price)
          (default (Material.minStock m) minStock)).

(** [prisma.material.create({ data })]: the id is a fresh [cuid()] unless
    the data gives one. *)
Definition create (data : json) : M Material.t := λ db,
  match (fs ← obj_fields data;
         k ← (match fld fs "id" with JUndef => inr (fresh_cuid db) | v => string_arg v end);
         of_fields k fs) with
  | inl e => (inl e, db)
  | inr m =>
      if bool_decide (is_Some (materials db !! Material.id m)) then (inl (PrismaErr UniqueViolation), db)
      else (inr m, mkDB (clientes db) (<[Material.id m := m]> (materials db)) (produtos db)
                     (vendedores db) (vendas db) (orcamentos db) (seq db) (S (cuid db)) (clock db))
  end.

(** A material still named by a material line of a quote. *)
Definition referenced (db : DB) (k : string) : bool :=
  bool_decide (map_Exists (λ _ o, Exists (λ it, Exists (λ m, OrcamentoMaterial.materialId m = k)
                                                   (OrcamentoItem.materiais it)) (Orcamento.itens o))
                 (orcamentos db)).

Definition GET : M (response (list Material.t)) :=
  handle "Internal Server Error" (list_sorted T_materials (str_asc Material.name)).

Definition POST (req : option json) : M (response Material.t) :=
  handle "Internal Server Error" (data ← request_json req; m ← create data; mret (json_ok m)).

Definition GET_id (id : string) : M (response Material.t) :=
  handle "Internal Server Error" (
    m ← find_unique T_materials id;
    match m with
    | None => mret (json_error "Material not found" 404)
    | Some m => mret (json_ok m)
    end).

Definition PUT (id : string) (req : option json) : M (response Material.t) :=
  handle "Internal Server Error" (
    data ← request_json req; fs ← check (obj_fields data);
    m ← update_row T_materials id (upd_fields fs); mret (json_ok m)).

Definition DELETE (id : string) : M (response unit) :=
  handle "Internal Server Error" (_ ← delete_row T_materials referenced id; mret no_content).
End Materials.

(** ** Products: [api/produtos/route.ts], [api/produtos/[id]/route.ts] *)
Module Produtos.

(** [{ nome: data.nome, categoria: data.categoria, preco:
    parseFloat(data.preco), estoque: parseInt(data.estoque), fornecedor:
    data.fornecedor }] *)
Definition data_in (data : json) : js_error + (json * json * num * num * json) :=
  n ← prop data "nome"; c ← prop data "categoria"; p ← prop data "preco";
  e ← prop data "estoque"; f ← prop data "fornecedor";
  mret (n, c, parse_float p, parse_int e, f).

Definition create_arg (k : Z) (a : json * json * num * num * json) : exn + Produto.t :=
  let '(n, c, p, e, f) := a in
  nome ← string_arg n; categoria ← string_arg c; estoque ← int_of_num e; fornecedor ← string_arg f;
  mret (Produto.mk k nome categoria p estoque fornecedor).

(** The update sets every column the argument does not leave [undefined]:
    [parseFloat] and [parseInt] never give [undefined]. *)
Definition upd_arg (a : json * json * num * num * json) (r : Produto.t) : exn + Produto.t :=
  let '(n, c, p, e, f) := a in
  nome ← upd string_arg n; categoria ← upd string_arg c; estoque ← int_of_num e;
  fornecedor ← upd string_arg f;
  mret (Produto.mk (Produto.id r) (default (Produto.nome r) nome) (default (Produto.categoria r) categoria)
          p estoque (default (Produto.fornecedor r) fornecedor)).

Definition create (a : json * json * num * num * json) : M Produto.t := λ db,
  match create_arg (seq db) a with
  | inl e => (inl e, db)
  | inr r =>
      if bool_decide (is_Some (produtos db !! seq db)) then (inl (PrismaErr UniqueViolation), db)
      else (inr r, mkDB (clientes db) (materials db) (<[seq db := r]> (produtos db))
                     (vendedores db) (vendas db) (orcamentos db) (seq db + 1) (cuid db) (clock db))
  end.

(** A product still named by a line of a sale. *)
Definition referenced (db : DB) (k : Z) : bool :=
  bool_decide (map_Exists (λ _ v, Exists (λ it, VendaItem.produtoId it = k) (Venda.items v)) (vendas db)).

Definition GET : M (response (list Produto.t)) :=
  handle "Error fetching produtos" (list_sorted T_produtos (str_asc Produto.nome)).

Definition POST (req : option json) : M (response Produto.t) :=
  handle "Error creating produto" (
    data ← request_json req; a ← js (data_in data); r ← create a; mret (json_ok r)).

Definition GET_id (id : string) : M (response Produto.t) :=
  handle "Error fetching produto" (
    k ← where_int_id id; r ← find_unique T_produtos k;
    match r with
    | None => mret (json_error "Produto not found" 404)
    | Some r => mret (json_ok r)
    end).

Definition PUT (id : string) (req : option json) : M (response Produto.t) :=
  handle "Error updating produto" (
    data ← request_json req; a ← js (data_in data); k ← where_int_id id;
    r ← update_row T_produtos k (upd_arg a); mret (json_ok r)).

Definition DELETE (id : string) : M (response unit) :=
  handle "Error deleting produto" (
    k ← where_int_id id; _ ← delete_row T_produtos referenced k; mret json_success).
End Produtos.

(** ** Sellers: [api/vendedores/route.ts], [api/vendedores/[id]/route.ts] *)
Module Vendedores.

(** [{ nome, email, telefone, comissao: parseFloat(data.comissao),
    metaMensal: parseFloat(data.metaMensal), status }] *)
Definition data_in (data : json) : js_error + (json * json * json * num * num * json) :=
  n ← prop data "nome"; e ← prop data "email"; t ← prop data "telefone";
  c ← prop data "comissao"; m ← prop data "metaMensal"; s ← prop data "status";
  mret (n, e, t, parse_float c, parse_float m, s).

Definition create_arg (k : Z) (a : json * json * json * num * num * json) : exn + Vendedor.t :=
  let '(n, e, t, c, m, s) := a in
  nome ← string_arg n; email ← string_arg e; telefone ← string_arg t; status ← string_arg s;
  mret (Vendedor.mk k nome email telefone c m status).

Definition upd_arg (a : json * json * json * num * num * json) (v : Vendedor.t) : exn + Vendedor.t :=
  let '(n, e, t, c, m, s) := a in
  nome ← upd string_arg n; email ← upd string_arg e; telefone ← upd string_arg t;
  status ← upd string_arg s;
  mret (Vendedor.mk (Vendedor.id v) (default (Vendedor.nome v) nome) (default (Vendedor.email v) email)
          (default (Vendedor.telefone v) telefone) c m (default (Vendedor.status v) status)).

Definition create (a : json * json * json * num * num * json) : M Vendedor.t := λ db,
  match create_arg (seq db) a with
  | inl e => (inl e, db)
  | inr v =>
      if bool_decide (is_Some (vendedores db !! seq db)) then (inl (PrismaErr UniqueViolation), db)
      else (inr v, mkDB (clientes db) (materials db) (produtos db) (<[seq db := v]> (vendedores db))
                     (vendas db) (orcamentos db) (seq db + 1) (cuid db) (clock db))
  end.

(** A seller still named by a sale. *)
Definition referenced (db : DB) (k : Z) : bool :=
  bool_decide (map_Exists (λ _ v, Venda.vendedorId v = k) (vendas db)).

(** A seller with [include: { vendas: { select: { id, data, total, status } } }]. *)
Record VendedorFull := {
  vdf_vendedor : Vendedor.t;
  vdf_vendas : list (Z * Z * num * string) }.

Definition include_vendas (db : DB) (s : Vendedor.t) : VendedorFull :=
  {| vdf_vendedor := s;
     vdf_vendas := map (λ v, (Venda.id v, Venda.data v, Venda.total v, Venda.status v))
                     (filter (λ v, Venda.vendedorId v = Vendedor.id s) (map snd (map_to_list (vendas db)))) |}.

Definition GET : M (response (list Vendedor.t)) :=
  handle "Error fetching vendedores" (list_sorted T_vendedores (str_asc Vendedor.nome)).

Definition POST (req : option json) : M (response Vendedor.t) :=
  handle "Error creating vendedor" (
    data ← request_json req; a ← js (data_in data); v ← create a; mret (json_ok v)).

Definition GET_id (id : string) : M (response VendedorFull) :=
  handle "Error fetching vendedor" (
    k ← where_int_id id; db ← st_gets (λ db, db); v ← find_unique T_vendedores k;
    match v with
    | None => mret (json_error "Vendedor not found" 404)
    | Some v => mret (json_ok (include_vendas db v))
    end).

Definition PUT (id : string) (req : option json) : M (response Vendedor.t) :=
  handle "Error updating vendedor" (
    data ← request_json req; a ← js (data_in data); k ← where_int_id id;
    v ← update_row T_vendedores k (upd_arg a); mret (json_ok v)).

Definition DELETE (id : string) : M (response unit) :=
  handle "Error deleting vendedor" (
    k ← where_int_id id; _ ← delete_row T_vendedores referenced k; mret json_success).
End Vendedores.

End Cadastros.
Export Cadastros.

(** ** Proofs *)

Lemma where_id_fails id db : Clientes.where_id id db = (inl (PrismaErr Validation), db).
Proof. done. Qed.

Lemma Clientes_PUT_fails id req db :
  Clientes.PUT id req db = (inr (json_error "Internal Server Error" 500), db).
Proof.
  unfold Clientes.PUT, handle, st_catch. destruct req as [data|]; [|done].
  rewrite (st_bind_inr _ _ db data db) by done.
  by rewrite (st_bind_inl _ _ _ _ _ (where_id_fails id db)).
Qed.

Lemma Clientes_DELETE_fails id db :
  Clientes.DELETE id db = (inr (json_error "Internal Server Error" 500), db).
Proof.
  unfold Clientes.DELETE, handle, st_catch. by rewrite (st_bind_inl _ _ _ _ _ (where_id_fails id db)).
Qed.

(** C12. Every route of [/api/clientes/[id]] answers 500 and changes
    nothing, whatever the id and the store: the handlers give the string
    [params.id] to the [Int] id, which Prisma refuses.  The contract asks
    for 200 with the client, or 404. *)
Theorem clientes_id_routes_fail id req db :
  Clientes.GET_id id db = (inr (json_error "Internal Server Error" 500), db) ∧
  Clientes.PUT id req db = (inr (json_error "Internal Server Error" 500), db) ∧
  Clientes.DELETE id db = (inr (json_error "Internal Server Error" 500), db).
Proof.
  split_and!; [|apply Clientes_PUT_fails|apply Clientes_DELETE_fails].
  unfold Clientes.GET_id, handle, st_catch. by rewrite (st_bind_inl _ _ _ _ _ (where_id_fails id db)).
Qed.

Lemma Produtos_upd_arg_nan n c p f r : ∃ e, Produtos.upd_arg (n, c, p, NaN, f) r = inl e.
Proof.
  unfold Produtos.upd_arg. destruct (upd string_arg n); [by eexists|]. simpl.
  destruct (upd string_arg c); by eexists.
Qed.

(** A PUT of [/api/produtos/[id]] whose body has no [estoque] answers
    500 and changes nothing: [parseInt(undefined)] is [NaN], which the
    [Int] column refuses, so a product cannot be updated partially,
    where the contract allows a partial update. *)
Theorem produto_PUT_without_estoque id fs db :
  field "estoque" fs = None →
  Produtos.PUT id (Some (JObj fs)) db = (inr (json_error "Error updating produto" 500), db).
Proof.
  intros H. unfold Produtos.PUT, handle, st_catch.
  rewrite (st_bind_inr _ _ db (JObj fs) db) by done.
  rewrite (st_bind_inr _ _ db (fld fs "nome", fld fs "categoria", parse_float (fld fs "preco"), NaN,
    fld fs "fornecedor") db) by (unfold Produtos.data_in, fld; simpl; by rewrite H).
  unfold where_int_id, check, st_lift. destruct (int_of_num (parse_int_str id)) as [e|k]; [done|].
  rewrite (st_bind_inr _ _ db k db) by done.
  destruct (update_row_fails T_produtos k (Produtos.upd_arg (fld fs "nome", fld fs "categoria",
    parse_float (fld fs "preco"), NaN, fld fs "fornecedor")) db) as [e He].
  { intros r. apply Produtos_upd_arg_nan. }
  by rewrite (st_bind_inl _ _ _ _ _ He).
Qed.

Lemma Vendedores_upd_arg_run n e t c m s v v' :
  Vendedores.upd_arg (n, e, t, c, m, s) v = inr v' →
  Vendedor.id v' = Vendedor.id v ∧ Vendedor.comissao v' = c ∧ Vendedor.metaMensal v' = m.
Proof.
  unfold Vendedores.upd_arg. intros H.
  repeat (apply sum_bind_inr in H as (? & _ & H)). by injection H as <-.
Qed.

(** A PUT of [/api/vendedores/[id]] that answers 200 sets the
    commission and the monthly goal to [parseFloat] of the body's values:
    a body without them (a partial update) stores [NaN] in both, where the
    contract asks for a validation error. *)
Theorem vendedor_PUT_commission id fs db r db' :
  Vendedores.PUT id (Some (JObj fs)) db = (inr r, db') → status r = 200%Z →
  ∃ k v, int_of_num (parse_int_str id) = inr k ∧ vendedores db' !! k = Some v ∧
    Vendedor.comissao v = parse_float (fld fs "comissao") ∧
    Vendedor.metaMensal v = parse_float (fld fs "metaMensal").
Proof.
  intros H Hs. unfold Vendedores.PUT in H. apply handle_not_500 in H; [|by rewrite Hs].
  st_inv H. injection H as _ <-. st_pure_subst. st_facts.
  injection E as <-. unfold Vendedores.data_in in E0. simpl in E0. injection E0 as <-.
  unfold update_row in E2. cbn [tget tset T_vendedores] in E2.
  destruct (vendedores db !! a1) as [v|]; [|done].
  destruct (Vendedores.upd_arg _ v) as [|v'] eqn:Hv; [done|]. injection E2 as <- <-.
  apply Vendedores_upd_arg_run in Hv as (_ & Hc & Hm).
  exists a1, v'. simpl. by rewrite lookup_insert_eq.
Qed.

(** C13. The PUT routes of products and sellers coerce the body's
    numbers with [parseInt]/[parseFloat] and no check: a product PUT
    without [estoque] answers 500 and changes nothing ([parseInt(undefined)]
    is [NaN], which the [Int] column refuses), and a seller PUT that
    answers 200 has stored [parseFloat] of [comissao] and [metaMensal],
    [NaN] when they are absent.  A partial update is refused for products
    and corrupts sellers; the contract allows partial updates and asks for
    a validation error when coercion gives [NaN]. *)
Theorem cadastros_PUT_coercion :
  (∀ id fs db, field "estoque" fs = None →
     Produtos.PUT id (Some (JObj fs)) db = (inr (json_error "Error updating produto" 500), db)) ∧
  (∀ id fs db r db', Vendedores.PUT id (Some (JObj fs)) db = (inr r, db') → status r = 200%Z →
     ∃ k v, int_of_num (parse_int_str id) = inr k ∧ vendedores db' !! k = Some v ∧
       Vendedor.comissao v = parse_float (fld fs "comissao") ∧
       Vendedor.metaMensal v = parse_float (fld fs "metaMensal")).
Proof. split; [apply produto_PUT_without_estoque|apply vendedor_PUT_commission]. Qed.

(** A material that [POST /api/materials] created is stored under
    its id, and [GET /api/materials/[id]] then answers it. *)
Theorem material_POST_GET_id req db r db' m :
  Materials.POST req db = (inr r, db') → r = json_ok m →
  materials db' = <[Material.id m := m]> (materials db) ∧
  Materials.GET_id (Material.id m) db' = (inr (json_ok m), db').
Proof.
  intros H ->. unfold Materials.POST in H. apply handle_not_500 in H; [|done].
  st_inv H. injection H as <- <-. st_pure_subst. st_facts.
  unfold Materials.create in E0. destruct (fs ← obj_fields a; _) as [e|m']; [done|].
  case_bool_decide; [done|]. injection E0 as <- <-. simpl. split; [done|].
  unfold Materials.GET_id, handle, st_catch. unfold find_unique, st_gets, mbind, st_bind. simpl.
  by rewrite lookup_insert_eq.
Qed.

(** ** A store to run the register routes on: product 3, seller 2. *)
Definition produto_c : Produto.t := Produto.mk 3 "Mesa" "Sala" (Fin 100) 5 "Silva".
Definition vendedor_c : Vendedor.t :=
  Vendedor.mk 2 "Carlos" "carlos@moveisplus.com" "22" (Fin 5) (Fin 50000) "Ativo".
Definition dbc : DB := mkDB ∅ ∅ {[3%Z := produto_c]} {[2%Z := vendedor_c]} ∅ ∅ 4 0 0.
Definition rename_fs : list (string * json) := [("nome", JStr "Carlos Oliveira")].
Definition material_req : option json :=
  Some (JObj [("name", JStr "MDF"); ("type", JStr "Chapa"); ("quantity", JNum (num_of_Z 10));
              ("unit", JStr "un"); ("price", JNum (Fin 50)); ("minStock", JNum (num_of_Z 5))]).

(** The same body, without [estoque], [comissao] nor [metaMensal], sent to
    product 3 and seller 2. *)
Lemma cadastros_PUT_coercion_witness :
  (field "estoque" rename_fs = None ∧
   Produtos.PUT "3" (Some (JObj rename_fs)) dbc = (inr (json_error "Error updating produto" 500), dbc)) ∧
  ∃ r db', Vendedores.PUT "2" (Some (JObj rename_fs)) dbc = (inr r, db') ∧ status r = 200%Z ∧
    parse_float (fld rename_fs "comissao") = NaN ∧
    ∃ k v, int_of_num (parse_int_str "2") = inr k ∧ vendedores db' !! k = Some v ∧
      Vendedor.comissao v = parse_float (fld rename_fs "comissao") ∧
      Vendedor.metaMensal v = parse_float (fld rename_fs "metaMensal").
Proof.
  assert (H : field "estoque" rename_fs = None) by reflexivity.
  split; [split; [exact H|exact (proj1 cadastros_PUT_coercion "3" rename_fs dbc H)]|].
  st_run (Vendedores.PUT "2" (Some (JObj rename_fs)) dbc) r db' E.
  assert (Hs : status r = 200%Z) by (vm_compute in E; injection E as <- _; reflexivity).
  exists r, db'. split_and!; [reflexivity|exact Hs|reflexivity|].
  exact (proj2 cadastros_PUT_coercion "2" rename_fs dbc r db' E Hs).
Defined.

Lemma material_POST_GET_id_witness :
  ∃ m db', Materials.POST material_req dbc = (inr (json_ok m), db') ∧
    materials db' = <[Material.id m := m]> (materials dbc) ∧
    Materials.GET_id (Material.id m) db' = (inr (json_ok m), db').
Proof.
  st_run (Materials.POST material_req dbc) r db' E.
  pose proof E as E'. vm_compute in E'. injection E' as <- _.
  eexists _, db'. split; [reflexivity|]. exact (material_POST_GET_id _ _ _ _ _ E eq_refl).
Defined.
