(* ===== verification/Estoque.v ===== *)
(** * The stock page: [src/app/estoque/page.tsx] and the row selection of
      [src/components/Table.tsx]

    The page holds the materials the API listed, the ids of the selected
    rows, the type filter and the search text.  It derives the status of a
    row ([quantity <= minStock] is low), the cards (number of materials,
    number of low ones, value of the stock) and the rows shown.  The
    table's checkboxes edit the selection; "Excluir Selecionados" sends one
    DELETE per selected id, all at once, and reports success when they
    have all answered.

    The page runs in the browser: [fetch] resolves with any HTTP answer,
    so a DELETE that answered 500 counts as done.  The DELETE requests are
    concurrent; each is one atomic Prisma call on its own id, so running
    them in the order of the selection gives the store every interleaving
    gives ([bulk_delete_materials]). *)

From S2P Require Import Prelude Js Store Http Cadastros.

Local Open Scope moveis_scope.

Module Estoque.

(** ** The table's selection *)
Module Table.

(** [handleSelectAll]: [checked] is the new state of the header box. *)
Definition select_all (ids : list string) (checked : bool) : list string :=
  if checked then ids else [].

(** [handleSelectRow] *)
Definition select_row (sel : list string) (rowId : string) (checked : bool) : list string :=
  if checked then sel ++ [rowId] else filter (λ id, id ≠ rowId) sel.

(** [allSelected = data.length > 0 && selectedRows.length === data.length] *)
Definition all_selected (ids sel : list string) : bool :=
  bool_decide (0 < length ids)%nat && bool_decide (length sel = length ids).

(** [checked={selectedRows.includes(row[idField])}] *)
Definition row_checked (sel : list string) (id : string) : bool := bool_decide (id ∈ sel).

(** A click flips the box it lands on.  [ids] are the ids of the rows the
    table shows. *)
Inductive event :=
  | ClickAll (ids : list string)
  | ClickRow (id : string)
  | Clear.

Definition step (sel : list string) (e : event) : list string :=
  match e with
  | ClickAll ids => select_all ids (negb (all_selected ids sel))
  | ClickRow id => select_row sel id (negb (row_checked sel id))
  | Clear => []
  end.

Definition run (sel : list string) (es : list event) : list string := foldl step sel es.
End Table.

(** ** The page *)

(** [row.quantity <= row.minStock ? 'Baixo' : 'Normal'] *)
Definition status (m : Material.t) : string :=
  if (Material.quantity m <=? Material.minStock m)%Z then "Baixo" else "Normal".

(** "Itens Abaixo do Mínimo" *)
Definition low_count (ms : list Material.t) : nat :=
  length (filter (λ m, Material.quantity m ≤ Material.minStock m)%Z ms).

(** "Valor Total em Estoque": [materials.reduce((acc, m) => acc + m.price * m.quantity, 0)] *)
Definition total_value (ms : list Material.t) : num :=
  foldl (λ acc m, acc +ₙ Material.price m *ₙ num_of_Z (Material.quantity m)) (Fin 0) ms.

(** [filteredMaterials] *)
Definition filtered (flt search : string) (ms : list Material.t) : list Material.t :=
  filter (λ m, (flt = "all" ∨ Material.type m = flt) ∧
               includes (to_lower (Material.name m)) (to_lower search) = true) ms.

(** [handleBulkDelete]: [Promise.all(selectedMaterials.map(id => fetch(DELETE)))],
    then the success toast, an empty selection and a new listing. *)
Definition bulk_delete (sel : list string) : M (string * list string) :=
  _ ← st_all (map Materials.DELETE sel);
  mret ("Materiais excluídos com sucesso", []).

End Estoque.
Export Estoque.

(** ** Proofs *)

Lemma step_nodup sel e :
  NoDup sel → (∀ ids, e = Table.ClickAll ids → NoDup ids) → NoDup (Table.step sel e).
Proof.
  intros Hsel He. destruct e as [ids|id|]; simpl.
  - unfold Table.select_all. destruct (negb _); [by apply He|constructor].
  - unfold Table.select_row, Table.row_checked. case_bool_decide as Hin; simpl.
    + by apply NoDup_filter.
    + apply NoDup_app. split_and!; [done| |apply NoDup_singleton].
      intros x Hx Hx'. apply list_elem_of_singleton in Hx'. by subst.
  - constructor.
Qed.

Lemma step_subset sel e id :
  id ∈ Table.step sel e →
  id ∈ sel ∨ (∃ ids, e = Table.ClickAll ids ∧ id ∈ ids) ∨ e = Table.ClickRow id.
Proof.
  destruct e as [ids|id'|]; simpl.
  - unfold Table.select_all. destruct (negb _); [eauto|set_solver].
  - unfold Table.select_row. destruct (negb _).
    + rewrite elem_of_app, list_elem_of_singleton. intros [?| ->]; auto.
    + rewrite list_elem_of_filter. naive_solver.
  - set_solver.
Qed.

(** The store after one material DELETE. *)
Definition mat_delete_state (id : string) (db : DB) : DB :=
  if bool_decide (is_Some (materials db !! id)) && negb (Materials.referenced db id)
  then set_materials (delete id (materials db)) db else db.

Lemma Materials_DELETE_run id db :
  ∃ r, Materials.DELETE id db = (inr r, mat_delete_state id db).
Proof.
  unfold Materials.DELETE, handle, st_catch, mbind, st_bind, delete_row, mat_delete_state. simpl.
  destruct (materials db !! id) as [m|]; simpl; [|by eexists].
  destruct (Materials.referenced db id); simpl; by eexists.
Qed.

Lemma mat_delete_state_orcamentos id db : orcamentos (mat_delete_state id db) = orcamentos db.
Proof. unfold mat_delete_state. by destruct (_ && _). Qed.

Lemma referenced_orcamentos db db' k :
  orcamentos db' = orcamentos db → Materials.referenced db' k = Materials.referenced db k.
Proof. intros H. unfold Materials.referenced. by rewrite H. Qed.

Lemma mat_delete_state_lookup id db k :
  materials (mat_delete_state id db) !! k =
    if bool_decide (k = id) && negb (Materials.referenced db k) then None else materials db !! k.
Proof.
  unfold mat_delete_state. destruct (decide (k = id)) as [->|Hk].
  - rewrite (bool_decide_true (id = id)) by done. simpl. destruct (materials db !! id) eqn:Hm; simpl.
    + destruct (Materials.referenced db id); simpl; [by rewrite Hm|]. by rewrite lookup_delete_eq.
    + by destruct (Materials.referenced db id).
  - rewrite (bool_decide_false (k = id)) by done. simpl.
    destruct (_ && _); simpl; [|done]. by rewrite lookup_delete_ne.
Qed.

Lemma bulk_state_lookup sel db k :
  materials (foldl (λ s id, mat_delete_state id s) db sel) !! k =
    if bool_decide (k ∈ sel) && negb (Materials.referenced db k) then None else materials db !! k.
Proof.
  revert db. induction sel as [|id sel IH]; intros db; simpl; [by destruct (Materials.referenced db k)|].
  rewrite IH, mat_delete_state_lookup, (referenced_orcamentos db) by apply mat_delete_state_orcamentos.
  destruct (Materials.referenced db k); simpl; [by rewrite !andb_false_r|].
  rewrite !andb_true_r. repeat case_bool_decide; first [done|set_solver].
Qed.

Lemma bulk_state_orcamentos sel db :
  orcamentos (foldl (λ s id, mat_delete_state id s) db sel) = orcamentos db.
Proof.
  revert db. induction sel as [|id sel IH]; intros db; [done|]. simpl.
  by rewrite IH, mat_delete_state_orcamentos.
Qed.

Lemma bulk_delete_state sel db :
  foldl (λ s m, snd (m s)) db (map Materials.DELETE sel) = foldl (λ s id, mat_delete_state id s) db sel.
Proof.
  revert db. induction sel as [|id sel IH]; intros db; [done|]. simpl.
  destruct (Materials_DELETE_run id db) as [r ->]. apply IH.
Qed.

Lemma num_add_nan a b : a +ₙ b = NaN ↔ a = NaN ∨ b = NaN.
Proof. destruct a, b; naive_solver. Qed.

Lemma num_mul_Z_nan p z : p *ₙ num_of_Z z = NaN ↔ p = NaN.
Proof. destruct p; naive_solver. Qed.

Lemma foldl_value_nan (ms : list Material.t) acc :
  foldl (λ acc m, acc +ₙ Material.price m *ₙ num_of_Z (Material.quantity m)) acc ms = NaN ↔
  acc = NaN ∨ ∃ m, m ∈ ms ∧ Material.price m = NaN.
Proof.
  revert acc. induction ms as [|m ms IH]; intros acc; simpl.
  - split; [auto|]. intros [?|(? & ? & _)]; [done|set_solver].
  - rewrite IH, num_add_nan, num_mul_Z_nan. setoid_rewrite elem_of_cons. naive_solver.
Qed.

(** C14. Whatever the clicks on the table's checkboxes, the selection
    holds each id at most once, and only ids of rows the table showed or
    that were selected before. *)
Theorem selection_invariant sel es :
  NoDup sel → (∀ ids, Table.ClickAll ids ∈ es → NoDup ids) →
  NoDup (Table.run sel es) ∧
  ∀ id, id ∈ Table.run sel es →
    id ∈ sel ∨ (∃ ids, Table.ClickAll ids ∈ es ∧ id ∈ ids) ∨ Table.ClickRow id ∈ es.
Proof.
  revert sel. induction es as [|e es IH]; intros sel Hsel Hes; [by auto|]. simpl.
  destruct (IH (Table.step sel e)) as [Hnd Hin].
  { apply step_nodup; [done|]. intros ids ->. apply Hes. set_solver. }
  { intros ids Hids. apply Hes. set_solver. }
  split; [done|]. intros id Hid. destruct (Hin id Hid) as [Hs|[(ids & ? & ?)|?]].
  - destruct (step_subset sel e id Hs) as [?|[(ids & -> & ?)| ->]]; [auto| |]; right.
    + left. exists ids. set_solver.
    + right. set_solver.
  - right. left. exists ids. set_solver.
  - right. right. set_solver.
Qed.

(** C15. The header checkbox compares only the number of selected ids
    with the number of rows shown: whenever as many hidden materials are
    selected as rows are shown, it is checked though no shown row is, and
    a click on it clears the selection instead of selecting the rows. *)
Theorem all_selected_hidden_rows ids sel :
  ids ≠ [] → length sel = length ids → Forall (λ id, id ∉ ids) sel →
  Table.all_selected ids sel = true ∧ Forall (λ id, Table.row_checked sel id = false) ids ∧
  Table.step sel (Table.ClickAll ids) = [].
Proof.
  intros Hne Hlen Hhid.
  assert (Hall : Table.all_selected ids sel = true).
  { unfold Table.all_selected. rewrite andb_true_iff, !bool_decide_eq_true.
    split; [destruct ids; [done|simpl; lia]|done]. }
  split_and!; [done| |by cbn; rewrite Hall].
  apply Forall_forall. intros id Hid. unfold Table.row_checked. apply bool_decide_eq_false.
  intros Hin. by apply (proj1 (Forall_forall _ _) Hhid id Hin).
Qed.

Lemma all_selected_hidden_rows_witness :
  ["a"; "b"] ≠ [] ∧ length ["c"; "d"] = length ["a"; "b"] ∧ Forall (λ id, id ∉ ["a"; "b"]) ["c"; "d"] ∧
  Table.all_selected ["a"; "b"] ["c"; "d"] = true ∧
  Forall (λ id, Table.row_checked ["c"; "d"] id = false) ["a"; "b"] ∧
  Table.step ["c"; "d"] (Table.ClickAll ["a"; "b"]) = [].
Proof.
  assert (H1 : ["a"; "b"] ≠ []) by discriminate.
  assert (H3 : Forall (λ id, id ∉ ["a"; "b"]) ["c"; "d"]).
  { repeat constructor; rewrite !elem_of_cons, elem_of_nil; intros [?|[?|[]]]; discriminate. }
  split_and!; [exact H1|reflexivity|exact H3|..];
    apply (all_selected_hidden_rows ["a"; "b"] ["c"; "d"] H1 eq_refl H3).
Defined.

(** The stock value card is the sum of price times quantity over
    the materials, and it is [NaN] exactly when some material has a
    [NaN] price (which the API stores without complaint). *)
Theorem total_value_spec ms :
  total_value ms ≡ sum_num (λ m, Material.price m *ₙ num_of_Z (Material.quantity m)) ms ∧
  (total_value ms = NaN ↔ ∃ m, m ∈ ms ∧ Material.price m = NaN).
Proof.
  split.
  - unfold total_value. by rewrite foldl_sum_num, num_add_0_l.
  - unfold total_value. rewrite foldl_value_nan. naive_solver.
Qed.

Lemma status_baixo m : status m = "Baixo" ↔ (Material.quantity m ≤ Material.minStock m)%Z.
Proof. unfold status. destruct (Z.leb_spec (Material.quantity m) (Material.minStock m)); split; done || lia. Qed.

(** The low-stock card counts exactly the rows whose status column
    reads "Baixo", and a material is low when its quantity is at most its
    minimum: quantity 10 with minimum 15 is low, 20 with 15 is not. *)
Theorem status_low_stock ms :
  low_count ms = length (filter (λ m, status m = "Baixo") ms) ∧
  status (Material.mk "m" "MDF" "Chapa" None 10 "un" (Fin 1) 15) = "Baixo" ∧
  status (Material.mk "m" "MDF" "Chapa" None 20 "un" (Fin 1) 15) = "Normal".
Proof.
  split_and!; [|reflexivity|reflexivity].
  unfold low_count. f_equal. apply list_filter_iff. intros m. by rewrite status_baixo.
Qed.

(** The stock page's cards: "Valor Total em Estoque" is the sum
    of price times quantity over the materials, and [NaN] exactly when
    some material has a [NaN] price (which the API stores without
    complaint); "Itens Abaixo do Mínimo" counts exactly the rows whose
    status column reads "Baixo", which is a quantity at most the minimum
    (the spec's examples: 10 with minimum 15 is low, 20 with 15 is not). *)
Theorem stock_cards ms :
  total_value ms ≡ sum_num (λ m, Material.price m *ₙ num_of_Z (Material.quantity m)) ms ∧
  (total_value ms = NaN ↔ ∃ m, m ∈ ms ∧ Material.price m = NaN) ∧
  low_count ms = length (filter (λ m, status m = "Baixo") ms) ∧
  (∀ m, status m = "Baixo" ↔ (Material.quantity m ≤ Material.minStock m)%Z) ∧
  status (Material.mk "m" "MDF" "Chapa" None 10 "un" (Fin 1) 15) = "Baixo" ∧
  status (Material.mk "m" "MDF" "Chapa" None 20 "un" (Fin 1) 15) = "Normal".
Proof.
  destruct (total_value_spec ms) as [Hv Hn]. destruct (status_low_stock ms) as (Hl & H10 & H20).
  split_and!; [done|done|done|apply status_baixo|done|done].
Qed.

(** C16. "Excluir Selecionados" always reports success and empties the
    selection, while the store loses exactly the selected materials that
    no quote names: a material a quote uses stays, its DELETE having
    answered 500 unseen.  The result depends on the selection only as a
    set, so the order in which the concurrent requests run does not
    matter. *)
Theorem bulk_delete_materials sel db :
  ∃ db', bulk_delete sel db = (inr ("Materiais excluídos com sucesso", []), db') ∧
    (∀ k, materials db' !! k =
            if bool_decide (k ∈ sel) && negb (Materials.referenced db k) then None else materials db !! k) ∧
    orcamentos db' = orcamentos db.
Proof.
  destruct (st_all_inr (map Materials.DELETE sel) db) as [rs Hrs].
  { intros m s' Hm. apply list_elem_of_In, in_map_iff in Hm as (id & <- & _).
    destruct (Materials_DELETE_run id s') as [r ->]. by eexists. }
  pose proof (st_all_state (map Materials.DELETE sel) db) as Hst.
  rewrite bulk_delete_state in Hst.
  exists (foldl (λ s id, mat_delete_state id s) db sel). split_and!.
  - unfold bulk_delete. rewrite (st_bind_inr _ _ db rs (foldl (λ s id, mat_delete_state id s) db sel)); [done|].
    rewrite <-Hst, <-Hrs. by destruct (st_all _ db).
  - intros k. apply bulk_state_lookup.
  - apply bulk_state_orcamentos.
Qed.

Lemma selection_invariant_witness :
  NoDup (@nil string) ∧ (∀ ids, Table.ClickAll ids ∈ [Table.ClickAll ["a"; "b"]; Table.ClickRow "a"; Table.ClickRow "c"] → NoDup ids) ∧
  Table.run [] [Table.ClickAll ["a"; "b"]; Table.ClickRow "a"; Table.ClickRow "c"] = ["b"; "c"] ∧
  NoDup (Table.run [] [Table.ClickAll ["a"; "b"]; Table.ClickRow "a"; Table.ClickRow "c"]).
Proof.
  assert (H0 : NoDup (@nil string)) by constructor.
  assert (H1 : ∀ ids, Table.ClickAll ids ∈ [Table.ClickAll ["a"; "b"]; Table.ClickRow "a"; Table.ClickRow "c"] → NoDup ids).
  { intros ids Hin. apply elem_of_cons in Hin as [Hin|Hin]; [injection Hin as ->; repeat constructor; set_solver|].
    apply elem_of_cons in Hin as [Hin|Hin]; [discriminate Hin|].
    apply elem_of_cons in Hin as [Hin|Hin]; [discriminate Hin|]. apply elem_of_nil in Hin as []. }
  split_and!; [exact H0|exact H1|reflexivity|exact (proj1 (selection_invariant [] _ H0 H1))].
Defined.
