(* ===== verification/OrcamentoForm.v ===== *)
(** * The quote form and the quotes page:
      [src/app/orcamentos/components/OrcamentoForm.tsx],
      [src/app/orcamentos/components/OrcamentoModal.tsx],
      [src/app/orcamentos/page.tsx]

    The form keeps the quote's lines in its own state (product, quantity
    and unit price, as JavaScript numbers) and edits them with three
    handlers; the products and clients to choose from come as properties.
    On submit it builds the body, validates it (stock per line, then the
    zod schema) and hands it to the page, which sends it with [fetch] to
    [POST /api/orcamentos] or [PUT /api/orcamentos/[id]] and shows a
    success toast once the request has answered, whatever the answer.

    Products and clients are [undefined] when the modal does not pass
    them: [option (list _)] below, [None] for [undefined]. *)

From stdpp Require Import pretty.
From S2P Require Import Prelude Js Store Http Orcamentos.

Local Open Scope moveis_scope.

Module OrcamentoForm.

Module Form.

(** [interface OrcamentoItem] *)
Record item := Item { produtoId : num; quantidade : num; precoUnit : num }.

(** [interface Produto] of the form's properties. *)
Record produto := Produto { p_id : num; p_nome : string; p_preco : num; p_estoque : num }.

(** [toast.error(`Quantidade maior que o estoque disponível (${produto.estoque} unidades)`)] *)
Inductive toast := EstoqueExcedido (estoque : num).

(** [initialData?.items?.map(item => ({ produtoId: Number(item.produtoId), ... })) || []] *)
Definition initial_items (initialData : json) : js_error + list item :=
  match initialData with
  | JUndef | JNull => inr []
  | _ =>
      its ← prop initialData "items";
      match its with
      | JUndef | JNull => inr []
      | JArr l => mapM (λ it, p ← prop it "produtoId"; q ← prop it "quantidade"; u ← prop it "precoUnit";
                              mret (Item (to_number p) (to_number q) (to_number u))) l
      | _ => inl TypeError
      end
  end.

(** [handleAddItem] *)
Definition handleAddItem (items : list item) : list item := items ++ [Item (Fin 0) (Fin 1) (Fin 0)].

(** [handleRemoveItem]: [items.filter((_, i) => i !== index)] *)
Definition handleRemoveItem (items : list item) (index : nat) : list item :=
  snd <$> filter (λ ix, ix.1 ≠ index) (zip (List.seq 0 (length items)) items).

(** [produtos.find(p => p.id === id)] *)
Definition find_produto (ps : list produto) (id : num) : option produto :=
  find (λ p, num_eqb (p_id p) id) ps.

Inductive field := FProdutoId | FQuantidade | FPrecoUnit.

(** [handleItemChange(index, field, value)]: the new lines and the toast it
    shows, or the exception it throws ([produtos.find] on [undefined]).
    An [index] past the lines is answered by [TypeError] whatever the
    field.  In JavaScript that holds for [quantidade] and for a
    [produtoId] that names a product, while a [produtoId] naming no
    product leaves the lines as they were (as the exception does in
    [apply_edit]) and a [precoUnit] change extends the array with a
    partial line.  No control of the rendered form produces such an
    index: [Telas.quote_form_markup] shows the markup offers exactly the
    in-range edits. *)
Definition handleItemChange (produtos : option (list produto)) (items : list item)
    (index : nat) (f : field) (value : string) : js_error + (list item * option toast) :=
  match items !! index with
  | None => inl TypeError
  | Some it =>
      match f with
      | FProdutoId =>
          let pid := string_to_number value in
          ps ← (match produtos with Some ps => inr ps | None => inl TypeError end);
          match find_produto ps pid with
          | Some p =>
              let q := num_or (quantidade it) (Fin 1) in
              if num_lt (p_estoque p) q then inr (items, Some (EstoqueExcedido (p_estoque p)))
              else inr (<[index := Item pid (quantidade it) (p_preco p)]> items, None)
          | None => inr (items, None)
          end
      | FQuantidade =>
          let v := num_max (Fin 1) (num_or (parse_int_str value) (Fin 0)) in
          ps ← (match produtos with Some ps => inr ps | None => inl TypeError end);
          match find_produto ps (produtoId it) with
          | Some p => if num_lt (p_estoque p) v then inr (items, Some (EstoqueExcedido (p_estoque p)))
                      else inr (<[index := Item (produtoId it) v (precoUnit it)]> items, None)
          | None => inr (<[index := Item (produtoId it) v (precoUnit it)]> items, None)
          end
      | FPrecoUnit =>
          let v := num_max (Fin 0) (num_or (parse_float_str value) (Fin 0)) in
          inr (<[index := Item (produtoId it) (quantidade it) v]> items, None)
      end
  end.

(** The body [handleSubmit] builds from the form's fields. *)
Record body := Body { b_clienteId : num; b_status : string; b_observacoes : string; b_items : list item }.

(** [formData.x || d] on the string of a form field. *)
Definition str_or (s d : string) : string := if String.eqb s "" then d else s.

Definition build_body (clienteId status observacoes : string) (items : list item) : body :=
  Body (string_to_number clienteId) (str_or status "Pendente") (str_or observacoes "") items.

(** The zod schema: [clienteId] a number at least 1, [status] one of
    three, at least one line, each with a product id at least 1, a
    quantity at least 1 and a price at least 0 ([NaN] is not a number to
    zod). *)
Definition schema_ok (b : body) : bool :=
  num_le (Fin 1) (b_clienteId b) &&
  bool_decide (b_status b ∈ ["Pendente"; "Aprovado"; "Rejeitado"]) &&
  bool_decide (b_items b ≠ []) &&
  forallb (λ it, num_le (Fin 1) (produtoId it) && num_le (Fin 1) (quantidade it) &&
                 num_le (Fin 0) (precoUnit it)) (b_items b).

(** [validateForm]: the stock check runs first and throws when there are
    no products; the [catch] turns every exception into [false]. *)
Definition validateForm (produtos : option (list produto)) (b : body) : bool :=
  match b_items b, produtos with
  | [], _ => schema_ok b
  | _ :: _, None => false
  | _, Some ps =>
      if existsb (λ it, match find_produto ps (produtoId it) with
                        | Some p => num_lt (p_estoque p) (quantidade it)
                        | None => false
                        end) (b_items b)
      then false else schema_ok b
  end.

(** [JSON.stringify]: [NaN] becomes [null]. *)
Definition json_num (n : num) : json := match n with NaN => JNull | _ => JNum n end.

Definition body_json (b : body) : json :=
  JObj [("clienteId", json_num (b_clienteId b)); ("status", JStr (b_status b));
        ("observacoes", JStr (b_observacoes b));
        ("items", JArr (map (λ it, JObj [("produtoId", json_num (produtoId it));
                                          ("quantidade", json_num (quantidade it));
                                          ("precoUnit", json_num (precoUnit it))]) (b_items b)))].

(** [const total = items.reduce((acc, item) => acc + (Number(item.precoUnit) || 0) *
    (Number(item.quantidade) || 0), 0)] *)
Definition total (items : list item) : num :=
  foldl (λ acc it, acc +ₙ num_or (precoUnit it) (Fin 0) *ₙ num_or (quantidade it) (Fin 0)) (Fin 0) items.

(** The render: [clientes.map(...)] always, [produtos.map(...)] once per
    line. *)
Definition render (clientes : option (list string)) (produtos : option (list produto))
    (items : list item) : js_error + unit :=
  match clientes, items, produtos with
  | None, _, _ => inl TypeError
  | Some _, _ :: _, None => inl TypeError
  | _, _, _ => inr ()
  end.
End Form.

(** [OrcamentoModal]: it passes neither [clientes] nor [produtos]. *)
Definition modal_render (items : list Form.item) : js_error + unit := Form.render None None items.

(** ** Submitting *)

Section submit.
Context (qp : qpolicy).

(** The page's [handleSubmit]: [fetch] resolves whatever the status, so
    the success toast always follows. *)
Definition page_submit (selected : option string) (b : Form.body) : M string :=
  match selected with
  | Some id => _ ← PUT qp id (Some (Form.body_json b)); mret "Orçamento atualizado com sucesso"
  | None => _ ← POST qp (Some (Form.body_json b)); mret "Orçamento criado com sucesso"
  end.

(** The form's [handleSubmit] on the fields of the form: nothing is sent
    when [validateForm] refuses. *)
Definition form_submit (produtos : option (list Form.produto)) (selected : option string)
    (clienteId status observacoes : string) (items : list Form.item) : M (option string) :=
  let b := Form.build_body clienteId status observacoes items in
  if Form.validateForm produtos b then t ← page_submit selected b; mret (Some t) else mret None.
End submit.

(** ** The quotes page *)
Module Page.

(** A quote as [NextResponse.json] sends it, with the fields the page
    reads ([data] and the items are left out). *)
Definition row_json (f : OrcamentoFull) : json :=
  let o := of_orcamento f in
  JObj [("id", JStr (Orcamento.id o)); ("numero", JNum (num_of_Z (Orcamento.numero o)));
        ("status", JStr (Orcamento.status o)); ("clienteId", JNum (num_of_Z (Orcamento.clienteId o)));
        ("cliente", JObj [("id", JNum (num_of_Z (Cliente.id (of_cliente f))));
                          ("nome", JStr (Cliente.nome (of_cliente f)))])].

(** [curr.status] as a property key. *)
Definition status_of (r : json) : string :=
  match prop r "status" with inr (JStr s) => s | _ => "undefined" end.

(** [orcamentos.reduce((acc, curr) => { acc[curr.status] = (acc[curr.status] || 0) + 1; ... }, {})] *)
Definition status_counts (rows : list json) : gmap string nat :=
  foldl (λ (acc : gmap string nat) r, <[status_of r := (default 0 (acc !! status_of r) + 1)%nat]> acc) ∅ rows.

(** [statusCounts[s] || 0] *)
Definition card (rows : list json) (s : string) : nat := default 0%nat (status_counts rows !! s).

(** [curr.valorTotal || 0] for the values the API can send. *)
Definition valor_total (r : json) : num :=
  match prop r "valorTotal" with
  | inr (JNum n) => num_or n (Fin 0)
  | inr JUndef | inr JNull => Fin 0
  | _ => NaN
  end.

(** "Valor Total (Aprovados)" *)
Definition total_value (rows : list json) : num :=
  foldl (λ acc r, acc +ₙ valor_total r) (Fin 0)
    (filter (λ r, status_of r = "APROVADO" ∨ status_of r = "EM_PRODUCAO") rows).

(** [filteredOrcamentos] *)
Definition cliente_nome (r : json) : option string :=
  match prop r "cliente" ≫= λ c, prop c "nome" with inr (JStr s) => Some s | _ => None end.

Definition numero_str (r : json) : option string :=
  match prop r "numero" with
  | inr (JNum (Fin q)) => if Z.eqb (Zpos (Qden (Qred q))) 1 then Some (pretty (Qnum (Qred q))) else None
  | _ => None
  end.

Definition matches (flt search : string) (r : json) : bool :=
  bool_decide (flt = "all" ∨ status_of r = flt) &&
  (default false ((λ n, includes (to_lower n) (to_lower search)) <$> cliente_nome r) ||
   default false ((λ n, includes n search) <$> numero_str r)).

Definition filtered (flt search : string) (rows : list json) : list json := filter (λ r, matches flt search r = true) rows.
End Page.

(** One edit of the form's lines, as React runs it: an exception in a
    handler leaves the state as it was. *)
Inductive edit := AddItem | RemoveItem (i : nat) | ChangeItem (i : nat) (f : Form.field) (v : string).

Definition apply_edit (produtos : option (list Form.produto)) (items : list Form.item) (e : edit) :
    list Form.item :=
  match e with
  | AddItem => Form.handleAddItem items
  | RemoveItem i => Form.handleRemoveItem items i
  | ChangeItem i f v =>
      match Form.handleItemChange produtos items i f v with inr (items', _) => items' | inl _ => items end
  end.

End OrcamentoForm.
Export OrcamentoForm.

(** ** Proofs *)

Lemma body_json_no_itens b : ∃ fs, Form.body_json b = JObj fs ∧ field "itens" fs = None.
Proof. by eexists. Qed.

(** C18. Every quote the form submits is refused by the API, which reads
    the lines from [itens] while the form sends them as [items]: a new
    quote is never created, an edited one loses all its items, and the
    page shows its success toast in both cases. *)
Theorem quote_form_submissions_fail qp selected b db :
  page_submit qp selected b db =
    match selected with
    | None => (inr "Orçamento criado com sucesso", db)
    | Some id => (inr "Orçamento atualizado com sucesso", clear_quote id db)
    end.
Proof.
  destruct (body_json_no_itens b) as (fs & Hb & Hf). unfold page_submit.
  destruct selected as [id|]; rewrite Hb.
  - by rewrite (st_bind_inr _ _ db _ _ (PUT_no_itens qp id fs db Hf)).
  - by rewrite (st_bind_inr _ _ db _ _ (POST_no_itens qp fs db Hf)).
Qed.

Lemma validateForm_no_produtos b : Form.validateForm None b = false.
Proof.
  destruct b as [c s o [|it its]]; [|done]. unfold Form.validateForm, Form.schema_ok. simpl.
  by rewrite andb_true_r, andb_false_r.
Qed.

(** As the quotes page opens it, through [OrcamentoModal], which
    passes no [clientes] and no [produtos], the form cannot work: its
    render throws on [clientes.map], and [validateForm] refuses every
    body, so its submit sends nothing. *)
Theorem quote_modal_unusable qp items selected c s o db :
  modal_render items = inl TypeError ∧
  form_submit qp None selected c s o items db = (inr None, db).
Proof.
  split; [done|]. unfold form_submit. by rewrite validateForm_no_produtos.
Qed.

Lemma remove_none (l : list Form.item) m n :
  (m < n)%nat → snd <$> filter (λ ix : nat * Form.item, ix.1 ≠ m) (zip (List.seq n (length l)) l) = l.
Proof.
  revert n. induction l as [|it l IH]; intros n Hn; [done|]. simpl.
  rewrite filter_cons_True by (simpl; lia). simpl. f_equal. apply IH. lia.
Qed.

(** [handleRemoveItem] is [delete] on lists: the filter on indices drops
    exactly the line at [index], and nothing when there is none. *)
Lemma remove_at (l : list Form.item) n index :
  snd <$> filter (λ ix : nat * Form.item, ix.1 ≠ (n + index)%nat) (zip (List.seq n (length l)) l) =
  delete index l.
Proof.
  revert n index. induction l as [|it l IH]; intros n index; [done|]. simpl.
  destruct index as [|index].
  - rewrite filter_cons_False by (simpl; lia). apply remove_none. lia.
  - rewrite filter_cons_True by (simpl; lia). simpl. f_equal.
    rewrite <-(IH (S n) index). f_equal. apply list_filter_iff. intros [j x]. simpl.
    split; intros H ?; apply H; lia.
Qed.



Lemma num_or_fin x : ∃ y, num_or x (Fin 0) = Fin y.
Proof. destruct x as [|q]; simpl; [by eexists|]. destruct (Qeq_bool q 0); by eexists. Qed.

Lemma num_max_bound (lo : Q) x : ∃ q, num_max (Fin lo) (num_or x (Fin 0)) = Fin q ∧ (lo <= q)%Q.
Proof.
  destruct (num_or_fin x) as [y ->]. simpl. destruct (Qle_bool lo y) eqn:H.
  - apply Qle_bool_iff in H. by eexists.
  - exists lo. split; [done|apply Qle_refl].
Qed.

Lemma num_or_ge1 q d : (1 <= q)%Q → num_or (Fin q) d = Fin q.
Proof.
  intros Hq. simpl. destruct (Qeq_bool q 0) eqn:H; [|done].
  apply Qeq_bool_iff in H. rewrite H in Hq. compute in Hq. by destruct Hq.
Qed.

Section item_edits.
Context (ps : list Form.produto).
(** The products the API lists: prices are numbers at least 0, and no id
    is 0 (autoincrement ids start at 1). *)
Hypothesis Hpreco : Forall (λ p, ∃ u, Form.p_preco p = Fin u ∧ (0 <= u)%Q) ps.
Hypothesis Hid : Forall (λ p, num_eqb (Form.p_id p) (Fin 0) = false) ps.

(** A line as the handlers keep it: a quantity at least 1, a price at
    least 0, and never more units than the stock of its product. *)
Definition item_ok (it : Form.item) : Prop :=
  (∃ q, Form.quantidade it = Fin q ∧ (1 <= q)%Q) ∧ (∃ u, Form.precoUnit it = Fin u ∧ (0 <= u)%Q) ∧
  ∀ p, Form.find_produto ps (Form.produtoId it) = Some p → num_lt (Form.p_estoque p) (Form.quantidade it) = false.

Lemma find_produto_some id p : Form.find_produto ps id = Some p → p ∈ ps ∧ num_eqb (Form.p_id p) id = true.
Proof. unfold Form.find_produto. intros H. apply find_some in H as [H ?]. by rewrite list_elem_of_In. Qed.

Lemma add_item_ok : item_ok (Form.Item (Fin 0) (Fin 1) (Fin 0)).
Proof.
  split_and!; [by eexists|by eexists|]. intros p (Hin & Hp)%find_produto_some.
  rewrite Forall_forall in Hid. by rewrite Hid in Hp.
Qed.

Lemma change_item_ok items i f v items' t :
  Forall item_ok items → Form.handleItemChange (Some ps) items i f v = inr (items', t) → Forall item_ok items'.
Proof.
  intros Hall H. unfold Form.handleItemChange in H.
  destruct (items !! i) as [it|] eqn:Hit; [|done].
  destruct (proj1 (Forall_lookup _ _) Hall i it Hit) as ((q & Hq & Hq1) & (u & Hu & Hu0) & Hst).
  destruct f; cbv beta iota zeta in H; unfold mbind, sum_bind in H; cbv beta iota in H.
  - destruct (Form.find_produto ps _) as [p|] eqn:Hp; [|by injection H as <-].
    rewrite Hq, num_or_ge1 in H by done.
    destruct (num_lt _ _) eqn:Hlt; injection H as <-; [done|]. apply Forall_insert; [done|].
    destruct (find_produto_some _ _ Hp) as [Hin _]. rewrite Forall_forall in Hpreco.
    split_and!; [by eexists|apply Hpreco, Hin|]. simpl. intros p' Hp'. rewrite Hp in Hp'.
    injection Hp' as <-. by rewrite ?Hq.
  - destruct (num_max_bound 1 (parse_int_str v)) as (w & Hw & Hw1). rewrite Hw in H.
    destruct (Form.find_produto ps _) as [p|] eqn:Hp.
    + destruct (num_lt _ _) eqn:Hlt; injection H as <-; [done|]. apply Forall_insert; [done|].
      split_and!; [by eexists|by eexists|]. simpl. intros p' Hp'. rewrite Hp in Hp'. by injection Hp' as <-.
    + injection H as <-. apply Forall_insert; [done|].
      split_and!; [by eexists|by eexists|]. simpl. intros p' Hp'. by rewrite Hp in Hp'.
  - destruct (num_max_bound 0 (parse_float_str v)) as (w & Hw & Hw0). rewrite Hw in H.
    injection H as <-. apply Forall_insert; [done|]. split_and!; [by eexists|by eexists|done].
Qed.

Lemma apply_edit_ok items e : Forall item_ok items → Forall item_ok (apply_edit (Some ps) items e).
Proof.
  intros Hall. destruct e as [|i|i f v]; simpl.
  - apply Forall_app. split; [done|]. constructor; [apply add_item_ok|constructor].
  - rewrite (remove_at items 0 i : Form.handleRemoveItem items i = delete i items). by apply Forall_delete.
  - destruct (Form.handleItemChange _ _ _ _ _) as [e|[items' t]] eqn:H; [done|].
    by eapply change_item_ok.
Qed.
End item_edits.

(** C22. Whatever lines the user adds, removes or edits, starting from
    lines that satisfy it, every line of the quote form keeps a quantity
    of at least 1, a unit price of at least 0, and never more units than
    the stock of its product, when the form is given the products of the
    API (prices at least 0, ids from 1). *)
Theorem item_edits_invariant ps items es :
  Forall (λ p, ∃ u, Form.p_preco p = Fin u ∧ (0 <= u)%Q) ps →
  Forall (λ p, num_eqb (Form.p_id p) (Fin 0) = false) ps →
  Forall (item_ok ps) items → Forall (item_ok ps) (foldl (apply_edit (Some ps)) items es).
Proof.
  intros Hp Hid. revert items. induction es as [|e es IH]; intros items Hall; [done|].
  simpl. apply IH. by apply apply_edit_ok.
Qed.

Lemma status_counts_lookup rows acc s :
  default 0%nat (foldl (λ (acc : gmap string nat) r,
                   <[Page.status_of r := (default 0 (acc !! Page.status_of r) + 1)%nat]> acc) acc rows !! s) =
  (default 0 (acc !! s) + length (filter (λ r, Page.status_of r = s) rows))%nat.
Proof.
  revert acc. induction rows as [|r rows IH]; intros acc; simpl; [lia|].
  rewrite IH. destruct (decide (Page.status_of r = s)) as [<-|Hne].
  - rewrite filter_cons_True, lookup_insert_eq by done. simpl. lia.
  - rewrite filter_cons_False, lookup_insert_ne by done. lia.
Qed.

Lemma total_value_zero (rows : list json) :
  Forall (λ r, Page.valor_total r = Fin 0) rows →
  foldl (λ acc r, acc +ₙ Page.valor_total r) (Fin 0) rows = Fin 0.
Proof. induction 1 as [|r rows Hr _ IH]; [done|]. simpl. by rewrite Hr. Qed.

Lemma filter_rows_status fs s :
  length (filter (λ r, Page.status_of r = s) (map Page.row_json fs)) =
  length (filter (λ f, Orcamento.status (of_orcamento f) = s) fs).
Proof.
  induction fs as [|f fs IH]; [done|]. simpl.
  destruct (decide (Orcamento.status (of_orcamento f) = s)) as [Hs|Hs].
  - rewrite !filter_cons_True by done. simpl. by rewrite IH.
  - by rewrite !filter_cons_False.
Qed.

(** On the quotes page the "Valor Total (Aprovados)" card is always
    0, since the quotes the API sends carry no [valorTotal], and each
    status card counts the quotes with exactly that status string: the
    cards and filters look for "APROVADO" and "EM_PRODUCAO", which the
    form's statuses ("Pendente", "Aprovado", "Rejeitado") never are. *)
Theorem quote_cards fs :
  Page.total_value (map Page.row_json fs) = Fin 0 ∧
  ∀ s, Page.card (map Page.row_json fs) s =
         length (filter (λ f, Orcamento.status (of_orcamento f) = s) fs).
Proof.
  split.
  - unfold Page.total_value. apply total_value_zero. apply Forall_forall. intros r Hr.
    apply list_elem_of_filter in Hr as [_ Hr]. apply list_elem_of_In, in_map_iff in Hr as (f & <- & _).
    done.
  - intros s. unfold Page.card, Page.status_counts. rewrite status_counts_lookup, lookup_empty.
    simpl. by rewrite filter_rows_status.
Qed.

(** A table in stock 5 at 100: a line is added, set to the table, then
    to 7 units (refused) and to 4 units. *)
Definition ps_ex : list Form.produto := [Form.Produto (Fin 3) "Mesa" (Fin 100) (Fin 5)].
Definition edits_ex : list edit :=
  [AddItem; ChangeItem 0 Form.FProdutoId "3"; ChangeItem 0 Form.FQuantidade "7";
   ChangeItem 0 Form.FQuantidade "4"].

(** C23. [handleRemoveItem], which keeps the lines whose index in
    [zip] of the indices and the lines differs from [index], is deletion
    of the [index]-th line (stdpp's [delete]): the other lines keep their
    order, and an index past the end removes nothing. *)
Theorem handleRemoveItem_delete items index :
  Form.handleRemoveItem items index = delete index items.
Proof. exact (remove_at items 0 index). Qed.

Lemma item_edits_invariant_witness :
  Forall (λ p, ∃ u, Form.p_preco p = Fin u ∧ (0 <= u)%Q) ps_ex ∧
  Forall (λ p, num_eqb (Form.p_id p) (Fin 0) = false) ps_ex ∧
  Forall (item_ok ps_ex) [] ∧
  foldl (apply_edit (Some ps_ex)) [] edits_ex = [Form.Item (Fin 3) (Fin 4) (Fin 100)] ∧
  Forall (item_ok ps_ex) (foldl (apply_edit (Some ps_ex)) [] edits_ex).
Proof.
  assert (H1 : Forall (λ p, ∃ u, Form.p_preco p = Fin u ∧ (0 <= u)%Q) ps_ex).
  { constructor; [|constructor]. exists 100. split; [reflexivity|]. vm_compute. discriminate. }
  assert (H2 : Forall (λ p, num_eqb (Form.p_id p) (Fin 0) = false) ps_ex) by (repeat constructor).
  assert (H3 : Forall (item_ok ps_ex) []) by constructor.
  split_and!; [exact H1|exact H2|exact H3|vm_compute; reflexivity|].
  exact (item_edits_invariant ps_ex [] edits_ex H1 H2 H3).
Defined.
