(* ===== verification/ClientesPage.v ===== *)
(** * The clients page: [app/clientes/page.tsx] and its form

    Module [Form] models [ClienteForm.tsx]: the values the inputs hold
    (react-hook-form's [defaultValues: initialData], then what the user
    types) and [clienteSchema], the zod schema the resolver checks before
    [onSubmit] runs; its output, with the keys of the schema in order and
    the [undefined] ones dropped by [JSON.stringify], is the body the page
    sends.  Module [Page] models [app/clientes/page.tsx]: the rows it keeps
    (the JSON of the rows [GET /api/clientes] answers), [filteredClientes],
    the two metric cards, and the handlers [handleSubmit] and
    [handleDelete], which call the client routes of [Cadastros]; [fetch]
    resolves whatever the status, so the toasts do not depend on it.
    [ClienteModal.tsx] only passes its props to the form.

    zod's e-mail regular expression and [Number.prototype.toString] on a
    non-integer are left as the section variables [is_email] and
    [frac_string]. *)

From stdpp Require Import pretty.
From S2P Require Import Prelude Js Store Http Cadastros Orcamentos.

Local Open Scope moveis_scope.

Module ClientesPage.

(** ** The strings JavaScript makes of values *)
Section js_strings.
Context (frac_string : Q → string).

(** [String(v)] *)
Fixpoint to_js_string (v : json) : string :=
  match v with
  | JUndef => "undefined"
  | JNull => "null"
  | JBool b => if b then "true" else "false"
  | JNum NaN => "NaN"
  | JNum (Fin q) => if Z.eqb (Zpos (Qden (Qred q))) 1 then pretty (Qnum (Qred q)) else frac_string q
  | JStr s => s
  | JArr l =>
      String.concat "," (map (λ x, match x with JUndef | JNull => "" | _ => to_js_string x end) l)
  | JObj _ => "[object Object]"
  end.

(** An element of [Array.prototype.join]: [undefined] and [null] give the
    empty string. *)
Definition join_elem (v : json) : string :=
  match v with JUndef | JNull => "" | _ => to_js_string v end.

(** [vs.join(sep)] *)
Definition join (sep : string) (vs : list json) : string := String.concat sep (map join_elem vs).
End js_strings.

(** ** The form, [ClienteForm.tsx] *)
Module Form.

Definition keys : list string :=
  ["nome"; "email"; "telefone"; "cpf"; "cnpj"; "endereco"; "cidade"; "estado"; "cep"].

(** The value of a registered input when the form opens: the one
    [initialData] gives, or the empty text of the input. *)
Definition initial (initialData : option (list (string * json))) (k : string) : json :=
  match initialData ≫= field k with Some JUndef | None => JStr "" | Some v => v end.

(** The value of a field after the user typed the texts [typed], in order. *)
Definition value (initialData : option (list (string * json))) (typed : list (string * string))
    (k : string) : json :=
  default (initial initialData k) (field k ((λ '(k', s), (k', JStr s)) <$> typed)).

Section schema.
Context (is_email : string → bool).

(** [z.string().min(1, ...)] *)
Definition z_string_min1 (v : json) : bool :=
  match v with JStr s => negb (String.eqb s "") | _ => false end.

(** [z.string().optional().or(z.literal(''))] *)
Definition z_optional_string (v : json) : bool :=
  match v with JUndef | JStr _ => true | _ => false end.

(** [z.string().email(...).optional().or(z.literal(''))] *)
Definition z_email (v : json) : bool :=
  match v with JUndef => true | JStr s => is_email s || String.eqb s "" | _ => false end.

(** [JSON.stringify] drops the [undefined] members. *)
Definition defined (v : json) : bool := match v with JUndef => false | _ => true end.

(** [clienteSchema]: the object's checks, then the [refine] that one of
    [cpf], [cnpj] is truthy; the output keeps the keys of the schema. *)
Definition clienteSchema (vals : string → json) : option (list (string * json)) :=
  if z_string_min1 (vals "nome") && z_email (vals "email") && z_string_min1 (vals "telefone") &&
     forallb (λ k, z_optional_string (vals k)) ["cpf"; "cnpj"; "endereco"; "cidade"; "estado"; "cep"] &&
     (truthy (vals "cpf") || truthy (vals "cnpj"))
  then Some (filter (λ kv, defined kv.2 = true) ((λ k, (k, vals k)) <$> keys))
  else None.

(** [handleSubmit(onSubmit)]: the data [onSubmit] receives, if any. *)
Definition submit (initialData : option (list (string * json))) (typed : list (string * string)) :
    option (list (string * json)) :=
  clienteSchema (value initialData typed).
End schema.
End Form.

(** ** The page, [app/clientes/page.tsx] *)
Module Page.
Section page.
Context (frac_string : Q → string).

Definition row := list (string * json).

Definition opt_json (o : option string) : json := match o with Some s => JStr s | None => JNull end.

(** A client as [NextResponse.json] sends it. *)
Definition cliente_row (c : Cliente.t) : row :=
  [("id", JNum (num_of_Z (Cliente.id c))); ("nome", JStr (Cliente.nome c));
   ("email", opt_json (Cliente.email c)); ("telefone", JStr (Cliente.telefone c));
   ("cpf", opt_json (Cliente.cpf c)); ("cnpj", opt_json (Cliente.cnpj c));
   ("endereco", opt_json (Cliente.endereco c)); ("cidade", opt_json (Cliente.cidade c));
   ("estado", opt_json (Cliente.estado c)); ("cep", opt_json (Cliente.cep c))].

(** [cliente.k] on a row *)
Definition get (r : row) (k : string) : json := default JUndef (field k r).

(** [fetchClientes]: the rows [setClientes(data)] keeps when the listing
    answers 200. *)
Definition fetchClientes : M (option (list row)) :=
  r ← Clientes.GET;
  mret (match rbody r with BJson cs => Some (cliente_row <$> cs) | _ => None end).

(** [filteredClientes]: the rows of distinct keys the page holds, so
    [Object.values] is the list of their values in order. *)
Definition matches (searchTerm : string) (r : row) : bool :=
  includes (to_lower (join frac_string " " (snd <$> r))) (to_lower searchTerm).

Definition filteredClientes (searchTerm : string) (rows : list row) : list row :=
  filter (λ r, matches searchTerm r = true) rows.

(** [clientesComCompraRecente]: [new Date(cliente.ultimaCompra) >=
    umMesAtras], false when either date is invalid. *)
Definition clientesComCompraRecente (qp : qpolicy) (umMesAtras : Z) (rows : list row) : list row :=
  filter (λ r, match new_date qp (get r "ultimaCompra") with
               | Some t => Z.leb umMesAtras t
               | None => false
               end = true) rows.

(** [clientesSemCompra] *)
Definition clientesSemCompra (rows : list row) : list row :=
  filter (λ r, truthy (get r "ultimaCompra") = false) rows.

(** The three cards: total, "Clientes Ativos", "Clientes Inativos". *)
Definition cards (qp : qpolicy) (umMesAtras : Z) (rows : list row) : nat * nat * nat :=
  (length rows, length (clientesComCompraRecente qp umMesAtras rows), length (clientesSemCompra rows)).

(** [handleSubmit(data)]: PUT to [/api/clientes/${selectedCliente.id}] when
    a row is selected, POST otherwise, then the success toast and a new
    listing. *)
Definition handleSubmit (selected : option row) (data : list (string * json)) :
    M (string * option (list row)) :=
  t ← match selected with
      | Some c => _ ← Clientes.PUT (to_js_string frac_string (get c "id")) (Some (JObj data));
                  mret "Cliente atualizado com sucesso"
      | None => _ ← Clientes.POST (Some (JObj data)); mret "Cliente criado com sucesso"
      end;
  rows ← fetchClientes; mret (t, rows).

(** [handleDelete(id)]: nothing unless [window.confirm] answers yes. *)
Definition handleDelete (confirmed : bool) (id : num) : M (option (string * option (list row))) :=
  if confirmed then
    _ ← Clientes.DELETE (to_js_string frac_string (JNum id));
    rows ← fetchClientes; mret (Some ("Cliente excluído com sucesso", rows))
  else mret None.
End page.
End Page.

End ClientesPage.
Export ClientesPage.

(** ** Proofs *)

(** *** Strings *)

Lemma prefix_app t s b : String.prefix t s = true → String.prefix t (s +:+ b) = true.
Proof.
  intros H. destruct t as [|a t]; [by destruct (s +:+ b)|]. revert a t H.
  induction s as [|c s IH]; intros a t; simpl; [done|].
  destruct (Ascii.ascii_dec a c); [|done]. destruct t; [by destruct (s +:+ b)|apply IH].
Qed.

Lemma includes_app_l s b t : includes s t = true → includes (s +:+ b) t = true.
Proof.
  induction s as [|c s IH]; cbn [includes String.append].
  - intros H. destruct t; [apply includes_empty|]. by apply orb_true_iff in H as [H|H].
  - intros [H|H]%orb_true_iff; apply orb_true_iff; [left; exact (prefix_app t (String c s) b H)|right; by apply IH].
Qed.

Lemma includes_app_r a s t : includes s t = true → includes (a +:+ s) t = true.
Proof. induction a as [|c a IH]; [done|]. intros H. simpl. rewrite (IH H). apply orb_true_r. Qed.

Lemma includes_concat sep l x t :
  x ∈ l → includes x t = true → includes (String.concat sep l) t = true.
Proof.
  induction l as [|y [|z l] IH]; intros Hx Ht; [by apply elem_of_nil in Hx| |].
  - apply list_elem_of_singleton in Hx. by subst.
  - apply elem_of_cons in Hx as [->|Hx]; simpl; [by apply includes_app_l|].
    apply includes_app_r, includes_app_r. by apply IH.
Qed.

Lemma to_lower_app a b : to_lower (a +:+ b) = to_lower a +:+ to_lower b.
Proof. induction a as [|c a IH]; simpl; [done|by rewrite IH]. Qed.

Lemma to_lower_concat sep l : to_lower (String.concat sep l) = String.concat (to_lower sep) (to_lower <$> l).
Proof.
  induction l as [|y [|z l] IH]; [done|done|]. cbn [String.concat fmap list_fmap] in *.
  by rewrite !to_lower_app, IH.
Qed.

(** *** The form *)

Lemma field_not_key k (fs : list (string * json)) : k ∉ fs.*1 → field k fs = None.
Proof.
  induction fs as [|[k' v] fs IH]; intros Hk; [done|]. simpl in *.
  rewrite IH by set_solver. destruct (String.eqb_spec k k'); [set_solver|done].
Qed.

Lemma typed_keys (typed : list (string * string)) :
  ((λ '(k', s), (k', JStr s)) <$> typed).*1 = typed.*1.
Proof. induction typed as [|[k s] typed IH]; simpl; [done|by f_equal]. Qed.

Lemma value_untyped init typed k : k ∉ typed.*1 → Form.value init typed k = Form.initial init k.
Proof. intros Hk. unfold Form.value. by rewrite field_not_key by by rewrite typed_keys. Qed.

Lemma field_key k fs v : field k fs = Some v → k ∈ fs.*1.
Proof.
  induction fs as [|[k' v'] fs IH]; simpl; [done|]. intros H.
  destruct (field k fs); [set_solver|]. destruct (String.eqb_spec k k'); set_solver.
Qed.



Lemma schema_null is_email vals k :
  k ∈ Form.keys → vals k = JNull → Form.clienteSchema is_email vals = None.
Proof.
  unfold Form.clienteSchema. intros Hk Hv.
  repeat (apply elem_of_cons in Hk as [->|Hk]; [simpl; rewrite Hv; simpl; rewrite ?andb_false_r; by simpl|]).
  by apply elem_of_nil in Hk.
Qed.

(** Every field of a new form holds a string. *)
Lemma value_new typed k : ∃ s, Form.value None typed k = JStr s.
Proof.
  unfold Form.value. destruct (field k _) as [v|] eqn:E; [by apply field_fmap_inv in E|by exists ""].
Qed.

Lemma submit_new is_email typed data :
  Form.submit is_email None typed = Some data →
  data = (λ k, (k, Form.value None typed k)) <$> Form.keys.
Proof.
  unfold Form.submit, Form.clienteSchema. case_match; [|done]. intros [= <-].
  apply filter_Forall_id, Forall_forall. intros [k v] [k' [Heq _]]%list_elem_of_fmap.
  injection Heq as -> ->. simpl. by destruct (value_new typed k') as [s ->].
Qed.

Lemma get_null_field r k : Page.get r k = JNull → field k r = Some JNull.
Proof. unfold Page.get. by destruct (field k r) as [[]|]. Qed.

Lemma cliente_row_null_key c k : Page.get (Page.cliente_row c) k = JNull → k ∈ Form.keys.
Proof.
  intros Hk. pose proof (field_key _ _ _ (get_null_field _ _ Hk)) as Hin.
  apply elem_of_cons in Hin as [->|Hin]; [discriminate Hk|done].
Qed.

Lemma eqb_false_iff_ne s t : String.eqb s t = false ↔ s ≠ t.
Proof. destruct (String.eqb_spec s t); naive_solver. Qed.

(** *** The page *)

Lemma fetchClientes_run db :
  Page.fetchClientes db =
  (inr (Some (Page.cliente_row <$> merge_sort (str_asc Cliente.nome) (map snd (map_to_list (clientes db))))), db).
Proof. done. Qed.

Lemma listing_length db :
  length (merge_sort (str_asc Cliente.nome) (map snd (map_to_list (clientes db)))) = size (clientes db).
Proof. by rewrite (merge_sort_Permutation _ _), length_map, length_map_to_list. Qed.

Lemma recentes_rows qp u cs : Page.clientesComCompraRecente qp u (Page.cliente_row <$> cs) = [].
Proof. induction cs as [|c cs IH]; [done|]. rewrite fmap_cons. unfold Page.clientesComCompraRecente in *. by rewrite filter_cons_False. Qed.

Lemma sem_compra_rows cs : Page.clientesSemCompra (Page.cliente_row <$> cs) = Page.cliente_row <$> cs.
Proof.
  induction cs as [|c cs IH]; [done|]. rewrite fmap_cons. unfold Page.clientesSemCompra in *.
  rewrite filter_cons_True by done. by rewrite IH.
Qed.

Lemma cards_rows qp u cs : Page.cards qp u (Page.cliente_row <$> cs) = (length cs, 0%nat, length cs).
Proof. unfold Page.cards. by rewrite recentes_rows, sem_compra_rows, length_fmap. Qed.

Lemma matches_empty fs r : Page.matches fs "" r = true.
Proof. apply includes_empty. Qed.

Lemma matches_nome fs c term :
  includes (to_lower (Cliente.nome c)) (to_lower term) = true → Page.matches fs term (Page.cliente_row c) = true.
Proof.
  intros Hn. unfold Page.matches, join. rewrite to_lower_concat.
  apply (includes_concat _ _ (to_lower (Cliente.nome c))); [|done]. simpl.
  apply elem_of_cons; right. by apply elem_of_cons; left.
Qed.

Lemma filtered_empty fs rows : Page.filteredClientes fs "" rows = rows.
Proof. apply filter_Forall_id, Forall_forall. intros r _. apply matches_empty. Qed.

Lemma create_form db n e t cpf cnpj en ci es ce :
  clientes db !! seq db = None →
  Clientes.create (JObj [("nome", JStr n); ("email", JStr e); ("telefone", JStr t); ("cpf", JStr cpf);
                         ("cnpj", JStr cnpj); ("endereco", JStr en); ("cidade", JStr ci);
                         ("estado", JStr es); ("cep", JStr ce)]) db =
  (inr (Cliente.mk (seq db) n (Some e) t (Some cpf) (Some cnpj) (Some en) (Some ci) (Some es) (Some ce)),
   mkDB (<[seq db := Cliente.mk (seq db) n (Some e) t (Some cpf) (Some cnpj) (Some en) (Some ci) (Some es) (Some ce)]>
           (clientes db))
        (materials db) (produtos db) (vendedores db) (vendas db) (orcamentos db) (seq db + 1) (cuid db) (clock db)).
Proof. intros H. unfold Clientes.create. simpl. rewrite bool_decide_false; [done|]. rewrite H. by intros [? ?]. Qed.

Lemma Clientes_POST_create d c db db' :
  Clientes.create d db = (inr c, db') → Clientes.POST (Some d) db = (inr (json_ok c), db').
Proof.
  intros H. unfold Clientes.POST. apply handle_ok.
  rewrite (st_bind_inr _ _ db d db) by done. by rewrite (st_bind_inr _ _ db c db') by done.
Qed.

Lemma listing_elem db k c :
  clientes db !! k = Some c → c ∈ merge_sort (str_asc Cliente.nome) (map snd (map_to_list (clientes db))).
Proof.
  intros H. rewrite (merge_sort_Permutation _ _). apply list_elem_of_In, in_map_iff.
  exists (k, c). split; [done|]. by apply list_elem_of_In, elem_of_map_to_list.
Qed.

(** C26. Editing a client from the page, and deleting one, show the
    success toast and the same listing while the store is unchanged:
    [/api/clientes/[id]] answers 500 for every id ([clientes_id_routes_fail]),
    and [fetch] resolves on any status. *)
Theorem clientes_page_edit_delete_toast fs c data id db :
  ∃ rows, Page.fetchClientes db = (inr rows, db) ∧
    Page.handleSubmit fs (Some c) data db = (inr ("Cliente atualizado com sucesso", rows), db) ∧
    Page.handleDelete fs true id db = (inr (Some ("Cliente excluído com sucesso", rows)), db).
Proof.
  eexists. split; [apply fetchClientes_run|]. unfold Page.handleSubmit, Page.handleDelete. split.
  - rewrite (st_bind_inr _ _ db "Cliente atualizado com sucesso" db);
      [|by rewrite (st_bind_inr _ _ db _ db) by apply Clientes_PUT_fails].
    by rewrite (st_bind_inr _ _ db _ db) by apply fetchClientes_run.
  - rewrite (st_bind_inr _ _ db _ db) by apply Clientes_DELETE_fails.
    by rewrite (st_bind_inr _ _ db _ db) by apply fetchClientes_run.
Qed.

(** After [fetchClientes], whatever the store, the cards read: all
    the clients, no active client and every client inactive.  The rows the
    API sends have no [ultimaCompra]: [new Date(undefined)] is an invalid
    date, never [>= umMesAtras], and [!undefined] holds. *)
Theorem clientes_cards_after_fetch qp umMesAtras db :
  ∃ rows, Page.fetchClientes db = (inr (Some rows), db) ∧
    Page.cards qp umMesAtras rows = (size (clientes db), 0%nat, size (clientes db)).
Proof.
  eexists. split; [apply fetchClientes_run|]. by rewrite cards_rows, listing_length.
Qed.

(** The search box: a client whose name contains the search term,
    ignoring the case of ASCII letters, is listed; an empty search lists
    every row. *)
Theorem filteredClientes_nome fs term rows c :
  Page.cliente_row c ∈ rows → includes (to_lower (Cliente.nome c)) (to_lower term) = true →
  Page.cliente_row c ∈ Page.filteredClientes fs term rows ∧ Page.filteredClientes fs "" rows = rows.
Proof.
  intros Hin Hn. split; [apply list_elem_of_filter; split; [by apply matches_nome|done]|].
  apply filtered_empty.
Qed.

(** C29. A new client's form is sent when the name and the phone are
    filled and one of CPF, CNPJ is: with both, too, while the spec asks for
    exactly one of them.  (The e-mail is left blank.) *)
Theorem clienteSchema_cpf_or_cnpj is_email nome telefone cpf cnpj :
  nome ≠ "" → telefone ≠ "" →
  is_Some (Form.submit is_email None [("nome", nome); ("telefone", telefone); ("cpf", cpf); ("cnpj", cnpj)])
  ↔ cpf ≠ "" ∨ cnpj ≠ "".
Proof.
  intros Hn Ht. unfold Form.submit, Form.clienteSchema. simpl.
  apply eqb_false_iff_ne in Hn as ->, Ht as ->. destruct (is_email ""); simpl;
  destruct (String.eqb_spec cpf ""), (String.eqb_spec cnpj ""); simpl; split; try naive_solver;
  intros [] ; discriminate.
Qed.

(** C30. Editing a client opens the form on the row, and a [null] column
    stays [null] in the form's values; zod refuses [null] for every field,
    so the form is not sent until the user types into each such field. *)
Theorem edit_form_null_field is_email c typed k :
  Page.get (Page.cliente_row c) k = JNull → k ∉ typed.*1 →
  Form.submit is_email (Some (Page.cliente_row c)) typed = None.
Proof.
  intros Hk Ht. apply (schema_null _ _ k); [by eapply cliente_row_null_key|].
  rewrite value_untyped by done. unfold Form.initial.
  change (Some (Page.cliente_row c) ≫= field k) with (field k (Page.cliente_row c)).
  by rewrite (get_null_field _ _ Hk).
Qed.

(** C31. Creating a client from the page stores exactly what the form
    holds: when the new form passes [clienteSchema] and the sequence's next
    id is free, [handleSubmit] inserts under that id a client whose every
    field is the form's text (a blank field is stored as the empty string,
    not as [null]), advances the sequence, touches no other table, and the
    new listing shows the row. *)
Theorem clientes_page_create is_email fs typed data db :
  Form.submit is_email None typed = Some data → clientes db !! seq db = None →
  ∃ c rows, Page.handleSubmit fs None data db =
      (inr ("Cliente criado com sucesso", Some rows),
       mkDB (<[seq db := c]> (clientes db)) (materials db) (produtos db) (vendedores db)
            (vendas db) (orcamentos db) (seq db + 1) (cuid db) (clock db)) ∧
    Cliente.id c = seq db ∧ Page.cliente_row c ∈ rows ∧
    ∀ k, k ∈ Form.keys → Page.get (Page.cliente_row c) k = Form.value None typed k.
Proof.
  intros Hs Hfree. apply submit_new in Hs as ->.
  destruct (value_new typed "nome") as [n Hn], (value_new typed "email") as [e He],
    (value_new typed "telefone") as [t Ht], (value_new typed "cpf") as [cpf Hcpf],
    (value_new typed "cnpj") as [cnpj Hcnpj], (value_new typed "endereco") as [en Hen],
    (value_new typed "cidade") as [ci Hci], (value_new typed "estado") as [es Hes],
    (value_new typed "cep") as [ce Hce].
  assert (Hdata : (λ k, (k, Form.value None typed k)) <$> Form.keys =
    [("nome", JStr n); ("email", JStr e); ("telefone", JStr t); ("cpf", JStr cpf); ("cnpj", JStr cnpj);
     ("endereco", JStr en); ("cidade", JStr ci); ("estado", JStr es); ("cep", JStr ce)]).
  { simpl. by rewrite Hn, He, Ht, Hcpf, Hcnpj, Hen, Hci, Hes, Hce. }
  pose proof (Clientes_POST_create _ _ _ _ (create_form db n e t cpf cnpj en ci es ce Hfree)) as Hpost.
  eexists _, _. split_and!.
  - unfold Page.handleSubmit, mbind, st_bind. rewrite Hdata, Hpost. cbv beta iota.
    rewrite st_ret_run. cbv beta iota. rewrite fetchClientes_run. cbv beta iota. by rewrite st_ret_run.
  - done.
  - apply list_elem_of_fmap_2, (listing_elem _ (seq db)). simpl. by rewrite lookup_insert_eq.
  - intros k Hk. repeat (apply elem_of_cons in Hk as [->|Hk]; [by rewrite ?Hn, ?He, ?Ht, ?Hcpf, ?Hcnpj, ?Hen, ?Hci, ?Hes, ?Hce|]).
    by apply elem_of_nil in Hk.
Qed.

(** ** Examples *)

Definition frac_ex : Q → string := λ _, "".
Definition is_email_ex : string → bool := λ s, String.prefix "@" s || includes s "@".
Definition cliente_ana : Cliente.t :=
  Cliente.mk 1 "Ana Souza" (Some "ana@email.com") "(11) 99999-0000" (Some "123.456.789-00") None None None None None.
Definition typed_ex : list (string * string) :=
  [("nome", "Ana Souza"); ("telefone", "(11) 99999-0000"); ("cpf", "123.456.789-00")].
Definition data_ex : list (string * json) := Eval vm_compute in default [] (Form.submit is_email_ex None typed_ex).

Lemma filteredClientes_nome_witness :
  Page.cliente_row cliente_ana ∈ [Page.cliente_row cliente_ana] ∧
  includes (to_lower (Cliente.nome cliente_ana)) (to_lower "SOUZA") = true ∧
  Page.cliente_row cliente_ana ∈ Page.filteredClientes frac_ex "SOUZA" [Page.cliente_row cliente_ana] ∧
  Page.filteredClientes frac_ex "" [Page.cliente_row cliente_ana] = [Page.cliente_row cliente_ana].
Proof.
  assert (Hin : Page.cliente_row cliente_ana ∈ [Page.cliente_row cliente_ana]) by (apply list_elem_of_singleton; reflexivity).
  assert (Hn : includes (to_lower (Cliente.nome cliente_ana)) (to_lower "SOUZA") = true) by reflexivity.
  split; [exact Hin|split; [exact Hn|]]. exact (filteredClientes_nome frac_ex "SOUZA" _ _ Hin Hn).
Defined.

Lemma clienteSchema_cpf_or_cnpj_witness :
  "Ana" ≠ "" ∧ "1199" ≠ "" ∧
  (is_Some (Form.submit is_email_ex None [("nome", "Ana"); ("telefone", "1199"); ("cpf", "123"); ("cnpj", "456")])
   ↔ "123" ≠ "" ∨ "456" ≠ "").
Proof.
  assert (Hn : "Ana" ≠ "") by discriminate. assert (Ht : "1199" ≠ "") by discriminate.
  split; [exact Hn|split; [exact Ht|]]. exact (clienteSchema_cpf_or_cnpj is_email_ex _ _ "123" "456" Hn Ht).
Defined.

Lemma edit_form_null_field_witness :
  Page.get (Page.cliente_row cliente_ana) "cnpj" = JNull ∧ "cnpj" ∉ ([] : list (string * string)).*1 ∧
  Form.submit is_email_ex (Some (Page.cliente_row cliente_ana)) [] = None.
Proof.
  assert (Hk : Page.get (Page.cliente_row cliente_ana) "cnpj" = JNull) by reflexivity.
  assert (Ht : "cnpj" ∉ ([] : list (string * string)).*1) by apply not_elem_of_nil.
  split; [exact Hk|split; [exact Ht|]]. exact (edit_form_null_field is_email_ex _ [] "cnpj" Hk Ht).
Defined.

Lemma clientes_page_create_witness :
  Form.submit is_email_ex None typed_ex = Some data_ex ∧ clientes dbc !! seq dbc = None ∧
  ∃ c rows, Page.handleSubmit frac_ex None data_ex dbc =
      (inr ("Cliente criado com sucesso", Some rows),
       mkDB (<[seq dbc := c]> (clientes dbc)) (materials dbc) (produtos dbc) (vendedores dbc)
            (vendas dbc) (orcamentos dbc) (seq dbc + 1) (cuid dbc) (clock dbc)) ∧
    Cliente.id c = seq dbc ∧ Page.cliente_row c ∈ rows ∧
    ∀ k, k ∈ Form.keys → Page.get (Page.cliente_row c) k = Form.value None typed_ex k.
Proof.
  assert (Hs : Form.submit is_email_ex None typed_ex = Some data_ex) by reflexivity.
  assert (Hf : clientes dbc !! seq dbc = None) by reflexivity.
  split; [exact Hs|split; [exact Hf|]]. exact (clientes_page_create is_email_ex frac_ex _ _ _ Hs Hf).
Defined.
