(* ===== verification/MaterialPage.v ===== *)
(** * The material form and the stock page's handlers

    Module [Form] models [app/estoque/components/MaterialForm.tsx]: the
    values react-hook-form holds (text inputs and the type select give
    strings; the inputs registered with [valueAsNumber] give numbers, [NaN]
    while empty) and [materialSchema], the zod schema checked before
    [onSubmit].  Module [Page] models [handleSubmit] and [handleDelete] of
    [app/estoque/page.tsx], which call the material routes of
    [Cadastros]; [fetchMaterials] afterwards only reads.
    [MaterialModal.tsx] only passes its props to the form. *)

From S2P Require Import Prelude Js Store Http Cadastros ClientesPage.

Local Open Scope moveis_scope.

Module MaterialPage.

Module Form.

Definition keys : list string :=
  ["name"; "type"; "description"; "quantity"; "unit"; "price"; "minStock"].

(** The inputs registered with [{ valueAsNumber: true }]. *)
Definition num_keys : list string := ["quantity"; "minStock"; "price"].

(** The value of a field when the form opens: [initialData]'s, else the
    empty input's ([NaN] as a number, the empty string as text; the
    select starts on its [""] option). *)
Definition initial (initialData : option (list (string * json))) (k : string) : json :=
  match initialData ≫= field k with
  | Some JUndef | None => if bool_decide (k ∈ num_keys) then JNum NaN else JStr ""
  | Some v => v
  end.

(** The value of a field after the user typed the texts [texts] and the
    numbers [nums], in order. *)
Definition value (initialData : option (list (string * json))) (texts : list (string * string))
    (nums : list (string * num)) (k : string) : json :=
  default (initial initialData k)
    (if bool_decide (k ∈ num_keys) then field k ((λ '(k', n), (k', JNum n)) <$> nums)
     else field k ((λ '(k', s), (k', JStr s)) <$> texts)).

(** [z.enum(['Chapa', 'Ferragem', 'Acabamento'])] *)
Definition z_type (v : json) : bool :=
  match v with JStr s => bool_decide (s ∈ ["Chapa"; "Ferragem"; "Acabamento"]) | _ => false end.

(** [z.string().optional()] *)
Definition z_string_optional (v : json) : bool :=
  match v with JUndef | JStr _ => true | _ => false end.

(** [z.number().min(0, ...)]: [NaN] is not a number to zod. *)
Definition z_number_min0 (v : json) : bool :=
  match v with JNum (Fin q) => Qle_bool 0 q | _ => false end.

(** [materialSchema]; the output keeps the keys of the schema. *)
Definition materialSchema (vals : string → json) : option (list (string * json)) :=
  if ClientesPage.Form.z_string_min1 (vals "name") && z_type (vals "type") &&
     z_string_optional (vals "description") && z_number_min0 (vals "quantity") &&
     ClientesPage.Form.z_string_min1 (vals "unit") && z_number_min0 (vals "price") &&
     z_number_min0 (vals "minStock")
  then Some (filter (λ kv, ClientesPage.Form.defined kv.2 = true) ((λ k, (k, vals k)) <$> keys))
  else None.

(** [handleSubmit(onSubmit)]: the data [onSubmit] receives, if any. *)
Definition submit (initialData : option (list (string * json))) (texts : list (string * string))
    (nums : list (string * num)) : option (list (string * json)) :=
  materialSchema (value initialData texts nums).
End Form.

Module Page.

(** [handleSubmit(data)] of the stock page: PUT to
    [/api/materials/${selectedMaterial.id}] when a material is selected,
    POST otherwise; [fetch] resolves whatever the status, so the success
    toast follows. *)
Definition handleSubmit (selected : option Material.t) (data : list (string * json)) : M string :=
  match selected with
  | Some m => _ ← Materials.PUT (Material.id m) (Some (JObj data)); mret "Material atualizado com sucesso"
  | None => _ ← Materials.POST (Some (JObj data)); mret "Material criado com sucesso"
  end.

(** [handleDelete(id)]: nothing unless [window.confirm] answers yes. *)
Definition handleDelete (confirmed : bool) (id : string) : M (option string) :=
  if confirmed then _ ← Materials.DELETE id; mret (Some "Material excluído com sucesso")
  else mret None.
End Page.

End MaterialPage.
Export MaterialPage.

(** The body of a material request with these fields, as any client of
    the route can send it. *)
Definition material_body (name type unit : string) (q : Z) (price : num) (ms : Z) : json :=
  JObj [("name", JStr name); ("type", JStr type); ("quantity", JNum (num_of_Z q));
        ("unit", JStr unit); ("price", JNum price); ("minStock", JNum (num_of_Z ms))].

(** ** Proofs *)

(** Every field of the form holds a string or a number (or what
    [initialData] gives), never [undefined]. *)
Lemma value_defined init texts nums k :
  (∀ v, init ≫= field k = Some v → ClientesPage.Form.defined v = true) →
  ClientesPage.Form.defined (Form.value init texts nums k) = true.
Proof.
  intros Hinit. unfold Form.value, Form.initial.
  destruct (bool_decide (k ∈ Form.num_keys)).
  - destruct (field k _) as [v|] eqn:E; [by apply field_fmap_inv in E as [n ->]|].
    destruct (init ≫= field k) as [[]|] eqn:Ei; simpl; try done; by apply Hinit.
  - destruct (field k _) as [v|] eqn:E; [by apply field_fmap_inv in E as [s ->]|].
    destruct (init ≫= field k) as [[]|] eqn:Ei; simpl; try done; by apply Hinit.
Qed.

Lemma value_new_defined texts nums k : ClientesPage.Form.defined (Form.value None texts nums k) = true.
Proof. by apply value_defined. Qed.

(** What the schema lets through. *)
Lemma materialSchema_checks vals data :
  Form.materialSchema vals = Some data →
  ClientesPage.Form.z_string_min1 (vals "name") = true ∧ Form.z_type (vals "type") = true ∧
  Form.z_number_min0 (vals "quantity") = true ∧ Form.z_number_min0 (vals "price") = true ∧
  Form.z_number_min0 (vals "minStock") = true ∧
  data = filter (λ kv, ClientesPage.Form.defined kv.2 = true) ((λ k, (k, vals k)) <$> Form.keys).
Proof.
  unfold Form.materialSchema. case_match eqn:E; [|done]. intros [= <-].
  repeat (apply andb_true_iff in E as [E ?]). by split_and!.
Qed.

Lemma material_submit_new texts nums data :
  Form.submit None texts nums = Some data →
  data = (λ k, (k, Form.value None texts nums k)) <$> Form.keys.
Proof.
  intros (_ & _ & _ & _ & _ & ->)%materialSchema_checks.
  apply filter_Forall_id, Forall_forall. intros [k v] [k' [Heq _]]%list_elem_of_fmap.
  injection Heq as -> ->. apply value_new_defined.
Qed.

Lemma field_filter_defined (vals : string → json) ks k :
  NoDup ks → k ∈ ks → ClientesPage.Form.defined (vals k) = true →
  field k (filter (λ kv, ClientesPage.Form.defined kv.2 = true) ((λ k, (k, vals k)) <$> ks)) = Some (vals k).
Proof.
  induction ks as [|k0 ks IH]; intros Hnd Hk Hd; [by apply elem_of_nil in Hk|].
  apply NoDup_cons in Hnd as [Hk0 Hnd]. rewrite fmap_cons.
  destruct (decide (k = k0)) as [->|Hne].
  - rewrite filter_cons_True by done. simpl. rewrite field_not_key; [by rewrite String.eqb_refl|].
    intros [[k' v] [-> Hin]]%list_elem_of_fmap. apply list_elem_of_filter in Hin as [_ Hin].
    apply list_elem_of_fmap in Hin as [k'' [[= -> _] ?]]. done.
  - apply elem_of_cons in Hk as [->|Hk]; [done|].
    destruct (decide (ClientesPage.Form.defined (vals k0) = true)).
    + rewrite filter_cons_True by done. simpl. by rewrite IH.
    + rewrite filter_cons_False by done. by apply IH.
Qed.

Lemma keys_NoDup : NoDup Form.keys.
Proof. apply NoDup_ListNoDup. vm_compute. repeat constructor; simpl; intuition discriminate. Qed.

Lemma schema_fld vals data k :
  Form.materialSchema vals = Some data → k ∈ Form.keys → ClientesPage.Form.defined (vals k) = true →
  fld data k = vals k.
Proof.
  intros (_ & _ & _ & _ & _ & ->)%materialSchema_checks Hk Hd.
  unfold fld. by rewrite field_filter_defined by (done || apply keys_NoDup).
Qed.

Lemma z_number_min0_inv v : Form.z_number_min0 v = true → ∃ q, v = JNum (Fin q) ∧ (0 <= q)%Q.
Proof. destruct v as [| | |[|q]| | |]; try done. intros H. exists q. split; [done|]. by apply Qle_bool_iff. Qed.

Lemma Materials_create_fails fs db :
  (∀ k, ∃ e, Materials.of_fields k fs = inl e) → ∃ e, Materials.create (JObj fs) db = (inl e, db).
Proof.
  intros Hf. unfold Materials.create, mbind, sum_bind. simpl.
  repeat case_match; simplify_eq; eauto;
    match goal with H : Materials.of_fields ?k _ = inr _ |- _ => destruct (Hf k) as [? He]; congruence end.
Qed.

Lemma Materials_POST_fails d e db :
  Materials.create d db = (inl e, db) → Materials.POST (Some d) db = (inr (json_error "Internal Server Error" 500), db).
Proof.
  intros H. unfold Materials.POST, handle, st_catch.
  rewrite (st_bind_inr _ _ db d db) by done. by rewrite (st_bind_inl _ _ _ _ _ H).
Qed.

Lemma of_fields_quantity_fails k fs q :
  fld fs "quantity" = JNum (Fin q) → Zpos (Qden (Qred q)) ≠ 1%Z → ∃ e, Materials.of_fields k fs = inl e.
Proof.
  intros Hq Hd. unfold Materials.of_fields, mbind, sum_bind. rewrite Hq.
  repeat (case_match; try by eexists). simplify_eq. unfold int_arg, int_of_num in *.
  rewrite (proj2 (Z.eqb_neq _ _) Hd) in *. done.
Qed.

(** C32. Every body the material form sends keeps the invariant the spec
    states of a material: its type is one of Chapa, Ferragem, Acabamento
    and its quantity, price and minimum stock are numbers [>= 0]. *)
Theorem material_form_invariant init texts nums data :
  Form.submit init texts nums = Some data →
  (∃ t, fld data "type" = JStr t ∧ t ∈ ["Chapa"; "Ferragem"; "Acabamento"]) ∧
  ∀ k, k ∈ Form.num_keys → ∃ q, fld data k = JNum (Fin q) ∧ (0 <= q)%Q.
Proof.
  intros H. pose proof H as (_ & Ht & Hq & Hp & Hm & _)%materialSchema_checks. split.
  - destruct (Form.value init texts nums "type") as [| | | |t| |] eqn:E; try done.
    exists t. split; [rewrite (schema_fld _ _ "type" H); [done|set_solver|by rewrite E]|].
    by apply bool_decide_eq_true in Ht.
  - intros k Hk. assert (Hz : Form.z_number_min0 (Form.value init texts nums k) = true)
      by (repeat (apply elem_of_cons in Hk as [->|Hk]; [done|]); by apply elem_of_nil in Hk).
    apply z_number_min0_inv in Hz as [q [Hv Hq0]]. exists q. split; [|done].
    rewrite (schema_fld _ _ k H), Hv; [done| |by rewrite Hv]. unfold Form.num_keys in Hk. set_solver.
Qed.

(** A new material with a fractional quantity passes the form, but
    [POST /api/materials] answers 500 (the [Int] column refuses it) and
    stores nothing, while the page shows "Material criado com sucesso". *)
Theorem material_form_fractional_quantity texts nums data q db :
  Form.submit None texts nums = Some data → Form.value None texts nums "quantity" = JNum (Fin q) →
  Zpos (Qden (Qred q)) ≠ 1%Z →
  Materials.POST (Some (JObj data)) db = (inr (json_error "Internal Server Error" 500), db) ∧
  Page.handleSubmit None data db = (inr "Material criado com sucesso", db).
Proof.
  intros Hs Hq Hd.
  assert (Hf : fld data "quantity" = JNum (Fin q))
    by (rewrite (schema_fld _ _ _ Hs), Hq; [done|set_solver|by rewrite Hq]).
  destruct (Materials_create_fails data db) as [e He]; [intros k; by apply (of_fields_quantity_fails _ _ q)|].
  pose proof (Materials_POST_fails _ _ _ He) as Hpost. split; [done|].
  unfold Page.handleSubmit. by rewrite (st_bind_inr _ _ db _ db) by apply Hpost.
Qed.

Lemma of_fields_body k name type unit q price ms :
  type ∈ Materials.types → int_ok q → int_ok ms →
  Materials.of_fields k [("name", JStr name); ("type", JStr type); ("quantity", JNum (num_of_Z q));
                         ("unit", JStr unit); ("price", JNum price); ("minStock", JNum (num_of_Z ms))] =
  inr (Material.mk k name type None q unit price ms).
Proof.
  intros Ht Hq Hms. unfold Materials.of_fields. cbn -[int_of_num Materials.types].
  rewrite (bool_decide_true (type ∈ Materials.types)) by done.
  rewrite !int_of_num_range by done. reflexivity.
Qed.

(** C33. The route does not keep the invariant the form checks: for
    any store whose next cuid is free and any body whose type is a value
    of the [type] enum, [POST /api/materials] answers 200 and stores a
    material with exactly the body's quantity, price and minimum stock,
    whatever their sign, so negative ones break the spec's [quantity,
    price, minStock >= 0], which holds only for what the form sends
    ([material_form_invariant]). *)
Theorem material_POST_breaks_invariant db name type unit q price ms :
  materials db !! fresh_cuid db = None → type ∈ Materials.types → int_ok q → int_ok ms →
  ∃ m db', Materials.POST (Some (material_body name type unit q price ms)) db = (inr (json_ok m), db') ∧
    materials db' = <[Material.id m := m]> (materials db) ∧
    Material.type m = type ∧ Material.quantity m = q ∧ Material.price m = price ∧ Material.minStock m = ms.
Proof.
  intros Hfree Ht Hq Hms. eexists _, _. split.
  { unfold Materials.POST. apply handle_ok.
    rewrite (st_bind_inr _ _ db (material_body name type unit q price ms) db) by done.
    unfold mbind at 1, st_bind. unfold Materials.create, material_body. simpl.
    rewrite of_fields_body by done. simpl.
    rewrite bool_decide_false by (rewrite Hfree; by intros [? ?]). reflexivity. }
  split_and!; reflexivity.
Qed.

(** ** Examples *)

Definition texts_ex : list (string * string) := [("name", "MDF"); ("type", "Chapa"); ("unit", "un")].
Definition nums_ex : list (string * num) := [("quantity", Fin 10); ("price", Fin 50); ("minStock", Fin 5)].
Definition nums_frac : list (string * num) := [("quantity", Fin (5 # 2)); ("price", Fin 50); ("minStock", Fin 5)].
Definition data_ex : list (string * json) := Eval vm_compute in default [] (Form.submit None texts_ex nums_ex).
Definition data_frac : list (string * json) := Eval vm_compute in default [] (Form.submit None texts_ex nums_frac).

Lemma material_form_invariant_witness :
  Form.submit None texts_ex nums_ex = Some data_ex ∧
  (∃ t, fld data_ex "type" = JStr t ∧ t ∈ ["Chapa"; "Ferragem"; "Acabamento"]) ∧
  ∀ k, k ∈ Form.num_keys → ∃ q, fld data_ex k = JNum (Fin q) ∧ (0 <= q)%Q.
Proof.
  assert (Hs : Form.submit None texts_ex nums_ex = Some data_ex) by reflexivity.
  split; [exact Hs|]. exact (material_form_invariant None texts_ex nums_ex data_ex Hs).
Defined.

Lemma material_form_fractional_quantity_witness :
  Form.submit None texts_ex nums_frac = Some data_frac ∧
  Form.value None texts_ex nums_frac "quantity" = JNum (Fin (5 # 2)) ∧ Zpos (Qden (Qred (5 # 2))) ≠ 1%Z ∧
  Materials.POST (Some (JObj data_frac)) dbc = (inr (json_error "Internal Server Error" 500), dbc) ∧
  Page.handleSubmit None data_frac dbc = (inr "Material criado com sucesso", dbc).
Proof.
  assert (Hs : Form.submit None texts_ex nums_frac = Some data_frac) by reflexivity.
  assert (Hq : Form.value None texts_ex nums_frac "quantity" = JNum (Fin (5 # 2))) by reflexivity.
  assert (Hd : Zpos (Qden (Qred (5 # 2))) ≠ 1%Z) by discriminate.
  split; [exact Hs|split; [exact Hq|split; [exact Hd|]]].
  exact (material_form_fractional_quantity _ _ _ _ dbc Hs Hq Hd).
Defined.

Lemma material_POST_breaks_invariant_witness :
  materials dbc !! fresh_cuid dbc = None ∧ "Chapa" ∈ Materials.types ∧ int_ok (-5) ∧ int_ok (-1) ∧
  ∃ m db', Materials.POST (Some (material_body "MDF" "Chapa" "un" (-5) (Fin (-1)) (-1))) dbc = (inr (json_ok m), db') ∧
    materials db' = <[Material.id m := m]> (materials dbc) ∧
    Material.type m = "Chapa" ∧ Material.quantity m = (-5)%Z ∧ Material.price m = Fin (-1) ∧ Material.minStock m = (-1)%Z.
Proof.
  assert (Hf : materials dbc !! fresh_cuid dbc = None) by reflexivity.
  assert (Ht : "Chapa" ∈ Materials.types) by (apply (bool_decide_unpack _); reflexivity).
  assert (Hq : int_ok (-5)) by (unfold int_ok, int_min, int_max; lia).
  assert (Hm : int_ok (-1)) by (unfold int_ok, int_min, int_max; lia).
  split_and!; [exact Hf|exact Ht|exact Hq|exact Hm|].
  exact (material_POST_breaks_invariant dbc "MDF" "Chapa" "un" (-5) (Fin (-1)) (-1) Hf Ht Hq Hm).
Defined.
