(* ===== verification/EstoquePage.v ===== *)
(** * The stock page as a whole: [EstoquePage] of [app/estoque/page.tsx]

    [Estoque] and [MaterialPage] model the page's parts one by one: the
    table's selection, the cards, the filter, [handleSubmit],
    [handleBulkDelete].  This file puts them together as the component
    does: the page's hooks as the record [pagina], [fetchMaterials] and
    the events the rendered page offers, each the handler its [onClick]
    or [onChange] names, with the calls to the API on the store.  The
    [useEffect] of the page fetches once, at mount ([montar]).

    Each event runs to its end before the next one ([isLoading] is [true]
    only while a handler awaits, so it is not kept between events), and
    the [fetchMaterials()] a handler starts without awaiting it is run
    right after the handler: one user alone changes the store.  A body of
    [GET /api/materials] that is not an array would be stored by
    [setMaterials] and make the render throw on [materials.filter]; the
    page is then gone ([None]).  [handleDelete] is not modelled here: no
    control of the page calls it. *)

From S2P Require Import Prelude Js Store Http Cadastros Estoque ClientesPage MaterialPage.

Local Open Scope moveis_scope.

Module EstoquePage.

(** [NextResponse.json] of a material: the object [MaterialForm] gets as
    [initialData]. *)
Definition material_row (m : Material.t) : list (string * json) :=
  [("id", JStr (Material.id m)); ("name", JStr (Material.name m)); ("type", JStr (Material.type m));
   ("description", match Material.description m with Some d => JStr d | None => JNull end);
   ("quantity", JNum (num_of_Z (Material.quantity m))); ("unit", JStr (Material.unit m));
   ("price", JNum (Material.price m)); ("minStock", JNum (num_of_Z (Material.minStock m)))].

(** The hooks of [EstoquePage] but [isLoading]. *)
Record pagina := Pagina {
  materials : list Material.t;
  selectedMaterial : option Material.t;
  selectedMaterials : list string;
  isModalOpen : bool;
  filter : string;
  searchTerm : string }.

Definition set_materials (ms : list Material.t) (p : pagina) : pagina :=
  Pagina ms (selectedMaterial p) (selectedMaterials p) (isModalOpen p) (filter p) (searchTerm p).
Definition set_selectedMaterial (m : option Material.t) (p : pagina) : pagina :=
  Pagina (materials p) m (selectedMaterials p) (isModalOpen p) (filter p) (searchTerm p).
Definition set_selectedMaterials (sel : list string) (p : pagina) : pagina :=
  Pagina (materials p) (selectedMaterial p) sel (isModalOpen p) (filter p) (searchTerm p).
Definition set_isModalOpen (b : bool) (p : pagina) : pagina :=
  Pagina (materials p) (selectedMaterial p) (selectedMaterials p) b (filter p) (searchTerm p).
Definition set_filter (f : string) (p : pagina) : pagina :=
  Pagina (materials p) (selectedMaterial p) (selectedMaterials p) (isModalOpen p) f (searchTerm p).
Definition set_searchTerm (s : string) (p : pagina) : pagina :=
  Pagina (materials p) (selectedMaterial p) (selectedMaterials p) (isModalOpen p) (filter p) s.

(** [MaterialModal]'s title: [initialData ? 'Editar Material' : 'Novo Material']. *)
Definition material_modal_title (initialData : option Material.t) : string :=
  match initialData with Some _ => "Editar Material" | None => "Novo Material" end.

(** The initial values of the hooks. *)
Definition inicial : pagina := Pagina [] None [] false "all" "".

(** [fetchMaterials]: the array [GET /api/materials] answers, if it is one. *)
Definition fetchMaterials : M (option (list Material.t)) :=
  r ← Materials.GET;
  mret (match rbody r with BJson ms => Some ms | _ => None end).

(** [setMaterials(data)] after a fetch. *)
Definition refetch (p : pagina) : M (option pagina) :=
  ms ← fetchMaterials; mret ((λ ms, set_materials ms p) <$> ms).

(** The rows the table shows, and their ids ([idField = 'id']). *)
Definition shown (p : pagina) : list Material.t := filtered (filter p) (searchTerm p) (materials p).
Definition shown_ids (p : pagina) : list string := Material.id <$> shown p.

(** The values of the four filter buttons. *)
Definition filtros : list string := ["all"; "Chapa"; "Ferragem"; "Acabamento"].

(** What the user can do on the rendered page. *)
Inductive evento :=
  | Adicionar                               (* "Adicionar Material" *)
  | FiltroClick (i : nat)                   (* Todos, Chapas, Ferragens, Acabamentos *)
  | Busca (s : string)                      (* the search input *)
  | LinhaClick (i : nat)                    (* [onRowClick] of a shown row *)
  | MarcarTodos                             (* the header checkbox *)
  | MarcarLinha (i : nat)                   (* the checkbox of a shown row *)
  | ExcluirSelecionados (confirmado : bool) (* "Excluir Selecionados", then [window.confirm] *)
  | LimparSelecao                           (* "Limpar Seleção" *)
  | Exportar                                (* "Exportar" *)
  | FecharModal                             (* [MaterialModal]'s [onClose] *)
  | Enviar (texts : list (string * string)) (nums : list (string * num)).
                                            (* the form's submit *)

(** The effect of an event: [None] when the page offers no such control,
    else the new page ([None] if its render throws) and the toast. *)
Definition estoque_dispatch (p : pagina) (e : evento) : option (M (option pagina * option string)) :=
  match e with
  | Adicionar => Some (mret (Some (set_isModalOpen true (set_selectedMaterial None p)), None))
  | FiltroClick i => f ← filtros !! i; Some (mret (Some (set_filter f p), None))
  | Busca s => Some (mret (Some (set_searchTerm s p), None))
  | LinhaClick i =>
      m ← shown p !! i; Some (mret (Some (set_isModalOpen true (set_selectedMaterial (Some m) p)), None))
  | MarcarTodos =>
      Some (mret (Some (set_selectedMaterials
        (Table.step (selectedMaterials p) (Table.ClickAll (shown_ids p))) p), None))
  | MarcarLinha i =>
      id ← shown_ids p !! i;
      Some (mret (Some (set_selectedMaterials (Table.step (selectedMaterials p) (Table.ClickRow id)) p), None))
  | ExcluirSelecionados c =>
      if bool_decide (selectedMaterials p = []) then None
      else if c then Some ('(t, sel) ← bulk_delete (selectedMaterials p);
                           p' ← refetch (set_selectedMaterials sel p); mret (p', Some t))
      else Some (mret (Some p, None))
  | LimparSelecao =>
      if bool_decide (selectedMaterials p = []) then None
      else Some (mret (Some (set_selectedMaterials [] p), None))
  | Exportar =>
      if bool_decide (selectedMaterials p = []) then Some (mret (Some p, Some "Funcionalidade em desenvolvimento"))
      else None
  | FecharModal =>
      if isModalOpen p then Some (mret (Some (set_selectedMaterial None (set_isModalOpen false p)), None))
      else None
  | Enviar texts nums =>
      if isModalOpen p then
        match MaterialPage.Form.submit (material_row <$> selectedMaterial p) texts nums with
        | Some data => Some (t ← MaterialPage.Page.handleSubmit (selectedMaterial p) data;
                             p' ← refetch p; mret (set_isModalOpen false <$> p', Some t))
        | None => Some (mret (Some p, None))
        end
      else None
  end.

(** The page right after mounting: the [useEffect] fetch. *)
Definition montar : M (option pagina) := refetch inicial.

(** A step of the page and the store together. *)
Inductive passo : pagina * DB → pagina * DB → Prop :=
  | passo_evento p db e m p' t db' :
      estoque_dispatch p e = Some m → m db = (inr (Some p', t), db') → passo (p, db) (p', db').

(** What [GET /api/materials] lists. *)
Definition listing (db : DB) : list Material.t :=
  merge_sort (str_asc Material.name) (map snd (map_to_list (Store.materials db))).

(** The store keeps each material under its id, and the ids [S] are
    materials of the store. *)
Definition mat_inv (S : list string) (db : DB) : Prop :=
  map_Forall (λ k m, Material.id m = k) (Store.materials db) ∧
  ∀ k, k ∈ S → is_Some (Store.materials db !! k).

(** The page shows what the store holds, and its selection names
    materials of the store. *)
Definition sincronizado (pd : pagina * DB) : Prop :=
  materials pd.1 = listing pd.2 ∧ mat_inv (selectedMaterials pd.1) pd.2.

End EstoquePage.
Export EstoquePage.

(** ** The material routes keep [mat_inv] *)

Lemma upd_fields_id fs m m' : Materials.upd_fields fs m = inr m' → Material.id m' = Material.id m.
Proof.
  unfold Materials.upd_fields, mbind, sum_bind.
  repeat (case_match; try discriminate). by intros [= <-].
Qed.

Lemma update_materials_keeps S k fs :
  st_keeps (mat_inv S) (update_row T_materials k (Materials.upd_fields fs)) (λ _, True).
Proof.
  intros db Hdb. pose proof Hdb as [Hk HS]. unfold update_row. cbn [tget tset T_materials].
  destruct (Store.materials db !! k) as [r|] eqn:Ek; [|done].
  destruct (Materials.upd_fields fs r) as [e|r'] eqn:E; [done|]. split; [|done]. split; simpl.
  - apply map_Forall_insert_2; [|done]. rewrite (upd_fields_id _ _ _ E). by apply Hk in Ek.
  - intros k' Hk'. rewrite lookup_insert_is_Some'. right. by apply HS.
Qed.

Lemma create_keeps S data : st_keeps (mat_inv S) (Materials.create data) (λ _, True).
Proof.
  intros db Hdb. pose proof Hdb as [Hk HS]. unfold Materials.create. destruct (fs ← obj_fields data; _) as [e|m]; [done|].
  case_bool_decide; [done|]. split; [|done]. split; simpl.
  - by apply map_Forall_insert_2.
  - intros k' Hk'. rewrite lookup_insert_is_Some'. right. by apply HS.
Qed.

Lemma delete_materials_keeps id : st_keeps (mat_inv []) (delete_row T_materials Materials.referenced id) (λ _, True).
Proof.
  intros db Hdb. pose proof Hdb as [Hk _]. unfold delete_row. cbn [tget tset T_materials].
  destruct (Store.materials db !! id); [|done]. destruct (Materials.referenced db id); [done|].
  split; [|done]. split; [by apply map_Forall_delete|set_solver].
Qed.

#[local] Hint Resolve update_materials_keeps create_keeps delete_materials_keeps : moveis.

Lemma Materials_PUT_keeps S id req : st_keeps (mat_inv S) (Materials.PUT id req) (λ _, True).
Proof. unfold Materials.PUT. repeat keeps_step. Qed.

Lemma Materials_POST_keeps S req : st_keeps (mat_inv S) (Materials.POST req) (λ _, True).
Proof. unfold Materials.POST. repeat keeps_step. Qed.

Lemma Materials_DELETE_keeps id : st_keeps (mat_inv []) (Materials.DELETE id) (λ _, True).
Proof. unfold Materials.DELETE. repeat keeps_step. Qed.

#[local] Hint Resolve Materials_PUT_keeps Materials_POST_keeps : moveis.

Lemma handleSubmit_keeps S sel data :
  st_keeps (mat_inv S) (MaterialPage.Page.handleSubmit sel data) (λ _, True).
Proof. unfold MaterialPage.Page.handleSubmit. destruct sel; repeat keeps_step. Qed.

Lemma bulk_delete_keeps sel : st_keeps (mat_inv []) (bulk_delete sel) (λ r, r.2 = []).
Proof.
  unfold bulk_delete. eapply st_keeps_bind; [apply st_keeps_all, Forall_forall|intros ? _; by apply st_keeps_ret].
  intros m Hm. apply list_elem_of_In, in_map_iff in Hm as [id [<- _]]. apply Materials_DELETE_keeps.
Qed.

(** ** The page keeps showing the store *)

Lemma refetch_run p db : refetch p db = (inr (Some (set_materials (listing db) p)), db).
Proof. reflexivity. Qed.

Lemma mat_inv_nil S db : mat_inv S db → mat_inv [] db.
Proof. intros [Hk _]. split; [done|set_solver]. Qed.

Lemma listing_key S db m : mat_inv S db → m ∈ listing db → is_Some (Store.materials db !! Material.id m).
Proof.
  intros [Hk _] Hm. unfold listing in Hm. rewrite merge_sort_Permutation in Hm.
  apply list_elem_of_In, in_map_iff in Hm as [[k m'] [<- Hkm]]. apply list_elem_of_In, elem_of_map_to_list in Hkm.
  simpl. rewrite (Hk _ _ Hkm). by eexists.
Qed.

Lemma shown_key p db id : sincronizado (p, db) → id ∈ shown_ids p → is_Some (Store.materials db !! id).
Proof.
  intros [Hms Hinv] Hid. unfold shown_ids, shown, filtered in Hid.
  apply list_elem_of_fmap in Hid as [m [-> Hm]]. apply list_elem_of_filter in Hm as [_ Hm].
  simpl in Hms. rewrite Hms in Hm. by eapply listing_key.
Qed.

Lemma table_step_inv p db e :
  sincronizado (p, db) →
  (∀ ids, e = Table.ClickAll ids → ids = shown_ids p) → (∀ id, e = Table.ClickRow id → id ∈ shown_ids p) →
  mat_inv (Table.step (selectedMaterials p) e) db.
Proof.
  intros Hs Hall Hrow. pose proof Hs as [_ [Hk HS]]. split; [done|]. intros id Hid.
  destruct (step_subset _ _ _ Hid) as [Hin|[[ids [-> Hin]]| ->]].
  - by apply HS.
  - eapply shown_key; [done|]. by rewrite <-(Hall ids).
  - eapply shown_key; [done|]. by apply Hrow.
Qed.

(** An event that leaves the store alone answers with its page at once. *)
Ltac pure_event :=
  match goal with
  | He : Some _ = Some _ |- _ => injection He as <-
  end;
  match goal with
  | Hm : mret _ _ = (inr (Some _, _), _) |- _ => rewrite st_ret_run in Hm; injection Hm as <- _ <-
  end.

Lemma dispatch_sync p db e m p' t db' :
  sincronizado (p, db) → estoque_dispatch p e = Some m → m db = (inr (Some p', t), db') → sincronizado (p', db').
Proof.
  intros Hs He Hm. pose proof Hs as [Hms Hinv].
  destruct e as [|i|s|i| |i|[]| | | |texts nums]; simpl in He.
  - pure_event. exact Hs.
  - destruct (filtros !! i); simpl in He; [pure_event; exact Hs|discriminate].
  - pure_event. exact Hs.
  - destruct (shown p !! i); simpl in He; [pure_event; exact Hs|discriminate].
  - pure_event. split; [exact Hms|].
    refine (table_step_inv p db (Table.ClickAll (shown_ids p)) Hs _ _); [by intros ? [= ->]|done].
  - destruct (shown_ids p !! i) as [id|] eqn:Hi; simpl in He; [|discriminate]. pure_event.
    split; [exact Hms|]. refine (table_step_inv p db (Table.ClickRow id) Hs _ _); [done|].
    intros ? [= <-]. by eapply list_elem_of_lookup_2.
  - case_bool_decide; [discriminate|]. injection He as <-. st_inv Hm. destruct a as [t0 sel0].
    destruct (bulk_delete_keeps (selectedMaterials p) db (mat_inv_nil _ _ Hinv)) as [Hinv' Hsel].
    rewrite E in Hinv'. specialize (Hsel _ _ E). simpl in Hsel, Hinv'. subst sel0.
    rewrite (st_bind_inr _ _ _ _ _ (refetch_run _ _)), st_ret_run in Hm. injection Hm as <- _ <-.
    split; [done|exact Hinv'].
  - case_bool_decide; [discriminate|]. pure_event. exact Hs.
  - case_bool_decide; [discriminate|]. pure_event. split; [exact Hms|]. by eapply mat_inv_nil.
  - case_bool_decide; [|discriminate]. pure_event. exact Hs.
  - destruct (isModalOpen p); [|discriminate]. pure_event. exact Hs.
  - destruct (isModalOpen p); [|discriminate].
    destruct (MaterialPage.Form.submit _ texts nums) as [data|]; [|pure_event; exact Hs].
    injection He as <-. st_inv Hm.
    destruct (handleSubmit_keeps (selectedMaterials p) (selectedMaterial p) data db Hinv) as [Hinv' _].
    rewrite E in Hinv'. simpl in Hinv'. rewrite refetch_run in E0. injection E0 as <- <-.
    rewrite st_ret_run in Hm. injection Hm as <- _ <-.
    split; [done|exact Hinv'].
Qed.

Lemma passos_sync x y : rtc passo x y → sincronizado x → sincronizado y.
Proof.
  induction 1 as [|x y z Hxy _ IH]; [done|]. intros Hx. apply IH.
  destruct Hxy as [p db e m p' t db' He Hm]. by eapply dispatch_sync.
Qed.

(** ** Theorems *)

(** C17. The stock page, mounted on a store that keeps each material under its
    id, shows after any sequence of events exactly what [GET
    /api/materials] lists of the store as it now is, and its selection
    names only materials of that store: "Excluir Selecionados" only sends
    [DELETE]s for materials that exist, and a saved form is at once in
    the table. *)
Theorem estoque_page_sincronizado db p db' :
  map_Forall (λ k m, Material.id m = k) (Store.materials db) →
  montar db = (inr (Some (set_materials (listing db) inicial)), db) ∧
  (rtc passo (set_materials (listing db) inicial, db) (p, db') →
   materials p = listing db' ∧ ∀ id, id ∈ selectedMaterials p → is_Some (Store.materials db' !! id)).
Proof.
  intros Hk. split; [apply refetch_run|]. intros Hr.
  destruct (passos_sync _ _ Hr) as [Hms [_ HS]]; [split; [done|split; [done|set_solver]]|]. by split.
Qed.

(** Unlike the clients page, "Adicionar Material" clears the selection:
    whatever was edited before, the modal opens as "Novo Material". *)
Lemma adicionar_novo_material p db :
  ∃ m, estoque_dispatch p Adicionar = Some m ∧
    ∀ p' t db', m db = (inr (Some p', t), db') →
      isModalOpen p' = true ∧ material_modal_title (selectedMaterial p') = "Novo Material" ∧ db' = db.
Proof. eexists. split; [reflexivity|]. intros p' t db'. rewrite st_ret_run. by intros [= <- _ <-]. Qed.

Definition mdf : Material.t := Material.mk "m1" "MDF" "Chapa" None 10 "un" (Fin 50) 5.
Definition db_estoque : DB := mkDB ∅ {["m1" := mdf]} ∅ ∅ ∅ ∅ 0 0 0.

(** Mounting on one material, selecting every row and deleting the
    selection: the store and the table are empty. *)
Lemma estoque_page_sincronizado_witness :
  map_Forall (λ k m, Material.id m = k) (Store.materials db_estoque) ∧
  ∃ p db', rtc passo (set_materials (listing db_estoque) inicial, db_estoque) (p, db') ∧
    Store.materials db' = ∅ ∧ materials p = listing db' ∧ selectedMaterials p = [].
Proof.
  assert (Hk : map_Forall (λ k m, Material.id m = k) (Store.materials db_estoque))
    by (apply (bool_decide_unpack _); vm_compute; exact I).
  split; [exact Hk|]. eexists _, _. split.
  - eapply rtc_l; [eapply (passo_evento _ _ MarcarTodos); reflexivity|].
    eapply rtc_l; [eapply (passo_evento _ _ (ExcluirSelecionados true)); reflexivity|]. apply rtc_refl.
  - split; [reflexivity|]. split; [|reflexivity].
    refine (proj1 (proj2 (estoque_page_sincronizado db_estoque _ _ Hk) _)).
    eapply rtc_l; [eapply (passo_evento _ _ MarcarTodos); reflexivity|].
    eapply rtc_l; [eapply (passo_evento _ _ (ExcluirSelecionados true)); reflexivity|]. apply rtc_refl.
Defined.
