(* ===== verification/ClientesPagina.v ===== *)
(** * The clients page as a whole: [ClientesPage] of
      [app/clientes/page.tsx] with [ClienteModal.tsx]

    [ClientesPage] models the form, the listing and the two handlers one
    by one; this file puts them together as the component does: the
    page's hooks as the record [pagina] (the rows start as the two
    hard-coded [clientesIniciais] until the mount fetch answers), the
    controls the page renders and what each [onClick] or [onChange] does,
    and the title [ClienteModal] shows.  [executar] runs a sequence of
    events on the page and the store.

    "Novo Cliente" only opens the modal ([setIsModalOpen(true)]); it does
    not clear [selectedCliente], which only the modal's [onClose] does.
    After a client is edited and saved, the next "Novo Cliente" opens the
    form on that client, titled "Editar Cliente", and saving it sends a
    PUT for that client ([novo_cliente_apos_edicao]).

    As in [EstoquePage], each event runs to its end before the next one,
    [isLoading] is not kept, the [fetchClientes()] a handler does not
    await runs right after it, and a listing that is not an array would
    make the render throw ([None]). *)

From S2P Require Import Prelude Js Store Http Cadastros Orcamentos ClientesPage.

Local Open Scope moveis_scope.

Module ClientesPagina.

(** [clientesIniciais], as the rows the page holds. *)
Definition clientesIniciais : list Page.row :=
  [ [("id", JNum (num_of_Z 1)); ("nome", JStr "João Silva"); ("email", JStr "joao@email.com");
     ("telefone", JStr "(11) 99999-9999"); ("endereco", JStr "Rua A, 123"); ("ultimaCompra", JStr "2024-05-10")];
    [("id", JNum (num_of_Z 2)); ("nome", JStr "Maria Santos"); ("email", JStr "maria@email.com");
     ("telefone", JStr "(11) 88888-8888"); ("endereco", JStr "Rua B, 456"); ("ultimaCompra", JStr "2024-05-08")] ].

(** The hooks of [ClientesPage] but [isLoading]. *)
Record pagina := Pagina {
  clientes : list Page.row;
  selectedCliente : option Page.row;
  isModalOpen : bool;
  searchTerm : string }.

Definition set_clientes (cs : list Page.row) (p : pagina) : pagina :=
  Pagina cs (selectedCliente p) (isModalOpen p) (searchTerm p).
Definition set_selectedCliente (c : option Page.row) (p : pagina) : pagina :=
  Pagina (clientes p) c (isModalOpen p) (searchTerm p).
Definition set_isModalOpen (b : bool) (p : pagina) : pagina :=
  Pagina (clientes p) (selectedCliente p) b (searchTerm p).
Definition set_searchTerm (s : string) (p : pagina) : pagina :=
  Pagina (clientes p) (selectedCliente p) (isModalOpen p) s.

Definition inicial : pagina := Pagina clientesIniciais None false "".

(** [const title = initialData ? 'Editar Cliente' : 'Novo Cliente'] *)
Definition modal_title (initialData : option Page.row) : string :=
  match initialData with Some _ => "Editar Cliente" | None => "Novo Cliente" end.

Inductive evento :=
  | NovoCliente                                (* "Novo Cliente" *)
  | Busca (s : string)                         (* the search input *)
  | LinhaClick (i : nat)                       (* [onRowClick] of a shown row *)
  | FecharModal                                (* [onClose]: the modal's close, the form's Cancelar *)
  | Enviar (typed : list (string * string)).   (* the form's submit after typing [typed] *)

Section pagina.
Context (frac_string : Q → string) (is_email : string → bool).

(** The page after the [useEffect] fetch. *)
Definition montar : M (option pagina) :=
  rows ← Page.fetchClientes; mret ((λ rs, set_clientes rs inicial) <$> rows).

Definition clientes_dispatch (p : pagina) (e : evento) : option (M (option pagina * option string)) :=
  match e with
  | NovoCliente => Some (mret (Some (set_isModalOpen true p), None))
  | Busca s => Some (mret (Some (set_searchTerm s p), None))
  | LinhaClick i =>
      r ← Page.filteredClientes frac_string (searchTerm p) (clientes p) !! i;
      Some (mret (Some (set_isModalOpen true (set_selectedCliente (Some r) p)), None))
  | FecharModal =>
      if isModalOpen p then Some (mret (Some (set_selectedCliente None (set_isModalOpen false p)), None))
      else None
  | Enviar typed =>
      if isModalOpen p then
        match Form.submit is_email (selectedCliente p) typed with
        | Some data =>
            Some ('(t, rows) ← Page.handleSubmit frac_string (selectedCliente p) data;
                  mret ((λ rs, set_isModalOpen false (set_clientes rs p)) <$> rows, Some t))
        | None => Some (mret (Some p, None))
        end
      else None
  end.

(** A sequence of events: the final page and the toasts, [None] when an
    event has no control on the page or the render throws. *)
Fixpoint executar (p : pagina) (es : list evento) : M (option (pagina * list (option string))) :=
  match es with
  | [] => mret (Some (p, []))
  | e :: es =>
      match clientes_dispatch p e with
      | None => mret None
      | Some m =>
          '(p', t) ← m;
          match p' with
          | None => mret None
          | Some p' => r ← executar p' es; mret ((λ '(p'', ts), (p'', t :: ts)) <$> r)
          end
      end
  end.
End pagina.

End ClientesPagina.
Export ClientesPagina.

(** The rows [fetchClientes] gives for a store. *)
Definition listing_rows (db : DB) : list Page.row :=
  Page.cliente_row <$> merge_sort (str_asc Cliente.nome) (map snd (map_to_list (Store.clientes db))).

(** ** Lemmas *)

Lemma executar_step fs ie p e es m p' t db db' p'' ts db'' :
  clientes_dispatch fs ie p e = Some m → m db = (inr (Some p', t), db') →
  executar fs ie p' es db' = (inr (Some (p'', ts)), db'') →
  executar fs ie p (e :: es) db = (inr (Some (p'', t :: ts)), db'').
Proof.
  intros He Hm Hr. cbn [executar]. rewrite He.
  rewrite (st_bind_inr _ _ _ _ _ Hm). cbv beta iota. by rewrite (st_bind_inr _ _ _ _ _ Hr).
Qed.

(** Saving the form on a selected client: the PUT by id fails, and the
    success toast and a new listing follow. *)
Lemma handleSubmit_edit fs r data db :
  Page.handleSubmit fs (Some r) data db = (inr ("Cliente atualizado com sucesso", Some (listing_rows db)), db).
Proof.
  unfold Page.handleSubmit. rewrite (st_bind_inr _ _ db "Cliente atualizado com sucesso" db).
  - by rewrite (st_bind_inr _ _ db _ db (fetchClientes_run db)).
  - by rewrite (st_bind_inr _ _ _ _ _ (Clientes_PUT_fails _ _ _)).
Qed.

Lemma enviar_edit fs ie p r typed data db :
  isModalOpen p = true → selectedCliente p = Some r → Form.submit ie (Some r) typed = Some data →
  ∃ m, clientes_dispatch fs ie p (Enviar typed) = Some m ∧
    m db = (inr (Some (set_isModalOpen false (set_clientes (listing_rows db) p)),
                 Some "Cliente atualizado com sucesso"), db).
Proof.
  intros Ho Hs Hf. simpl. rewrite Ho, Hs, Hf. eexists. split; [reflexivity|].
  by rewrite (st_bind_inr _ _ _ _ _ (handleSubmit_edit fs r data db)).
Qed.

(** ** Theorems *)

(** C28. "Novo Cliente" after an edit edits the same client: clicking a client
    of the table and saving the form, then clicking "Novo Cliente", opens
    the modal titled "Editar Cliente" on that client's data, and saving
    it sends a PUT for that client (which answers 500), shows "Cliente
    atualizado com sucesso" and creates no client. *)
Theorem novo_cliente_apos_edicao fs ie p i (r : Page.row) typed typed' data data' db :
  Page.filteredClientes fs (searchTerm p) (clientes p) !! i = Some r →
  Form.submit ie (Some r) typed = Some data → Form.submit ie (Some r) typed' = Some data' →
  ∃ p3 p4,
    executar fs ie p [LinhaClick i; Enviar typed; NovoCliente] db =
      (inr (Some (p3, [None; Some "Cliente atualizado com sucesso"; None])), db) ∧
    isModalOpen p3 = true ∧ selectedCliente p3 = Some r ∧ modal_title (selectedCliente p3) = "Editar Cliente" ∧
    executar fs ie p3 [Enviar typed'] db = (inr (Some (p4, [Some "Cliente atualizado com sucesso"])), db).
Proof.
  intros Hi Hf Hf'.
  set (p1 := set_isModalOpen true (set_selectedCliente (Some r) p)).
  set (p3 := set_isModalOpen true (set_isModalOpen false (set_clientes (listing_rows db) p1))).
  destruct (enviar_edit fs ie p1 r typed data db eq_refl eq_refl Hf) as [m2 [Hd2 Hm2]].
  destruct (enviar_edit fs ie p3 r typed' data' db eq_refl eq_refl Hf') as [m4 [Hd4 Hm4]].
  eexists p3, _. split_and!; [|done|done|done|].
  - eapply executar_step; [unfold clientes_dispatch; rewrite Hi; reflexivity|reflexivity|].
    eapply executar_step; [exact Hd2|exact Hm2|].
    eapply executar_step; [reflexivity|reflexivity|reflexivity].
  - eapply executar_step; [exact Hd4|exact Hm4|reflexivity].
Qed.

(** ** A run of the page *)

Definition db_ana : DB := mkDB {[1%Z := cliente_ana]} ∅ ∅ ∅ ∅ ∅ 2 0 0.

(** The page after mounting on [db_ana]. *)
Definition pagina_ana : pagina := set_clientes (listing_rows db_ana) inicial.

(** The edit form must retype the [null] columns of the row. *)
Definition typed_edit : list (string * string) :=
  [("cnpj", ""); ("endereco", "Rua C, 789"); ("cidade", ""); ("estado", ""); ("cep", "")].
Definition data_edit : list (string * json) :=
  Eval vm_compute in default [] (Form.submit is_email_ex (Some (Page.cliente_row cliente_ana)) typed_edit).

Lemma novo_cliente_apos_edicao_witness :
  Page.filteredClientes frac_ex (searchTerm pagina_ana) (clientes pagina_ana) !! 0%nat = Some (Page.cliente_row cliente_ana) ∧
  Form.submit is_email_ex (Some (Page.cliente_row cliente_ana)) typed_edit = Some data_edit ∧
  ∃ p3 p4,
    executar frac_ex is_email_ex pagina_ana [LinhaClick 0%nat; Enviar typed_edit; NovoCliente] db_ana =
      (inr (Some (p3, [None; Some "Cliente atualizado com sucesso"; None])), db_ana) ∧
    isModalOpen p3 = true ∧ selectedCliente p3 = Some (Page.cliente_row cliente_ana) ∧
    modal_title (selectedCliente p3) = "Editar Cliente" ∧
    executar frac_ex is_email_ex p3 [Enviar typed_edit] db_ana =
      (inr (Some (p4, [Some "Cliente atualizado com sucesso"])), db_ana).
Proof.
  assert (Hi : Page.filteredClientes frac_ex (searchTerm pagina_ana) (clientes pagina_ana) !! 0%nat
    = Some (Page.cliente_row cliente_ana)) by (vm_compute; reflexivity).
  assert (Hf : Form.submit is_email_ex (Some (Page.cliente_row cliente_ana)) typed_edit = Some data_edit)
    by (vm_compute; reflexivity).
  split; [exact Hi|]. split; [exact Hf|].
  exact (novo_cliente_apos_edicao frac_ex is_email_ex pagina_ana 0%nat _ typed_edit typed_edit _ _ db_ana Hi Hf Hf).
Defined.
