(* ===== verification/OrcamentosPagina.v ===== *)
(** * The quotes page as a whole: [OrcamentosPage] of
      [app/orcamentos/page.tsx] with [OrcamentoModal.tsx]

    [OrcamentoForm] models the quote form, the modal and the page's
    [handleSubmit], cards and filter one by one; this file puts them
    together as the component does: the hooks as the record [pagina], the
    mount fetch, the renderers of the table's columns, the controls the
    page renders with their handlers, and the render itself.  Opening the
    modal ("Novo Orçamento" or a click on a row) renders [OrcamentoModal],
    whose form throws on [clientes.map] ([modal_render]); nothing catches
    it, so the page is gone.  The step relation [passo] only takes the
    events after which the page still renders, and the page turns out to
    be read-only ([orcamentos_pagina_somente_leitura]).

    As in [EstoquePage], each event runs to its end before the next one,
    [isLoading] is not kept, and a listing that is not an array makes the
    render throw on [orcamentos.filter] ([None]). *)

From S2P Require Import Prelude Js Store Http Orcamentos ClientesPage OrcamentoForm.

Local Open Scope moveis_scope.

Module OrcamentosPagina.

(** The hooks of [OrcamentosPage] but [isLoading]; the rows are the JSON
    objects [GET /api/orcamentos] answers. *)
Record pagina := Pagina {
  orcamentos : list json;
  selectedOrcamento : option json;
  isModalOpen : bool;
  filter : string;
  searchTerm : string }.

Definition set_orcamentos (os : list json) (p : pagina) : pagina :=
  Pagina os (selectedOrcamento p) (isModalOpen p) (filter p) (searchTerm p).
Definition set_selectedOrcamento (o : option json) (p : pagina) : pagina :=
  Pagina (orcamentos p) o (isModalOpen p) (filter p) (searchTerm p).
Definition set_isModalOpen (b : bool) (p : pagina) : pagina :=
  Pagina (orcamentos p) (selectedOrcamento p) b (filter p) (searchTerm p).
Definition set_filter (f : string) (p : pagina) : pagina :=
  Pagina (orcamentos p) (selectedOrcamento p) (isModalOpen p) f (searchTerm p).
Definition set_searchTerm (s : string) (p : pagina) : pagina :=
  Pagina (orcamentos p) (selectedOrcamento p) (isModalOpen p) (filter p) s.

Definition inicial : pagina := Pagina [] None false "all" "".

(** ** The table's columns *)

(** [render: (value) => value?.nome || '-'] of the client column. *)
Definition render_cliente (v : json) : json :=
  match v with
  | JUndef | JNull => JStr "-"
  | _ => match prop v "nome" with inr n => if truthy n then n else JStr "-" | inl _ => JStr "-" end
  end.

(** [render: (value) => `R$ ${value?.toFixed(2) || '0,00'}`]; [toFixed(2)]
    of a number is the parameter [to_fixed2]. *)
Definition render_valorTotal (to_fixed2 : num → string) (v : json) : js_error + string :=
  match v with
  | JUndef | JNull => inr "R$ 0,00"
  | JNum n => inr ("R$ " +:+ to_fixed2 n)
  | _ => inl TypeError
  end.

(** The status column's colour: [colors[value] || 'text-gray-600']. *)
Definition status_color (v : json) : string :=
  match v with
  | JStr "PENDENTE" => "text-yellow-600"
  | JStr "APROVADO" => "text-green-600"
  | JStr "REPROVADO" => "text-red-600"
  | JStr "EM_PRODUCAO" => "text-blue-600"
  | JStr "CONCLUIDO" => "text-gray-600"
  | _ => "text-gray-600"
  end.

(** The values of the four filter buttons. *)
Definition filtros : list string := ["all"; "PENDENTE"; "APROVADO"; "EM_PRODUCAO"].

Inductive evento :=
  | NovoOrcamento                      (* "Novo Orçamento" *)
  | FiltroClick (i : nat)              (* Todos, Pendentes, Aprovados, Em Produção *)
  | Busca (s : string)                 (* the search input *)
  | Exportar                           (* "Exportar" *)
  | LinhaClick (i : nat)               (* [onRowClick] of a shown row *)
  | FecharModal                        (* [OrcamentoModal]'s [onClose] *)
  | Enviar (clienteId status observacoes : string) (items : list Form.item).
                                       (* the form's submit *)

Section pagina.
Context (qp : qpolicy) (frac_string : Q → string).

(** [fetchOrcamentos]: the array the listing answers, if it is one. *)
Definition fetchOrcamentos : M (option (list json)) :=
  r ← GET; mret (match rbody r with BJson os => Some (Page.row_json <$> os) | _ => None end).

Definition refetch (p : pagina) : M (option pagina) :=
  os ← fetchOrcamentos; mret ((λ os, set_orcamentos os p) <$> os).

(** The page after the [useEffect] fetch. *)
Definition montar : M (option pagina) := refetch inicial.

(** [`/api/orcamentos/${selectedOrcamento.id}`] *)
Definition selected_id (o : option json) : option string :=
  (λ r, to_js_string frac_string (default JUndef (if prop r "id" is inr v then Some v else None))) <$> o.

Definition orcamentos_dispatch (p : pagina) (e : evento) : option (M (option pagina * option string)) :=
  match e with
  | NovoOrcamento => Some (mret (Some (set_isModalOpen true (set_selectedOrcamento None p)), None))
  | FiltroClick i => f ← filtros !! i; Some (mret (Some (set_filter f p), None))
  | Busca s => Some (mret (Some (set_searchTerm s p), None))
  | Exportar => Some (mret (Some p, Some "Funcionalidade em desenvolvimento"))
  | LinhaClick i =>
      r ← Page.filtered (filter p) (searchTerm p) (orcamentos p) !! i;
      Some (mret (Some (set_isModalOpen true (set_selectedOrcamento (Some r) p)), None))
  | FecharModal =>
      if isModalOpen p then Some (mret (Some (set_selectedOrcamento None (set_isModalOpen false p)), None))
      else None
  | Enviar c s o items =>
      if isModalOpen p then
        Some (t ← form_submit qp None (selected_id (selectedOrcamento p)) c s o items;
              match t with
              | Some t => p' ← refetch p; mret (set_isModalOpen false <$> p', Some t)
              | None => mret (Some p, None)
              end)
      else None
  end.
End pagina.

(** The render of the page: with the modal open, the form's render (its
    initial lines are [initialData?.items || []]). *)
Definition render (p : pagina) : js_error + unit :=
  if isModalOpen p then modal_render [] else inr ().

(** A step of the page and the store, when the page still renders. *)
Inductive passo (qp : qpolicy) (fs : Q → string) : pagina * DB → pagina * DB → Prop :=
  | passo_evento p db e m p' t db' :
      orcamentos_dispatch qp fs p e = Some m → m db = (inr (Some p', t), db') → render p' = inr () →
      passo qp fs (p, db) (p', db').

End OrcamentosPagina.
Export OrcamentosPagina.

(** ** The page is read-only *)

Lemma mret_run {A} (a r : A) db db' : (mret a : M A) db = (inr r, db') → r = a ∧ db' = db.
Proof. rewrite st_ret_run. by intros [= -> <-]. Qed.

Lemma dispatch_closed qp fs p e m p' t db db' :
  isModalOpen p = false → orcamentos_dispatch qp fs p e = Some m → m db = (inr (Some p', t), db') →
  render p' = inr () → db' = db ∧ isModalOpen p' = false.
Proof.
  intros Hc He Hm Hr. destruct e as [| i | s | | i | | c st o items]; simpl in He; rewrite ?Hc in He;
    try discriminate;
    repeat match goal with
    | H : (_ ← ?o; _) = Some _ |- _ => destruct o; simpl in H; [|discriminate]
    | H : Some _ = Some _ |- _ => injection H as <-
    end;
    apply mret_run in Hm as [[= -> _] ->]; first [done|discriminate Hr].
Qed.

Lemma passos_closed qp fs x y :
  rtc (passo qp fs) x y → isModalOpen x.1 = false → y.2 = x.2 ∧ isModalOpen y.1 = false.
Proof.
  induction 1 as [|x y z Hxy _ IH]; [done|]. intros Hx.
  destruct Hxy as [p db e m p' t db' He Hm Hr]. destruct (dispatch_closed _ _ _ _ _ _ _ _ _ Hx He Hm Hr) as [-> Hc].
  destruct (IH Hc) as [Hz Hz']. by split.
Qed.

(** ** Theorem *)

(** C19. The quotes page cannot create, edit or delete a quote: from a
    page whose modal is closed (as mounting leaves it), every sequence of
    events after which the page still renders leaves the store as it was
    and the modal closed, because opening the modal ("Novo Orçamento" or a
    click on a row) renders a form that throws on [clientes.map]. *)
Theorem orcamentos_pagina_somente_leitura qp fs p db p' db' :
  isModalOpen p = false → rtc (passo qp fs) (p, db) (p', db') →
  db' = db ∧ isModalOpen p' = false ∧
  (∀ m, orcamentos_dispatch qp fs p' NovoOrcamento = Some m → ∀ p'' t db'', m db' = (inr (Some p'', t), db'') →
     render p'' = inl TypeError).
Proof.
  intros Hc Hr. destruct (passos_closed _ _ _ _ Hr Hc) as [Hdb Hc']. simpl in *. split_and!; [done|done|].
  intros m [= <-] p'' t db'' Hm. apply mret_run in Hm as [[= -> _] _]. reflexivity.
Qed.

(** Filtering on "Pendentes" and searching from the initial page, then
    trying "Novo Orçamento". *)
Lemma orcamentos_pagina_somente_leitura_witness :
  isModalOpen inicial = false ∧
  rtc (passo qp_ex frac_ex) (inicial, dbq) (set_searchTerm "Ana" (set_filter "PENDENTE" inicial), dbq) ∧
  dbq = dbq ∧ isModalOpen (set_searchTerm "Ana" (set_filter "PENDENTE" inicial)) = false ∧
  (∀ m, orcamentos_dispatch qp_ex frac_ex (set_searchTerm "Ana" (set_filter "PENDENTE" inicial)) NovoOrcamento = Some m →
     ∀ p'' t db'', m dbq = (inr (Some p'', t), db'') → render p'' = inl TypeError).
Proof.
  assert (Hr : rtc (passo qp_ex frac_ex) (inicial, dbq)
                 (set_searchTerm "Ana" (set_filter "PENDENTE" inicial), dbq)).
  { eapply rtc_l; [eapply (passo_evento _ _ _ _ (FiltroClick 1)); reflexivity|].
    eapply rtc_l; [eapply (passo_evento _ _ _ _ (Busca "Ana")); reflexivity|]. apply rtc_refl. }
  split; [reflexivity|]. split; [exact Hr|]. exact (orcamentos_pagina_somente_leitura qp_ex frac_ex inicial dbq _ _ eq_refl Hr).
Defined.
