(* ===== verification/LocalPages.v ===== *)
(** * The product and seller pages: [app/produtos/page.tsx] and
      [app/vendedores/page.tsx]

    Both pages keep their rows in React state, [useState] of the
    hard-coded [produtosIniciais] and [vendedoresIniciais], and never call
    the API.  They are one component written twice: the class [Linha]
    states what the page needs of a row (its [id], the key of the table
    and of [handleExcluir]); Section [pagina] models the page's state
    ([linhas], [modalAberto], the row being edited), its handlers
    [handleNovo], [handleEditar], [handleExcluir] and the modal's
    [Cancelar], and the events the rendered page offers ([dispatch]): the
    pencil and trash buttons exist once per rendered row, and the table and
    the [Novo] button lie under the modal's fixed overlay while it is
    open; the modal's buttons exist only while it is open.  The modal's
    [Salvar] is a [type="submit"] button in a [<form>] without [onSubmit]
    or [action]: the browser submits the form to the page's own URL, which
    loads the page again and mounts the component with its initial state
    ([recarregar]).  The step relation [passo] lifts [dispatch], and the
    theorems characterise the reachable states by rule induction. *)

From S2P Require Import Prelude.
Local Open Scope moveis_scope.

Module LocalPages.

(** What the page needs of a row: the [id] it filters on. *)
Class Linha (A : Type) := linha_id : A → Z.

Section pagina.
Context {A : Type} `{Linha A} (iniciais : list A).

(** The three [useState] hooks of the page. *)
Record estado := Estado { linhas : list A; modalAberto : bool; editando : option A }.

Definition inicial : estado := Estado iniciais false None.

(** [handleNovoProduto]: [setProdutoEditando(null)], [setModalAberto(true)]. *)
Definition handleNovo (s : estado) : estado := Estado (linhas s) true None.

(** [handleEditarProduto(produto)] *)
Definition handleEditar (r : A) (s : estado) : estado := Estado (linhas s) true (Some r).

(** [handleExcluirProduto(id)]: when [confirm] answers yes, keep the rows
    whose [id] differs. *)
Definition handleExcluir (confirmado : bool) (id : Z) (s : estado) : estado :=
  if confirmado then Estado (filter (λ r, linha_id r ≠ id) (linhas s)) (modalAberto s) (editando s)
  else s.

(** [onClick={() => setModalAberto(false)}] of [Cancelar]. *)
Definition handleCancelar (s : estado) : estado := Estado (linhas s) false (editando s).

(** The native submit of the modal's form: the page loads again. *)
Definition recarregar (s : estado) : estado := inicial.

(** What the user can do on the rendered page. *)
Inductive evento :=
  | NovoClick
  | EditarClick (i : nat)
  | ExcluirClick (i : nat) (confirmado : bool)
  | CancelarClick
  | SalvarSubmit.

Definition dispatch (s : estado) (e : evento) : option estado :=
  match e with
  | NovoClick => if modalAberto s then None else Some (handleNovo s)
  | EditarClick i => if modalAberto s then None else r ← linhas s !! i; Some (handleEditar r s)
  | ExcluirClick i c =>
      if modalAberto s then None else r ← linhas s !! i; Some (handleExcluir c (linha_id r) s)
  | CancelarClick => if modalAberto s then Some (handleCancelar s) else None
  | SalvarSubmit => if modalAberto s then Some (recarregar s) else None
  end.

Inductive passo (s s' : estado) : Prop :=
  | passo_evento e : dispatch s e = Some s' → passo s s'.

Definition alcancavel (s : estado) : Prop := rtc passo inicial s.

(** The invariant: the rows shown are a sublist of the initial ones, and
    the row being edited is one of them. *)
Definition inv (s : estado) : Prop :=
  linhas s `sublist_of` iniciais ∧ ∀ r, editando s = Some r → r ∈ iniciais.

(** ** Lemmas *)

Lemma inv_inicial : inv inicial.
Proof. split; [done|by intros r [=]]. Qed.

Lemma lookup_inv s i r : inv s → linhas s !! i = Some r → r ∈ iniciais.
Proof. intros [Hl _] Hi. eapply elem_of_sublist; [|exact Hl]. by eapply list_elem_of_lookup_2. Qed.

Lemma dispatch_inv s e s' : inv s → dispatch s e = Some s' → inv s'.
Proof.
  intros Hs He. pose proof Hs as [Hl Hr].
  destruct e as [|i|i []| |]; simpl in He; destruct (modalAberto s); try discriminate;
    repeat match goal with
    | H : (_ ← ?o; _) = Some _ |- _ => destruct o as [r|] eqn:Hi; [simpl in H|discriminate]
    | H : Some _ = Some _ |- _ => injection H as <-
    end; split; simpl; auto; try by intros ? [=].
  - intros ? [= <-]. by eapply lookup_inv.
  - by etrans; [apply sublist_filter|].
Qed.

Lemma passos_inv s s' : rtc passo s s' → inv s → inv s'.
Proof. induction 1 as [|s s1 s2 [e He] _ IH]; [done|]. intros Hs. by eapply IH, dispatch_inv. Qed.

Lemma alcancavel_inv s : alcancavel s → inv s.
Proof. intros Hr. eapply passos_inv; [exact Hr|apply inv_inicial]. Qed.

(** Deleting the row at position [length p] of [p ++ x :: k] when no other
    row has its [id]. *)
Lemma excluir_meio p x k :
  (∀ r, r ∈ p ++ k → linha_id r ≠ linha_id x) →
  passo (Estado (p ++ x :: k) false None) (Estado (p ++ k) false None).
Proof.
  intros Hd. apply (passo_evento _ _ (ExcluirClick (length p) true)). simpl.
  rewrite list_lookup_middle by done. simpl. f_equal. f_equal.
  rewrite filter_app, filter_cons_False by auto. rewrite <-filter_app.
  apply filter_Forall_id, Forall_forall. intros r Hr. by apply Hd.
Qed.

Lemma excluir_sublist p k l :
  l `sublist_of` k → NoDup (linha_id <$> p ++ k) →
  rtc passo (Estado (p ++ k) false None) (Estado (p ++ l) false None).
Proof.
  intros Hs. revert p. induction Hs as [|x l k Hs IH|x l k Hs IH]; intros p Hnd; [done| |].
  - specialize (IH (p ++ [x])). rewrite <-!(assoc_L (++)) in IH. apply IH.
    exact Hnd.
  - eapply rtc_l; [apply excluir_meio|apply IH].
    + intros r Hr Heq. rewrite fmap_app, fmap_cons in Hnd. apply NoDup_app in Hnd as (Hp & Hpk & Hk).
      apply NoDup_cons in Hk as [Hx Hk]. apply elem_of_app in Hr as [Hr|Hr].
      * apply (Hpk (linha_id x)); [rewrite <-Heq; by apply list_elem_of_fmap_2|by left].
      * apply Hx. rewrite <-Heq. by apply list_elem_of_fmap_2.
    + rewrite fmap_app, fmap_cons in Hnd. rewrite fmap_app. apply NoDup_app in Hnd as (Hp & Hpk & Hk).
      apply NoDup_cons in Hk as [_ Hk]. apply NoDup_app. split_and!; [done| |done].
      intros y Hy Hy'. apply (Hpk y Hy). by right.
Qed.
End pagina.

Arguments estado A : clear implicits.
Arguments evento : clear implicits.

(** ** The rows of [app/produtos/page.tsx] *)
Module Produtos.

(** [interface Produto]; [preco] is a JavaScript [number], a rational here. *)
Record Produto := mkProduto {
  id : Z; nome : string; categoria : string; preco : Q; estoque : Z;
  fornecedor : string; ultimaAtualizacao : string }.

Definition produtosIniciais : list Produto :=
  [ mkProduto 1 "Guarda-roupa 6 Portas" "Dormitório" (249990 # 100) 5 "Móveis Silva" "2024-05-10";
    mkProduto 2 "Cozinha Completa" "Cozinha" (399990 # 100) 3 "Planejados Plus" "2024-05-09" ].

End Produtos.

#[global] Instance linha_produto : Linha Produtos.Produto := Produtos.id.

(** ** The rows of [app/vendedores/page.tsx] *)
Module Vendedores.

Inductive status := Ativo | Inativo.

(** [interface Vendedor] *)
Record Vendedor := mkVendedor {
  id : Z; nome : string; email : string; telefone : string; comissao : Q;
  vendasMes : Q; metaMensal : Q; status_ : status }.

Definition vendedoresIniciais : list Vendedor :=
  [ mkVendedor 1 "Carlos Oliveira" "carlos@moveisplus.com" "(11) 97777-7777" 5 45000 50000 Ativo;
    mkVendedor 2 "Ana Paula Silva" "ana@moveisplus.com" "(11) 96666-6666" 5 52000 50000 Ativo ].

(** The colours of the status badge. *)
Definition status_class (s : status) : string :=
  match s with Ativo => "bg-green-100 text-green-800" | Inativo => "bg-red-100 text-red-800" end.

End Vendedores.

#[global] Instance linha_vendedor : Linha Vendedores.Vendedor := Vendedores.id.

(** The two components: [Produtos()] and [Vendedores()] are the page of
    Section [pagina] on their own initial rows. *)
Definition Produtos_page : estado Produtos.Produto → evento → option (estado Produtos.Produto) :=
  dispatch Produtos.produtosIniciais.

Definition Vendedores_page : estado Vendedores.Vendedor → evento → option (estado Vendedores.Vendedor) :=
  dispatch Vendedores.vendedoresIniciais.

End LocalPages.
Export LocalPages.

(** ** What the pages can show *)

(** C34. On either page, every state the user can reach shows only
    rows of the hard-coded initial list, in their order, and the modal only
    ever edits one of those rows: no sequence of clicks adds or changes a
    row, because [Salvar] reloads the page.  Conversely, when the initial
    rows have distinct [id]s, every sublist of them is shown, with the
    modal closed, after some sequence of deletions confirmed one row at a
    time. *)
Theorem paginas_alcancaveis {A} `{Linha A} (iniciais : list A) :
  (∀ s, alcancavel iniciais s →
     linhas s `sublist_of` iniciais ∧ ∀ r, editando s = Some r → r ∈ iniciais) ∧
  (NoDup (linha_id <$> iniciais) → ∀ l, l `sublist_of` iniciais →
     ∃ s, alcancavel iniciais s ∧ linhas s = l ∧ modalAberto s = false).
Proof.
  split; [apply alcancavel_inv|].
  intros Hnd l Hl. exists (Estado l false None). split_and!; [|done|done].
  apply (excluir_sublist iniciais [] iniciais l Hl Hnd).
Qed.

(** The page after deleting the wardrobe and opening the form on the
    kitchen. *)
Definition cozinha : Produtos.Produto :=
  Produtos.mkProduto 2 "Cozinha Completa" "Cozinha" (399990 # 100) 3 "Planejados Plus" "2024-05-09".

Lemma paginas_alcancaveis_witness :
  (alcancavel Produtos.produtosIniciais (Estado [cozinha] true (Some cozinha)) ∧
   [cozinha] `sublist_of` Produtos.produtosIniciais ∧
   (∀ r, Some cozinha = Some r → r ∈ Produtos.produtosIniciais)) ∧
  (NoDup (linha_id <$> Vendedores.vendedoresIniciais) ∧
   ∃ s, alcancavel Vendedores.vendedoresIniciais s ∧ linhas s = drop 1 Vendedores.vendedoresIniciais ∧
     modalAberto s = false).
Proof.
  assert (Hr : alcancavel Produtos.produtosIniciais (Estado [cozinha] true (Some cozinha))).
  { eapply rtc_l; [apply (passo_evento _ _ _ (ExcluirClick 0 true)); reflexivity|].
    eapply rtc_l; [apply (passo_evento _ _ _ (EditarClick 0)); reflexivity|]. apply rtc_refl. }
  assert (Hnd : NoDup (linha_id <$> Vendedores.vendedoresIniciais))
    by (apply (bool_decide_unpack _); vm_compute; exact I).
  split; [split; [exact Hr|exact (proj1 (paginas_alcancaveis _) _ Hr)]|].
  split; [exact Hnd|]. apply (proj2 (paginas_alcancaveis _) Hnd). simpl. by apply sublist_cons.
Defined.
