(* ===== verification/Navigation.v ===== *)
(** * Navigation: [components/Sidebar.tsx] and [components/Header.tsx]

    Module [Sidebar] models the menu ([menuItems]) and which entry is
    highlighted ([isActive]: [pathname === item.href]).  Module [Header]
    models the search box: its three [useState] hooks, [handleSearch] over
    the three hard-coded results, [clearSearch] and [handleResultClick],
    which pushes the result's route.  [handleSearch] is [async] but awaits
    nothing, so it runs to its end within the input event, and React
    applies its [setIsSearching(true)] and [setIsSearching(false)] together.
    The step relation [nav_step] puts both on one page state: the route
    and the header's hooks; the menu's links and the result buttons are
    the only ways to change the route.  No file of the repository mounts
    either component (there is no [app/layout.tsx]); the model describes
    them as they would behave once mounted. *)

From S2P Require Import Prelude Js.
Local Open Scope moveis_scope.

Module Navigation.

Module Sidebar.

Record MenuItem := mkMenuItem { name : string; href : string }.

(** [menuItems]; the icons are not modelled. *)
Definition menuItems : list MenuItem :=
  [ mkMenuItem "Dashboard" "/"; mkMenuItem "Clientes" "/clientes";
    mkMenuItem "Produtos" "/produtos"; mkMenuItem "Vendedores" "/vendedores" ].

(** [const isActive = pathname === item.href] *)
Definition isActive (pathname : string) (item : MenuItem) : bool := String.eqb pathname (href item).

(** The classes of a link. *)
Definition link_class (pathname : string) (item : MenuItem) : string :=
  if isActive pathname item then "bg-[#4F46E5] text-white" else "text-gray-200 hover:bg-[#4F46E5]".

End Sidebar.

Module Header.

(** An element of the [results] array. *)
Record Resultado := mkResultado { type_ : string; id : Z; title : string; subtitle : string; href : string }.

(** The simulated results; the source holds the name of the client in a
    mis-encoded form, ["JoÃ£o Silva"]. *)
Definition resultados : list Resultado :=
  [ mkResultado "cliente" 1 "JoÃ£o Silva" "Cliente" "/clientes";
    mkResultado "produto" 1 "Guarda-roupa 6 Portas" "Produto" "/produtos";
    mkResultado "vendedor" 1 "Carlos Oliveira" "Vendedor" "/vendedores" ].

Record estado := Estado { searchTerm : string; searchResults : list Resultado; isSearching : bool }.

Definition inicial : estado := Estado "" [] false.

(** [handleSearch(term)] *)
Definition handleSearch (term : string) (s : estado) : estado :=
  if (utf16_length term <? 2)%nat then Estado term [] (isSearching s)
  else Estado term (filter (λ r, includes (to_lower (title r)) (to_lower term) = true) resultados) false.

(** [clearSearch()] *)
Definition clearSearch (s : estado) : estado := Estado "" [] (isSearching s).

(** [handleResultClick(result)]: the route [router.push] goes to, and the
    header after [clearSearch]. *)
Definition handleResultClick (r : Resultado) (s : estado) : string * estado := (href r, clearSearch s).

End Header.

(** ** The page's navigation state *)

Record nav := Nav { pathname : string; header : Header.estado }.

Inductive nav_evento :=
  | MenuClick (i : nat)
  | SearchInput (term : string)
  | ClearClick
  | ResultClick (i : nat).

(** The clear button is rendered when [searchTerm] is not empty, a result
    button for each of [searchResults]. *)
Definition nav_dispatch (n : nav) (e : nav_evento) : option nav :=
  match e with
  | MenuClick i => it ← Sidebar.menuItems !! i; Some (Nav (Sidebar.href it) (header n))
  | SearchInput term => Some (Nav (pathname n) (Header.handleSearch term (header n)))
  | ClearClick =>
      if String.eqb (Header.searchTerm (header n)) "" then None
      else Some (Nav (pathname n) (Header.clearSearch (header n)))
  | ResultClick i =>
      r ← Header.searchResults (header n) !! i;
      let '(rota, h) := Header.handleResultClick r (header n) in Some (Nav rota h)
  end.

Inductive nav_step (n n' : nav) : Prop :=
  | nav_step_evento e : nav_dispatch n e = Some n' → nav_step n n'.

(** The routes the menu and the search lead to. *)
Definition rotas : list string := Sidebar.href <$> Sidebar.menuItems.

(** The invariant of [nav_step]: the route and every result's route are
    routes of the menu. *)
Definition nav_inv (n : nav) : Prop :=
  pathname n ∈ rotas ∧ Forall (λ r, Header.href r ∈ rotas) (Header.searchResults (header n)).

(** ** Lemmas *)

Lemma resultados_rotas : Forall (λ r, Header.href r ∈ rotas) Header.resultados.
Proof. repeat constructor. Qed.

Lemma menu_rotas i it : Sidebar.menuItems !! i = Some it → Sidebar.href it ∈ rotas.
Proof. intros Hi. apply list_elem_of_fmap_2. by eapply list_elem_of_lookup_2. Qed.

Lemma handleSearch_rotas term s : Forall (λ r, Header.href r ∈ rotas) (Header.searchResults (Header.handleSearch term s)).
Proof.
  unfold Header.handleSearch. destruct (_ <? _)%nat; simpl; [done|].
  apply Forall_forall. intros r Hr. apply list_elem_of_filter in Hr as [_ Hr].
  by apply (proj1 (Forall_forall _ _) resultados_rotas).
Qed.

Lemma nav_dispatch_inv n e n' : nav_inv n → nav_dispatch n e = Some n' → nav_inv n'.
Proof.
  intros [Hp Hr] He. destruct e as [i|term| |i]; simpl in He.
  - destruct (_ !! i) as [it|] eqn:Hi; simplify_eq/=. split; [by eapply menu_rotas|done].
  - simplify_eq/=. split; [done|apply handleSearch_rotas].
  - case_match; simplify_eq/=. done.
  - destruct (_ !! i) as [r|] eqn:Hi; simplify_eq/=. split; [|done].
    by eapply (Forall_lookup_1 _ _ _ _ Hr).
Qed.

Lemma nav_steps_inv n n' : rtc nav_step n n' → nav_inv n → nav_inv n'.
Proof. induction 1 as [|n n1 n2 [e He] _ IH]; [done|]. intros Hn. by eapply IH, nav_dispatch_inv. Qed.

Lemma rotas_sem_estoque_orcamentos : ("/estoque" ∉ rotas) ∧ ("/orcamentos" ∉ rotas).
Proof. split; apply (bool_decide_unpack _); vm_compute; exact I. Qed.

(** ** Theorems *)

(** Once mounted, the menu and the search of the header keep the user
    among the menu's four routes: from any of them, no sequence of clicks
    and searches reaches the stock page [/estoque] or the quotes page
    [/orcamentos], which the menu does not list. *)
Theorem nav_never_estoque_orcamentos p n :
  p ∈ rotas → rtc nav_step (Nav p Header.inicial) n →
  pathname n ∈ rotas ∧ pathname n ≠ "/estoque" ∧ pathname n ≠ "/orcamentos".
Proof.
  intros Hp Hs. destruct (nav_steps_inv _ _ Hs) as [Hn _]; [split; [done|constructor]|].
  destruct rotas_sem_estoque_orcamentos as [He Ho]. split_and!; [done|intros Heq; by rewrite Heq in Hn|intros Heq; by rewrite Heq in Hn].
Qed.

(** The results [handleSearch] shows: with a term of at least two
    characters, the simulated results whose title contains the term,
    ignoring the case of ASCII letters; with a shorter one, none. *)
Theorem handleSearch_spec term s r :
  r ∈ Header.searchResults (Header.handleSearch term s) ↔
  (2 ≤ utf16_length term)%nat ∧ r ∈ Header.resultados ∧
  includes (to_lower (Header.title r)) (to_lower term) = true.
Proof.
  unfold Header.handleSearch. destruct (Nat.ltb_spec (utf16_length term) 2); simpl.
  - rewrite elem_of_nil. lia.
  - rewrite list_elem_of_filter. naive_solver.
Qed.

(** At most one entry of the menu is highlighted, and none on the stock
    and quotes pages. *)
Theorem sidebar_active p :
  (length (filter (λ it, Sidebar.isActive p it = true) Sidebar.menuItems) ≤ 1)%nat ∧
  filter (λ it, Sidebar.isActive "/estoque" it = true) Sidebar.menuItems = [] ∧
  filter (λ it, Sidebar.isActive "/orcamentos" it = true) Sidebar.menuItems = [].
Proof.
  split_and!; [|reflexivity|reflexivity]. unfold Sidebar.menuItems. rewrite !filter_cons, filter_nil.
  repeat case_decide; simpl; try lia;
    repeat match goal with H : _ = true |- _ => apply String.eqb_eq in H end;
    simpl in *; congruence.
Qed.

(** The client's name is stored mis-encoded: searching "João" finds
    nothing, while "Jo" finds the mis-encoded entry. *)
Lemma search_joao :
  Header.searchResults (Header.handleSearch "João" Header.inicial) = [] ∧
  (Header.title <$> Header.searchResults (Header.handleSearch "Jo" Header.inicial)) = ["JoÃ£o Silva"].
Proof. split; vm_compute; reflexivity. Qed.

End Navigation.
Export Navigation.
