(* ===== verification/Componentes.v ===== *)
(** * The shared components as rendered markup: [components/Card.tsx],
      the render of [components/Table.tsx], [components/Form.tsx], the
      dashboard [app/page.tsx] and the three modals

    Module [Dom] is the markup a render produces: elements with their tag,
    their [className] and their children, checkboxes with their [checked]
    state, and text; [text] is the [textContent] of a node and [words]
    the tokens of a [className].  [child] is how React renders a value
    placed in JSX ([{value}]).

    Module [Card] is [Card.tsx]: its props with the destructuring's
    defaults, the three class strings and the render.  Module [TableView]
    is the render of [Table.tsx] (the selection it keeps is
    [Estoque.Table]); the stock page's and the clients page's columns are
    modelled with it.  Module [FormTsx] is [Form.tsx]'s [handleSubmit]
    ([Object.fromEntries(new FormData(form))]), through which
    [OrcamentoForm] submits; Module [Dashboard] is
    [app/page.tsx].  The forms, the modals and the navigation, whose
    handlers matter, are rendered in [Telas].

    JSX is modelled as the tree it describes: [key] props, event handler
    props and the icons are left out; a [className] given by a template
    literal keeps its spaces.  Numbers placed in JSX are written with
    [String(n)], whose non-integer case is the section variable
    [frac_string] as in [ClientesPage]. *)

From S2P Require Import Prelude Js Store Http Cadastros Orcamentos ClientesPage Estoque EstoquePage ClientesPagina.

Local Open Scope moveis_scope.

Module Componentes.

Module Dom.

(** A rendered node: an element with its tag, [className] and children, a
    checkbox [<input type="checkbox">] with its [className] and [checked],
    or a text node. *)
#[warnings="-register-all"]
Inductive node :=
  | Elem (tag cls : string) (kids : list node)
  | Checkbox (cls : string) (checked : bool)
  | Text (s : string).

(** [textContent] *)
Fixpoint text (n : node) : string :=
  match n with
  | Elem _ _ ks => String.concat "" (List.map text ks)
  | Checkbox _ _ => ""
  | Text s => s
  end.

(** The tokens of a [className]: the runs of characters between spaces.
    [cur] is the token being read. *)
Fixpoint words_aux (cur s : string) : list string :=
  match s with
  | EmptyString => if String.eqb cur "" then [] else [cur]
  | String c s' =>
      if Nat.eqb (Ascii.nat_of_ascii c) 32 then (if String.eqb cur "" then [] else [cur]) ++ words_aux "" s'
      else words_aux (cur +:+ String c EmptyString) s'
  end.

Definition words (s : string) : list string := words_aux "" s.

(** The [className] of a node. *)
Definition class_of (n : node) : string :=
  match n with Elem _ c _ | Checkbox c _ => c | Text _ => "" end.

(** The elements of a tree with the tag [tag], in document order. *)
Fixpoint elems (tag : string) (n : node) : list node :=
  match n with
  | Elem t _ ks => (if String.eqb t tag then [n] else []) ++ List.concat (List.map (elems tag) ks)
  | _ => []
  end.

(** The [checked] states of the checkboxes of a tree, in document order. *)
Fixpoint checkboxes (n : node) : list bool :=
  match n with
  | Elem _ _ ks => List.concat (List.map checkboxes ks)
  | Checkbox _ b => [b]
  | Text _ => []
  end.

(** The texts of the cells of the body's rows: the [<td>]s of every
    [<tr>] but the header's. *)
Definition cell_texts (n : node) : list (list string) :=
  List.map (λ r, List.map text (elems "td" r)) (tail (elems "tr" n)).

(** [a <= b] on two values: two strings compare by code units, anything
    else as numbers ([undefined] and [NaN] compare false). *)
Definition js_le (a b : json) : bool :=
  match a, b with
  | JStr x, JStr y => String.leb x y
  | _, _ => num_le (to_number a) (to_number b)
  end.

Section child.
Context (frac_string : Q → string).

(** [{value}] in JSX: a string or a number is a text node ([String(n)]),
    [null], [undefined] and booleans render nothing, an array renders its
    elements, an object throws ("Objects are not valid as a React
    child"). *)
Fixpoint child (v : json) : js_error + list node :=
  match v with
  | JUndef | JNull | JBool _ => inr []
  | JNum n => inr [Text (to_js_string frac_string (JNum n))]
  | JStr s => inr [Text s]
  | JArr l =>
      (fix go (l : list json) : js_error + list node :=
         match l with
         | [] => inr []
         | x :: l' => match child x, go l' with
                      | inr a, inr b => inr (a ++ b)
                      | inl e, _ | _, inl e => inl e
                      end
         end) l
  | JObj _ => inl TypeError
  end.
End child.

End Dom.

Export Dom.

(** ** [Card.tsx] *)
Module Card.

(** [CardProps] after the destructuring: [className = ''], [loading =
    false] and [error = false] are the defaults; an optional string is
    [None] when it is not given; [footer] is [Some] when it is a truthy
    node; [onClick] is whether a handler is given. *)
Record props := Props {
  title : option string;
  subtitle : option string;
  children : list node;
  className : string;
  footer : option (list node);
  onClick : bool;
  loading : bool;
  error : bool }.

(** [<Card title=...>children</Card>] with every other prop defaulted. *)
Definition with_title (t : option string) (ks : list node) : props :=
  Props t None ks "" None false false false.

(** [title || subtitle], [title && ...] on an optional string. *)
Definition opt_truthy (o : option string) : bool :=
  match o with Some s => negb (String.eqb s "") | None => false end.

Definition baseClasses : string := "rounded-lg bg-white shadow-sm".

(** [error ? 'border-red-300' : loading ? 'opacity-70' : 'border-gray-200'] *)
Definition statusClasses (p : props) : string :=
  if error p then "border-red-300" else if loading p then "opacity-70" else "border-gray-200".

(** [onClick ? 'cursor-pointer hover:shadow-md transition-shadow' : ''] *)
Definition interactionClasses (p : props) : string :=
  if onClick p then "cursor-pointer hover:shadow-md transition-shadow" else "".

(** [`${baseClasses} ${statusClasses} ${interactionClasses} ${className}`] *)
Definition card_class (p : props) : string :=
  baseClasses +:+ " " +:+ statusClasses p +:+ " " +:+ interactionClasses p +:+ " " +:+ className p.

(** [{(title || subtitle) && (<div> {title && <h3>} {subtitle && <p>} </div>)}] *)
Definition header (p : props) : list node :=
  if opt_truthy (title p) || opt_truthy (subtitle p) then
    [Elem "div" "border-b border-gray-200 px-6 py-4"
       ((if opt_truthy (title p) then
           [Elem "h3" "text-lg font-medium text-gray-900" [Text (default "" (title p))]] else []) ++
        (if opt_truthy (subtitle p) then
           [Elem "p" "mt-1 text-sm text-gray-500" [Text (default "" (subtitle p))]] else []))]
  else [].

(** The two grey bars shown while loading. *)
Definition skeleton : node :=
  Elem "div" "space-y-4"
    [Elem "div" "h-4 w-3/4 rounded bg-gray-200" []; Elem "div" "h-4 w-1/2 rounded bg-gray-200" []].

Definition error_box : node :=
  Elem "div" "text-center text-red-600" [Elem "p" "" [Text "Erro ao carregar dados"]].

(** [{loading ? (skeleton) : error ? (error box) : children}] *)
Definition body (p : props) : list node :=
  if loading p then [skeleton] else if error p then [error_box] else children p.

(** [{footer && (<div className="border-t ...">{footer}</div>)}] *)
Definition footer_nodes (p : props) : list node :=
  match footer p with Some f => [Elem "div" "border-t border-gray-200 px-6 py-4" f] | None => [] end.

(** [Card(props)] *)
Definition Card (p : props) : node :=
  Elem "div" (card_class p)
    (header p ++
     [Elem "div" ("px-6 py-4 " +:+ (if loading p then "animate-pulse" else "")) (body p)] ++
     footer_nodes p).

End Card.

(** ** The render of [Table.tsx] *)
Module TableView.

(** [Column]: a key of the rows, the header's text and the optional
    [render(value, row)]. *)
Record column := Column {
  key : string;
  header : string;
  render : option (json → json → js_error + list node) }.

(** [TableProps] after the destructuring: [className = ''], [selectable =
    false], [selectedRows = []] and [idField = 'id'] are the defaults;
    [onRowClick] is whether a handler is given; [onSelectionChange] is the
    event model [Estoque.Table]. *)
Record props := Props {
  columns : list column;
  data : list json;
  className : string;
  onRowClick : bool;
  selectable : bool;
  selectedRows : list string;
  idField : string }.

Definition checkbox_class : string :=
  "absolute left-4 top-1/2 -mt-2 h-4 w-4 rounded border-gray-300 text-primary-600 focus:ring-primary-500".

(** [allSelected = data.length > 0 && selectedRows.length === data.length] *)
Definition allSelected (p : props) : bool :=
  bool_decide (0 < length (data p))%nat && bool_decide (length (selectedRows p) = length (data p)).

(** [selectedRows.includes(v)] on an array of strings. *)
Definition includes_row (sel : list string) (v : json) : bool :=
  match v with JStr s => bool_decide (s ∈ sel) | _ => false end.

(** The header row: the select-all box when [selectable], then
    [{column.header}] for each column. *)
Definition head_row (p : props) : node :=
  Elem "tr" ""
    ((if selectable p then [Elem "th" "relative px-6 py-3" [Checkbox checkbox_class (allSelected p)]] else []) ++
     List.map (λ c, Elem "th" "px-6 py-3 text-left text-xs font-medium text-gray-500 uppercase tracking-wider"
                      [Text (header c)]) (columns p)).

Section render.
Context (frac_string : Q → string).

(** [{column.render ? column.render(row[column.key], row) : row[column.key]}] *)
Definition cell (row : json) (c : column) : js_error + node :=
  v ← prop row (key c);
  ks ← match render c with Some f => f v row | None => child frac_string v end;
  inr (Elem "td" "px-6 py-4 whitespace-nowrap text-sm text-gray-500" ks).

(** A row of the body: its checkbox ([checked={selectedRows.includes(row[idField])}])
    when [selectable], then its cells. *)
Definition row_node (p : props) (row : json) : js_error + node :=
  chk ← (if selectable p then
           v ← prop row (idField p);
           inr [Elem "td" "relative px-6 py-4" [Checkbox checkbox_class (includes_row (selectedRows p) v)]]
         else inr []);
  cells ← mapM (cell row) (columns p);
  inr (Elem "tr" (if onRowClick p then "cursor-pointer hover:bg-gray-50" else "") (chk ++ cells)).

(** [Table(props)]: [data.map] throws with the first row that throws. *)
Definition Table (p : props) : js_error + node :=
  rows ← mapM (row_node p) (data p);
  inr (Elem "div" ("overflow-x-auto " +:+ className p)
         [Elem "table" "min-w-full divide-y divide-gray-300"
            [Elem "thead" "bg-gray-50" [head_row p];
             Elem "tbody" "bg-white divide-y divide-gray-200" rows]]).
End render.

End TableView.

(** ** The tables and cards of the pages *)
Module Paginas.

Section estoque.
Context (to_fixed2 : num → string).

(** [render: (value: number) => `R$ ${value.toFixed(2)}`]: [toFixed(2)]
    of a number is the parameter [to_fixed2]; a value without
    [toFixed] throws. *)
Definition price_render (v : json) (_ : json) : js_error + list node :=
  match v with JNum n => inr [Text ("R$ " +:+ to_fixed2 n)] | _ => inl TypeError end.

(** The status column's [render: (_, row) => ...]. *)
Definition status_render (_ : json) (row : json) : js_error + list node :=
  q ← prop row "quantity";
  m ← prop row "minStock";
  let status := if js_le q m then "Baixo" else "Normal" in
  let color := if String.eqb status "Baixo" then "text-red-600" else "text-green-600" in
  inr [Elem "span" ("font-medium " +:+ color) [Text status]].

(** [columns] of [app/estoque/page.tsx] *)
Definition estoque_columns : list TableView.column :=
  [TableView.Column "name" "Nome" None; TableView.Column "type" "Tipo" None;
   TableView.Column "quantity" "Quantidade" None; TableView.Column "unit" "Unidade" None;
   TableView.Column "price" "Preço" (Some price_render);
   TableView.Column "minStock" "Estoque Mínimo" None;
   TableView.Column "status" "Status" (Some status_render)].

(** [<Table columns={columns} data={filteredMaterials} onRowClick={...}
    selectable selectedRows={selectedMaterials} onSelectionChange={...} />] *)
Definition estoque_table (p : EstoquePage.pagina) : TableView.props :=
  TableView.Props estoque_columns ((λ m, JObj (material_row m)) <$> shown p) "" true true
    (EstoquePage.selectedMaterials p) "id".
End estoque.

(** [columns] of [app/clientes/page.tsx] *)
Definition clientes_columns : list TableView.column :=
  [TableView.Column "nome" "Nome" None; TableView.Column "email" "Email" None;
   TableView.Column "telefone" "Telefone" None; TableView.Column "endereco" "Endereço" None;
   TableView.Column "ultimaCompra" "Última Compra" None].

Section clientes.
Context (frac_string : Q → string).

(** [<Table columns={columns} data={filteredClientes} onRowClick={...} />] *)
Definition clientes_table (p : ClientesPagina.pagina) : TableView.props :=
  TableView.Props clientes_columns
    (JObj <$> Page.filteredClientes frac_string (ClientesPagina.searchTerm p) (ClientesPagina.clientes p))
    "" true false [] "id".

(** [{n}] for a count. *)
Definition count_text (n : nat) : string := to_js_string frac_string (JNum (num_of_Z (Z.of_nat n))).

(** The three cards of [app/clientes/page.tsx]:
    [<Card title="..."><p className="...">{count}</p></Card>]. *)
Definition clientes_cards (qp : qpolicy) (umMesAtras : Z) (rows : list Page.row) : list node :=
  let '(total, ativos, inativos) := Page.cards qp umMesAtras rows in
  [Card.Card (Card.with_title (Some "Total de Clientes")
     [Elem "p" "text-3xl font-bold text-gray-900" [Text (count_text total)]]);
   Card.Card (Card.with_title (Some "Clientes Ativos")
     [Elem "p" "text-3xl font-bold text-green-600" [Text (count_text ativos)]]);
   Card.Card (Card.with_title (Some "Clientes Inativos")
     [Elem "p" "text-3xl font-bold text-red-600" [Text (count_text inativos)]])].
End clientes.


(** What a row of the stock table reads, cell by cell: the checkbox,
    then the seven columns. *)
Definition linha_estoque (fs : Q → string) (tf : num → string) (m : Material.t) : list string :=
  [""; Material.name m; Material.type m; to_js_string fs (JNum (num_of_Z (Material.quantity m)));
   Material.unit m; "R$ " +:+ tf (Material.price m);
   to_js_string fs (JNum (num_of_Z (Material.minStock m))); Estoque.status m].

(** What a row of the clients table reads: name, e-mail, phone, address
    and the last purchase. *)
Definition linha_cliente (c : Cliente.t) : list string :=
  [Cliente.nome c; default "" (Cliente.email c); Cliente.telefone c; default "" (Cliente.endereco c); ""].

End Paginas.

(** ** [Form.tsx] *)
Module FormTsx.

(** One entry of [Object.fromEntries]: a name that is already a key sets
    that key's value where it stands; a new name is added at the end.
    (JavaScript lists keys that are array indices first; no control of
    the application has such a name.) *)
Definition set_entry (obj : list (string * string)) (e : string * string) : list (string * string) :=
  if decide (e.1 ∈ obj.*1) then (λ kv, if String.eqb kv.1 e.1 then (kv.1, e.2) else kv) <$> obj
  else obj ++ [e].

(** [Object.fromEntries(entries)] *)
Definition fromEntries (es : list (string * string)) : list (string * string) := foldl set_entry [] es.

(** [handleSubmit]: after [e.preventDefault()], [onSubmit] receives
    [Object.fromEntries(new FormData(e.currentTarget))]; [entries] are the
    form's named controls and their values, in tree order, as [FormData]
    lists them. *)
Definition handleSubmit (entries : list (string * string)) : json :=
  JObj ((λ kv, (kv.1, JStr kv.2)) <$> fromEntries entries).

(** [obj[k]] on an object listed with distinct keys. *)
Fixpoint assoc (k : string) (obj : list (string * string)) : option string :=
  match obj with
  | [] => None
  | (k', v) :: obj' => if String.eqb k k' then Some v else assoc k obj'
  end.

(** The value of the last entry named [k]. *)
Fixpoint last_value (k : string) (es : list (string * string)) : option string :=
  match es with
  | [] => None
  | (k', v) :: es' => match last_value k es' with Some w => Some w | None => if String.eqb k k' then Some v else None end
  end.

(** [<form onSubmit={handleSubmit} className={className}>{children}</form>] *)
Definition Form (className : string) (children : list node) : node := Elem "form" className children.

End FormTsx.

(** ** The dashboard, [app/page.tsx] *)
Module Dashboard.

(** A statistics card: title, figure and growth (the trend icon is left
    out). *)
Definition stat_card (titulo valor variacao : string) : node :=
  Elem "div" "rounded-lg bg-white p-6 shadow-sm"
    [Elem "h3" "text-xl font-semibold text-gray-700" [Text titulo];
     Elem "div" "mt-2 flex items-baseline justify-between"
       [Elem "p" "text-3xl font-bold" [Text valor];
        Elem "span" "flex items-center text-sm font-medium text-green-600" [Text variacao]]].

(** [Home()]: the alert, the title with the period [<select>] (which has
    no [onChange]) and the three cards; every figure is a literal. *)
Definition Home : node :=
  Elem "div" "space-y-6"
    [Elem "div" "rounded-lg bg-blue-50 p-4"
       [Elem "div" "flex items-center text-indigo-800"
          [Elem "p" "text-lg"
             [Text "Você tem "; Elem "span" "font-bold" [Text "3"]; Text " pagamentos atrasados e";
              Text " "; Elem "span" "font-bold" [Text "2"]; Text " itens com estoque baixo."]]];
     Elem "div" "flex items-center justify-between"
       [Elem "h1" "text-3xl font-bold text-gray-900" [Text "Dashboard"];
        Elem "select" "rounded-lg border border-gray-300 bg-white px-4 py-2 text-gray-700"
          [Elem "option" "" [Text "Últimos 7 dias"]; Elem "option" "" [Text "Últimos 30 dias"];
           Elem "option" "" [Text "Este ano"]]];
     Elem "div" "grid gap-6 md:grid-cols-2 lg:grid-cols-3"
       [stat_card "Vendas Totais" "R$ 45.850" "+12%"; stat_card "Novos Clientes" "28" "+8%";
        stat_card "Produtos Vendidos" "124" "+15%"]].

End Dashboard.

End Componentes.
Export Componentes.

(** ** Lemmas on the markup *)

Lemma words_aux_app cur a b :
  words_aux cur (a +:+ " " +:+ b) = words_aux cur a ++ words b.
Proof.
  revert cur. induction a as [|c a IH]; intros cur; simpl.
  - by destruct (String.eqb cur "").
  - destruct (Nat.eqb (Ascii.nat_of_ascii c) 32); [|apply IH]. rewrite IH. by rewrite app_assoc.
Qed.

Lemma words_app a b : words (a +:+ " " +:+ b) = words a ++ words b.
Proof. apply words_aux_app. Qed.

(** The text of a list of sibling nodes. *)
Lemma texts_app (l1 l2 : list node) :
  String.concat "" (List.map text (l1 ++ l2)) =
  String.concat "" (List.map text l1) +:+ String.concat "" (List.map text l2).
Proof. by rewrite List.map_app, concat_empty_app. Qed.

(** ** The card *)

Lemma opt_truthy_text o : (if Card.opt_truthy o then default "" o else "") = default "" o.
Proof. destruct o as [s|]; simpl; [|done]. by destruct (String.eqb_spec s ""); subst. Qed.

Lemma card_header_text p :
  String.concat "" (List.map text (Card.header p)) = default "" (Card.title p) +:+ default "" (Card.subtitle p).
Proof.
  rewrite <-(opt_truthy_text (Card.title p)), <-(opt_truthy_text (Card.subtitle p)).
  unfold Card.header. destruct (Card.opt_truthy (Card.title p)), (Card.opt_truthy (Card.subtitle p)); simpl;
    rewrite ?string_app_nil_r; done.
Qed.

Lemma card_body_text p :
  String.concat "" (List.map text (Card.body p)) =
  if Card.loading p then "" else if Card.error p then "Erro ao carregar dados"
  else String.concat "" (List.map text (Card.children p)).
Proof. unfold Card.body. by destruct (Card.loading p), (Card.error p). Qed.

Lemma card_footer_text p :
  String.concat "" (List.map text (Card.footer_nodes p)) =
  default "" ((λ f, String.concat "" (List.map text f)) <$> Card.footer p).
Proof. unfold Card.footer_nodes. by destruct (Card.footer p). Qed.

Lemma card_class_words p :
  words (Card.card_class p) =
    ["rounded-lg"; "bg-white"; "shadow-sm";
     if Card.error p then "border-red-300" else if Card.loading p then "opacity-70" else "border-gray-200"] ++
    (if Card.onClick p then ["cursor-pointer"; "hover:shadow-md"; "transition-shadow"] else []) ++
    words (Card.className p).
Proof.
  unfold Card.card_class. rewrite !words_app.
  unfold Card.statusClasses, Card.interactionClasses.
  by destruct (Card.error p), (Card.loading p), (Card.onClick p).
Qed.

Lemma card_text p :
  text (Card.Card p) =
    default "" (Card.title p) +:+ default "" (Card.subtitle p) +:+
    (if Card.loading p then "" else if Card.error p then "Erro ao carregar dados"
     else String.concat "" (List.map text (Card.children p))) +:+
    default "" ((λ f, String.concat "" (List.map text f)) <$> Card.footer p).
Proof.
  unfold Card.Card. cbn [text]. rewrite !texts_app, card_header_text, card_footer_text.
  cbn [List.map String.concat text]. rewrite card_body_text. by rewrite !string_app_assoc.
Qed.

(** C24. What a card renders, for every choice of props: its class
    tokens are the base classes, one status token chosen with [error]
    before [loading], the interaction tokens when [onClick] is given, then
    the caller's [className]; its text is the title, the subtitle, then
    nothing while [loading], "Erro ao carregar dados" on [error] without
    [loading], the children otherwise, then the footer.  A card both
    loading and in error has the red error border and shows no error
    message. *)
Theorem card_render p :
  words (class_of (Card.Card p)) =
    ["rounded-lg"; "bg-white"; "shadow-sm";
     if Card.error p then "border-red-300" else if Card.loading p then "opacity-70" else "border-gray-200"] ++
    (if Card.onClick p then ["cursor-pointer"; "hover:shadow-md"; "transition-shadow"] else []) ++
    words (Card.className p) ∧
  text (Card.Card p) =
    default "" (Card.title p) +:+ default "" (Card.subtitle p) +:+
    (if Card.loading p then "" else if Card.error p then "Erro ao carregar dados"
     else String.concat "" (List.map text (Card.children p))) +:+
    default "" ((λ f, String.concat "" (List.map text f)) <$> Card.footer p).
Proof. split; [apply card_class_words|apply card_text]. Qed.

(** ** Tables *)

Section table_rows.
Context {A} (f : A → json) (rowf : json → js_error + node) (h : A → list bool) (g : A → list string).
Context (Hrow : ∀ a, ∃ r, rowf (f a) = inr r ∧ checkboxes r = h a ∧ elems "tr" r = [r] ∧
                          List.map text (elems "td" r) = g a).

(** [data.map(...)] over rows each of which renders one [<tr>]. *)
Lemma table_rows l :
  ∃ rows, mapM rowf (f <$> l) = inr rows ∧
    List.concat (List.map checkboxes rows) = List.concat (List.map h l) ∧
    List.concat (List.map (elems "tr") rows) = rows ∧
    List.map (λ r, List.map text (elems "td" r)) rows = List.map g l.
Proof.
  induction l as [|a l (rows & Hrows & Hcb & Htr & Hc)]; [by exists []|].
  destruct (Hrow a) as (r & Hr & Hrc & Hrt & Hrd).
  exists (r :: rows). rewrite fmap_cons. cbn [mapM]. rewrite Hr, Hrows. cbn.
  by rewrite Hrc, Hrt, Hcb, Htr, Hrd, Hc.
Qed.
End table_rows.

(** The header row is the only [<tr>] outside the body, and its only
    checkbox is the select-all box. *)
Lemma head_row_parts (p : TableView.props) :
  elems "tr" (TableView.head_row p) = [TableView.head_row p] ∧
  checkboxes (TableView.head_row p) = if TableView.selectable p then [TableView.allSelected p] else [].
Proof.
  unfold TableView.head_row. cbn [elems checkboxes String.eqb]. rewrite !List.map_app, !List.concat_app.
  assert (Hth : ∀ cs : list TableView.column,
    List.concat (List.map (elems "tr") (List.map (λ c, Elem "th"
      "px-6 py-3 text-left text-xs font-medium text-gray-500 uppercase tracking-wider" [Text (TableView.header c)]) cs)) = [] ∧
    List.concat (List.map checkboxes (List.map (λ c, Elem "th"
      "px-6 py-3 text-left text-xs font-medium text-gray-500 uppercase tracking-wider" [Text (TableView.header c)]) cs)) = []).
  { intros cs. induction cs as [|c cs [IH1 IH2]]; [done|]. cbn. by rewrite IH1, IH2. }
  destruct (Hth (TableView.columns p)) as [-> ->]. by destruct (TableView.selectable p).
Qed.

(** A table whose rows each render one [<tr>]: its checkboxes are the
    header's, then the rows'; its cells are the rows' cells. *)
Lemma table_render fs p rows :
  mapM (TableView.row_node fs p) (TableView.data p) = inr rows →
  List.concat (List.map (elems "tr") rows) = rows →
  ∃ n, TableView.Table fs p = inr n ∧
    checkboxes n = (if TableView.selectable p then [TableView.allSelected p] else []) ++
                   List.concat (List.map checkboxes rows) ∧
    cell_texts n = List.map (λ r, List.map text (elems "td" r)) rows.
Proof.
  intros Hrows Htr. destruct (head_row_parts p) as [Hh Hc].
  unfold TableView.Table. rewrite Hrows. eexists. split; [reflexivity|].
  unfold cell_texts. cbn [elems checkboxes List.map List.concat String.eqb Ascii.eqb Bool.eqb andb].
  rewrite Hh, Hc, Htr. cbn. rewrite ?app_nil_r. split; reflexivity.
Qed.

(** ** The stock page's table *)


Lemma Qle_bool_inject_Z a b : Qle_bool (inject_Z a) (inject_Z b) = (a <=? b)%Z.
Proof. apply eq_iff_eq_true. by rewrite Qle_bool_iff, Z.leb_le, Zle_Qle. Qed.

Lemma estoque_row fs tf p m :
  ∃ r, TableView.row_node fs (Paginas.estoque_table tf p) (JObj (material_row m)) = inr r ∧
    checkboxes r = [Table.row_checked (EstoquePage.selectedMaterials p) (Material.id m)] ∧
    elems "tr" r = [r] ∧ List.map text (elems "td" r) = Paginas.linha_estoque fs tf m.
Proof.
  eexists. split; [reflexivity|]. cbn. rewrite Qle_bool_inject_Z. unfold Paginas.linha_estoque, Estoque.status.
  split_and!; [done|done|]. by destruct (_ <=? _)%Z.
Qed.

Lemma estoque_table_view fs tf p :
  ∃ n, TableView.Table fs (Paginas.estoque_table tf p) = inr n ∧
    checkboxes n = Table.all_selected (shown_ids p) (EstoquePage.selectedMaterials p) ::
                   List.map (Table.row_checked (EstoquePage.selectedMaterials p)) (shown_ids p) ∧
    cell_texts n = List.map (Paginas.linha_estoque fs tf) (shown p).
Proof.
  destruct (table_rows _ _ _ _ (estoque_row fs tf p) (shown p)) as (rows & Hrows & Hcb & Htr & Hc).
  destruct (table_render fs (Paginas.estoque_table tf p) rows Hrows Htr) as (n & Hn & Hncb & Hnc).
  exists n. split_and!; [done| |by rewrite Hnc, Hc].
  rewrite Hncb, Hcb. cbn. f_equal.
  - unfold TableView.allSelected, Table.all_selected, shown_ids. cbn. by rewrite !length_fmap.
  - unfold shown_ids. by rewrite concat_map_singleton, list_map_fmap.
Qed.

(** The stock page's table, whatever the page's state: it renders, its
    checkboxes are checked exactly as the selection model [Estoque.Table]
    says (the header's by [all_selected] on the shown ids, each row's by
    [row_checked] on its id), and its rows read the shown materials in
    order, with the status the page's cards count. *)
Theorem estoque_table_render fs tf p :
  ∃ n, TableView.Table fs (Paginas.estoque_table tf p) = inr n ∧
    checkboxes n = Table.all_selected (shown_ids p) (EstoquePage.selectedMaterials p) ::
                   List.map (Table.row_checked (EstoquePage.selectedMaterials p)) (shown_ids p) ∧
    cell_texts n = List.map (Paginas.linha_estoque fs tf) (shown p).
Proof. apply estoque_table_view. Qed.

Lemma row_checked_click sel id id' :
  Table.row_checked (Table.step sel (Table.ClickRow id)) id' =
  if decide (id' = id) then negb (Table.row_checked sel id') else Table.row_checked sel id'.
Proof.
  unfold Table.step, Table.select_row, Table.row_checked.
  destruct (decide (id' = id)) as [->|Hne];
    (destruct (decide (id ∈ sel)) as [Hin|Hin];
     [rewrite (bool_decide_eq_true_2 (id ∈ sel)) by done|rewrite (bool_decide_eq_false_2 (id ∈ sel)) by done]);
    simpl.
  - apply bool_decide_eq_false. rewrite list_elem_of_filter. naive_solver.
  - apply bool_decide_eq_true. set_solver.
  - apply bool_decide_ext. rewrite list_elem_of_filter. naive_solver.
  - apply bool_decide_ext. set_solver.
Qed.

(** A click on the checkbox of a row of the stock table flips the box it
    lands on and the boxes of the rows with the same id, and no other:
    the page's handler and the table's render agree. *)
Theorem estoque_checkbox_flip fs tf p i id m db p' t db' :
  shown_ids p !! i = Some id →
  estoque_dispatch p (MarcarLinha i) = Some m → m db = (inr (Some p', t), db') →
  db' = db ∧ ∃ n n',
    TableView.Table fs (Paginas.estoque_table tf p) = inr n ∧
    TableView.Table fs (Paginas.estoque_table tf p') = inr n' ∧
    ∀ j id', shown_ids p !! j = Some id' →
      checkboxes n' !! S j = (if decide (id' = id) then negb <$> checkboxes n !! S j else checkboxes n !! S j).
Proof.
  intros Hi He Hm. simpl in He. rewrite Hi in He. injection He as <-.
  rewrite st_ret_run in Hm. injection Hm as <- _ <-. split; [done|].
  destruct (estoque_table_view fs tf p) as (n & Hn & Hcb & _).
  destruct (estoque_table_view fs tf (set_selectedMaterials (Table.step (EstoquePage.selectedMaterials p)
    (Table.ClickRow id)) p)) as (n' & Hn' & Hcb' & _).
  exists n, n'. split_and!; [done|done|]. intros j id' Hj. rewrite Hcb, Hcb'.
  change (shown_ids (set_selectedMaterials _ p)) with (shown_ids p).
  rewrite !(lookup_cons_succ (A:=bool)), !list_map_lookup, Hj. cbn [fmap option_fmap option_map set_selectedMaterials EstoquePage.selectedMaterials].
  rewrite row_checked_click. by destruct (decide (id' = id)).
Qed.

(** ** The clients page after mounting *)


Lemma cliente_table_row fs p c :
  ∃ r, TableView.row_node fs (Paginas.clientes_table fs p) (JObj (Page.cliente_row c)) = inr r ∧
    checkboxes r = [] ∧ elems "tr" r = [r] ∧ List.map text (elems "td" r) = Paginas.linha_cliente c.
Proof.
  destruct c as [id nome [e|] tel cpf cnpj [en|] cid est cep];
    (eexists; split; [reflexivity|]); split_and!; reflexivity.
Qed.

(** C27. After the mount fetch, whatever the store: the clients table lists
    every client of the store once, ordered by name, with its e-mail and
    address ([null] shows as an empty cell) and an empty "Última Compra"
    (the listing has no such column), and the three cards read the number
    of clients, 0 and the number of clients again. *)
Theorem clientes_pagina_montada fs qp u db :
  ∃ p n, montar db = (inr (Some p), db) ∧
    TableView.Table fs (Paginas.clientes_table fs p) = inr n ∧
    cell_texts n = Paginas.linha_cliente <$> merge_sort (str_asc Cliente.nome) (map snd (map_to_list (Store.clientes db))) ∧
    List.map text (Paginas.clientes_cards fs qp u (ClientesPagina.clientes p)) =
      ["Total de Clientes" +:+ Paginas.count_text fs (size (Store.clientes db));
       "Clientes Ativos" +:+ Paginas.count_text fs 0;
       "Clientes Inativos" +:+ Paginas.count_text fs (size (Store.clientes db))].
Proof.
  set (cs := merge_sort (str_asc Cliente.nome) (map snd (map_to_list (Store.clientes db)))).
  destruct (table_rows _ _ _ _ (cliente_table_row fs (set_clientes (Page.cliente_row <$> cs) inicial)) cs)
    as (rows & Hrows & _ & Htr & Hc).
  destruct (table_render fs (Paginas.clientes_table fs (set_clientes (Page.cliente_row <$> cs) inicial)) rows)
    as (n & Hn & _ & Hnc); [|done|].
  { cbn [Paginas.clientes_table TableView.data ClientesPagina.searchTerm ClientesPagina.clientes set_clientes inicial].
    rewrite filtered_empty, <-list_fmap_compose. exact Hrows. }
  exists (set_clientes (Page.cliente_row <$> cs) inicial), n. split_and!.
  - unfold montar. by rewrite (st_bind_inr _ _ _ _ _ (fetchClientes_run db)), st_ret_run.
  - done.
  - by rewrite Hnc, Hc, list_map_is_fmap.
  - unfold Paginas.clientes_cards. cbn [ClientesPagina.clientes set_clientes]. rewrite cards_rows.
    subst cs. rewrite listing_length. cbn [List.map]. rewrite !card_text.
    cbn [Card.title Card.subtitle Card.loading Card.error Card.children Card.footer Card.with_title
         default fmap option_fmap option_map List.map String.concat text].
    by rewrite !string_app_nil_r.
Qed.

(** ** [Form.tsx] *)

Lemma assoc_None k obj : FormTsx.assoc k obj = None ↔ k ∉ obj.*1.
Proof.
  induction obj as [|[k' v] obj IH]; simpl; [set_solver|].
  destruct (String.eqb_spec k k') as [->|Hne]; [split; [done|set_solver]|]. rewrite IH. set_solver.
Qed.

Lemma set_entry_keys obj e :
  (FormTsx.set_entry obj e).*1 = if decide (e.1 ∈ obj.*1) then obj.*1 else obj.*1 ++ [e.1].
Proof.
  unfold FormTsx.set_entry. destruct (decide _); [|by rewrite fmap_app].
  rewrite <-list_fmap_compose. apply list_fmap_ext. intros _ [k v] _. simpl. by destruct (String.eqb k e.1).
Qed.

Lemma set_entry_NoDup obj e : NoDup obj.*1 → NoDup (FormTsx.set_entry obj e).*1.
Proof.
  intros Hnd. rewrite set_entry_keys. destruct (decide _) as [|Hn]; [done|].
  apply NoDup_app. split_and!; [done| |apply NoDup_singleton]. set_solver.
Qed.

Lemma assoc_upd_ne k k' v obj :
  k ≠ k' → FormTsx.assoc k ((λ kv, if String.eqb kv.1 k' then (kv.1, v) else kv) <$> obj) = FormTsx.assoc k obj.
Proof.
  intros Hne. induction obj as [|[k0 v0] obj IH]; [done|]. rewrite fmap_cons. simpl.
  destruct (String.eqb_spec k0 k') as [->|]; simpl; rewrite IH; [|done].
  by destruct (String.eqb_spec k k').
Qed.

Lemma assoc_upd_eq k v obj :
  k ∈ obj.*1 → FormTsx.assoc k ((λ kv, if String.eqb kv.1 k then (kv.1, v) else kv) <$> obj) = Some v.
Proof.
  induction obj as [|[k0 v0] obj IH]; intros Hin; [set_solver|]. rewrite fmap_cons. simpl.
  destruct (String.eqb_spec k0 k) as [->|Hne]; simpl; [by rewrite String.eqb_refl|].
  destruct (String.eqb_spec k k0); [congruence|]. apply IH. set_solver.
Qed.

Lemma assoc_set_entry k obj e :
  FormTsx.assoc k (FormTsx.set_entry obj e) = if String.eqb k e.1 then Some e.2 else FormTsx.assoc k obj.
Proof.
  destruct e as [k' v]. unfold FormTsx.set_entry. simpl.
  destruct (String.eqb_spec k k') as [->|Hne]; destruct (decide (k' ∈ obj.*1)) as [Hin|Hn].
  - by apply assoc_upd_eq.
  - induction obj as [|[k0 v0] obj IH]; simpl; [by rewrite String.eqb_refl|].
    destruct (String.eqb_spec k' k0); [set_solver|]. apply IH. set_solver.
  - by apply assoc_upd_ne.
  - induction obj as [|[k0 v0] obj IH]; simpl; [by destruct (String.eqb_spec k k')|].
    destruct (String.eqb k k0); [done|]. apply IH. set_solver.
Qed.

Lemma fromEntries_spec obj es :
  NoDup obj.*1 →
  NoDup (foldl FormTsx.set_entry obj es).*1 ∧
  (∀ k, k ∈ (foldl FormTsx.set_entry obj es).*1 ↔ k ∈ obj.*1 ∨ k ∈ es.*1) ∧
  ∀ k, FormTsx.assoc k (foldl FormTsx.set_entry obj es) =
       match FormTsx.last_value k es with Some v => Some v | None => FormTsx.assoc k obj end.
Proof.
  revert obj. induction es as [|[k' v] es IH]; intros obj Hnd; simpl; [set_solver|].
  destruct (IH (FormTsx.set_entry obj (k', v)) (set_entry_NoDup obj _ Hnd)) as (Hnd' & Hkeys & Hval).
  split_and!; [done| |].
  - intros k. rewrite Hkeys, set_entry_keys. destruct (decide _); set_solver.
  - intros k. rewrite Hval, assoc_set_entry. simpl.
    destruct (FormTsx.last_value k es); [done|]. by destruct (String.eqb k k').
Qed.

Lemma field_assoc k obj :
  NoDup obj.*1 → field k ((λ kv, (kv.1, JStr kv.2)) <$> obj) = JStr <$> FormTsx.assoc k obj.
Proof.
  induction obj as [|[k' v] obj IH]; intros Hnd; [done|]. rewrite fmap_cons, fmap_cons in *.
  apply NoDup_cons in Hnd as [Hk Hnd]. simpl. rewrite IH by done.
  destruct (String.eqb_spec k k') as [->|]; [|by destruct (FormTsx.assoc k obj)].
  by rewrite (proj2 (assoc_None k' obj) Hk).
Qed.

Lemma field_last_value k es :
  field k ((λ kv, (kv.1, JStr kv.2)) <$> es) = JStr <$> FormTsx.last_value k es.
Proof.
  induction es as [|[k' v] es IH]; [done|]. rewrite fmap_cons. simpl. rewrite IH.
  destruct (FormTsx.last_value k es); simpl; [done|]. by destruct (String.eqb k k').
Qed.

(** What [Form.tsx] hands to [onSubmit]: an object with each name of the
    form's controls once, where reading a name gives the value of the last
    control with that name, as [field] reads a JSON text with repeated
    keys. *)
Theorem form_handleSubmit es :
  ∃ fs, FormTsx.handleSubmit es = JObj fs ∧ NoDup fs.*1 ∧ (∀ k, k ∈ fs.*1 ↔ k ∈ es.*1) ∧
    ∀ k, field k fs = field k ((λ kv, (kv.1, JStr kv.2)) <$> es).
Proof.
  destruct (fromEntries_spec [] es (NoDup_nil_2)) as (Hnd & Hkeys & Hval).
  exists ((λ kv, (kv.1, JStr kv.2)) <$> FormTsx.fromEntries es). split; [reflexivity|].
  assert (Hk : ((λ kv : string * string, (kv.1, JStr kv.2)) <$> FormTsx.fromEntries es).*1 =
               (FormTsx.fromEntries es).*1).
  { rewrite <-list_fmap_compose. apply list_fmap_ext. by intros ? [] ?. }
  rewrite Hk. split_and!; [exact Hnd| |].
  - intros k. unfold FormTsx.fromEntries. rewrite Hkeys. set_solver.
  - intros k. unfold FormTsx.fromEntries. rewrite (field_assoc k _ Hnd), field_last_value, Hval.
    by destruct (FormTsx.last_value k es).
Qed.

(** ** The dashboard *)

(** The dashboard's figures are literals: its alert announces two items
    with low stock whatever the store holds, while on a store without
    materials the stock page's card "Itens Abaixo do Mínimo" counts none. *)
Lemma dashboard_estoque_baixo db :
  includes (text Dashboard.Home) "2 itens com estoque baixo" = true ∧
  (Store.materials db = ∅ → Estoque.low_count (listing db) = 0%nat).
Proof.
  split; [vm_compute; reflexivity|]. intros Hm. unfold listing. rewrite Hm, map_to_list_empty. done.
Qed.

(** The quote form's named controls are the selects [clienteId] and
    [status] and the textarea [observacoes] (its lines are React state
    with unnamed inputs): [Form.tsx] hands [OrcamentoForm]'s
    [handleSubmit] the object of their three values, which
    [OrcamentoForm.Form.build_body] reads as its string arguments. *)
Lemma quote_form_data c s o :
  FormTsx.handleSubmit [("clienteId", c); ("status", s); ("observacoes", o)] =
  JObj [("clienteId", JStr c); ("status", JStr s); ("observacoes", JStr o)].
Proof. reflexivity. Qed.
