(* ===== verification/Telas.v ===== *)
(** * The markup of the navigation, the forms and the modals, with the
      handlers React attaches to it

    Module [V] is a rendered tree that keeps what [Dom] forgets: the
    [onClick] of an element, the [disabled] of a [<button>], the [name],
    value and [onChange] of a form control, and the elements of the
    components the repository imports but does not contain ([Input],
    [Button], [Modal]), kept with their props.  [V.dom] erases a tree to
    [Dom.node]; [V.clicks] lists the handlers a click can run and
    [V.changes] those an edit of a control can run, in document order.

    Module [Navegacao] renders [components/Sidebar.tsx] and
    [components/Header.tsx] on the state of [Navigation]; its handlers are
    the events of [Navigation.nav_dispatch], which is proved to accept
    exactly the events the markup offers.  Module [FormOrcamento] renders
    [OrcamentoForm.tsx] on its hooks ([items], [isSubmitting],
    [validationErrors]); its handlers are the line edits of
    [OrcamentoForm.edit], the submit and [onCancel].  Module [Cadastro]
    renders [ClienteForm.tsx] and [MaterialForm.tsx] on react-hook-form's
    [errors]; Module [Modais] the three modals, and Module [Paginas] the
    modals as the clients, stock and quotes pages render them.

    The icons ([@tabler/icons-react]) and the [key] props are left out. *)

From S2P Require Import Prelude Js Store Cadastros ClientesPage MaterialPage EstoquePage ClientesPagina OrcamentoForm OrcamentosPagina Navigation Componentes.

Local Open Scope moveis_scope.

Module Telas.

Module V.

(** The registration [{...register(name, options)}] of react-hook-form:
    the field's name and whether [valueAsNumber] is set. *)
Record register := Register { reg_name : string; valueAsNumber : bool }.

(** A rendered node: an element with its [className] and [onClick], a
    [<button>] with [disabled], a control ([<input>], [<select>],
    [<textarea>]) with its [name], the value it shows and its [onChange], an
    element of a component the repository does not contain, with its
    props and registration, or a text. *)
#[warnings="-register-all"]
Inductive vnode (E : Type) : Type :=
  | VElem (tag cls : string) (onClick : option E) (kids : list (vnode E))
  | VButton (cls : string) (disabled : bool) (onClick : option E) (kids : list (vnode E))
  | VField (tag : string) (name : option string) (cls value : string)
      (onChange : option (string → E)) (kids : list (vnode E))
  | VComp (comp : string) (props : list (string * json)) (reg : option register) (kids : list (vnode E))
  | VText (s : string).

Arguments VElem {E} tag cls onClick kids.
Arguments VButton {E} cls disabled onClick kids.
Arguments VField {E} tag name cls value onChange kids.
Arguments VComp {E} comp props reg kids.
Arguments VText {E} s.

(** [[x]] for [Some x], [[]] for [None]. *)
Definition opt_list {A} (o : option A) : list A := match o with Some x => [x] | None => [] end.

(** The tree as [Dom] sees it; a component the repository does not
    contain stands as an element named after it. *)
Fixpoint dom {E} (v : vnode E) : node :=
  match v with
  | VElem t c _ ks => Elem t c (List.map dom ks)
  | VButton c _ _ ks => Elem "button" c (List.map dom ks)
  | VField t _ c _ _ ks => Elem t c (List.map dom ks)
  | VComp t _ _ ks => Elem t "" (List.map dom ks)
  | VText s => Text s
  end.

(** The handlers a click runs, in document order; a disabled button runs
    none. *)
Fixpoint clicks {E} (v : vnode E) : list E :=
  match v with
  | VElem _ _ o ks => opt_list o ++ List.concat (List.map clicks ks)
  | VButton _ d o ks => (if d then [] else opt_list o) ++ List.concat (List.map clicks ks)
  | VField _ _ _ _ _ ks | VComp _ _ _ ks => List.concat (List.map clicks ks)
  | VText _ => []
  end.

(** The [onChange] handlers of the controls, in document order. *)
Fixpoint changes {E} (v : vnode E) : list (string → E) :=
  match v with
  | VField _ _ _ _ o ks => opt_list o ++ List.concat (List.map changes ks)
  | VElem _ _ _ ks | VButton _ _ _ ks | VComp _ _ _ ks => List.concat (List.map changes ks)
  | VText _ => []
  end.

(** The [name]s of the controls, in document order: what [FormData]
    lists. *)
Fixpoint names {E} (v : vnode E) : list string :=
  match v with
  | VField _ n _ _ _ ks => opt_list n ++ List.concat (List.map names ks)
  | VElem _ _ _ ks | VButton _ _ _ ks | VComp _ _ _ ks => List.concat (List.map names ks)
  | VText _ => []
  end.

(** The registrations of the components' elements, in document order. *)
Fixpoint registers {E} (v : vnode E) : list register :=
  match v with
  | VComp _ _ r ks => opt_list r ++ List.concat (List.map registers ks)
  | VElem _ _ _ ks | VButton _ _ _ ks | VField _ _ _ _ _ ks => List.concat (List.map registers ks)
  | VText _ => []
  end.

(** An event the markup offers: a click's handler, or an [onChange] run
    on some text. *)
Definition offers {E} (vs : list (vnode E)) (e : E) : Prop :=
  e ∈ List.concat (List.map clicks vs) ∨ ∃ f s, f ∈ List.concat (List.map changes vs) ∧ e = f s.

End V.

Export V.

(** ** [Sidebar.tsx] and [Header.tsx] *)
Module Navegacao.
Import Navigation.

(** A [<Link>] of the menu: an anchor whose click goes to [item.href],
    the [i]-th entry of [menuItems]. *)
Definition link (pathname : string) (i : nat) (item : Sidebar.MenuItem) : vnode nav_evento :=
  VElem "a" ("flex items-center gap-4 px-6 py-4 text-lg transition-colors " +:+ Sidebar.link_class pathname item)
    (Some (MenuClick i)) [VElem "span" "" None [VText (Sidebar.name item)]].

(** [Sidebar()] on the route [pathname]. *)
Definition Sidebar (pathname : string) : vnode nav_evento :=
  VElem "div" "fixed left-0 top-0 h-full w-64 bg-[#4338CA] text-white" None
    [VElem "div" "p-6" None
       [VElem "div" "flex items-center gap-3 text-2xl font-bold" None [VElem "span" "" None [VText "MóveisPlus"]]];
     VElem "nav" "mt-6" None (imap (link pathname) Sidebar.menuItems)].

(** A button of the results: its click runs [handleResultClick(result)]. *)
Definition result_button (i : nat) (r : Header.Resultado) : vnode nav_evento :=
  VButton "flex w-full items-center px-4 py-3 text-left hover:bg-gray-50" false (Some (ResultClick i))
    [VElem "div" "" None
       [VElem "p" "text-sm font-medium text-gray-900" None [VText (Header.title r)];
        VElem "p" "text-sm text-gray-500" None [VText (Header.subtitle r)]]].

(** [Header({})]: no caller passes [onMenuClick], so the menu button has
    no handler; the clear button is there while [searchTerm] is truthy,
    the results' list while [searchResults.length > 0]. *)
Definition Header (s : Header.estado) : vnode nav_evento :=
  VElem "div" "fixed right-0 top-0 flex h-20 w-[calc(100%-16rem)] items-center justify-between bg-white px-8 shadow-sm" None
    [VButton "rounded-lg p-2 hover:bg-gray-100 lg:hidden" false None [];
     VElem "div" "relative flex-1 px-4 lg:px-8" None
       ([VElem "div" "relative max-w-md" None
           ([VField "input" None "w-full rounded-full border border-gray-300 bg-gray-50 px-4 py-2 pl-10 pr-10 text-gray-600 focus:border-indigo-500 focus:outline-none focus:ring-indigo-500"
               (Header.searchTerm s) (Some SearchInput) []] ++
            (if String.eqb (Header.searchTerm s) "" then []
             else [VButton "absolute right-3 top-1/2 -translate-y-1/2 text-gray-400 hover:text-gray-600" false
                     (Some ClearClick) []]))] ++
        (if (0 <? length (Header.searchResults s))%nat then
           [VElem "div" "absolute left-4 right-4 top-full mt-2 max-h-96 overflow-y-auto rounded-lg border border-gray-200 bg-white shadow-lg lg:left-8 lg:right-8" None
              [VElem "div" "divide-y divide-gray-200" None (imap result_button (Header.searchResults s))]]
         else []))].

(** What a page shows of the navigation once both are mounted. *)
Definition tela (n : nav) : list (vnode nav_evento) := [Sidebar (pathname n); Header (header n)].

End Navegacao.

(** ** [OrcamentoForm.tsx] *)
Module FormOrcamento.

(** [interface Cliente] of the form. *)
Record cliente := Cliente { c_id : num; c_nome : string }.

(** The state the render reads: the lines, [isSubmitting] and
    [validationErrors]. *)
Record estado := Estado {
  items : list Form.item;
  isSubmitting : bool;
  validationErrors : gmap string string }.

(** The handlers of the markup: the line handlers of
    [OrcamentoForm.edit], the submit of the form and [onCancel]. *)
Inductive evento := Edit (e : edit) | Submit | Cancel.

(** [v?.k] *)
Definition opt_prop (v : json) (k : string) : json :=
  match prop v k with inr x => x | inl _ => JUndef end.

Section render.
Context (frac_string : Q → string) (to_fixed2 : num → string).

(** [String(n)] *)
Definition num_text (n : num) : string := to_js_string frac_string (JNum n).

(** The key [`items.${index}.${field}`] of [validationErrors]. *)
Definition item_key (i : nat) (f : string) : string :=
  "items." +:+ num_text (num_of_Z (Z.of_nat i)) +:+ "." +:+ f.

(** [validationErrors[k]] as a condition. *)
Definition has_error (errs : gmap string string) (k : string) : bool :=
  match errs !! k with Some m => negb (String.eqb m "") | None => false end.

(** [validationErrors[k] ? 'border-red-500' : 'border-gray-300'] *)
Definition err_border (errs : gmap string string) (k : string) : string :=
  if has_error errs k then "border-red-500" else "border-gray-300".

(** [{validationErrors[k] && (<p className="mt-1 text-sm text-red-600">...</p>)}] *)
Definition error_p (errs : gmap string string) (k : string) : list (vnode evento) :=
  if has_error errs k then [VElem "p" "mt-1 text-sm text-red-600" None [VText (default "" (errs !! k))]] else [].

Definition focus_classes : string :=
  "shadow-sm focus:border-indigo-500 focus:outline-none focus:ring-indigo-500 sm:text-sm".

(** [clientes.map(cliente => <option value={cliente.id}>{cliente.nome}</option>)] *)
Definition cliente_options (clientes : option (list cliente)) : js_error + list (vnode evento) :=
  match clientes with
  | Some cs => inr ((λ c, VElem "option" "" None [VText (c_nome c)]) <$> cs)
  | None => inl TypeError
  end.

(** An option of the product select: its name, price and, below five
    units, the stock. *)
Definition produto_option (p : Form.produto) : vnode evento :=
  VElem "option" "" None
    [VText (Form.p_nome p); VText " - R$ "; VText (to_fixed2 (Form.p_preco p));
     VText (if num_lt (Form.p_estoque p) (Fin 5) then " (Apenas " +:+ num_text (Form.p_estoque p) +:+ " em estoque)" else "")].

(** [produtos.map(...)] *)
Definition produto_options (produtos : option (list Form.produto)) : js_error + list (vnode evento) :=
  match produtos with Some ps => inr (produto_option <$> ps) | None => inl TypeError end.

(** A number input of a line, with its [onChange]. *)
Definition item_input (errs : gmap string string) (i : nat) (f : Form.field) (k : string) (value : string) :
    list (vnode evento) :=
  VField "input" None ("block w-full rounded-md border " +:+ err_border errs (item_key i k) +:+ " px-3 py-2 " +:+ focus_classes)
    value (Some (λ v, Edit (ChangeItem i f v))) [] :: error_p errs (item_key i k).

(** The [index]-th line: the product select, the quantity and the price
    inputs, the remove button; [opts] are the product options. *)
Definition item_row (opts : list (vnode evento)) (errs : gmap string string) (i : nat) (it : Form.item) : vnode evento :=
  VElem "div" "flex items-start gap-4 rounded-lg border border-gray-200 p-4" None
    [VElem "div" "flex-1" None
       (VField "select" None ("block w-full rounded-md border " +:+ err_border errs (item_key i "produtoId") +:+
                              " bg-white px-3 py-2 " +:+ focus_classes)
          (num_text (Form.produtoId it)) (Some (λ v, Edit (ChangeItem i Form.FProdutoId v)))
          (VElem "option" "" None [VText "Selecione um produto"] :: opts)
        :: error_p errs (item_key i "produtoId"));
     VElem "div" "w-32" None (item_input errs i Form.FQuantidade "quantidade" (num_text (Form.quantidade it)));
     VElem "div" "w-32" None (item_input errs i Form.FPrecoUnit "precoUnit" (num_text (Form.precoUnit it)));
     VButton "rounded-md p-2 text-gray-400 hover:bg-gray-100 hover:text-gray-500" false (Some (Edit (RemoveItem i))) []].

(** [{items.length > 0 && (<div className="mt-4 text-right">...Total...</div>)}] *)
Definition total_block (items : list Form.item) : list (vnode evento) :=
  if (0 <? length items)%nat then
    [VElem "div" "mt-4 text-right" None
       [VElem "p" "text-sm text-gray-500" None
          [VText "Total: "; VElem "span" "font-medium text-gray-900" None [VText "R$ "; VText (to_fixed2 (Form.total items))]]]]
  else [].

(** [{isSubmitting ? 'Salvando...' : initialData ? 'Atualizar' : 'Criar'}] *)
Definition submit_label (initialData : json) (st : estado) : string :=
  if isSubmitting st then "Salvando..." else if truthy initialData then "Atualizar" else "Criar".

Definition label (t : string) : vnode evento := VElem "label" "block text-sm font-medium text-gray-700" None [VText t].

(** The spinner shown while [isLoading]. *)
Definition spinner : vnode evento :=
  VElem "div" "flex items-center justify-center p-8" None
    [VElem "div" "animate-spin rounded-full h-8 w-8 border-b-2 border-indigo-600" None []].

(** The form: [cs] are the client options, [rows] the lines. *)
Definition form_node (initialData : json) (st : estado) (cs rows : list (vnode evento)) : vnode evento :=
  let errs := validationErrors st in
  let cid := opt_prop initialData "clienteId" in
  let status := opt_prop initialData "status" in
  let obs := opt_prop initialData "observacoes" in
  VElem "form" "space-y-6" None
    [VElem "div" "" None
       ([label "Cliente";
         VField "select" (Some "clienteId")
           ("mt-1 block w-full rounded-md border " +:+ err_border errs "clienteId" +:+ " bg-white px-3 py-2 " +:+ focus_classes)
           (if truthy cid then to_js_string frac_string cid else "") None
           (VElem "option" "" None [VText "Selecione um cliente"] :: cs)] ++
        error_p errs "clienteId");
     VElem "div" "" None
       [label "Status";
        VField "select" (Some "status")
          ("mt-1 block w-full rounded-md border border-gray-300 bg-white px-3 py-2 " +:+ focus_classes)
          (if truthy status then to_js_string frac_string status else "Pendente") None
          [VElem "option" "" None [VText "Pendente"]; VElem "option" "" None [VText "Aprovado"];
           VElem "option" "" None [VText "Rejeitado"]]];
     VElem "div" "" None
       ([VElem "div" "flex items-center justify-between" None
           [label "Itens do Orçamento";
            VButton "flex items-center gap-1 rounded-md bg-indigo-50 px-2 py-1 text-sm text-indigo-600 hover:bg-indigo-100"
              false (Some (Edit AddItem)) [VText "Adicionar Item"]]] ++
        error_p errs "items" ++
        [VElem "div" "mt-4 space-y-4" None rows] ++
        total_block (items st));
     VElem "div" "" None
       [label "Observações";
        VField "textarea" (Some "observacoes")
          ("mt-1 block w-full rounded-md border border-gray-300 px-3 py-2 " +:+ focus_classes)
          (match obs with JUndef | JNull => "" | _ => to_js_string frac_string obs end) None []];
     VElem "div" "flex justify-end gap-2" None
       [VButton "rounded-md border border-gray-300 bg-white px-4 py-2 text-sm font-medium text-gray-700 hover:bg-gray-50"
          false (Some Cancel) [VText "Cancelar"];
        VButton "rounded-md bg-indigo-600 px-4 py-2 text-sm font-medium text-white hover:bg-indigo-700 disabled:opacity-50"
          (isSubmitting st || bool_decide (items st = [])) (Some Submit) [VText (submit_label initialData st)]]].

(** [OrcamentoForm(props)] on the state [st]: the spinner while
    [isLoading], else the form, or the exception the render throws
    ([clientes.map] comes first).  [produtos.map] runs once per line: it
    throws on the first line when [produtos] is [undefined] and gives the
    same options on every line.  The [<option>]s' [value]s are left out. *)
Definition OrcamentoForm (isLoading : bool) (initialData : json) (clientes : option (list cliente))
    (produtos : option (list Form.produto)) (st : estado) : js_error + vnode evento :=
  if isLoading then inr spinner else
  cs ← cliente_options clientes;
  rows ← (match items st with
          | [] => inr []
          | _ => opts ← produto_options produtos; inr (imap (item_row opts (validationErrors st)) (items st))
          end);
  inr (form_node initialData st cs rows).
End render.

End FormOrcamento.

(** ** [ClienteForm.tsx] and [MaterialForm.tsx] *)
Module Cadastro.

(** The forms run no handler of the model: [onSubmit] and [onCancel]
    are callbacks of the page. *)
Inductive evento := .

(** [errors.k?.message] *)
Definition error_prop (errors : gmap string string) (k : string) : json :=
  match errors !! k with Some m => JStr m | None => JUndef end.

(** [<Input label={label} ...extra error={errors.k?.message}
    {...register(k, { valueAsNumber })} />] *)
Definition Input (label : string) (extra : list (string * json)) (errors : gmap string string) (k : string)
    (num : bool) : vnode evento :=
  VComp "Input" ([("label", JStr label)] ++ extra ++ [("error", error_prop errors k)]) (Some (Register k num)) [].

(** The two buttons: [Cancelar] ([disabled={isLoading}]) and [Salvar]
    ([isLoading={isLoading}]). *)
Definition buttons (isLoading : bool) : vnode evento :=
  VElem "div" "flex justify-end gap-2" None
    [VComp "Button" [("type", JStr "button"); ("variant", JStr "secondary"); ("disabled", JBool isLoading)] None
       [VText "Cancelar"];
     VComp "Button" [("type", JStr "submit"); ("isLoading", JBool isLoading)] None [VText "Salvar"]].

(** [ClienteForm(props)] with the [errors] of its [formState]. *)
Definition ClienteForm (errors : gmap string string) (isLoading : bool) : vnode evento :=
  VElem "form" "space-y-4" None
    [Input "Nome" [] errors "nome" false;
     VElem "div" "grid grid-cols-2 gap-4" None
       [Input "Email" [("type", JStr "email")] errors "email" false; Input "Telefone" [] errors "telefone" false];
     VElem "div" "grid grid-cols-2 gap-4" None
       [Input "CPF" [] errors "cpf" false; Input "CNPJ" [] errors "cnpj" false];
     Input "Endereço" [] errors "endereco" false;
     VElem "div" "grid grid-cols-3 gap-4" None
       [Input "Cidade" [] errors "cidade" false; Input "Estado" [] errors "estado" false;
        Input "CEP" [] errors "cep" false];
     buttons isLoading].

Definition nl : string := String (Ascii.ascii_of_nat 10) EmptyString.

(** The [className] template of the type select, with its line breaks. *)
Definition type_class (errors : gmap string string) : string :=
  nl +:+ "              block w-full rounded-md" +:+ nl +:+ "              border-gray-300 shadow-sm" +:+ nl +:+
  "              focus:border-primary-500 focus:ring-primary-500" +:+ nl +:+ "              sm:text-sm" +:+ nl +:+
  "              " +:+ (match errors !! "type" with Some _ => "border-red-300" | None => "" end) +:+ nl +:+ "            ".

(** [MaterialForm(props)] with the [errors] of its [formState]; the type
    is a native [<select {...register('type')}>]. *)
Definition MaterialForm (errors : gmap string string) (isLoading : bool) : vnode evento :=
  VElem "form" "space-y-4" None
    [Input "Nome" [] errors "name" false;
     VElem "div" "grid grid-cols-2 gap-4" None
       [VElem "div" "" None
          ([VElem "label" "block text-sm font-medium text-gray-700 mb-1" None [VText "Tipo"];
            VField "select" (Some "type") (type_class errors) "" None
              [VElem "option" "" None [VText "Selecione..."]; VElem "option" "" None [VText "Chapa"];
               VElem "option" "" None [VText "Ferragem"]; VElem "option" "" None [VText "Acabamento"]]] ++
           match errors !! "type" with
           | Some m => if String.eqb m "" then [] else [VElem "p" "mt-1 text-sm text-red-600" None [VText m]]
           | None => []
           end);
        Input "Unidade" [] errors "unit" false];
     VElem "div" "grid grid-cols-2 gap-4" None
       [Input "Quantidade" [("type", JStr "number")] errors "quantity" true;
        Input "Estoque Mínimo" [("type", JStr "number")] errors "minStock" true];
     Input "Preço" [("type", JStr "number"); ("step", JStr "0.01")] errors "price" true;
     Input "Descrição" [] errors "description" false;
     buttons isLoading].

End Cadastro.

(** ** The three modals *)
Module Modais.

(** [<Modal isOpen={isOpen} onClose={onClose} title={title} ...extra>{children}</Modal>]:
    [Modal] is not in the repository; the model lets it render its
    children while open. *)
Definition Modal {E} (isOpen : bool) (title : string) (extra : list (string * json)) (kids : list (vnode E)) : vnode E :=
  VComp "Modal" ([("isOpen", JBool isOpen); ("title", JStr title)] ++ extra) None (if isOpen then kids else []).

(** [ClienteModal]: [initialData] is the page's [selectedCliente]. *)
Definition ClienteModal (isOpen : bool) (initialData : option ClientesPage.Page.row) (isLoading : bool)
    (errors : gmap string string) : vnode Cadastro.evento :=
  Modal isOpen (ClientesPagina.modal_title initialData) [] [Cadastro.ClienteForm errors isLoading].

(** [MaterialModal]: [initialData] is the page's [selectedMaterial]. *)
Definition MaterialModal (isOpen : bool) (initialData : option Material.t) (isLoading : bool)
    (errors : gmap string string) : vnode Cadastro.evento :=
  Modal isOpen (EstoquePage.material_modal_title initialData) [] [Cadastro.MaterialForm errors isLoading].

(** [OrcamentoModal]: it passes [initialData], [onSubmit], [onCancel] and
    [isLoading] to the form, neither [clientes] nor [produtos]. *)
Definition OrcamentoModal (fs : Q → string) (tf : num → string) (isOpen : bool) (initialData : json) (isLoading : bool)
    (st : FormOrcamento.estado) : js_error + vnode FormOrcamento.evento :=
  let title := if truthy initialData then "Editar Orçamento" else "Novo Orçamento" in
  kids ← (if isOpen then f ← FormOrcamento.OrcamentoForm fs tf isLoading initialData None None st; inr [f] else inr []);
  inr (Modal isOpen title [("maxWidth", JStr "2xl")] kids).

End Modais.

(** ** The modals as the pages render them *)
Module Paginas.

(** [<ClienteModal isOpen={isModalOpen} initialData={selectedCliente}
    isLoading={isLoading} .../>] of [app/clientes/page.tsx]; between two
    events [isLoading] is [false] ([handleSubmit] resets it in its
    [finally]). *)
Definition clientes_modal (p : ClientesPagina.pagina) (errors : gmap string string) : vnode Cadastro.evento :=
  Modais.ClienteModal (ClientesPagina.isModalOpen p) (ClientesPagina.selectedCliente p) false errors.

(** [<MaterialModal isOpen={isModalOpen} initialData={selectedMaterial} .../>]
    of [app/estoque/page.tsx]. *)
Definition estoque_modal (p : EstoquePage.pagina) (errors : gmap string string) : vnode Cadastro.evento :=
  Modais.MaterialModal (EstoquePage.isModalOpen p) (EstoquePage.selectedMaterial p) false errors.

(** [<OrcamentoModal isOpen={isModalOpen} initialData={selectedOrcamento} .../>]
    of [app/orcamentos/page.tsx]; [st] is the form's state. *)
Definition orcamentos_modal (fs : Q → string) (tf : num → string) (p : OrcamentosPagina.pagina)
    (st : FormOrcamento.estado) : js_error + vnode FormOrcamento.evento :=
  Modais.OrcamentoModal fs tf (OrcamentosPagina.isModalOpen p) (default JNull (OrcamentosPagina.selectedOrcamento p))
    false st.

End Paginas.

End Telas.
Export Telas.

(** ** The handlers of a tree *)

Lemma elem_of_concat_map_imap {A B C} (g : B → list C) (f : nat → A → B) l c :
  c ∈ List.concat (List.map g (imap f l)) ↔ ∃ i x, l !! i = Some x ∧ c ∈ g (f i x).
Proof.
  rewrite list_elem_of_In, in_concat. setoid_rewrite in_map_iff. setoid_rewrite <-list_elem_of_In.
  setoid_rewrite elem_of_lookup_imap. naive_solver.
Qed.

(** ** The navigation's markup *)

Lemma concat_map_imap_singleton {A B C} (g : B → list C) (f : nat → A → B) (h : nat → A → C) l :
  (∀ i x, g (f i x) = [h i x]) → List.concat (List.map g (imap f l)) = imap h l.
Proof.
  revert f h. induction l as [|x l IH]; intros f h Hf; [done|].
  rewrite !imap_cons. cbn [List.map List.concat]. rewrite Hf. cbn [app]. f_equal. apply IH. intros. apply Hf.
Qed.

Lemma concat_map_imap_nil {A B C} (g : B → list C) (f : nat → A → B) l :
  (∀ i x, g (f i x) = []) → List.concat (List.map g (imap f l)) = [].
Proof.
  revert f. induction l as [|x l IH]; intros f Hf; [done|].
  rewrite imap_cons. cbn [List.map List.concat]. rewrite Hf. apply IH. intros. apply Hf.
Qed.

Lemma sidebar_clicks p :
  clicks (Navegacao.Sidebar p) = [MenuClick 0; MenuClick 1; MenuClick 2; MenuClick 3].
Proof. reflexivity. Qed.

Lemma sidebar_changes p : changes (Navegacao.Sidebar p) = [].
Proof. reflexivity. Qed.

Lemma header_clicks s :
  clicks (Navegacao.Header s) =
  (if String.eqb (Header.searchTerm s) "" then [] else [ClearClick]) ++
  imap (λ i _, ResultClick i) (Header.searchResults s).
Proof.
  unfold Navegacao.Header. destruct (String.eqb _ _), (Nat.ltb_spec 0 (length (Header.searchResults s))) as [Hl|Hl];
    cbn [clicks List.map List.concat opt_list app];
    rewrite ?app_nil_r, ?(concat_map_imap_singleton clicks _ (λ i _, ResultClick i)) by done; try done;
    destruct (Header.searchResults s); simpl in *; done || lia.
Qed.

Lemma header_changes s : changes (Navegacao.Header s) = [SearchInput].
Proof.
  unfold Navegacao.Header. destruct (String.eqb _ _), (0 <? _)%nat; cbn [changes List.map List.concat opt_list app];
    rewrite ?app_nil_r; try done; by rewrite concat_map_imap_nil.
Qed.

(** The markup of the navigation refines its event model: the events
    [nav_dispatch] accepts are exactly those the rendered [Sidebar] and
    [Header] offer, namely a link of the menu, the search input with any
    text, the clear button while a term is typed, and one button per
    result shown. *)
Theorem nav_markup_offers n e :
  is_Some (nav_dispatch n e) ↔ offers (Navegacao.tela n) e.
Proof.
  unfold offers, Navegacao.tela. cbn [List.map List.concat].
  rewrite sidebar_clicks, header_clicks, sidebar_changes, header_changes, !app_nil_r, !app_nil_l.
  rewrite elem_of_app, elem_of_app, elem_of_lookup_imap. setoid_rewrite list_elem_of_singleton.
  destruct e as [i|term| |i]; simpl; destruct (String.eqb_spec (Header.searchTerm (header n)) "");
    rewrite ?elem_of_cons, ?elem_of_nil.
  1,2: destruct i as [|[|[|[|i]]]]; simpl; naive_solver.
  1-4: naive_solver.
  all: destruct (_ !! i) eqn:?; naive_solver.
Qed.

(** ** The quote form's markup *)

Section form_orcamento.
Context (fs : Q → string) (tf : num → string).
Import FormOrcamento.

Lemma concat_map_nil {A B} (g : A → list B) l : Forall (λ x, g x = []) l → List.concat (List.map g l) = [].
Proof. induction 1 as [|x l Hx _ IH]; [done|]. cbn. by rewrite Hx, IH. Qed.

Lemma concat_map_app {A B} (g : A → list B) l1 l2 :
  List.concat (List.map g (l1 ++ l2)) = List.concat (List.map g l1) ++ List.concat (List.map g l2).
Proof. by rewrite map_app, concat_app. Qed.

Lemma error_p_handlers errs k :
  List.concat (List.map clicks (error_p errs k)) = [] ∧ List.concat (List.map changes (error_p errs k)) = [] ∧
  List.concat (List.map names (error_p errs k)) = [].
Proof. unfold error_p. by destruct (has_error _ _). Qed.

Lemma total_block_handlers its :
  List.concat (List.map clicks (total_block tf its)) = [] ∧ List.concat (List.map changes (total_block tf its)) = [] ∧
  List.concat (List.map names (total_block tf its)) = [].
Proof. unfold total_block. by destruct (_ <? _)%nat. Qed.

Lemma options_handlers {A} (f : A → vnode evento) l :
  (∀ x, clicks (f x) = [] ∧ changes (f x) = [] ∧ names (f x) = []) →
  List.concat (List.map clicks (f <$> l)) = [] ∧ List.concat (List.map changes (f <$> l)) = [] ∧
  List.concat (List.map names (f <$> l)) = [].
Proof.
  intros Hf. split_and!; apply concat_map_nil, Forall_fmap, Forall_forall; intros x _; apply Hf.
Qed.

Lemma item_row_handlers ps errs i it :
  clicks (item_row fs (produto_option fs tf <$> ps) errs i it) = [Edit (RemoveItem i)] ∧
  changes (item_row fs (produto_option fs tf <$> ps) errs i it) =
    [λ v, Edit (ChangeItem i Form.FProdutoId v); λ v, Edit (ChangeItem i Form.FQuantidade v);
     λ v, Edit (ChangeItem i Form.FPrecoUnit v)] ∧
  names (item_row fs (produto_option fs tf <$> ps) errs i it) = [].
Proof.
  destruct (options_handlers (produto_option fs tf) ps) as (H1 & H2 & H3); [done|].
  destruct (error_p_handlers errs (item_key fs i "produtoId")) as (E1 & E2 & E3).
  destruct (error_p_handlers errs (item_key fs i "quantidade")) as (Q1 & Q2 & Q3).
  destruct (error_p_handlers errs (item_key fs i "precoUnit")) as (P1 & P2 & P3).
  unfold item_row, item_input. cbn [clicks changes names List.map List.concat opt_list app].
  rewrite H1, H2, H3, E1, E2, E3, Q1, Q2, Q3, P1, P2, P3. done.
Qed.
Lemma form_node_handlers init st cs rows :
  List.concat (List.map clicks cs) = [] → List.concat (List.map changes cs) = [] → List.concat (List.map names cs) = [] →
  clicks (form_node fs tf init st cs rows) =
    [Edit AddItem] ++ List.concat (List.map clicks rows) ++ [Cancel] ++
    (if isSubmitting st || bool_decide (items st = []) then [] else [Submit]) ∧
  changes (form_node fs tf init st cs rows) = List.concat (List.map changes rows) ∧
  names (form_node fs tf init st cs rows) = ["clienteId"; "status"] ++ List.concat (List.map names rows) ++ ["observacoes"].
Proof.
  intros C1 C2 C3.
  destruct (error_p_handlers (validationErrors st) "clienteId") as (E1 & E2 & E3).
  destruct (error_p_handlers (validationErrors st) "items") as (I1 & I2 & I3).
  destruct (total_block_handlers (items st)) as (T1 & T2 & T3).
  unfold form_node, label. cbn [clicks changes names List.map List.concat opt_list app].
  rewrite !concat_map_app. cbn [clicks changes names List.map List.concat opt_list app].
  rewrite C1, C2, C3, E1, E2, E3, I1, I2, I3, T1, T2, T3. rewrite ?app_nil_r.
  simpl. rewrite ?app_nil_r. done.
Qed.


Lemma form_render_inr init cl ps st v :
  OrcamentoForm fs tf false init cl ps st = inr v →
  ∃ cs ps', cl = Some cs ∧ (items st = [] ∨ ps = Some ps') ∧
    v = form_node fs tf init st ((λ c, VElem "option" "" None [VText (c_nome c)]) <$> cs)
          (imap (item_row fs (produto_option fs tf <$> ps') (validationErrors st)) (items st)).
Proof.
  unfold OrcamentoForm. destruct cl as [cs|]; [|done]. cbn [cliente_options mbind sum_bind].
  destruct (items st) as [|it its] eqn:Hits.
  - intros [= <-]. exists cs, []. naive_solver.
  - destruct ps as [ps|]; [|done]. cbn. intros [= <-]. exists cs, ps. naive_solver.
Qed.

Lemma form_render_inl init cl ps st e :
  OrcamentoForm fs tf false init cl ps st = inl e ↔ Form.render (List.map c_nome <$> cl) ps (items st) = inl e.
Proof.
  unfold OrcamentoForm, Form.render. destruct cl as [cs|]; simpl;
    [destruct (items st); simpl; [|destruct ps; simpl]|]; split; intros H; inversion H; done.
Qed.

(** C20. The quote form's markup refines the render the quotes page relies
    on ([OrcamentoForm.Form.render]): without [isLoading] it throws
    exactly when that render throws (no [clientes], or lines and no
    [produtos]).  When it renders, its clicks run exactly "Adicionar
    Item", the remove button of each line, "Cancelar", and the submit,
    which the button offers only when nothing is being submitted and
    there is a line; its [onChange]s are exactly the three of each line,
    so every line edit the markup offers is at an index of a line; and
    the only named controls, which [FormData] lists, are [clienteId],
    [status] and [observacoes]: the lines reach [handleSubmit] from the
    state, never from the form's data. *)
Theorem quote_form_markup init cl ps st :
  (∀ e, OrcamentoForm fs tf false init cl ps st = inl e ↔ Form.render (List.map c_nome <$> cl) ps (items st) = inl e) ∧
  ∀ v, OrcamentoForm fs tf false init cl ps st = inr v →
    (∀ ev, ev ∈ clicks v ↔
       ev = Edit AddItem ∨ ev = Cancel ∨ (∃ i, (i < length (items st))%nat ∧ ev = Edit (RemoveItem i)) ∨
       (ev = Submit ∧ isSubmitting st = false ∧ items st ≠ [])) ∧
    (∀ ev, (∃ f s, f ∈ changes v ∧ ev = f s) ↔
       ∃ i fld s, (i < length (items st))%nat ∧ ev = Edit (ChangeItem i fld s)) ∧
    names v = ["clienteId"; "status"; "observacoes"].
Proof.
  split; [apply form_render_inl|]. intros v (cs & ps' & -> & _ & ->)%form_render_inr.
  destruct (options_handlers (λ c, VElem "option" "" None [VText (c_nome c)]) cs) as (C1 & C2 & C3); [done|].
  destruct (form_node_handlers init st _ (imap (item_row fs (produto_option fs tf <$> ps') (validationErrors st)) (items st)) C1 C2 C3)
    as (-> & -> & ->).
  split_and!.
  - intros ev. rewrite !elem_of_app, elem_of_concat_map_imap.
    setoid_rewrite (λ i x, proj1 (item_row_handlers ps' (validationErrors st) i x)).
    setoid_rewrite <-lookup_lt_is_Some. setoid_rewrite list_elem_of_singleton.
    destruct (isSubmitting st), (bool_decide_reflect (items st = [])); simpl;
      rewrite ?elem_of_nil, ?list_elem_of_singleton; unfold is_Some; naive_solver.
  - intros ev. setoid_rewrite elem_of_concat_map_imap.
    setoid_rewrite (λ i x, proj1 (proj2 (item_row_handlers ps' (validationErrors st) i x))).
    setoid_rewrite <-lookup_lt_is_Some. repeat setoid_rewrite elem_of_cons. setoid_rewrite elem_of_nil.
    unfold is_Some. split.
    + intros (f & s & (i & x & Hi & [-> | [-> | [-> | []]]]) & ->); eauto 10.
    + intros (i & [] & s & [x Hi] & ->); eauto 10.
  - rewrite concat_map_imap_nil; [done|]. intros. apply item_row_handlers.
Qed.
Lemma elems_dom_fmap {A} tag (f : A → vnode evento) l :
  (∀ x, elems tag (dom (f x)) = []) → List.concat (List.map (elems tag) (List.map dom (f <$> l))) = [].
Proof. intros Hf. induction l as [|x l IH]; [done|]. cbn -[elems]. by rewrite Hf, IH. Qed.

Lemma elems_error_p tag errs k :
  String.eqb "p" tag = false → List.concat (List.map (elems tag) (List.map dom (error_p errs k))) = [].
Proof. intros Ht. unfold error_p. destruct (has_error _ _); cbn -[String.eqb]; rewrite ?Ht; done. Qed.

Lemma elems_item_row tag ps errs i it :
  String.eqb "option" tag = false → String.eqb "p" tag = false → String.eqb "div" tag = false →
  String.eqb "select" tag = false → String.eqb "input" tag = false →
  elems tag (dom (item_row fs (produto_option fs tf <$> ps) errs i it)) =
  if String.eqb "button" tag then [Elem "button" "rounded-md p-2 text-gray-400 hover:bg-gray-100 hover:text-gray-500" []] else [].
Proof.
  intros Ho Hp Hd Hs Hi. unfold item_row, item_input. cbn -[String.eqb].
  rewrite Ho, Hd, Hs, Hi, !elems_error_p, elems_dom_fmap by (done || (intros; cbn -[String.eqb]; by rewrite Ho)).
  cbn -[String.eqb]. by destruct (String.eqb "button" tag).
Qed.

Lemma concat_map_imap_const {A B C} (g : B → list C) (f : nat → A → B) (h : A → list C) l :
  (∀ i x, g (f i x) = h x) → List.concat (List.map g (imap f l)) = List.concat (List.map h l).
Proof.
  revert f. induction l as [|x l IH]; intros f Hf; [done|].
  rewrite imap_cons. cbn [List.map List.concat]. rewrite Hf. f_equal. apply IH. intros. apply Hf.
Qed.

Lemma rows_elems tag ps errs items :
  String.eqb "option" tag = false → String.eqb "p" tag = false → String.eqb "div" tag = false →
  String.eqb "select" tag = false → String.eqb "input" tag = false →
  List.map text (List.concat (List.map (elems tag) (List.map dom (imap (item_row fs (produto_option fs tf <$> ps) errs) items)))) =
  if String.eqb "button" tag then List.repeat "" (length items) else [].
Proof.
  intros. rewrite List.map_map.
  rewrite (concat_map_imap_const _ _ (λ _, if String.eqb "button" tag
     then [Elem "button" "rounded-md p-2 text-gray-400 hover:bg-gray-100 hover:text-gray-500" []] else []))
    by (intros; by apply elems_item_row).
  destruct (String.eqb "button" tag); induction items as [|x l IH]; cbn -[String.eqb]; rewrite ?IH; done.
Qed.

Lemma total_block_elems tag items :
  String.eqb "div" tag = false → String.eqb "p" tag = false →
  List.map text (List.concat (List.map (elems tag) (List.map dom (total_block tf items)))) =
  if String.eqb "span" tag && (0 <? length items)%nat then ["R$ " +:+ tf (Form.total items)] else [].
Proof.
  intros Hd Hp. unfold total_block. destruct (0 <? length items)%nat; cbn -[String.eqb]; rewrite ?Hd, ?Hp; cbn -[String.eqb];
    [|by rewrite andb_false_r].
  rewrite andb_true_r. by destruct (String.eqb "span" tag).
Qed.

(** C21. What the quote form shows: its only [<span>] is the total, "R$ "
    and [toFixed(2)] of [OrcamentoForm.Form.total] of the lines, present
    exactly when there is a line; its buttons read "Adicionar Item", one
    empty (icon) remove button per line, "Cancelar", then "Salvando..."
    while submitting, else "Atualizar" when editing and "Criar" when
    creating. *)
Theorem quote_form_texts init cl ps st v :
  OrcamentoForm fs tf false init cl ps st = inr v →
  List.map text (elems "span" (dom v)) =
    (if (0 <? length (items st))%nat then ["R$ " +:+ tf (Form.total (items st))] else []) ∧
  List.map text (elems "button" (dom v)) =
    "Adicionar Item" :: List.repeat "" (length (items st)) ++ ["Cancelar"; submit_label init st].
Proof.
  intros (cs & ps' & -> & _ & ->)%form_render_inr.
  unfold form_node, label. cbn -[error_p total_block imap item_row String.append text fmap].
  rewrite ?map_app, ?concat_app.
  rewrite !elems_error_p, !elems_dom_fmap by (done || (intros; reflexivity)).
  cbn [List.map List.concat dom elems]. cbn -[imap item_row total_block fmap String.append text].
  rewrite ?map_app, ?concat_app, ?map_app.
  rewrite !rows_elems, !total_block_elems by done. cbn -[String.append text].
  rewrite !app_nil_r. done.
Qed.
End form_orcamento.

(** ** Witnesses *)

(** A form state with one new line and nothing being submitted. *)
Definition estado_ex : FormOrcamento.estado :=
  FormOrcamento.Estado [Form.Item (Fin 0) (Fin 1) (Fin 0)] false ∅.

Lemma quote_form_markup_witness :
  ∃ v, FormOrcamento.OrcamentoForm (λ _, "") (λ _, "0.00") false JNull (Some []) (Some []) estado_ex = inr v ∧
    FormOrcamento.Submit ∈ clicks v.
Proof.
  eexists. split; [reflexivity|].
  apply (proj1 (proj2 (quote_form_markup (λ _, "") (λ _, "0.00") JNull (Some []) (Some []) estado_ex) _ eq_refl)).
  right. right. right. split; [reflexivity|]. split; [reflexivity|discriminate].
Defined.

Lemma quote_form_texts_witness :
  ∃ v, FormOrcamento.OrcamentoForm (λ _, "") (λ _, "0.00") false JNull (Some []) (Some []) estado_ex = inr v ∧
    List.map text (elems "button" (dom v)) = ["Adicionar Item"; ""; "Cancelar"; "Criar"].
Proof.
  eexists. split; [reflexivity|].
  exact (proj2 (quote_form_texts (λ _, "") (λ _, "0.00") JNull (Some []) (Some []) estado_ex _ eq_refl)).
Defined.

(** ** The registered forms and the modals *)

(** The fields of the registered forms are the fields of their models:
    [ClienteForm] registers, in order, each key of the client schema
    ([ClientesPage.Form.keys]) once as text and has no other control;
    [MaterialForm]'s controls (its native type select and its [Input]s)
    are the keys of the material schema, and the inputs registered with
    [valueAsNumber] are exactly [MaterialPage.Form.num_keys], the fields
    whose values the model reads as numbers. *)
Theorem form_fields_registered errors isLoading :
  registers (Cadastro.ClienteForm errors isLoading) = (λ k, Register k false) <$> ClientesPage.Form.keys ∧
  names (Cadastro.ClienteForm errors isLoading) = [] ∧
  names (Cadastro.MaterialForm errors isLoading) ++ (reg_name <$> registers (Cadastro.MaterialForm errors isLoading))
    ≡ₚ MaterialPage.Form.keys ∧
  reg_name <$> List.filter valueAsNumber (registers (Cadastro.MaterialForm errors isLoading)) =
    MaterialPage.Form.num_keys.
Proof.
  split_and!; [reflexivity|reflexivity|..].
  all: unfold Cadastro.MaterialForm; destruct (errors !! "type") as [m|]; [destruct (m =? "")%string|];
    cbn; unfold MaterialPage.Form.keys; solve_Permutation || done.
Qed.

(** The quote modal throws whenever it renders its form: open and not
    loading, [OrcamentoForm] receives no [clientes] and [clientes.map]
    throws a [TypeError]; closed, or while loading, it renders. *)
Theorem orcamento_modal_throws fs tf isOpen init isLoading st e :
  Modais.OrcamentoModal fs tf isOpen init isLoading st = inl e ↔
  isOpen = true ∧ isLoading = false ∧ e = TypeError.
Proof.
  unfold Modais.OrcamentoModal, FormOrcamento.OrcamentoForm.
  destruct isOpen, isLoading; simpl; split; intros H; try (inversion H; done); naive_solver.
Qed.

(** The markup of the quotes page's modal refines the page's render
    that [OrcamentosPagina] reasons about: for every page state and every
    state of the form, the modal's markup throws exactly when
    [OrcamentosPagina.render] does, that is whenever the modal is open. *)
Theorem orcamentos_modal_render fs tf p st e :
  Paginas.orcamentos_modal fs tf p st = inl e ↔ OrcamentosPagina.render p = inl e.
Proof.
  unfold Paginas.orcamentos_modal, OrcamentosPagina.render, modal_render, Form.render.
  rewrite orcamento_modal_throws. destruct (OrcamentosPagina.isModalOpen p); naive_solver.
Qed.
